(** * SOLIDserver Terraform provider: the allocation engine

    A shallow embedding of the creation paths of the IPv4 subnet
    resource ([resourceipsubnetCreate]), of the IPv6 subnet resource
    ([resourceip6subnetCreate]) and of the VLAN resource
    ([resourcevlanCreate], [resourcevlanUpdate]).

    Go's [int] is modelled by [Z] (the 64-bit range is not exceeded by
    any value built here from schema integers), [uint32] by [Z] with the
    wrap-around written out, [*big.Int] by [Z], Go strings by [string],
    [url.Values] by an association list in insertion order, and
    [interface{}] by the tagged union [Value] whose type assertions can
    panic. *)

From Stdlib Require Import String Ascii ZArith List Lia Bool.
From Stdlib Require DecimalString HexadecimalString.
From Stdlib Require HexadecimalN.
From Stdlib Require DecimalPos DecimalZ Permutation.
Import ListNotations.

Open Scope string_scope.
Open Scope Z_scope.

(* ================================================================== *)
(** ** Go standard library pieces used by the resources *)
(* ================================================================== *)

Module Go.

(** [strconv.Itoa]. *)
Definition Itoa (i : Z) : string :=
  DecimalString.NilZero.string_of_int (Z.to_int i).

(** [strconv.Atoi], with the error reduced to [None]. *)
Definition Atoi (s : string) : option Z :=
  option_map Z.of_int (DecimalString.NilZero.int_of_string s).

(** Conversion [uint32(x)] of an [int]: the low 32 bits. *)
Definition uint32 (x : Z) : Z := x mod 2 ^ 32.

(** Value of one hexadecimal digit, either case. *)
Definition hex_val (c : ascii) : option Z :=
  let n := Z.of_nat (nat_of_ascii c) in
  if (48 <=? n) && (n <=? 57) then Some (n - 48)
  else if (97 <=? n) && (n <=? 102) then Some (n - 87)
  else if (65 <=? n) && (n <=? 70) then Some (n - 55)
  else None.

Fixpoint parse_hex_from (acc : Z) (s : string) : option Z :=
  match s with
  | EmptyString => Some acc
  | String c rest =>
      match hex_val c with
      | Some d => parse_hex_from (16 * acc + d) rest
      | None => None
      end
  end.

(** Unsigned hexadecimal numeral, at least one digit. *)
Definition parse_hex (s : string) : option Z :=
  match s with
  | EmptyString => None
  | _ => parse_hex_from 0 s
  end.

(** [new(big.Int).SetString(s, 16)]: an optional sign followed by
    hexadecimal digits; [None] stands for the [(nil, false)] result. *)
Definition big_SetString16 (s : string) : option Z :=
  match s with
  | String "-" rest => option_map Z.opp (parse_hex rest)
  | String "+" rest => parse_hex rest
  | _ => parse_hex s
  end.

(** Lower-case hexadecimal digits of a natural number. *)
Definition hex_digits (n : Z) : string :=
  HexadecimalString.NilZero.string_of_uint (N.to_hex_uint (Z.to_N n)).

Fixpoint zeros (k : nat) : string :=
  match k with
  | O => ""
  | S k' => String "0" (zeros k')
  end.

(** [fmt.Sprintf("%0<w>x", n)] on an integer: sign first, then the
    digits padded with zeros up to the total width [w]. *)
Definition sprintf_0x (w : nat) (n : Z) : string :=
  let sign := if n <? 0 then "-" else "" in
  let ds := hex_digits (Z.abs n) in
  sign ++ zeros (w - String.length sign - String.length ds) ++ ds.

(** Split a string at every occurrence of a separator character. *)
Fixpoint split_on (sep : ascii) (s : string) : list string :=
  match s with
  | EmptyString => [EmptyString]
  | String c rest =>
      if Ascii.eqb c sep then EmptyString :: split_on sep rest
      else match split_on sep rest with
           | [] => [String c EmptyString]
           | w :: ws => String c w :: ws
           end
  end.

(** No occurrence of the separator. *)
Fixpoint no_sep (sep : ascii) (s : string) : bool :=
  match s with
  | EmptyString => true
  | String c rest => negb (Ascii.eqb c sep) && no_sep sep rest
  end.

(** [url.QueryEscape]: letters, digits and [-_.~] stay, a space becomes
    [+], every other byte becomes [%XX]. *)
Definition hex_upper (n : nat) : ascii :=
  ascii_of_nat (if Nat.ltb n 10 then 48 + n else 55 + n).

Definition unreserved (c : ascii) : bool :=
  let n := nat_of_ascii c in
  (Nat.leb 48 n && Nat.leb n 57) || (Nat.leb 65 n && Nat.leb n 90)
  || (Nat.leb 97 n && Nat.leb n 122)
  || Nat.eqb n 45 || Nat.eqb n 95 || Nat.eqb n 46 || Nat.eqb n 126.

Fixpoint QueryEscape (s : string) : string :=
  match s with
  | EmptyString => EmptyString
  | String c rest =>
      if unreserved c then String c (QueryEscape rest)
      else if Ascii.eqb c " " then String "+" (QueryEscape rest)
      else
        let n := nat_of_ascii c in
        String "%" (String (hex_upper (Nat.div n 16))
                      (String (hex_upper (Nat.modulo n 16))
                         (QueryEscape rest)))
  end.

Fixpoint insert_by_key (kv : string * string) (l : list (string * string))
  : list (string * string) :=
  match l with
  | [] => [kv]
  | kv' :: rest =>
      if String.ltb (fst kv) (fst kv') then kv :: l
      else kv' :: insert_by_key kv rest
  end.

(** Bindings sorted by key, the values of one key in insertion order. *)
Definition sort_by_key (l : list (string * string)) : list (string * string) :=
  fold_left (fun acc kv => insert_by_key kv acc) l [].

Fixpoint join_pairs (l : list (string * string)) : string :=
  match l with
  | [] => ""
  | [(k, v)] => QueryEscape k ++ "=" ++ QueryEscape v
  | (k, v) :: rest =>
      QueryEscape k ++ "=" ++ QueryEscape v ++ "&" ++ join_pairs rest
  end.

(** [url.Values.Encode]: [k=v] pairs joined by [&], sorted by key. *)
Definition Encode (vs : list (string * string)) : string :=
  join_pairs (sort_by_key vs).

End Go.

(* ================================================================== *)
(** ** Address codec *)
(* ================================================================== *)

Module Codec.
Import Go.

(** Modelled from the spec: [abs] lives in the provider's utility file,
    which is not among the sources; the spec writes [|offset|]. *)
Definition abs (x : Z) : Z := if x <? 0 then - x else x.

(** Modelled from the spec: [prefixlengthtosize] is absent from the
    sources; the spec gives [prefixToSize(prefixLen, 32) = 2^(32-prefixLen)]. *)
Definition prefixlengthtosize (length : Z) : Z := 2 ^ (32 - length).

(** Modelled from the spec: [prefix6lengthtosize] is absent from the
    sources; the spec gives [2^(128-prefixLen)] as an arbitrary-precision
    value. *)
Definition prefix6lengthtosize (length : Z) : Z := 2 ^ (128 - length).

(** Modelled from the spec: [longtoip] is absent from the sources; the
    codec turns a 32-bit integer into dotted IPv4 notation. *)
Definition longtoip (iplong : Z) : string :=
  Itoa (Z.land (Z.shiftr iplong 24) 255) ++ "." ++
  Itoa (Z.land (Z.shiftr iplong 16) 255) ++ "." ++
  Itoa (Z.land (Z.shiftr iplong 8) 255) ++ "." ++
  Itoa (Z.land iplong 255).

Definition octet (s : string) : option Z :=
  match Atoi s with
  | Some n => if (0 <=? n) && (n <=? 255) then Some n else None
  | None => None
  end.

(** The decimal text of [k] has no dot and reads back as the octet [k]. *)
Definition octet_text_ok (k : nat) : bool :=
  no_sep "." (Itoa (Z.of_nat k))
  && match octet (Itoa (Z.of_nat k)) with
     | Some x => x =? Z.of_nat k
     | None => false
     end.

(** Modelled from the spec: [iptolong] is absent from the sources; the
    codec turns dotted IPv4 notation into a 32-bit integer (0 when the
    text is not an address). *)
Definition iptolong (ip : string) : Z :=
  match map octet (split_on "." ip) with
  | [Some a; Some b; Some c; Some d] =>
      Z.lor (Z.lor (Z.lor (Z.shiftl a 24) (Z.shiftl b 16)) (Z.shiftl c 8)) d
  | _ => 0
  end.

(** Modelled from the spec: [hexiptoip] is absent from the sources; the
    codec's [fromWire(hex, 32)] turns the 8-digit hexadecimal wire form
    into dotted notation (the empty string when the text is not one). *)
Definition hexiptoip (hexip : string) : string :=
  if Nat.eqb (String.length hexip) 8 then
    match parse_hex hexip with
    | Some n => longtoip n
    | None => ""
    end
  else "".

(** Modelled from the spec: [prefixlengthtohexip] is absent from the
    sources; the spec's [prefixToNetmask(prefixLen)] gives the dotted
    netmask. *)
Definition prefixlengthtohexip (length : Z) : string :=
  longtoip (2 ^ 32 - prefixlengthtosize length).

(** Modelled from the spec: [BigIntToHexStr] is absent from the sources;
    the codec's [toWire(address, 128)] is the fixed-width (32 digits)
    hexadecimal form. *)
Definition BigIntToHexStr (bigInt : Z) : string := sprintf_0x 32 bigInt.

Fixpoint colons (i : nat) (s : string) : string :=
  match s with
  | EmptyString => EmptyString
  | String c rest =>
      if Nat.eqb i 0 || negb (Nat.eqb (Nat.modulo i 4) 0)
      then String c (colons (S i) rest)
      else String ":" (String c (colons (S i) rest))
  end.

(** Modelled from the spec: [hexip6toip6] is absent from the sources;
    the codec's [fromWire(hex, 128)] is the colon notation, one colon
    between groups of four hexadecimal digits. *)
Definition hexip6toip6 (hexip : string) : string := colons 0 hexip.

End Codec.

(* ================================================================== *)
(** ** Dynamically typed values and the resource data of the framework *)
(* ================================================================== *)

(** Go's [interface{}] as far as the resources use it. *)
#[warnings="-register-all"] Inductive Value : Type :=
| VNil
| VString (s : string)
| VInt (i : Z)
| VBool (b : bool)
| VMap (m : list (string * Value)).

(** [schema.ValueType], the types the three schemas use. *)
Inductive ValueType : Type := TypeString | TypeInt | TypeBool | TypeMap.

Definition error := string.

(** [map[string]interface{}]: the first binding of a key is the live one. *)
Definition GoMap := list (string * Value).

Fixpoint index {A : Type} (m : list (string * A)) (k : string) : option A :=
  match m with
  | [] => None
  | (k', v) :: rest => if String.eqb k' k then Some v else index rest k
  end.

(** [m[k]] on a [map[string]interface{}]: [nil] when the key is absent. *)
Definition map_get (m : GoMap) (k : string) : Value :=
  match index m k with
  | Some v => v
  | None => VNil
  end.

Definition is_string (v : Value) : bool :=
  match v with VString _ => true | _ => false end.

Definition has_type (v : Value) (t : ValueType) : bool :=
  match t, v with
  | TypeString, VString _ => true
  | TypeInt, VInt _ => true
  | TypeBool, VBool _ => true
  | TypeMap, VMap m => forallb (fun kv => is_string (snd kv)) m
  | _, _ => false
  end.

(** The zero value the framework hands out for an unset attribute. *)
Definition zero_value (t : ValueType) : Value :=
  match t with
  | TypeString => VString ""
  | TypeInt => VInt 0
  | TypeBool => VBool false
  | TypeMap => VMap []
  end.

Definition type_name (v : Value) : string :=
  match v with
  | VNil => "nil"
  | VString _ => "string"
  | VInt _ => "int"
  | VBool _ => "bool"
  | VMap _ => "map[string]interface {}"
  end.

(** [schema.Schema]: the type of an attribute and its [Default], if any
    (the other fields, [Required], [ForceNew], [Computed], [Description],
    play no part in a create or update call). *)
Record Schema : Type := mkSchema {
  Type_ : ValueType;
  Default : option Value
}.

(** [*schema.ResourceData]: the schema of the resource it belongs to, the
    resource id, and the attribute values. *)
Record ResourceData : Type := mkResourceData {
  d_schema : list (string * Schema);
  d_id : string;
  d_attrs : GoMap
}.

(** [d.Get(key)]: the attribute read through the schema, so that the value
    always has the schema's type: the attribute when it is set, else the
    schema's default, else the zero value; [nil] for a key outside the
    schema. *)
Definition default_value (sc : Schema) : Value :=
  match Default sc with
  | Some v => if has_type v (Type_ sc) then v else zero_value (Type_ sc)
  | None => zero_value (Type_ sc)
  end.

Definition Get (d : ResourceData) (key : string) : Value :=
  match index (d_schema d) key with
  | None => VNil
  | Some sc =>
      match index (d_attrs d) key with
      | Some v => if has_type v (Type_ sc) then v else default_value sc
      | None => default_value sc
      end
  end.

(** [d.Set(key, value)]: refused (the returned error is dropped by every
    caller here) when the key or the type does not fit the schema. *)
Definition Set_ (d : ResourceData) (key : string) (v : Value) : ResourceData :=
  match index (d_schema d) key with
  | Some sc =>
      if has_type v (Type_ sc)
      then mkResourceData (d_schema d) (d_id d) ((key, v) :: d_attrs d)
      else d
  | None => d
  end.

(** [d.SetId(id)] and [d.Id()]. *)
Definition SetId (d : ResourceData) (id : string) : ResourceData :=
  mkResourceData (d_schema d) id (d_attrs d).

Definition Id (d : ResourceData) : string := d_id d.

(** [url.Values] in the order of the [Add] calls. *)
Definition Values := list (string * string).

Definition Values_Add (vs : Values) (k v : string) : Values :=
  (vs ++ [(k, v)])%list.

(** The decoded answer of the inventory: the HTTP status and the body
    after [json.Unmarshal] into [[](map[string]interface{})] (an
    undecodable body leaves the slice empty). *)
Record Response : Type := mkResponse {
  StatusCode : Z;
  buf : list GoMap
}.

(** What a call leaves behind, in program order. *)
Inductive Event : Type :=
| EvSleep (duration : Z)
| EvQuery (helper : string) (args : list string)
| EvRequest (method service : string) (parameters : Values)
            (answer : error + Response).

(** The client handle [*SOLIDserver] over an inventory in state [W]:
    [Request] and the lookup helpers of the provider's utility file,
    which is not among the sources and whose contracts are the
    spec's inventory queries. *)
Record SOLIDserver (W : Type) : Type := mkSOLIDserver {
  srv_Request : string -> string -> Values -> W -> W * (error + Response);
  srv_ipsiteidbyname : string -> W -> W * (error + string);
  srv_ipsubnetinfobyname : string -> string -> bool -> W -> W * (error + GoMap);
  srv_ipsubnetfindbysize :
    string -> string -> string -> Z -> W -> W * (error + list string);
  srv_ip6subnetinfobyname : string -> string -> bool -> W -> W * (error + GoMap);
  srv_ip6subnetfindbysize :
    string -> string -> string -> Z -> W -> W * (error + list string);
  srv_vlanidfindfree : string -> W -> W * (error + list string)
}.

Arguments srv_Request {W}.
Arguments srv_ipsiteidbyname {W}.
Arguments srv_ipsubnetinfobyname {W}.
Arguments srv_ipsubnetfindbysize {W}.
Arguments srv_ip6subnetinfobyname {W}.
Arguments srv_ip6subnetfindbysize {W}.
Arguments srv_vlanidfindfree {W}.

(** [diag.Diagnostics] as the subnet resources build it. *)
Inductive Diagnostics : Type :=
| diag_nil
| diag_Errorf (msg : string)
| diag_FromErr (err : error).

(* ================================================================== *)
(** ** The monad of a resource function *)
(* ================================================================== *)

(** The machine a resource function runs on: the inventory, the resource
    data [d], the process-wide random source (an oracle and the number of
    draws made so far) and the trace of effects. *)
Record St (W : Type) : Type := mkSt {
  world : W;
  data : ResourceData;
  entropy : nat -> Z;
  drawn : nat;
  trace : list Event
}.

Arguments mkSt {W}.
Arguments world {W}.
Arguments data {W}.
Arguments entropy {W}.
Arguments drawn {W}.
Arguments trace {W}.

(** A step either goes on with a value, leaves the function through a
    [return], or panics. *)
Inductive Res (R A : Type) : Type :=
| Next (a : A)
| Return (r : R)
| Panic (msg : string).

Arguments Next {R A}.
Arguments Return {R A}.
Arguments Panic {R A}.

Section Monad.
Context {W R : Type}.

Definition M (A : Type) : Type := St W -> Res R A * St W.

Definition ret {A} (a : A) : M A := fun st => (Next a, st).

Definition bind {A B} (c : M A) (k : A -> M B) : M B :=
  fun st =>
    match c st with
    | (Next a, st') => k a st'
    | (Return r, st') => (Return r, st')
    | (Panic msg, st') => (Panic msg, st')
    end.

Definition return_ {A} (r : R) : M A := fun st => (Return r, st).

Definition panic {A} (msg : string) : M A := fun st => (Panic msg, st).

Definition emit (e : Event) : M unit :=
  fun st =>
    (Next tt,
     mkSt (world st) (data st) (entropy st) (drawn st) (trace st ++ [e])%list).

Definition get_d : M ResourceData := fun st => (Next (data st), st).

Definition put_d (d : ResourceData) : M unit :=
  fun st =>
    (Next tt, mkSt (world st) d (entropy st) (drawn st) (trace st)).

(** Run an operation of the inventory and keep its new state. *)
Definition on_world {A} (f : W -> W * A) : M A :=
  fun st =>
    let (w', a) := f (world st) in
    (Next a, mkSt w' (data st) (entropy st) (drawn st) (trace st)).

(** Type assertion [v.(string)], one-value form. *)
Definition assert_string (v : Value) : M string :=
  match v with
  | VString s => ret s
  | _ => panic ("interface conversion: interface {} is "
                ++ type_name v ++ ", not string")
  end.

Definition assert_int (v : Value) : M Z :=
  match v with
  | VInt i => ret i
  | _ => panic ("interface conversion: interface {} is "
                ++ type_name v ++ ", not int")
  end.

Definition assert_bool (v : Value) : M bool :=
  match v with
  | VBool b => ret b
  | _ => panic ("interface conversion: interface {} is "
                ++ type_name v ++ ", not bool")
  end.

Definition assert_map (v : Value) : M GoMap :=
  match v with
  | VMap m => ret m
  | _ => panic ("interface conversion: interface {} is "
                ++ type_name v ++ ", not map[string]interface {}")
  end.

(** [rand.Intn(n)] on the process-wide source. *)
Definition rand_Intn (n : Z) : M Z :=
  fun st =>
    (Next (entropy st (drawn st) mod n),
     mkSt (world st) (data st) (entropy st) (S (drawn st)) (trace st)).

(** [time.Sleep(d)], the duration in nanoseconds. *)
Definition time_Sleep (duration : Z) : M unit := emit (EvSleep duration).

End Monad.

Arguments M : clear implicits.

(** [time.Millisecond], in nanoseconds. *)
Definition time_Millisecond : Z := 1000000.

(** Type assertion [v.(string)], two-value form. *)
Definition string_ok (v : Value) : option string :=
  match v with
  | VString s => Some s
  | _ => None
  end.

Declare Scope go_scope.
Delimit Scope go_scope with go.
Notation "x <- c ;; k" := (bind c (fun x => k))
  (at level 61, c at next level, right associativity) : go_scope.
Notation "c ;;; k" := (bind c (fun _ => k))
  (at level 61, right associativity) : go_scope.

Open Scope go_scope.

(** The line feed that ends several messages. *)
Definition LF : string := String (ascii_of_nat 10) EmptyString.

(* ================================================================== *)
(** ** The schemas *)
(* ================================================================== *)

Definition field (t : ValueType) : Schema := mkSchema t None.
Definition field_default (t : ValueType) (v : Value) : Schema :=
  mkSchema t (Some v).

(** [resourceipsubnet().Schema]. *)
Definition resourceipsubnet : list (string * Schema) :=
  [ ("space", field TypeString);
    ("block", field_default TypeString (VString ""));
    ("request_ip", field_default TypeString (VString ""));
    ("prefix_size", field TypeInt);
    ("prefix", field TypeString);
    ("address", field TypeString);
    ("netmask", field TypeString);
    ("gateway_offset", field_default TypeInt (VInt 0));
    ("gateway", field TypeString);
    ("name", field TypeString);
    ("terminal", field_default TypeBool (VBool true));
    ("class", field_default TypeString (VString ""));
    ("class_parameters", field TypeMap) ].

(** [resourceip6subnet().Schema]. *)
Definition resourceip6subnet : list (string * Schema) :=
  [ ("space", field TypeString);
    ("block", field TypeString);
    ("request_ip", field_default TypeString (VString ""));
    ("prefix_size", field TypeInt);
    ("prefix", field TypeString);
    ("address", field TypeString);
    ("gateway_offset", field_default TypeInt (VInt 0));
    ("gateway", field TypeString);
    ("name", field TypeString);
    ("terminal", field_default TypeBool (VBool true));
    ("class", field_default TypeString (VString ""));
    ("class_parameters", field TypeMap) ].

(** [resourcevlan().Schema]. *)
Definition resourcevlan : list (string * Schema) :=
  [ ("vlan_domain", field TypeString);
    ("request_id", field_default TypeInt (VInt 0));
    ("vlan_id", field TypeInt);
    ("name", field TypeString) ].

(* ================================================================== *)
(** ** The resource functions *)
(* ================================================================== *)

Section Resources.
Import Go Codec.
Context {W : Type} (s : SOLIDserver W).

(** [s.Request(method, service, &parameters)]; [inl err] is a non-nil
    [err], [inr resp] the answer with its decoded body. *)
Definition Request {R} (method service : string) (parameters : Values)
  : M W R (error + Response) :=
  answer <- on_world (srv_Request s method service parameters);;
  emit (EvRequest method service parameters answer);;;
  ret answer.

Definition ipsiteidbyname {R} (name : string) : M W R (error + string) :=
  emit (EvQuery "ipsiteidbyname" [name]);;;
  on_world (srv_ipsiteidbyname s name).

Definition ipsubnetinfobyname {R} (siteID name : string) (terminal : bool)
  : M W R (error + GoMap) :=
  emit (EvQuery "ipsubnetinfobyname" [siteID; name]);;;
  on_world (srv_ipsubnetinfobyname s siteID name terminal).

Definition ipsubnetfindbysize {R} (siteID blockID requestedIP : string)
  (prefixSize : Z) : M W R (error + list string) :=
  emit (EvQuery "ipsubnetfindbysize"
          [siteID; blockID; requestedIP; Itoa prefixSize]);;;
  on_world (srv_ipsubnetfindbysize s siteID blockID requestedIP prefixSize).

Definition ip6subnetinfobyname {R} (siteID name : string) (terminal : bool)
  : M W R (error + GoMap) :=
  emit (EvQuery "ip6subnetinfobyname" [siteID; name]);;;
  on_world (srv_ip6subnetinfobyname s siteID name terminal).

Definition ip6subnetfindbysize {R} (siteID blockID requestedIP : string)
  (prefixSize : Z) : M W R (error + list string) :=
  emit (EvQuery "ip6subnetfindbysize"
          [siteID; blockID; requestedIP; Itoa prefixSize]);;;
  on_world (srv_ip6subnetfindbysize s siteID blockID requestedIP prefixSize).

Definition vlanidfindfree {R} (vlmdomainName : string)
  : M W R (error + list string) :=
  emit (EvQuery "vlanidfindfree" [vlmdomainName]);;;
  on_world (srv_vlanidfindfree s vlmdomainName).

(** [d.Get(key).(string)] and its siblings. *)
Definition d_string {R} (key : string) : M W R string :=
  d <- get_d;; assert_string (Get d key).

Definition d_int {R} (key : string) : M W R Z :=
  d <- get_d;; assert_int (Get d key).

Definition d_bool {R} (key : string) : M W R bool :=
  d <- get_d;; assert_bool (Get d key).

Definition d_map {R} (key : string) : M W R GoMap :=
  d <- get_d;; assert_map (Get d key).

(** [for k, v := range m { classParameters.Add(k, v.(string)) }]. *)
Fixpoint range_class_parameters {R} (m : GoMap) (classParameters : Values)
  : M W R Values :=
  match m with
  | [] => ret classParameters
  | (k, v) :: rest =>
      sv <- assert_string v;;
      range_class_parameters rest (Values_Add classParameters k sv)
  end.

(** [(resp.StatusCode == 200 || resp.StatusCode == 201) && len(buf) > 0]. *)
Definition answered (resp : Response) : bool :=
  ((StatusCode resp =? 200) || (StatusCode resp =? 201))
  && (0 <? Z.of_nat (List.length (buf resp))).

(** [buf[0]["ret_oid"].(string)], two-value form. *)
Definition ret_oid (resp : Response) : option string :=
  string_ok (map_get (nth 0 (buf resp) []) "ret_oid").

(* ---------------------------------------------------------------- *)
(** *** IPv4 subnets *)

(** The gateway of [resourceipsubnetCreate], in [uint32] arithmetic. *)
Definition ipsubnet_gateway (subnetAddress : string) (prefix_size goffset : Z)
  : string :=
  if 0 <? goffset then
    longtoip (uint32 (iptolong (hexiptoip subnetAddress) + uint32 goffset))
  else
    longtoip
      (uint32 (uint32 (uint32 (iptolong (hexiptoip subnetAddress)
                               + uint32 (prefixlengthtosize prefix_size))
                       - uint32 (abs goffset))
               - 1)).

(** The body of [for i := 0; i < len(subnetAddresses); i++], by recursion
    on the candidates still to try; [gateway] is the function-level
    variable. *)
Fixpoint ipsubnet_attempts (siteID : string) (blockInfo : GoMap)
  (subnetAddresses : list string) (gateway : string)
  : M W Diagnostics unit :=
  match subnetAddresses with
  | [] => ret tt
  | subnetAddress :: rest =>
      let parameters : Values := [] in
      let parameters := Values_Add parameters "site_id" siteID in
      let parameters := Values_Add parameters "add_flag" "new_only" in
      name <- d_string "name";;
      let parameters := Values_Add parameters "subnet_name" name in
      let parameters :=
        Values_Add parameters "subnet_addr" (hexiptoip subnetAddress) in
      prefix_size <- d_int "prefix_size";;
      let parameters :=
        Values_Add parameters "subnet_prefix" (Itoa prefix_size) in
      class <- d_string "class";;
      let parameters := Values_Add parameters "subnet_class_name" class in
      block <- d_string "block";;
      parameters <-
        (if Nat.eqb (String.length block) 0 then
           ret (Values_Add parameters "subnet_level" "0")
         else
           level <- assert_string (map_get blockInfo "level");;
           let subnetLevel :=
             match Atoi level with Some n => n | None => 0 end in
           ret (Values_Add parameters "subnet_level" (Itoa (subnetLevel + 1))));;
      terminal <- d_bool "terminal";;
      let parameters :=
        Values_Add parameters "is_terminal" (if terminal then "1" else "0") in
      let classParameters : Values := [] in
      goffset <- d_int "gateway_offset";;
      let gateway :=
        if goffset =? 0 then gateway
        else ipsubnet_gateway subnetAddress prefix_size goffset in
      let classParameters :=
        if goffset =? 0 then classParameters
        else Values_Add classParameters "gateway" gateway in
      class_parameters <- d_map "class_parameters";;
      classParameters <-
        range_class_parameters class_parameters classParameters;;
      let parameters :=
        Values_Add parameters "subnet_class_parameters"
          (Encode classParameters) in
      delay <- rand_Intn 1000;;
      time_Sleep (delay * time_Millisecond);;;
      answer <- Request "post" "rest/ip_subnet_add" parameters;;
      match answer with
      | inr resp =>
          let prefix := hexiptoip subnetAddress ++ "/" ++ Itoa prefix_size in
          if answered resp then
            match ret_oid resp with
            | Some oid =>
                d <- get_d;;
                let d := SetId d oid in
                let d := Set_ d "prefix" (VString prefix) in
                let d := Set_ d "address" (VString (hexiptoip subnetAddress)) in
                let d :=
                  Set_ d "netmask" (VString (prefixlengthtohexip prefix_size)) in
                let d :=
                  if goffset =? 0 then d
                  else Set_ d "gateway" (VString gateway) in
                put_d d;;;
                return_ diag_nil
            | None => ipsubnet_attempts siteID blockInfo rest gateway
            end
          else ipsubnet_attempts siteID blockInfo rest gateway
      | inl err => return_ (diag_FromErr err)
      end
  end.

(** The part of [resourceipsubnetCreate] before the loop: scope
    resolution, parent block lookup, candidate search.  It hands the
    loop [siteID], [blockInfo] and [subnetAddresses]. *)
Definition ipsubnet_candidates
  : M W Diagnostics (string * GoMap * list string) :=
  let blockInfo : GoMap := [] in
  space <- d_string "space";;
  site <- ipsiteidbyname space;;
  match site with
  | inl siteErr => return_ (diag_FromErr siteErr)
  | inr siteID =>
      block <- d_string "block";;
      blockInfo <-
        (if (0 <? String.length block)%nat then
           block <- d_string "block";;
           info <- ipsubnetinfobyname siteID block false;;
           match info with
           | inl blockErr => return_ (diag_FromErr blockErr)
           | inr blockInfo => ret blockInfo
           end
         else
           let blockInfo := ("id", VString "") :: blockInfo in
           terminal <- d_bool "terminal";;
           if terminal then
             name <- d_string "name";;
             return_ (diag_Errorf
                        ("Can't create a terminal IP block subnet: " ++ name))
           else ret blockInfo);;
      blockID <- assert_string (map_get blockInfo "id");;
      request_ip <- d_string "request_ip";;
      prefix_size <- d_int "prefix_size";;
      found <- ipsubnetfindbysize siteID blockID request_ip prefix_size;;
      match found with
      | inl subnetErr => return_ (diag_FromErr subnetErr)
      | inr subnetAddresses => ret (siteID, blockInfo, subnetAddresses)
      end
  end.

Definition ipsubnet_exhausted (name : string) : string :=
  "Unable to create IP subnet: " ++ name
  ++ ", unable to find a suitable prefix" ++ LF.

Definition resourceipsubnetCreate : M W Diagnostics unit :=
  let gateway := "" in
  found <- ipsubnet_candidates;;
  let '(siteID, blockInfo, subnetAddresses) := found in
  ipsubnet_attempts siteID blockInfo subnetAddresses gateway;;;
  name <- d_string "name";;
  return_ (diag_Errorf (ipsubnet_exhausted name)).

(* ---------------------------------------------------------------- *)
(** *** IPv6 subnets *)

(** The gateway of [resourceip6subnetCreate], on [*big.Int]. *)
Definition ip6subnet_gateway_at (bigStartAddr prefix_size goffset : Z)
  : string :=
  if 0 <? goffset then
    let bigOffset := goffset in
    hexip6toip6 (BigIntToHexStr (bigStartAddr + bigOffset))
  else
    let bigEndAddr := bigStartAddr + prefix6lengthtosize prefix_size in
    let bigOffset := abs goffset in
    hexip6toip6 (BigIntToHexStr (bigEndAddr - bigOffset)).

(** A candidate that [SetString] refuses leaves a nil [*big.Int], whose
    first use panics. *)
Definition ip6subnet_gateway {R} (subnetAddress : string)
  (prefix_size goffset : Z) : M W R string :=
  match big_SetString16 subnetAddress with
  | None =>
      panic "runtime error: invalid memory address or nil pointer dereference"
  | Some bigStartAddr =>
      ret (ip6subnet_gateway_at bigStartAddr prefix_size goffset)
  end.

Fixpoint ip6subnet_attempts (siteID : string) (blockInfo : GoMap)
  (subnetAddresses : list string) (gateway : string)
  : M W Diagnostics unit :=
  match subnetAddresses with
  | [] => ret tt
  | subnetAddress :: rest =>
      let parameters : Values := [] in
      let parameters := Values_Add parameters "site_id" siteID in
      let parameters := Values_Add parameters "add_flag" "new_only" in
      name <- d_string "name";;
      let parameters := Values_Add parameters "subnet6_name" name in
      let parameters :=
        Values_Add parameters "subnet6_addr" (hexip6toip6 subnetAddress) in
      prefix_size <- d_int "prefix_size";;
      let parameters :=
        Values_Add parameters "subnet6_prefix" (Itoa prefix_size) in
      class <- d_string "class";;
      let parameters := Values_Add parameters "subnet6_class_name" class in
      block <- d_string "block";;
      let parameters :=
        if Nat.eqb (String.length block) 0 then
          Values_Add parameters "subnet_level" "0"
        else
          Values_Add
            (Values_Add parameters "use_reversed_relative_position" "1")
            "relative_position" "0" in
      terminal <- d_bool "terminal";;
      let parameters :=
        Values_Add parameters "is_terminal" (if terminal then "1" else "0") in
      let classParameters : Values := [] in
      goffset <- d_int "gateway_offset";;
      gateway <-
        (if goffset =? 0 then ret gateway
         else ip6subnet_gateway subnetAddress prefix_size goffset);;
      let classParameters :=
        if goffset =? 0 then classParameters
        else Values_Add classParameters "gateway" gateway in
      class_parameters <- d_map "class_parameters";;
      classParameters <-
        range_class_parameters class_parameters classParameters;;
      let parameters :=
        Values_Add parameters "subnet6_class_parameters"
          (Encode classParameters) in
      delay <- rand_Intn 1000;;
      time_Sleep (delay * time_Millisecond);;;
      answer <- Request "post" "rest/ip6_subnet6_add" parameters;;
      match answer with
      | inr resp =>
          let prefix :=
            hexip6toip6 subnetAddress ++ "/" ++ Itoa prefix_size in
          if answered resp then
            match ret_oid resp with
            | Some oid =>
                d <- get_d;;
                let d := SetId d oid in
                let d := Set_ d "prefix" (VString prefix) in
                let d :=
                  Set_ d "address" (VString (hexip6toip6 subnetAddress)) in
                let d :=
                  if goffset =? 0 then d
                  else Set_ d "gateway" (VString gateway) in
                put_d d;;;
                return_ diag_nil
            | None => ip6subnet_attempts siteID blockInfo rest gateway
            end
          else ip6subnet_attempts siteID blockInfo rest gateway
      | inl err => return_ (diag_FromErr err)
      end
  end.

(** The part of [resourceip6subnetCreate] before the loop: scope
    resolution, parent block lookup, candidate search.  It hands the
    loop [siteID], [blockInfo] and [subnetAddresses]. *)
Definition ip6subnet_candidates
  : M W Diagnostics (string * GoMap * list string) :=
  let blockInfo : GoMap := [] in
  space <- d_string "space";;
  site <- ipsiteidbyname space;;
  match site with
  | inl siteErr => return_ (diag_FromErr siteErr)
  | inr siteID =>
      block <- d_string "block";;
      blockInfo <-
        (if (0 <? String.length block)%nat then
           block <- d_string "block";;
           info <- ip6subnetinfobyname siteID block false;;
           match info with
           | inl blockErr => return_ (diag_FromErr blockErr)
           | inr blockInfo => ret blockInfo
           end
         else
           let blockInfo := ("id", VString "") :: blockInfo in
           terminal <- d_bool "terminal";;
           if terminal then
             name <- d_string "name";;
             return_ (diag_Errorf
                        ("Can't create a terminal IPv6 block subnet: " ++ name))
           else ret blockInfo);;
      blockID <- assert_string (map_get blockInfo "id");;
      request_ip <- d_string "request_ip";;
      prefix_size <- d_int "prefix_size";;
      found <- ip6subnetfindbysize siteID blockID request_ip prefix_size;;
      match found with
      | inl subnetErr => return_ (diag_FromErr subnetErr)
      | inr subnetAddresses => ret (siteID, blockInfo, subnetAddresses)
      end
  end.

Definition ip6subnet_exhausted (name : string) : string :=
  "Unable to create IPv6 subnet: " ++ name
  ++ ", unable to find a suitable prefix" ++ LF.

Definition resourceip6subnetCreate : M W Diagnostics unit :=
  let gateway := "" in
  found <- ip6subnet_candidates;;
  let '(siteID, blockInfo, subnetAddresses) := found in
  ip6subnet_attempts siteID blockInfo subnetAddresses gateway;;;
  name <- d_string "name";;
  return_ (diag_Errorf (ip6subnet_exhausted name)).

(* ---------------------------------------------------------------- *)
(** *** VLANs *)

(** The body of [for i := 0; i < len(vlan_ids); i++]. *)
Fixpoint vlan_attempts (vlan_ids : list string) : M W (option error) unit :=
  match vlan_ids with
  | [] => ret tt
  | vlan_id :: rest =>
      let parameters : Values := [] in
      let parameters := Values_Add parameters "add_flag" "new_only" in
      vlan_domain <- d_string "vlan_domain";;
      let parameters := Values_Add parameters "vlmdomain_name" vlan_domain in
      let parameters := Values_Add parameters "vlmvlan_vlan_id" vlan_id in
      name <- d_string "name";;
      let parameters := Values_Add parameters "vlmvlan_name" name in
      answer <- Request "post" "rest/vlm_vlan_add" parameters;;
      match answer with
      | inr resp =>
          if answered resp then
            match ret_oid resp with
            | Some oid =>
                d <- get_d;;
                put_d (SetId d oid);;;
                return_ None
            | None => vlan_attempts rest
            end
          else vlan_attempts rest
      | inl err => return_ (Some err)
      end
  end.

(** The part of [resourcevlanCreate] before the loop: the requested
    identifier, or the search of the VLAN manager. *)
Definition vlan_candidates : M W (option error) (list string) :=
  request_id <- d_int "request_id";;
  if 0 <? request_id then
    requested <- d_string "request_id";;
    ret [requested]
  else
    vlan_domain <- d_string "vlan_domain";;
    found <- vlanidfindfree vlan_domain;;
    match found with
    | inl err => return_ (Some err)
    | inr vlan_ids => ret vlan_ids
    end.

Definition vlan_exhausted (name : string) : string :=
  "SOLIDServer - Unable to create vlan: " ++ name ++ LF.

Definition resourcevlanCreate : M W (option error) unit :=
  vlan_ids <- vlan_candidates;;
  vlan_attempts vlan_ids;;;
  name <- d_string "name";;
  return_ (Some (vlan_exhausted name)).

Definition resourcevlanUpdate : M W (option error) unit :=
  let parameters : Values := [] in
  d <- get_d;;
  let parameters := Values_Add parameters "vlmvlan_id" (Id d) in
  let parameters := Values_Add parameters "add_flag" "edit_only" in
  vlan_id <- d_string "vlan_id";;
  let parameters := Values_Add parameters "vlmvlan_vlan_id" vlan_id in
  name <- d_string "name";;
  let parameters := Values_Add parameters "vlmvlan_name" name in
  answer <- Request "put" "rest/vlm_vlan_add" parameters;;
  match answer with
  | inr resp =>
      match (if answered resp then ret_oid resp else None) with
      | Some oid =>
          d <- get_d;;
          put_d (SetId d oid);;;
          return_ None
      | None =>
          name <- d_string "name";;
          return_ (Some ("SOLIDServer - Unable to update vlan: " ++ name ++ LF))
      end
  | inl err => return_ (Some err)
  end.

End Resources.

Arguments Request {W} s {R}.
Arguments ip6subnet_gateway_at : simpl never.
Arguments ipsubnet_gateway : simpl never.
Arguments ipsubnet_attempts {W}.
Arguments ip6subnet_attempts {W}.
Arguments vlan_attempts {W}.

(* ================================================================== *)
(** ** The reservation protocol as a state machine *)
(* ================================================================== *)

(** A reservation call has unambiguously succeeded when the inventory
    answered 200 or 201 with an entity id; [reserved] extracts that id. *)
Definition reserved (answer : error + Response) : option string :=
  match answer with
  | inr resp => if answered resp then ret_oid resp else None
  | inl _ => None
  end.

(** A conflict: the call went through, the answer is not a success. *)
Definition conflict (answer : error + Response) : bool :=
  match answer with
  | inr _ => match reserved answer with Some _ => false | None => true end
  | inl _ => false
  end.

Definition is_request (e : Event) : bool :=
  match e with EvRequest _ _ _ _ => true | _ => false end.

Definition is_query (e : Event) : bool :=
  match e with EvQuery _ _ => true | _ => false end.

Definition is_sleep (e : Event) : bool :=
  match e with EvSleep _ => true | _ => false end.

(** The inventory calls among some events. *)
Definition requests (evs : list Event) : list Event := filter is_request evs.

Definition answer_of (e : Event) : option (error + Response) :=
  match e with
  | EvRequest _ _ _ answer => Some answer
  | _ => None
  end.

Definition parameters_of (e : Event) : Values :=
  match e with
  | EvRequest _ _ parameters _ => parameters
  | _ => []
  end.

(** Every inventory call among [evs] was answered by a conflict. *)
Definition all_conflicts (evs : list Event) : Prop :=
  forall method service parameters answer,
    In (EvRequest method service parameters answer) evs ->
    conflict answer = true.

(** What a run appended to the trace. *)
Definition events_since {W} (st st' : St W) : list Event :=
  skipn (List.length (trace st)) (trace st').

(** How the loop over the candidates ends. *)
Inductive Outcome : Type :=
| Exhausted
| Reserved (candidate oid : string)
| Failed (err : error)
| Crashed.

(** What precedes a reservation call within its attempt. *)
Definition delay (jitter : bool) (pre : list Event) : Prop :=
  if jitter
  then exists n, 0 <= n < 1000 /\ pre = [EvSleep (n * time_Millisecond)]
  else pre = [].

(** The runs of the reservation loop of a resource that posts to
    [service]: the candidates, the events of the run and how it ends. *)
Inductive Run (service : string) (jitter : bool)
  : list string -> list Event -> Outcome -> Prop :=
| Run_exhausted :
    Run service jitter [] [] Exhausted
| Run_crashed candidate rest :
    Run service jitter (candidate :: rest) [] Crashed
| Run_failed candidate rest pre parameters err :
    delay jitter pre ->
    Run service jitter (candidate :: rest)
      (pre ++ [EvRequest "post" service parameters (inl err)])%list
      (Failed err)
| Run_reserved candidate rest pre parameters resp oid :
    delay jitter pre ->
    reserved (inr resp) = Some oid ->
    Run service jitter (candidate :: rest)
      (pre ++ [EvRequest "post" service parameters (inr resp)])%list
      (Reserved candidate oid)
| Run_conflict candidate rest pre parameters resp evs o :
    delay jitter pre ->
    reserved (inr resp) = None ->
    Run service jitter rest evs o ->
    Run service jitter (candidate :: rest)
      (pre ++ EvRequest "post" service parameters (inr resp) :: evs)%list
      o.

(** Typed reads of the resource data. *)
Definition get_str (d : ResourceData) (key : string) : string :=
  match Get d key with VString x => x | _ => "" end.

Definition get_int (d : ResourceData) (key : string) : Z :=
  match Get d key with VInt i => i | _ => 0 end.

Definition get_bool (d : ResourceData) (key : string) : bool :=
  match Get d key with VBool b => b | _ => false end.

Definition get_map (d : ResourceData) (key : string) : GoMap :=
  match Get d key with VMap m => m | _ => [] end.

Definition schema_type (sch : list (string * Schema)) (key : string)
  : option ValueType :=
  option_map Type_ (index sch key).

(* ================================================================== *)
(** ** Test inventories *)
(* ================================================================== *)

Module Mock.

(** The answer of the inventory to a reservation that lost the race. *)
Definition taken : error + Response :=
  inr (mkResponse 400 [[("errmsg", VString "already exists")]]).

(** The answer of the inventory to a reservation that went through. *)
Definition created (oid : string) : error + Response :=
  inr (mkResponse 201 [[("ret_oid", VString oid)]]).

(** An inventory that plays back a script of answers, one per call, and
    reports a conflict once the script is over; the lookups answer with
    fixed values. *)
Definition scripted (site : error + string) (info : error + GoMap)
  (found : error + list string) : SOLIDserver (list (error + Response)) :=
  {| srv_Request := fun _ _ _ w =>
       match w with
       | [] => ([], taken)
       | a :: w' => (w', a)
       end;
     srv_ipsiteidbyname := fun _ w => (w, site);
     srv_ipsubnetinfobyname := fun _ _ _ w => (w, info);
     srv_ipsubnetfindbysize := fun _ _ _ _ w => (w, found);
     srv_ip6subnetinfobyname := fun _ _ _ w => (w, info);
     srv_ip6subnetfindbysize := fun _ _ _ _ w => (w, found);
     srv_vlanidfindfree := fun _ w => (w, found) |}.

(** A machine about to run a resource function on the given
    attributes against the given script. *)
Definition machine (sch : list (string * Schema)) (id : string)
  (attrs : GoMap) (script : list (error + Response))
  : St (list (error + Response)) :=
  mkSt script (mkResourceData sch id attrs)
    (fun n => 7919 * Z.of_nat n + 4321) 0 [].

Definition block24 : GoMap := [("id", VString "12"); ("level", VString "0")].

(** A terminal /24 inside the block [office], gateway offset [goffset]. *)
Definition subnet_attrs (goffset : Z) : GoMap :=
  [ ("space", VString "Local"); ("block", VString "office");
    ("prefix_size", VInt 24); ("gateway_offset", VInt goffset);
    ("name", VString "lan") ].

(** A terminal /64 inside the block [office], gateway offset [goffset]. *)
Definition subnet6_attrs (goffset : Z) : GoMap :=
  [ ("space", VString "Local"); ("block", VString "office");
    ("prefix_size", VInt 64); ("gateway_offset", VInt goffset);
    ("name", VString "lan6") ].

(** A top-level block wrongly left terminal (the schema's default). *)
Definition toplevel_attrs : GoMap :=
  [ ("space", VString "Local"); ("prefix_size", VInt 16);
    ("name", VString "core") ].

Definition vlan_attrs (request_id : Z) : GoMap :=
  [ ("vlan_domain", VString "campus"); ("request_id", VInt request_id);
    ("name", VString "voice") ].

Definition net10 : list string := ["0a000000"; "0a000100"; "0a000200"].

Definition net2001 : list string :=
  ["20010db8000000000000000000000000"; "20010db8000000010000000000000000"].

Definition inventory4 : SOLIDserver (list (error + Response)) :=
  scripted (inr "2") (inr block24) (inr net10).

Definition inventory6 : SOLIDserver (list (error + Response)) :=
  scripted (inr "2") (inr block24) (inr net2001).

Definition inventory_vlan : SOLIDserver (list (error + Response)) :=
  scripted (inr "2") (inr block24) (inr ["100"; "101"]).

(** An inventory whose only free /24 is the last one of the address space. *)
Definition inventory_top : SOLIDserver (list (error + Response)) :=
  scripted (inr "2") (inr block24) (inr ["ffffff00"]).

(** An inventory whose parent block comes back without its level. *)
Definition inventory_flat : SOLIDserver (list (error + Response)) :=
  scripted (inr "2") (inr [("id", VString "12")]) (inr net10).

(** An inventory whose second candidate is no hexadecimal numeral. *)
Definition inventory_odd : SOLIDserver (list (error + Response)) :=
  scripted (inr "2") (inr block24)
    (inr ["20010db8000000000000000000000000"; "2001:db8:0:1::"]).

(** The machines of the examples. *)
Definition gateway_minus1 := machine resourceipsubnet "" (subnet_attrs (-1)) [created "77"].
Definition gateway_256 := machine resourceipsubnet "" (subnet_attrs 256) [created "77"].
Definition gateway_minus300 := machine resourceipsubnet "" (subnet_attrs (-300)) [created "77"].
Definition gateway_wrap := machine resourceipsubnet "" (subnet_attrs 256) [created "77"].
Definition gateway6_minus1 := machine resourceip6subnet "" (subnet6_attrs (-1)) [created "77"].
Definition all_taken4 := machine resourceipsubnet "" (subnet_attrs 1) [].
Definition all_taken6 := machine resourceip6subnet "" (subnet6_attrs (-1)) [].
Definition all_taken_vlan := machine resourcevlan "" (vlan_attrs 0) [].
Definition unreachable4 :=
  machine resourceipsubnet "" (subnet_attrs 1)
    [taken; inl "connection refused"; created "77"].
Definition unreachable6 :=
  machine resourceip6subnet "" (subnet6_attrs 1)
    [inl "connection refused"; created "77"].
Definition unreachable_vlan :=
  machine resourcevlan "" (vlan_attrs 0) [inl "connection refused"; created "77"].
Definition second_wins4 :=
  machine resourceipsubnet "" (subnet_attrs 1) [taken; created "77"].
Definition second_wins6 :=
  machine resourceip6subnet "" (subnet6_attrs 1) [taken; created "78"].
Definition second_wins_vlan :=
  machine resourcevlan "" (vlan_attrs 0) [taken; created "79"].
Definition toplevel4 := machine resourceipsubnet "" toplevel_attrs [created "77"].
Definition toplevel6 := machine resourceip6subnet "" toplevel_attrs [created "77"].
Definition vlan_requested := machine resourcevlan "" (vlan_attrs 5) [taken].
Definition vlan_renamed :=
  machine resourcevlan "9"
    [("vlan_domain", VString "campus"); ("vlan_id", VInt 100);
     ("name", VString "voice2")]
    [created "9"].

(** A /120 whose gateway is asked 256 addresses after its start: the
    first address after the subnet. *)
Definition gateway6_past :=
  machine resourceip6subnet ""
    [ ("space", VString "Local"); ("block", VString "office");
      ("prefix_size", VInt 120); ("gateway_offset", VInt 256);
      ("name", VString "lan6") ]
    [created "77"].

End Mock.

(** Running a resource function against its test inventory. *)
Abbreviation run4 st := (resourceipsubnetCreate Mock.inventory4 st) (only parsing).
Abbreviation run6 st := (resourceip6subnetCreate Mock.inventory6 st) (only parsing).
Abbreviation run_vlan st := (resourcevlanCreate Mock.inventory_vlan st) (only parsing).
Abbreviation update_vlan st := (resourcevlanUpdate Mock.inventory_vlan st) (only parsing).
Abbreviation found4 st := (ipsubnet_candidates Mock.inventory4 st) (only parsing).
Abbreviation found6 st := (ip6subnet_candidates Mock.inventory6 st) (only parsing).
Abbreviation found_vlan st := (vlan_candidates Mock.inventory_vlan st) (only parsing).

(** The strings of a class parameter map. *)
Definition strings_of (m : GoMap) : Values :=
  map (fun kv => (fst kv, match snd kv with VString x => x | _ => "" end)) m.

(* ================================================================== *)
(** ** What a created resource looks like, and the engine's contract *)
(* ================================================================== *)

(** The resource data after [resourceipsubnetCreate] reserved
    [candidate] under the entity id [oid]. *)
Definition ipsubnet_created (d : ResourceData) (candidate oid : string)
  : ResourceData :=
  let prefix_size := get_int d "prefix_size" in
  let goffset := get_int d "gateway_offset" in
  let d' := SetId d oid in
  let d' :=
    Set_ d' "prefix"
      (VString (Codec.hexiptoip candidate ++ "/" ++ Go.Itoa prefix_size)) in
  let d' := Set_ d' "address" (VString (Codec.hexiptoip candidate)) in
  let d' :=
    Set_ d' "netmask" (VString (Codec.prefixlengthtohexip prefix_size)) in
  if goffset =? 0 then d'
  else Set_ d' "gateway"
         (VString (ipsubnet_gateway candidate prefix_size goffset)).

(** The same for [resourceip6subnetCreate]; [gateway] is the function's
    variable at the time of the success. *)
Definition ip6subnet_created (d : ResourceData) (candidate oid : string)
  : ResourceData :=
  let prefix_size := get_int d "prefix_size" in
  let goffset := get_int d "gateway_offset" in
  let d' := SetId d oid in
  let d' :=
    Set_ d' "prefix"
      (VString (Codec.hexip6toip6 candidate ++ "/" ++ Go.Itoa prefix_size)) in
  let d' := Set_ d' "address" (VString (Codec.hexip6toip6 candidate)) in
  if goffset =? 0 then d'
  else
    match Go.big_SetString16 candidate with
    | Some bigStartAddr =>
        Set_ d' "gateway"
          (VString (ip6subnet_gateway_at bigStartAddr prefix_size goffset))
    | None => d'
    end.

(** The same for [resourcevlanCreate]. *)
Definition vlan_created (d : ResourceData) (candidate oid : string)
  : ResourceData := SetId d oid.

(** How the result [r] and the final data [d'] of a run read an
    [Outcome]: [ok] is the success value, [fromErr] wraps a transport
    error, [exhausted] is what happens after the last candidate. *)
Definition result_of {R} (ok : R) (fromErr : error -> R)
  (exhausted : Res R unit) (created : string -> string -> ResourceData)
  (d : ResourceData) (r : Res R unit) (d' : ResourceData) (o : Outcome)
  : Prop :=
  match o with
  | Exhausted => r = exhausted /\ d' = d
  | Reserved candidate oid => r = Return ok /\ d' = created candidate oid
  | Failed err => r = Return (fromErr err) /\ d' = d
  | Crashed => (exists msg, r = Panic msg) /\ d' = d
  end.

(** The parent block, when there is one, came back with its level. *)
Definition ipsubnet_level_ok (d : ResourceData) (blockInfo : GoMap) : Prop :=
  get_str d "block" = "" \/ is_string (map_get blockInfo "level") = true.

(** The candidates are hexadecimal numerals, or no gateway is asked for. *)
Definition ip6subnet_hex_ok (d : ResourceData) (candidates : list string)
  : Prop :=
  get_int d "gateway_offset" = 0
  \/ Forall (fun c => Go.big_SetString16 c <> None) candidates.

(** The contract of a creation: the run first queries the inventory
    ([qs]); either it stops there without success, or it goes through
    the reservation loop over the candidates found. *)
Definition Engine {W R} (service : string) (jitter : bool) (ok : R)
  (fromErr : error -> R) (exhausted : R)
  (created : ResourceData -> string -> string -> ResourceData)
  (st : St W) (r : Res R unit) (st' : St W) : Prop :=
  exists qs,
    forallb is_query qs = true
    /\ ((events_since st st' = qs /\ r <> Return ok /\ data st' = data st)
        \/ (exists candidates evs o,
              Run service jitter candidates evs o
              /\ events_since st st' = (qs ++ evs)%list
              /\ result_of ok fromErr (Return exhausted)
                   (created (data st)) (data st) r (data st') o)).

(** The inventory answered [answer] with status 200 or 201 together
    with the entity id [oid]. *)
Definition unambiguous (answer : error + Response) (oid : string) : Prop :=
  exists resp,
    answer = inr resp
    /\ (StatusCode resp = 200 \/ StatusCode resp = 201)
    /\ ret_oid resp = Some oid.

(** One second, in nanoseconds. *)
Definition time_Second : Z := 1000 * time_Millisecond.

(** Every inventory call among [evs] comes right after a sleep shorter
    than one second. *)
Definition delayed (evs : list Event) : Prop :=
  forall before e after,
    evs = (before ++ e :: after)%list ->
    is_request e = true ->
    exists before' duration,
      before = (before' ++ [EvSleep duration])%list
      /\ 0 <= duration < time_Second.

(** The run ends with a call that was answered [answer]; every call
    before it was answered by a conflict. *)
Definition last_answer (evs : list Event) (answer : error + Response) : Prop :=
  exists before method service parameters,
    evs = (before ++ [EvRequest method service parameters answer])%list
    /\ all_conflicts before.

(** The pace of a creation with the jitter: lookups, then attempts, each
    one a sleep right before its call; the sleep of the attempt that
    makes the [k]-th draw from the random source lasts the number drawn
    by [rand.Intn(1000)], in milliseconds. *)
Fixpoint jittered (entropy : nat -> Z) (k : nat) (evs : list Event) : Prop :=
  match evs with
  | [] => True
  | EvQuery _ _ :: rest => jittered entropy k rest
  | EvSleep duration :: EvRequest _ _ _ _ :: rest =>
      duration = entropy k mod 1000 * time_Millisecond
      /\ jittered entropy (S k) rest
  | _ => False
  end.

(** The colons of a colon notation dropped. *)
Fixpoint drop_colons (s : string) : string :=
  match s with
  | EmptyString => EmptyString
  | String c rest =>
      if Ascii.eqb c ":" then drop_colons rest
      else String c (drop_colons rest)
  end.

(** The number a full colon notation stands for: the colons dropped,
    the digits read in base 16 as [SetString] reads a candidate.  The
    provider has no such function here; it serves to state which
    address a recorded string is. *)
Definition ip6_value (ip : string) : option Z :=
  Go.big_SetString16 (drop_colons ip).

(* ================================================================== *)
(** ** The rest of the life cycle: update, delete, read, import *)
(* ================================================================== *)

(** [strings.Cut(s, sep)] on a one-character separator: the text before
    the first separator and, when there is one, the text after it. *)
Fixpoint strings_Cut (sep : ascii) (s : string) : string * option string :=
  match s with
  | EmptyString => (EmptyString, None)
  | String c rest =>
      if Ascii.eqb c sep then (EmptyString, Some rest)
      else let (before, after) := strings_Cut sep rest in
           (String c before, after)
  end.

(** [url.QueryUnescape]: [+] is a space, [%XX] a byte; [None] is the
    escape error of a [%] that two hexadecimal digits do not follow. *)
Fixpoint QueryUnescape (s : string) : option string :=
  match s with
  | EmptyString => Some EmptyString
  | String c rest =>
      if Ascii.eqb c "%" then
        match rest with
        | String a (String b rest') =>
            match Go.hex_val a, Go.hex_val b with
            | Some x, Some y =>
                option_map (String (ascii_of_nat (Z.to_nat (16 * x + y))))
                  (QueryUnescape rest')
            | _, _ => None
            end
        | _ => None
        end
      else if Ascii.eqb c "+" then option_map (String " ") (QueryUnescape rest)
      else option_map (String c) (QueryUnescape rest)
  end.

(** [m[key] = append(m[key], value)] on a [url.Values] read back from a
    query: the keys in order of first appearance, each with its values. *)
Fixpoint values_append (m : list (string * list string)) (key value : string)
  : list (string * list string) :=
  match m with
  | [] => [(key, [value])]
  | (k, vs) :: rest =>
      if String.eqb k key then (k, (vs ++ [value])%list) :: rest
      else (k, vs) :: values_append rest key value
  end.

(** One [key=value] setting of a query, as [url.ParseQuery] treats it: a
    setting with a semicolon, an empty one, or one that does not unescape
    is skipped (the error is dropped by every caller here). *)
Definition parse_setting (m : list (string * list string)) (setting : string)
  : list (string * list string) :=
  if negb (Go.no_sep ";" setting) then m
  else if String.eqb setting "" then m
  else
    let (key, value) := strings_Cut "=" setting in
    match QueryUnescape key with
    | None => m
    | Some key =>
        match QueryUnescape (match value with Some v => v | None => "" end) with
        | None => m
        | Some value => values_append m key value
        end
    end.

(** [url.ParseQuery], the returned error dropped. *)
Definition ParseQuery (query : string) : list (string * list string) :=
  fold_left parse_setting (Go.split_on "&" query) [].

(** Modelled from the spec: [sizetoprefixlength] is absent from the
    sources; the spec's [sizeToPrefix(size, 32)] is the inverse of
    [prefixToSize] on the powers of two. *)
Definition sizetoprefixlength (size : Z) : Z := 32 - Z.log2 size.

(** [v != nil] on an interface value. *)
Definition not_nil (v : Value) : bool :=
  match v with VNil => false | _ => true end.

(** [v != 0] on an interface value: the constant becomes an [int], and
    the two differ unless [v] holds the [int] zero. *)
Definition not_int_zero (v : Value) : bool :=
  match v with VInt i => negb (i =? 0) | _ => true end.

(** [m[key] = value] on a [map[string]string]. *)
Fixpoint map_assign (m : Values) (key value : string) : Values :=
  match m with
  | [] => [(key, value)]
  | (k, v) :: rest =>
      if String.eqb k key then (k, value) :: rest
      else (k, v) :: map_assign rest key value
  end.

(** A [map[string]string] handed to [d.Set]. *)
Definition map_value (m : Values) : Value :=
  VMap (map (fun kv => (fst kv, VString (snd kv))) m).

(** [buf[0]["errmsg"].(string)] behind its [len(buf) > 0] guard. *)
Definition first_errmsg (resp : Response) : option string :=
  if 0 <? Z.of_nat (List.length (buf resp))
  then string_ok (map_get (nth 0 (buf resp) []) "errmsg")
  else None.

(** [resp.StatusCode != 200 && resp.StatusCode != 204]. *)
Definition not_deleted (resp : Response) : bool :=
  negb (StatusCode resp =? 200) && negb (StatusCode resp =? 204).

(** [resp.StatusCode == 200 && len(buf) > 0]. *)
Definition found (resp : Response) : bool :=
  (StatusCode resp =? 200) && (0 <? Z.of_nat (List.length (buf resp))).

Section Lifecycle.
Import Go Codec.
Context {W : Type} (s : SOLIDserver W).

(** [d.Set(key, value)] as a step. *)
Definition d_Set {R} (key : string) (v : Value) : M W R unit :=
  d <- get_d;; put_d (Set_ d key v).

(** [d.SetId(id)] as a step. *)
Definition d_SetId {R} (id : string) : M W R unit :=
  d <- get_d;; put_d (SetId d id).

(** A call of a resource function from another one: its returned value
    becomes the value of the call, a panic goes on unwinding. *)
Definition call {R R'} (f : M W R unit) : M W R' (option R) :=
  fun st =>
    match f st with
    | (Next _, st') => (Next None, st')
    | (Return r, st') => (Next (Some r), st')
    | (Panic msg, st') => (Panic msg, st')
    end.

(** [rv[0]] on a slice of strings. *)
Definition first_value {R} (vs : list string) : M W R string :=
  match vs with
  | v :: _ => ret v
  | [] => panic "runtime error: index out of range [0] with length 0"
  end.

(** [for ck := range currentClassParameters { ... }] of the read and
    import functions: every declared key gets the first retrieved value,
    or the empty string. *)
Fixpoint compute_class_parameters {R} (current : GoMap)
  (retrieved : list (string * list string)) (computed : Values)
  : M W R Values :=
  match current with
  | [] => ret computed
  | (ck, _) :: rest =>
      match index retrieved ck with
      | Some rv =>
          v <- first_value rv;;
          compute_class_parameters rest retrieved (map_assign computed ck v)
      | None =>
          compute_class_parameters rest retrieved (map_assign computed ck "")
      end
  end.

(** The class parameters of an update: the stored gateway when an offset
    is set, then the declared parameters. *)
Definition update_class_parameters {R} : M W R Values :=
  let classParameters : Values := [] in
  goffset <- d_int "gateway_offset";;
  classParameters <-
    (if negb (goffset =? 0) then
       gateway <- d_string "gateway";;
       ret (Values_Add classParameters "gateway" gateway)
     else ret classParameters);;
  class_parameters <- d_map "class_parameters";;
  range_class_parameters class_parameters classParameters.

(* ---------------------------------------------------------------- *)
(** *** IPv4 subnets *)

Definition resourceipsubnetUpdate : M W Diagnostics unit :=
  let parameters : Values := [] in
  d <- get_d;;
  let parameters := Values_Add parameters "subnet_id" (Id d) in
  let parameters := Values_Add parameters "add_flag" "edit_only" in
  name <- d_string "name";;
  let parameters := Values_Add parameters "subnet_name" name in
  class <- d_string "class";;
  let parameters := Values_Add parameters "subnet_class_name" class in
  terminal <- d_bool "terminal";;
  let parameters :=
    Values_Add parameters "is_terminal" (if terminal then "1" else "0") in
  classParameters <- update_class_parameters;;
  let parameters :=
    Values_Add parameters "subnet_class_parameters" (Encode classParameters) in
  answer <- Request s "put" "rest/ip_subnet_add" parameters;;
  match answer with
  | inr resp =>
      match (if answered resp then ret_oid resp else None) with
      | Some oid => d_SetId oid;;; return_ diag_nil
      | None =>
          match first_errmsg resp with
          | Some errMsg =>
              name <- d_string "name";;
              return_ (diag_Errorf ("Unable to update IP subnet: " ++ name
                                    ++ " (" ++ errMsg ++ ")"))
          | None =>
              name <- d_string "name";;
              return_ (diag_Errorf ("Unable to update IP subnet: " ++ name
                                    ++ LF))
          end
      end
  | inl err => return_ (diag_FromErr err)
  end.

Definition resourceipsubnetgatewayDelete : M W Diagnostics unit :=
  d <- get_d;;
  if not_nil (Get d "gateway") then
    let parameters : Values := [] in
    space <- d_string "space";;
    let parameters := Values_Add parameters "site_name" space in
    gateway <- d_string "gateway";;
    let parameters := Values_Add parameters "hostaddr" gateway in
    answer <- Request s "delete" "rest/ip_delete" parameters;;
    match answer with
    | inr resp => return_ diag_nil
    | inl err => return_ (diag_FromErr err)
    end
  else return_ diag_nil.

Definition resourceipsubnetDelete : M W Diagnostics unit :=
  d <- get_d;;
  (if not_int_zero (Get d "gateway_offset") then
     _ <- call resourceipsubnetgatewayDelete;; ret tt
   else ret tt);;;
  let parameters : Values := [] in
  d <- get_d;;
  let parameters := Values_Add parameters "subnet_id" (Id d) in
  answer <- Request s "delete" "rest/ip_subnet_delete" parameters;;
  match answer with
  | inr resp =>
      if not_deleted resp then
        match first_errmsg resp with
        | Some errMsg =>
            name <- d_string "name";;
            return_ (diag_Errorf ("Unable to delete IP subnet : " ++ name
                                  ++ " (" ++ errMsg ++ ")"))
        | None =>
            name <- d_string "name";;
            return_ (diag_Errorf ("Unable to delete IP subnet : " ++ name))
        end
      else d_SetId "";;; return_ diag_nil
  | inl err => return_ (diag_FromErr err)
  end.

(** The part the read and the import of a subnet share: the gateway and
    the class parameters out of the record field [field]. *)
Definition read_class_parameters {R} (record : GoMap) (field : string)
  : M W R unit :=
  currentClassParameters <- d_map "class_parameters";;
  raw <- assert_string (map_get record field);;
  let retrievedClassParameters := ParseQuery raw in
  let computedClassParameters : Values := [] in
  (match index retrievedClassParameters "gateway" with
   | Some gateway => g0 <- first_value gateway;; d_Set "gateway" (VString g0)
   | None => ret tt
   end);;;
  computedClassParameters <-
    compute_class_parameters currentClassParameters retrievedClassParameters
      computedClassParameters;;
  d_Set "class_parameters" (map_value computedClassParameters).

Definition resourceipsubnetRead : M W Diagnostics unit :=
  let parameters : Values := [] in
  d <- get_d;;
  let parameters := Values_Add parameters "subnet_id" (Id d) in
  answer <- Request s "get" "rest/ip_block_subnet_info" parameters;;
  match answer with
  | inr resp =>
      if found resp then
        let record := nth 0 (buf resp) [] in
        site_name <- assert_string (map_get record "site_name");;
        d_Set "space" (VString site_name);;;
        parent_subnet_name <-
          assert_string (map_get record "parent_subnet_name");;
        d_Set "block" (VString parent_subnet_name);;;
        subnet_name <- assert_string (map_get record "subnet_name");;
        d_Set "name" (VString subnet_name);;;
        subnet_class_name <-
          assert_string (map_get record "subnet_class_name");;
        d_Set "class" (VString subnet_class_name);;;
        is_terminal <- assert_string (map_get record "is_terminal");;
        d_Set "terminal" (VBool (String.eqb is_terminal "1"));;;
        read_class_parameters record "subnet_class_parameters";;;
        return_ diag_nil
      else
        name <- d_string "name";;
        return_ (diag_Errorf ("Unable to find IP subnet: " ++ name ++ LF))
  | inl err => return_ (diag_FromErr err)
  end.

Definition resourceipsubnetImportState : M W (option error) unit :=
  let parameters : Values := [] in
  d <- get_d;;
  let parameters := Values_Add parameters "subnet_id" (Id d) in
  answer <- Request s "get" "rest/ip_block_subnet_info" parameters;;
  match answer with
  | inr resp =>
      if found resp then
        let record := nth 0 (buf resp) [] in
        site_name <- assert_string (map_get record "site_name");;
        d_Set "space" (VString site_name);;;
        parent_subnet_name <-
          assert_string (map_get record "parent_subnet_name");;
        d_Set "block" (VString parent_subnet_name);;;
        subnet_name <- assert_string (map_get record "subnet_name");;
        d_Set "name" (VString subnet_name);;;
        d_Set "request_ip" (VString "");;;
        start_ip_addr <- assert_string (map_get record "start_ip_addr");;
        let address := hexiptoip start_ip_addr in
        size_text <- assert_string (map_get record "subnet_size");;
        let subnet_size := match Atoi size_text with Some n => n | None => 0 end in
        let prefix_length := sizetoprefixlength subnet_size in
        let prefix := address ++ "/" ++ Itoa prefix_length in
        d_Set "address" (VString address);;;
        d_Set "prefix" (VString prefix);;;
        d_Set "prefix_size" (VInt prefix_length);;;
        d_Set "netmask" (VString (prefixlengthtohexip prefix_length));;;
        d_Set "gateway_offset" (VInt 0);;;
        subnet_class_name <-
          assert_string (map_get record "subnet_class_name");;
        d_Set "class" (VString subnet_class_name);;;
        read_class_parameters record "subnet_class_parameters";;;
        return_ None
      else
        d <- get_d;;
        return_ (Some ("SOLIDServer - Unable to find and import IP subnet (oid): "
                       ++ Id d ++ LF))
  | inl err => return_ (Some err)
  end.

(* ---------------------------------------------------------------- *)
(** *** IPv6 subnets *)

Definition resourceip6subnetUpdate : M W Diagnostics unit :=
  let parameters : Values := [] in
  d <- get_d;;
  let parameters := Values_Add parameters "subnet6_id" (Id d) in
  let parameters := Values_Add parameters "add_flag" "edit_only" in
  name <- d_string "name";;
  let parameters := Values_Add parameters "subnet6_name" name in
  class <- d_string "class";;
  let parameters := Values_Add parameters "subnet6_class_name" class in
  terminal <- d_bool "terminal";;
  let parameters :=
    Values_Add parameters "is_terminal" (if terminal then "1" else "0") in
  classParameters <- update_class_parameters;;
  let parameters :=
    Values_Add parameters "subnet6_class_parameters" (Encode classParameters) in
  answer <- Request s "put" "rest/ip6_subnet6_add" parameters;;
  match answer with
  | inr resp =>
      match (if answered resp then ret_oid resp else None) with
      | Some oid => d_SetId oid;;; return_ diag_nil
      | None =>
          match first_errmsg resp with
          | Some errMsg =>
              name <- d_string "name";;
              return_ (diag_Errorf ("Unable to update IPv6 subnet: " ++ name
                                    ++ " (" ++ errMsg ++ ")"))
          | None =>
              name <- d_string "name";;
              return_ (diag_Errorf ("Unable to update IPv6 subnet: " ++ name
                                    ++ LF))
          end
      end
  | inl err => return_ (diag_FromErr err)
  end.

Definition resourceip6subnetgatewayDelete : M W Diagnostics unit :=
  d <- get_d;;
  if not_nil (Get d "gateway") then
    let parameters : Values := [] in
    space <- d_string "space";;
    let parameters := Values_Add parameters "site_name" space in
    gateway <- d_string "gateway";;
    let parameters := Values_Add parameters "hostaddr" gateway in
    answer <- Request s "delete" "rest/ip6_address6_delete" parameters;;
    match answer with
    | inr resp => return_ diag_nil
    | inl err => return_ (diag_FromErr err)
    end
  else return_ diag_nil.

Definition resourceip6subnetDelete : M W Diagnostics unit :=
  d <- get_d;;
  (if not_int_zero (Get d "gateway_offset") then
     _ <- call resourceip6subnetgatewayDelete;; ret tt
   else ret tt);;;
  let parameters : Values := [] in
  d <- get_d;;
  let parameters := Values_Add parameters "subnet6_id" (Id d) in
  answer <- Request s "delete" "rest/ip6_subnet6_delete" parameters;;
  match answer with
  | inr resp =>
      if not_deleted resp then
        match first_errmsg resp with
        | Some errMsg =>
            name <- d_string "name";;
            return_ (diag_Errorf ("Unable to delete IPv6 subnet : " ++ name
                                  ++ " (" ++ errMsg ++ ")"))
        | None =>
            name <- d_string "name";;
            return_ (diag_Errorf ("Unable to delete IPv6 subnet : " ++ name))
        end
      else d_SetId "";;; return_ diag_nil
  | inl err => return_ (diag_FromErr err)
  end.

(** The success branch the IPv6 read and import share. *)
Definition ip6subnet_record {R} (record : GoMap) : M W R unit :=
  site_name <- assert_string (map_get record "site_name");;
  d_Set "space" (VString site_name);;;
  parent_subnet6_name <-
    assert_string (map_get record "parent_subnet6_name");;
  d_Set "block" (VString parent_subnet6_name);;;
  subnet6_name <- assert_string (map_get record "subnet6_name");;
  d_Set "name" (VString subnet6_name);;;
  subnet6_class_name <-
    assert_string (map_get record "subnet6_class_name");;
  d_Set "class" (VString subnet6_class_name);;;
  is_terminal <- assert_string (map_get record "is_terminal");;
  d_Set "terminal" (VBool (String.eqb is_terminal "1"));;;
  read_class_parameters record "subnet6_class_parameters".

Definition resourceip6subnetRead : M W Diagnostics unit :=
  let parameters : Values := [] in
  d <- get_d;;
  let parameters := Values_Add parameters "subnet6_id" (Id d) in
  answer <- Request s "get" "rest/ip6_block6_subnet6_info" parameters;;
  match answer with
  | inr resp =>
      if found resp then
        ip6subnet_record (nth 0 (buf resp) []);;;
        return_ diag_nil
      else
        name <- d_string "name";;
        return_ (diag_Errorf ("Unable to find IPv6 subnet: " ++ name ++ LF))
  | inl err => return_ (diag_FromErr err)
  end.

Definition resourceip6subnetImportState : M W (option error) unit :=
  let parameters : Values := [] in
  d <- get_d;;
  let parameters := Values_Add parameters "subnet6_id" (Id d) in
  answer <- Request s "get" "rest/ip6_block6_subnet6_info" parameters;;
  match answer with
  | inr resp =>
      if found resp then
        ip6subnet_record (nth 0 (buf resp) []);;;
        return_ None
      else
        d <- get_d;;
        return_ (Some ("SOLIDServer - Unable to find and import IPv6 subnet (oid): "
                       ++ Id d ++ LF))
  | inl err => return_ (Some err)
  end.

(* ---------------------------------------------------------------- *)
(** *** VLANs *)

Definition resourcevlanExists : M W (bool * option error) unit :=
  let parameters : Values := [] in
  d <- get_d;;
  let parameters := Values_Add parameters "vlmvlan_id" (Id d) in
  answer <- Request s "get" "rest/vlmvlan_info" parameters;;
  match answer with
  | inr resp =>
      if answered resp then return_ (true, None)
      else d_SetId "";;; return_ (false, None)
  | inl err => return_ (false, Some err)
  end.

Definition resourcevlanDelete : M W (option error) unit :=
  let parameters : Values := [] in
  d <- get_d;;
  let parameters := Values_Add parameters "vlmvlan_id" (Id d) in
  answer <- Request s "delete" "rest/vlm_vlan_delete" parameters;;
  match answer with
  | inr resp =>
      match (if negb (StatusCode resp =? 204)
                && (0 <? Z.of_nat (List.length (buf resp)))
             then string_ok (map_get (nth 0 (buf resp) []) "errmsg")
             else None) with
      | Some errmsg =>
          name <- d_string "name";;
          return_ (Some ("SOLIDServer - Unable to delete vlan : " ++ name
                         ++ " (" ++ errmsg ++ ")"))
      | None => d_SetId "";;; return_ None
      end
  | inl err => return_ (Some err)
  end.

Definition resourcevlanRead : M W (option error) unit :=
  let parameters : Values := [] in
  d <- get_d;;
  let parameters := Values_Add parameters "vlmvlan_id" (Id d) in
  answer <- Request s "get" "rest/vlmvlan_info" parameters;;
  match answer with
  | inr resp =>
      if found resp then
        let record := nth 0 (buf resp) [] in
        id_text <- assert_string (map_get record "vlmvlan_vlan_id");;
        let vnid := match Atoi id_text with Some n => n | None => 0 end in
        vlmvlan_name <- assert_string (map_get record "vlmvlan_name");;
        d_Set "name" (VString vlmvlan_name);;;
        d_Set "vlan_id" (VInt vnid);;;
        return_ None
      else
        name <- d_string "name";;
        return_ (Some ("SOLIDServer - Unable to find vlan: " ++ name ++ LF))
  | inl err => return_ (Some err)
  end.

Definition resourcevlanImportState : M W (option error) unit :=
  let parameters : Values := [] in
  d <- get_d;;
  let parameters := Values_Add parameters "vlmvlan_id" (Id d) in
  answer <- Request s "get" "rest/vlmvlan_info" parameters;;
  match answer with
  | inr resp =>
      if found resp then
        let record := nth 0 (buf resp) [] in
        vlmvlan_name <- assert_string (map_get record "vlmvlan_name");;
        d_Set "name" (VString vlmvlan_name);;;
        return_ None
      else
        d <- get_d;;
        return_ (Some ("SOLIDServer - Unable to find and import vlan (oid): "
                       ++ Id d ++ LF))
  | inl err => return_ (Some err)
  end.

End Lifecycle.

(** The class parameters an update sends for the resource data [d]. *)
Definition update_class_parameters_of (d : ResourceData) : Values :=
  ((if negb (get_int d "gateway_offset" =? 0)
    then [("gateway", get_str d "gateway")] else [])
   ++ strings_of (get_map d "class_parameters"))%list.

(** The message of a failed call, with the inventory's [errmsg] when the
    answer carries one. *)
Definition failure_message (what name : string) (resp : Response)
  (otherwise : string) : string :=
  match first_errmsg resp with
  | Some errMsg => what ++ name ++ " (" ++ errMsg ++ ")"
  | None => what ++ name ++ otherwise
  end.

(** The message of a failed deletion. *)
Definition deletion_message (what name : string) (resp : Response) : string :=
  match first_errmsg resp with
  | Some errMsg => what ++ name ++ " (" ++ errMsg ++ ")"
  | None => what ++ name
  end.

(** The events of the gateway deletion that precedes the deletion of a
    subnet: one call when an offset is set, none otherwise. *)
Definition gateway_freed (service : string) (d : ResourceData)
  (pre : list Event) : Prop :=
  if negb (get_int d "gateway_offset" =? 0)
  then exists answer,
         pre = [EvRequest "delete" service
                  [("site_name", get_str d "space");
                   ("hostaddr", get_str d "gateway")] answer]
  else pre = [].

(** [record[key].(string)] once the assertion is known to hold. *)
Definition text (record : GoMap) (key : string) : string :=
  match map_get record key with VString x => x | _ => "" end.

(** Every field of [keys] of the record is there and holds a string. *)
Definition fields_ok (record : GoMap) (keys : list string) : bool :=
  forallb (fun key => is_string (map_get record key)) keys.

(** The value a read stores for the declared class parameter [ck]: the
    first retrieved one, or the empty string. *)
Definition retrieved_value (retrieved : list (string * list string))
  (ck : string) : string :=
  match index retrieved ck with
  | Some (v :: _) => v
  | _ => ""
  end.

(** The computed class parameters of a read over the declared ones. *)
Definition computed_class_parameters (current : GoMap)
  (retrieved : list (string * list string)) (computed : Values) : Values :=
  fold_left
    (fun computed kv =>
       map_assign computed (fst kv) (retrieved_value retrieved (fst kv)))
    current computed.

(** The resource data after the part the read and the import share ran
    on the class parameters [raw] sent back by the inventory. *)
Definition class_parameters_read (d : ResourceData) (raw : string)
  : ResourceData :=
  let retrieved := ParseQuery raw in
  let d' :=
    match index retrieved "gateway" with
    | Some (gateway :: _) => Set_ d "gateway" (VString gateway)
    | _ => d
    end in
  Set_ d' "class_parameters"
    (map_value
       (computed_class_parameters (get_map d "class_parameters") retrieved [])).

(** The fields a read of a subnet takes from the record. *)
Definition ipsubnet_fields : list string :=
  ["site_name"; "parent_subnet_name"; "subnet_name"; "subnet_class_name";
   "is_terminal"; "subnet_class_parameters"].

Definition ip6subnet_fields : list string :=
  ["site_name"; "parent_subnet6_name"; "subnet6_name"; "subnet6_class_name";
   "is_terminal"; "subnet6_class_parameters"].

(** The fields an import of an IPv4 subnet takes from the record. *)
Definition ipsubnet_import_fields : list string :=
  ["site_name"; "parent_subnet_name"; "subnet_name"; "start_ip_addr";
   "subnet_size"; "subnet_class_name"; "subnet_class_parameters"].

(** The resource data after [resourceipsubnetRead] found [record]. *)
Definition ipsubnet_read (d : ResourceData) (record : GoMap) : ResourceData :=
  let d := Set_ d "space" (VString (text record "site_name")) in
  let d := Set_ d "block" (VString (text record "parent_subnet_name")) in
  let d := Set_ d "name" (VString (text record "subnet_name")) in
  let d := Set_ d "class" (VString (text record "subnet_class_name")) in
  let d :=
    Set_ d "terminal" (VBool (String.eqb (text record "is_terminal") "1")) in
  class_parameters_read d (text record "subnet_class_parameters").

(** The resource data after [resourceip6subnetRead] or
    [resourceip6subnetImportState] found [record]. *)
Definition ip6subnet_read (d : ResourceData) (record : GoMap) : ResourceData :=
  let d := Set_ d "space" (VString (text record "site_name")) in
  let d := Set_ d "block" (VString (text record "parent_subnet6_name")) in
  let d := Set_ d "name" (VString (text record "subnet6_name")) in
  let d := Set_ d "class" (VString (text record "subnet6_class_name")) in
  let d :=
    Set_ d "terminal" (VBool (String.eqb (text record "is_terminal") "1")) in
  class_parameters_read d (text record "subnet6_class_parameters").

(** The resource data after [resourceipsubnetImportState] found
    [record]. *)
Definition ipsubnet_imported (d : ResourceData) (record : GoMap)
  : ResourceData :=
  let address := Codec.hexiptoip (text record "start_ip_addr") in
  let subnet_size :=
    match Go.Atoi (text record "subnet_size") with
    | Some n => n
    | None => 0
    end in
  let prefix_length := sizetoprefixlength subnet_size in
  let d := Set_ d "space" (VString (text record "site_name")) in
  let d := Set_ d "block" (VString (text record "parent_subnet_name")) in
  let d := Set_ d "name" (VString (text record "subnet_name")) in
  let d := Set_ d "request_ip" (VString "") in
  let d := Set_ d "address" (VString address) in
  let d :=
    Set_ d "prefix" (VString (address ++ "/" ++ Go.Itoa prefix_length)) in
  let d := Set_ d "prefix_size" (VInt prefix_length) in
  let d :=
    Set_ d "netmask" (VString (Codec.prefixlengthtohexip prefix_length)) in
  let d := Set_ d "gateway_offset" (VInt 0) in
  let d := Set_ d "class" (VString (text record "subnet_class_name")) in
  class_parameters_read d (text record "subnet_class_parameters").

(** The read of a resource went through as far as the answer allows:
    a transport error and an entity that is not found are reported and
    leave the data alone, a found record is taken over by [taken], and a
    record without one of its [fields] stops the read on a failed
    assertion. *)
Definition read_outcome {R} (fromErr : error -> R) (ok : R)
  (not_found : ResourceData -> R) (fields : list string)
  (taken : ResourceData -> GoMap -> ResourceData)
  (d : ResourceData) (answer : error + Response) (r : Res R unit)
  (d' : ResourceData) : Prop :=
  match answer with
  | inl err => r = Return (fromErr err) /\ d' = d
  | inr resp =>
      if found resp then
        if fields_ok (nth 0 (buf resp) []) fields
        then r = Return ok /\ d' = taken d (nth 0 (buf resp) [])
        else (exists msg, r = Panic msg)
             /\ Id d' = Id d /\ d_schema d' = d_schema d
      else r = Return (not_found d) /\ d' = d
  end.

(* ================================================================== *)
(** ** Existing resources and the answers of their inventory *)
(* ================================================================== *)

Module Fixture.

(** The /24 [lan] as its creation with the gateway offset -1 left it,
    with two declared class parameters. *)
Definition lan_attrs : GoMap :=
  [ ("gateway", VString "10.0.0.254"); ("netmask", VString "255.255.255.0");
    ("address", VString "10.0.0.0"); ("prefix", VString "10.0.0.0/24");
    ("space", VString "Local"); ("block", VString "office");
    ("prefix_size", VInt 24); ("gateway_offset", VInt (-1));
    ("name", VString "lan");
    ("class_parameters",
     VMap [("vlan", VString "12"); ("owner", VString "net ops")]) ].

(** The /64 [lan6], created with the gateway offset 1. *)
Definition lan6_attrs : GoMap :=
  [ ("gateway", VString "2001:0db8:0000:0000:0000:0000:0000:0001");
    ("address", VString "2001:0db8:0000:0000:0000:0000:0000:0000");
    ("prefix", VString "2001:0db8:0000:0000:0000:0000:0000:0000/64");
    ("space", VString "Local"); ("block", VString "office");
    ("prefix_size", VInt 64); ("gateway_offset", VInt 1);
    ("name", VString "lan6");
    ("class_parameters", VMap [("vlan", VString "12")]) ].

(** The VLAN [voice], number 100 of the domain [campus]. *)
Definition voice_attrs : GoMap :=
  [ ("vlan_domain", VString "campus"); ("vlan_id", VInt 100);
    ("name", VString "voice") ].

Definition lan (script : list (error + Response)) :=
  Mock.machine resourceipsubnet "77" lan_attrs script.

Definition lan6 (script : list (error + Response)) :=
  Mock.machine resourceip6subnet "78" lan6_attrs script.

Definition voice (script : list (error + Response)) :=
  Mock.machine resourcevlan "9" voice_attrs script.

(** A resource known by its id alone, about to be imported. *)
Definition bare (sch : list (string * Schema)) (id : string)
  (script : list (error + Response)) :=
  Mock.machine sch id [] script.

(** Answers of the inventory. *)
Definition unreachable : error + Response := inl "connection refused".

Definition deleted : error + Response := inr (mkResponse 204 []).

Definition refused (status : Z) (errmsg : string) : error + Response :=
  inr (mkResponse status [[("errmsg", VString errmsg)]]).

Definition silent (status : Z) : error + Response :=
  inr (mkResponse status []).

Definition record (fields : GoMap) : error + Response :=
  inr (mkResponse 200 [fields]).

(** The record of [lan] in the inventory: one more class parameter than
    declared, one declared parameter missing. *)
Definition lan_record : GoMap :=
  [ ("site_name", VString "Local"); ("parent_subnet_name", VString "office");
    ("subnet_name", VString "lan-renamed"); ("subnet_class_name", VString "");
    ("is_terminal", VString "1");
    ("subnet_class_parameters",
     VString "gateway=10.0.0.254&vlan=13&rack=b%2F4");
    ("start_ip_addr", VString "0a000000"); ("subnet_size", VString "256") ].

(** The same record without its class parameters. *)
Definition lan_record_short : GoMap :=
  [ ("site_name", VString "Local"); ("parent_subnet_name", VString "office");
    ("subnet_name", VString "lan"); ("subnet_class_name", VString "");
    ("is_terminal", VString "1") ].

Definition lan6_record : GoMap :=
  [ ("site_name", VString "Local"); ("parent_subnet6_name", VString "office");
    ("subnet6_name", VString "lan6"); ("subnet6_class_name", VString "");
    ("is_terminal", VString "1");
    ("subnet6_class_parameters", VString "vlan=13") ].

(** The records of [lan] and [lan6] with the class parameters as an
    update sends them. *)
Definition lan_echo : GoMap :=
  [ ("site_name", VString "Local"); ("parent_subnet_name", VString "office");
    ("subnet_name", VString "lan"); ("subnet_class_name", VString "");
    ("is_terminal", VString "1");
    ("subnet_class_parameters",
     VString "gateway=10.0.0.254&owner=net+ops&vlan=12") ].

Definition lan6_echo : GoMap :=
  [ ("site_name", VString "Local"); ("parent_subnet6_name", VString "office");
    ("subnet6_name", VString "lan6"); ("subnet6_class_name", VString "");
    ("is_terminal", VString "1");
    ("subnet6_class_parameters",
     VString "gateway=2001%3A0db8%3A0000%3A0000%3A0000%3A0000%3A0000%3A0001&vlan=12") ].

Definition voice_record : GoMap :=
  [ ("vlmvlan_vlan_id", VString "100"); ("vlmvlan_name", VString "voice2") ].

(** A creation with the gateway offset -1, followed by what the script
    holds for the calls after it. *)
Definition fresh4 (script : list (error + Response)) :=
  Mock.machine resourceipsubnet "" (Mock.subnet_attrs (-1))
    (Mock.created "77" :: script).

Definition fresh6 (script : list (error + Response)) :=
  Mock.machine resourceip6subnet "" (Mock.subnet6_attrs (-1))
    (Mock.created "78" :: script).

End Fixture.

(* ================================================================== *)
(** ** The calls of a creation against the candidates of its search *)
(* ================================================================== *)

(** The reservation calls among [evs] go through the candidates in the
    order of the search, one call per candidate from the first one on,
    and the parameters of each call stand in the relation [P] to its
    candidate. *)
Definition calls_with (P : Values -> string -> Prop)
  (candidates : list string) (evs : list Event) : Prop :=
  Forall2 (fun e candidate => P (parameters_of e) candidate)
    (requests evs)
    (firstn (List.length (requests evs)) candidates).

(** Each call creates and never overwrites ([new_only]), and carries its
    candidate, in the notation [wire] of the inventory, under [key]. *)
Definition calls_for (key : string) (wire : string -> string)
  : list string -> list Event -> Prop :=
  calls_with
    (fun parameters candidate =>
       index parameters "add_flag" = Some "new_only"
       /\ index parameters key = Some (wire candidate)).

(** The class parameters of the reservation call for a candidate: the
    gateway computed for this candidate when an offset is set, then the
    declared parameters. *)
Definition ipsubnet_class_parameters (d : ResourceData) (candidate : string)
  : Values :=
  ((if get_int d "gateway_offset" =? 0 then []
    else [("gateway",
           ipsubnet_gateway candidate (get_int d "prefix_size")
             (get_int d "gateway_offset"))])
   ++ strings_of (get_map d "class_parameters"))%list.

Definition ip6subnet_class_parameters (d : ResourceData) (candidate : string)
  : Values :=
  ((if get_int d "gateway_offset" =? 0 then []
    else match Go.big_SetString16 candidate with
         | Some bigStartAddr =>
             [("gateway",
               ip6subnet_gateway_at bigStartAddr (get_int d "prefix_size")
                 (get_int d "gateway_offset"))]
         | None => []
         end)
   ++ strings_of (get_map d "class_parameters"))%list.

(** What the loops send for a candidate. *)
Definition ipsubnet_call (d : ResourceData) (parameters : Values)
  (candidate : string) : Prop :=
  index parameters "add_flag" = Some "new_only"
  /\ index parameters "subnet_addr" = Some (Codec.hexiptoip candidate)
  /\ index parameters "subnet_class_parameters"
     = Some (Go.Encode (ipsubnet_class_parameters d candidate)).

Definition ip6subnet_call (d : ResourceData) (parameters : Values)
  (candidate : string) : Prop :=
  index parameters "add_flag" = Some "new_only"
  /\ index parameters "subnet6_addr" = Some (Codec.hexip6toip6 candidate)
  /\ index parameters "subnet6_class_parameters"
     = Some (Go.Encode (ip6subnet_class_parameters d candidate)).

Definition vlan_call (parameters : Values) (candidate : string) : Prop :=
  index parameters "add_flag" = Some "new_only"
  /\ index parameters "vlmvlan_vlan_id" = Some candidate.
(** The values of [key] among the pairs, in their order. *)
Definition values_of (key : string) (l : Values) : list string :=
  map snd (filter (fun kv => String.eqb (fst kv) key) l).

(** One [key=value] setting, as [Encode] writes it. *)
Definition setting (kv : string * string) : string :=
  (Go.QueryEscape (fst kv) ++ "=" ++ Go.QueryEscape (snd kv))%string.

(* ================================================================== *)
(** ** The scenarios of the examples *)
(* ================================================================== *)

Module Scenario.

(** An update of [lan] that the inventory accepts. *)
Definition accepted4 :=
  Fixture.lan [Mock.created "77"].

(** An update of [lan6] that the inventory accepts. *)
Definition accepted6 :=
  Fixture.lan6 [Mock.created "78"].

(** An update of [lan] answered with another entity id. *)
Definition moved4 :=
  Fixture.lan [Mock.created "80"].

(** An update of [lan6] that the inventory refuses. *)
Definition read_only6 :=
  Fixture.lan6 [Fixture.refused 400 "read only"].

(** The gateway of [lan] cannot be freed. *)
Definition gateway_in_use4 :=
  Fixture.lan [Fixture.refused 500 "address in use"].

(** The inventory is away when the gateway of [lan6] is freed. *)
Definition gateway_unreachable6 :=
  Fixture.lan6 [Fixture.unreachable].

(** The inventory is away for the gateway of [lan] and back for [lan] itself. *)
Definition gateway_stuck4 :=
  Fixture.lan [Fixture.unreachable; Fixture.deleted].

(** Both deletions of [lan6] go through. *)
Definition removed6 :=
  Fixture.lan6 [Fixture.deleted; Fixture.deleted].

(** The deletion of [lan6] is answered by a 201. *)
Definition half_removed6 :=
  Fixture.lan6 [Fixture.deleted; Mock.created "78"].

(** A creation of [lan] with the offset -1, then an update. *)
Definition updated4 :=
  Fixture.fresh4 [Mock.created "77"].

(** A creation of [lan6] with the offset -1, then an update. *)
Definition updated6 :=
  Fixture.fresh6 [Mock.created "78"].

(** A creation of [lan] with the offset -1, then a deletion. *)
Definition dropped4 :=
  Fixture.fresh4 [Fixture.deleted; Fixture.deleted].

(** A creation of [lan6] with the offset -1, then a deletion. *)
Definition dropped6 :=
  Fixture.fresh6 [Fixture.deleted; Fixture.deleted].

(** The inventory knows [lan] under another name. *)
Definition refreshed4 :=
  Fixture.lan [Fixture.record Fixture.lan_record].

(** The inventory knows [lan6]. *)
Definition refreshed6 :=
  Fixture.lan6 [Fixture.record Fixture.lan6_record].

(** The inventory does not know [lan]. *)
Definition unknown4 :=
  Fixture.lan [Fixture.refused 404 "not found"].

(** The inventory does not know [voice]. *)
Definition unknown_vlan :=
  Fixture.voice [Fixture.silent 204].

(** The record of [lan] comes without its class parameters. *)
Definition truncated4 :=
  Fixture.lan [Fixture.record Fixture.lan_record_short].

(** The import of [lan], then its deletion. *)
Definition imported4 :=
  Fixture.bare resourceipsubnet "77"
    [Fixture.record Fixture.lan_record; Fixture.deleted].

(** The import of [lan6]. *)
Definition imported6 :=
  Fixture.bare resourceip6subnet "78" [Fixture.record Fixture.lan6_record].

(** The inventory does not know [voice] any more. *)
Definition gone_vlan :=
  Fixture.voice [Fixture.silent 404].

(** The deletion of [voice] meets an internal error without a message. *)
Definition failing_vlan :=
  Fixture.voice [Fixture.silent 500].

(** The inventory knows [voice] under another name. *)
Definition refreshed_vlan :=
  Fixture.voice [Fixture.record Fixture.voice_record].

(** The import of [voice]. *)
Definition imported_vlan :=
  Fixture.bare resourcevlan "9" [Fixture.record Fixture.voice_record].

(** An update of [lan] that the inventory refuses with a message. *)
Definition refused4 :=
  Fixture.lan [Fixture.refused 400 "read only"].

(** The gateway of [lan] is freed, [lan] itself is not. *)
Definition kept4 :=
  Fixture.lan [Fixture.deleted; Fixture.refused 400 "subnet in use"].

(** The gateway of [lan6] is freed, [lan6] itself is not. *)
Definition kept6 :=
  Fixture.lan6 [Fixture.deleted; Fixture.refused 400 "subnet in use"].

(** The inventory holds the class parameters of [lan] as an update sends them. *)
Definition echoed4 :=
  Fixture.lan [Fixture.record Fixture.lan_echo].

(** The inventory holds the class parameters of [lan6] as an update sends them. *)
Definition echoed6 :=
  Fixture.lan6 [Fixture.record Fixture.lan6_echo].

(** An IPv4 subnet that the inventory does not know is imported. *)
Definition lost4 :=
  Fixture.bare resourceipsubnet "77" [Fixture.refused 404 "not found"].

(** The inventory is away when an IPv6 subnet is imported. *)
Definition lost6 :=
  Fixture.bare resourceip6subnet "78" [Fixture.unreachable].

(** A VLAN that the inventory does not know is imported. *)
Definition lost_vlan :=
  Fixture.bare resourcevlan "9" [Fixture.silent 200].

(** An inventory whose searches find no candidate. *)
Definition full :=
  Mock.scripted (inr "2") (inr Mock.block24) (inr []).

End Scenario.

(** Running the other resource functions against the test inventories. *)
Abbreviation update4 st := (resourceipsubnetUpdate Mock.inventory4 st) (only parsing).
Abbreviation update6 st := (resourceip6subnetUpdate Mock.inventory6 st) (only parsing).
Abbreviation free4 st := (resourceipsubnetgatewayDelete Mock.inventory4 st) (only parsing).
Abbreviation free6 st := (resourceip6subnetgatewayDelete Mock.inventory6 st) (only parsing).
Abbreviation delete4 st := (resourceipsubnetDelete Mock.inventory4 st) (only parsing).
Abbreviation delete6 st := (resourceip6subnetDelete Mock.inventory6 st) (only parsing).
Abbreviation read4 st := (resourceipsubnetRead Mock.inventory4 st) (only parsing).
Abbreviation read6 st := (resourceip6subnetRead Mock.inventory6 st) (only parsing).
Abbreviation import4 st := (resourceipsubnetImportState Mock.inventory4 st) (only parsing).
Abbreviation import6 st := (resourceip6subnetImportState Mock.inventory6 st) (only parsing).
Abbreviation exists_vlan st := (resourcevlanExists Mock.inventory_vlan st) (only parsing).
Abbreviation delete_vlan st := (resourcevlanDelete Mock.inventory_vlan st) (only parsing).
Abbreviation read_vlan st := (resourcevlanRead Mock.inventory_vlan st) (only parsing).
Abbreviation import_vlan st := (resourcevlanImportState Mock.inventory_vlan st) (only parsing).
Abbreviation run_full4 st := (resourceipsubnetCreate Scenario.full st) (only parsing).
Abbreviation run_full6 st := (resourceip6subnetCreate Scenario.full st) (only parsing).
Abbreviation run_full_vlan st := (resourcevlanCreate Scenario.full st) (only parsing).
Abbreviation found_full4 st := (ipsubnet_candidates Scenario.full st) (only parsing).
Abbreviation found_full6 st := (ip6subnet_candidates Scenario.full st) (only parsing).
Abbreviation found_full_vlan st := (vlan_candidates Scenario.full st) (only parsing).

(* ================================================================== *)
(** ** Laws of the monad and of the typed reads *)
(* ================================================================== *)

Section MonadLaws.
Context {W R : Type}.
Implicit Types st : St W.

Lemma bind_ret {A B} (a : A) (k : A -> M W R B) st :
  bind (ret a) k st = k a st.
Proof. reflexivity. Qed.

Lemma bind_return {A B} (r : R) (k : A -> M W R B) st :
  bind (return_ r) k st = (Return r, st).
Proof. reflexivity. Qed.

Lemma bind_panic {A B} (msg : string) (k : A -> M W R B) st :
  bind (panic msg) k st = (Panic msg, st).
Proof. reflexivity. Qed.

Lemma bind_assoc {A B C} (c : M W R A) (k : A -> M W R B)
  (k' : B -> M W R C) st :
  bind (bind c k) k' st = bind c (fun a => bind (k a) k') st.
Proof. unfold bind. destruct (c st) as [[a | r | msg] st1]; reflexivity. Qed.

Lemma bind_get_d {B} (k : ResourceData -> M W R B) st :
  bind get_d k st = k (data st) st.
Proof. reflexivity. Qed.

Lemma bind_put_d {B} (d : ResourceData) (k : unit -> M W R B) st :
  bind (put_d d) k st
  = k tt (mkSt (world st) d (entropy st) (drawn st) (trace st)).
Proof. reflexivity. Qed.

Lemma bind_emit {B} (e : Event) (k : unit -> M W R B) st :
  bind (emit e) k st
  = k tt (mkSt (world st) (data st) (entropy st) (drawn st)
            (trace st ++ [e])%list).
Proof. reflexivity. Qed.

Lemma bind_rand_Intn {B} (n : Z) (k : Z -> M W R B) st :
  bind (rand_Intn n) k st
  = k (entropy st (drawn st) mod n)
      (mkSt (world st) (data st) (entropy st) (S (drawn st)) (trace st)).
Proof. reflexivity. Qed.

Lemma bind_on_world {A B} (f : W -> W * A) (k : A -> M W R B) st :
  bind (on_world f) k st
  = k (snd (f (world st)))
      (mkSt (fst (f (world st))) (data st) (entropy st) (drawn st)
         (trace st)).
Proof. unfold bind, on_world. destruct (f (world st)); reflexivity. Qed.

End MonadLaws.

Lemma has_type_string v : has_type v TypeString = true -> exists x, v = VString x.
Proof. destruct v; simpl; try discriminate; eauto. Qed.

Lemma has_type_int v : has_type v TypeInt = true -> exists i, v = VInt i.
Proof. destruct v; simpl; try discriminate; eauto. Qed.

Lemma has_type_bool v : has_type v TypeBool = true -> exists b, v = VBool b.
Proof. destruct v; simpl; try discriminate; eauto. Qed.

Lemma has_type_map v :
  has_type v TypeMap = true ->
  exists m, v = VMap m /\ forallb (fun kv => is_string (snd kv)) m = true.
Proof. destruct v; simpl; try discriminate; eauto. Qed.

Lemma zero_value_typed t : has_type (zero_value t) t = true.
Proof. destruct t; reflexivity. Qed.

Lemma default_value_typed sc : has_type (default_value sc) (Type_ sc) = true.
Proof.
  unfold default_value. destruct (Default sc) as [v |].
  - destruct (has_type v (Type_ sc)) eqn:E; [exact E | apply zero_value_typed].
  - apply zero_value_typed.
Qed.

(** [d.Get] never hands out a value of another type than the schema's. *)
Lemma Get_typed d key t :
  schema_type (d_schema d) key = Some t -> has_type (Get d key) t = true.
Proof.
  unfold schema_type, Get. destruct (index (d_schema d) key) as [sc |];
    simpl; [| discriminate].
  intros E. injection E as <-.
  destruct (index (d_attrs d) key) as [v |].
  - destruct (has_type v (Type_ sc)) eqn:E; [exact E | apply default_value_typed].
  - apply default_value_typed.
Qed.

Lemma Get_string d key :
  schema_type (d_schema d) key = Some TypeString ->
  Get d key = VString (get_str d key).
Proof.
  intros H. apply Get_typed in H. apply has_type_string in H as [x E].
  unfold get_str. rewrite E. reflexivity.
Qed.

Lemma Get_int d key :
  schema_type (d_schema d) key = Some TypeInt ->
  Get d key = VInt (get_int d key).
Proof.
  intros H. apply Get_typed in H. apply has_type_int in H as [x E].
  unfold get_int. rewrite E. reflexivity.
Qed.

Lemma Get_bool d key :
  schema_type (d_schema d) key = Some TypeBool ->
  Get d key = VBool (get_bool d key).
Proof.
  intros H. apply Get_typed in H. apply has_type_bool in H as [x E].
  unfold get_bool. rewrite E. reflexivity.
Qed.

Lemma Get_map d key :
  schema_type (d_schema d) key = Some TypeMap ->
  Get d key = VMap (get_map d key)
  /\ forallb (fun kv => is_string (snd kv)) (get_map d key) = true.
Proof.
  intros H. apply Get_typed in H. apply has_type_map in H as [x [E F]].
  unfold get_map. rewrite E. auto.
Qed.

Section TypedReads.
Context {W R : Type}.
Implicit Types st : St W.

Lemma bind_d_string {B} key (k : string -> M W R B) st :
  schema_type (d_schema (data st)) key = Some TypeString ->
  bind (d_string key) k st = k (get_str (data st) key) st.
Proof.
  intros H. unfold d_string. rewrite bind_assoc, bind_get_d.
  rewrite (Get_string _ _ H). reflexivity.
Qed.

Lemma bind_d_int {B} key (k : Z -> M W R B) st :
  schema_type (d_schema (data st)) key = Some TypeInt ->
  bind (d_int key) k st = k (get_int (data st) key) st.
Proof.
  intros H. unfold d_int. rewrite bind_assoc, bind_get_d.
  rewrite (Get_int _ _ H). reflexivity.
Qed.

Lemma bind_d_bool {B} key (k : bool -> M W R B) st :
  schema_type (d_schema (data st)) key = Some TypeBool ->
  bind (d_bool key) k st = k (get_bool (data st) key) st.
Proof.
  intros H. unfold d_bool. rewrite bind_assoc, bind_get_d.
  rewrite (Get_bool _ _ H). reflexivity.
Qed.

Lemma range_class_parameters_typed (m : GoMap) (cp : Values) st :
  forallb (fun kv => is_string (snd kv)) m = true ->
  range_class_parameters (R := R) m cp st
  = (Next (cp ++ strings_of m)%list, st).
Proof.
  revert cp. induction m as [| [k v] m IH]; intros cp H; simpl.
  - rewrite app_nil_r. reflexivity.
  - simpl in H. apply andb_true_iff in H as [Hv Hm].
    destruct v; try discriminate Hv.
    simpl. rewrite bind_ret, (IH _ Hm). unfold Values_Add.
    rewrite <- app_assoc. reflexivity.
Qed.

(** Reading the class parameters and adding them all, in one step. *)
Lemma bind_class_parameters {B} key (cp : Values)
  (k : Values -> M W R B) st :
  schema_type (d_schema (data st)) key = Some TypeMap ->
  bind (d_map key) (fun m => bind (range_class_parameters m cp) k) st
  = k (cp ++ strings_of (get_map (data st) key))%list st.
Proof.
  intros H. unfold d_map. rewrite bind_assoc, bind_get_d.
  destruct (Get_map _ _ H) as [E F]. rewrite E. simpl assert_map.
  rewrite bind_ret. unfold bind at 1.
  rewrite (range_class_parameters_typed _ _ _ F). reflexivity.
Qed.

End TypedReads.

(* ================================================================== *)
(** ** Facts about the runs of the reservation loop *)
(* ================================================================== *)

Lemma events_since_app {W} (st st' : St W) evs :
  trace st' = (trace st ++ evs)%list -> events_since st st' = evs.
Proof.
  intros H. unfold events_since. rewrite H.
  rewrite skipn_app, skipn_all, Nat.sub_diag. reflexivity.
Qed.

Lemma requests_app evs1 evs2 :
  requests (evs1 ++ evs2) = (requests evs1 ++ requests evs2)%list.
Proof. apply filter_app. Qed.

Lemma requests_queries qs : forallb is_query qs = true -> requests qs = [].
Proof.
  induction qs as [| q qs IH]; simpl; [reflexivity |].
  intros H. apply andb_true_iff in H as [Hq Hqs].
  destruct q; try discriminate Hq. simpl. auto.
Qed.

Lemma queries_no_answer qs e :
  forallb is_query qs = true -> In e qs -> answer_of e = None.
Proof.
  intros H Hin. rewrite forallb_forall in H. specialize (H e Hin).
  destruct e; try discriminate H. reflexivity.
Qed.

(** Splitting a list in two ways around an element that is not in the
    first prefix. *)
Lemma app_cons_split {A} (pre : list A) x rest a y b :
  (pre ++ x :: rest = a ++ y :: b)%list ->
  ~ In y pre ->
  (a = pre /\ x = y /\ rest = b)
  \/ (exists a', a = (pre ++ x :: a')%list /\ rest = (a' ++ y :: b)%list).
Proof.
  revert a. induction pre as [| z pre IH]; intros a H Hn.
  - destruct a as [| a0 a]; simpl in H.
    + injection H as -> ->. left. auto.
    + injection H as -> ->. right. exists a. auto.
  - destruct a as [| a0 a]; simpl in H.
    + injection H as <- _. exfalso. apply Hn. left. reflexivity.
    + injection H as <- H.
      destruct (IH a H) as [(-> & -> & ->) | (a' & -> & ->)].
      * intros Hy. apply Hn. right. exact Hy.
      * left. auto.
      * right. exists a'. auto.
Qed.

Section RunFacts.
Variables (service : string) (jitter : bool).

Lemma delay_sleeps pre e :
  delay jitter pre -> In e pre -> is_sleep e = true.
Proof.
  unfold delay. destruct jitter.
  - intros (n & _ & ->) [<- | []]. reflexivity.
  - intros -> [].
Qed.

Lemma delay_requests pre : delay jitter pre -> requests pre = [].
Proof.
  unfold delay. destruct jitter.
  - intros (n & _ & ->). reflexivity.
  - intros ->. reflexivity.
Qed.

Lemma delay_not_request pre e :
  delay jitter pre -> is_request e = true -> ~ In e pre.
Proof.
  intros Hd He Hin. apply (delay_sleeps _ _ Hd) in Hin.
  destruct e; discriminate.
Qed.

(** No more calls than candidates. *)
Lemma Run_requests_le cands evs o :
  Run service jitter cands evs o ->
  (List.length (requests evs) <= List.length cands)%nat.
Proof.
  induction 1; simpl; try lia.
  - rewrite requests_app, (delay_requests _ H). simpl. lia.
  - rewrite requests_app, (delay_requests _ H). simpl. lia.
  - rewrite requests_app, (delay_requests _ H). simpl.
    fold (requests evs). lia.
Qed.

(** When every call conflicts, each candidate is tried once and the
    loop falls through. *)
Lemma Run_all_conflicts cands evs o :
  Run service jitter cands evs o ->
  all_conflicts evs ->
  o <> Crashed ->
  o = Exhausted /\ List.length (requests evs) = List.length cands.
Proof.
  induction 1 as [| | c rest pre p err Hd | c rest pre p resp oid Hd Hr
                  | c rest pre p resp evs o Hd Hr HR IH]; intros Hall Hc.
  - auto.
  - contradiction.
  - exfalso. specialize (Hall "post" service p (inl err)).
    rewrite in_app_iff in Hall. simpl in Hall.
    assert (false = true) by auto. discriminate.
  - exfalso. specialize (Hall "post" service p (inr resp)).
    rewrite in_app_iff in Hall. unfold conflict in Hall. rewrite Hr in Hall.
    assert (false = true) by (apply Hall; simpl; auto). discriminate.
  - destruct IH as [-> Hlen]; [| exact Hc |].
    + intros m sv q a Hin. apply (Hall m sv q a).
      rewrite in_app_iff. right. right. exact Hin.
    + split; [reflexivity |].
      rewrite requests_app, (delay_requests _ Hd). simpl.
      fold (requests evs). rewrite Hlen. reflexivity.
Qed.

(** A transport error ends the run on the spot. *)
Lemma Run_transport_last cands evs o a m sv p err b :
  Run service jitter cands evs o ->
  evs = (a ++ EvRequest m sv p (inl err) :: b)%list ->
  b = [] /\ o = Failed err.
Proof.
  intros HR. revert a.
  induction HR as [| | c rest pre q err' Hd | c rest pre q resp oid Hd Hr
                   | c rest pre q resp evs o Hd Hr HR IH]; intros a E.
  - destruct a; discriminate E.
  - destruct a; discriminate E.
  - apply app_cons_split in E;
      [| apply (delay_not_request _ _ Hd); reflexivity].
    destruct E as [(_ & E & <-) | (a' & _ & E)].
    + injection E as _ _ _ <-. auto.
    + destruct a'; discriminate E.
  - apply app_cons_split in E;
      [| apply (delay_not_request _ _ Hd); reflexivity].
    destruct E as [(_ & E & _) | (a' & _ & E)].
    + discriminate E.
    + destruct a'; discriminate E.
  - apply app_cons_split in E;
      [| apply (delay_not_request _ _ Hd); reflexivity].
    destruct E as [(_ & E & _) | (a' & _ & E)].
    + discriminate E.
    + apply (IH a' E).
Qed.

(** A reservation ends the run with the successful call. *)
Lemma Run_reserved_last cands evs c oid :
  Run service jitter cands evs (Reserved c oid) ->
  In c cands
  /\ exists before p resp,
       evs = (before ++ [EvRequest "post" service p (inr resp)])%list
       /\ reserved (inr resp) = Some oid.
Proof.
  intros HR. remember (Reserved c oid) as o eqn:Eo.
  induction HR as [| | c' rest pre q err' Hd | c' rest pre q resp oid' Hd Hr
                   | c' rest pre q resp evs o Hd Hr HR IH];
    try discriminate Eo.
  - injection Eo as -> ->. split; [left; reflexivity |].
    exists pre, q, resp. auto.
  - destruct (IH Eo) as (Hin & before & p & resp' & -> & Hres).
    split; [right; exact Hin |].
    exists (pre ++ EvRequest "post" service q (inr resp) :: before)%list,
      p, resp'.
    split; [| exact Hres]. rewrite <- app_assoc. reflexivity.
Qed.

(** The run ends in a reservation exactly when one of its calls was
    answered by a success. *)
Lemma Run_success_iff cands evs o :
  Run service jitter cands evs o ->
  (exists c oid, o = Reserved c oid)
  <-> (exists e a oid,
         In e evs /\ answer_of e = Some a /\ reserved a = Some oid).
Proof.
  intros HR. split.
  - intros (c & oid & ->).
    destruct (Run_reserved_last _ _ _ _ HR) as (_ & before & p & resp & -> & H).
    exists (EvRequest "post" service p (inr resp)), (inr resp), oid.
    split; [| auto]. rewrite in_app_iff. right. left. reflexivity.
  - induction HR as [| | c rest pre q err' Hd | c rest pre q resp oid' Hd Hr
                     | c rest pre q resp evs o Hd Hr HR IH];
      intros (e & a & oid & Hin & Ha & Hres).
    + destruct Hin.
    + destruct Hin.
    + exfalso. rewrite in_app_iff in Hin. destruct Hin as [Hin | [<- | []]].
      * apply (delay_sleeps _ _ Hd) in Hin. destruct e; discriminate.
      * injection Ha as <-. discriminate Hres.
    + eauto.
    + rewrite in_app_iff in Hin. destruct Hin as [Hin | [<- | Hin]].
      * exfalso. apply (delay_sleeps _ _ Hd) in Hin. destruct e; discriminate.
      * exfalso. injection Ha as <-. rewrite Hr in Hres. discriminate.
      * apply IH. exists e, a, oid. auto.
Qed.

End RunFacts.

Lemma delay_bound n :
  0 <= n < 1000 -> 0 <= n * time_Millisecond < time_Second.
Proof. unfold time_Second, time_Millisecond. lia. Qed.

(** With the jitter, every call of a run comes right after its sleep. *)
Lemma Run_delayed service cands evs o :
  Run service true cands evs o -> delayed evs.
Proof.
  induction 1 as [| | c rest pre q err' Hd | c rest pre q resp oid' Hd Hr
                  | c rest pre q resp evs o Hd Hr HR IH];
    intros before e after E He.
  - destruct before; discriminate E.
  - destruct before; discriminate E.
  - apply app_cons_split in E; [| apply (delay_not_request true _ _ Hd He)].
    destruct Hd as (n & Hn & ->).
    destruct E as [(-> & _ & _) | (a' & _ & E)].
    + exists [], (n * time_Millisecond). split; [reflexivity | apply delay_bound, Hn].
    + destruct a'; discriminate E.
  - apply app_cons_split in E; [| apply (delay_not_request true _ _ Hd He)].
    destruct Hd as (n & Hn & ->).
    destruct E as [(-> & _ & _) | (a' & _ & E)].
    + exists [], (n * time_Millisecond). split; [reflexivity | apply delay_bound, Hn].
    + destruct a'; discriminate E.
  - apply app_cons_split in E; [| apply (delay_not_request true _ _ Hd He)].
    destruct Hd as (n & Hn & ->).
    destruct E as [(-> & _ & _) | (a' & -> & E)].
    + exists [], (n * time_Millisecond). split; [reflexivity | apply delay_bound, Hn].
    + destruct (IH _ _ _ E He) as (b' & dur & -> & Hdur).
      exists ([EvSleep (n * time_Millisecond)]
                ++ EvRequest "post" service q (inr resp) :: b')%list, dur.
      split; [| exact Hdur]. rewrite <- app_assoc. reflexivity.
Qed.

(** Without the jitter, a run is made of inventory calls only. *)
Lemma Run_only_requests service cands evs o :
  Run service false cands evs o -> forallb is_request evs = true.
Proof.
  induction 1 as [| | c rest pre q err' Hd | c rest pre q resp oid' Hd Hr
                  | c rest pre q resp evs o Hd Hr HR IH];
    try reflexivity; simpl in Hd; subst pre; simpl; auto.
Qed.

(* ================================================================== *)
(** ** The loops refine the state machine *)
(* ================================================================== *)

Lemma delay_jitter (x : Z) :
  delay true [EvSleep (x mod 1000 * time_Millisecond)].
Proof.
  exists (x mod 1000). split; [apply Z.mod_pos_bound; lia | reflexivity].
Qed.

Lemma length_zero_iff_empty (x : string) :
  Nat.eqb (String.length x) 0 = true <-> x = "".
Proof.
  destruct x; simpl; split; intros H; try reflexivity; discriminate H.
Qed.

Ltac typed Hs := cbn [data]; rewrite Hs; reflexivity.

(** Conclude an attempt from what [check_answer] says. *)
Ltac conclude Hrun IH Hs c pfx :=
  let w' := fresh "w'" in let answer := fresh "answer" in
  let err := fresh "err" in let resp := fresh "resp" in
  let oid := fresh "oid" in let Hres := fresh "Hres" in
  let evs := fresh "evs" in let o := fresh "o" in
  let HR := fresh "HR" in let Ht := fresh "Ht" in
  let Hr := fresh "Hr" in let Hok := fresh "Hok" in
  destruct Hrun as (w' & answer & Hrun);
  destruct answer as [err | resp];
  [ destruct Hrun as [-> ->];
    eexists; exists (Failed err); cbn [trace data];
    rewrite <- ?app_assoc;
    split; [apply Run_failed with (pre := pfx) | split; [reflexivity |]]
  | cbv zeta in Hrun; destruct (reserved (inr resp)) as [oid |] eqn:Hres;
    [ destruct Hrun as [-> ->];
      eexists; exists (Reserved c oid); cbn [trace data];
      rewrite <- ?app_assoc;
      split; [apply Run_reserved with (pre := pfx); [| exact Hres]
             | split; [reflexivity |]]
    | apply IH in Hrun; [| try exact Hs];
      destruct Hrun as (evs & o & HR & Ht & Hr & Hok);
      eexists; exists o; cbn [trace data] in *; rewrite Ht;
      rewrite <- ?app_assoc;
      split; [apply Run_conflict with (pre := pfx); [| exact Hres | exact HR]
             | split; [reflexivity | split; [exact Hr |]]] ] ].

(** The side goals [conclude] leaves: the delay, the result of a
    terminal attempt, and the absence of a crash. *)
Ltac settle :=
  first
    [ apply delay_jitter
    | reflexivity
    | assumption
    | split; [split; reflexivity | discriminate]
    | split; [split; [reflexivity |] | discriminate];
      unfold ipsubnet_created, ip6subnet_created, vlan_created;
      repeat match goal with
             | H : (?x =? 0) = _ |- context [?x =? 0] => rewrite H
             | |- context [?x =? 0] => destruct (x =? 0) eqn:?
             | H : ?x = Some _ |- context [?x] => rewrite H
             end;
      reflexivity ].

Ltac crashed Hrun :=
  injection Hrun as <- <-; exists [], Crashed;
  split; [constructor | split; [now rewrite app_nil_r |]];
  split; [split; eauto |].

(** Close a branch of a candidate search: the events are the queries
    made so far, the data is untouched, the result is not a success. *)
Ltac searched H :=
  injection H as <- <-; cbn [trace data];
  eexists; split; [rewrite <- ?app_assoc; reflexivity |];
  split; [reflexivity | split; [reflexivity | discriminate]].

Ltac query H :=
  rewrite bind_assoc, bind_emit, bind_on_world in H;
  cbn [world data entropy drawn trace] in H;
  match type of H with
  | context [fst ?call] =>
      let w1 := fresh "w" in let e := fresh "e" in let x := fresh "x" in
      destruct call as [w1 [e | x]]; cbn [fst snd] in H
  end.

(** One typed read of the resource data. *)
Ltac read H Hs :=
  first [ rewrite bind_d_string in H by typed Hs
        | rewrite bind_d_int in H by typed Hs
        | rewrite bind_d_bool in H by typed Hs ];
  cbn [data] in H.

Ltac branch H :=
  match type of H with
  | context [if ?c then _ else _] => destruct c eqn:?
  end.

Section Loops.
Context {W : Type} (s : SOLIDserver W).
Implicit Types st : St W.

Lemma bind_Request {R B} method service parameters
  (k : error + Response -> M W R B) st :
  bind (Request s method service parameters) k st
  = k (snd (srv_Request s method service parameters (world st)))
      (mkSt (fst (srv_Request s method service parameters (world st)))
         (data st) (entropy st) (drawn st)
         (trace st
          ++ [EvRequest method service parameters
                (snd (srv_Request s method service parameters (world st)))])%list).
Proof.
  unfold Request.
  rewrite bind_assoc, bind_on_world, bind_assoc, bind_emit, bind_ret.
  reflexivity.
Qed.

Lemma bind_time_Sleep {R B} duration (k : unit -> M W R B) st :
  bind (time_Sleep duration) k st
  = k tt (mkSt (world st) (data st) (entropy st) (drawn st)
            (trace st ++ [EvSleep duration])%list).
Proof. reflexivity. Qed.

(** The end of an attempt, shared by the three loops: the call, then
    success, transport error, or the next candidate [next]. *)
Lemma check_answer {R} service parameters (ok : R) (fromErr : error -> R)
  (update : string -> ResourceData -> ResourceData) (next : M W R unit)
  st r st' :
  bind (Request s "post" service parameters)
    (fun answer =>
       match answer with
       | inr resp =>
           if answered resp then
             match ret_oid resp with
             | Some oid =>
                 bind get_d (fun d =>
                 bind (put_d (update oid d)) (fun _ => return_ ok))
             | None => next
             end
           else next
       | inl err => return_ (fromErr err)
       end) st = (r, st') ->
  exists w' answer,
    let tr := (trace st ++ [EvRequest "post" service parameters answer])%list in
    match answer with
    | inl err =>
        r = Return (fromErr err)
        /\ st' = mkSt w' (data st) (entropy st) (drawn st) tr
    | inr resp =>
        match reserved answer with
        | Some oid =>
            r = Return ok
            /\ st' = mkSt w' (update oid (data st)) (entropy st) (drawn st) tr
        | None =>
            next (mkSt w' (data st) (entropy st) (drawn st) tr) = (r, st')
        end
    end.
Proof.
  rewrite bind_Request.
  destruct (srv_Request s "post" service parameters (world st))
    as [w' [err | resp]]; cbn [fst snd]; intros H; exists w'.
  - exists (inl err). injection H as <- <-. auto.
  - exists (inr resp). cbn [reserved].
    destruct (answered resp); [destruct (ret_oid resp) as [oid |] |].
    + rewrite bind_get_d, bind_put_d in H. injection H as <- <-. auto.
    + exact H.
    + exact H.
Qed.

Lemma ipsubnet_attempts_run cands :
  forall siteID blockInfo gw st r st',
    d_schema (data st) = resourceipsubnet ->
    ipsubnet_attempts s siteID blockInfo cands gw st = (r, st') ->
    exists evs o,
      Run "rest/ip_subnet_add" true cands evs o
      /\ trace st' = (trace st ++ evs)%list
      /\ result_of diag_nil diag_FromErr (Next tt)
           (ipsubnet_created (data st)) (data st) r (data st') o
      /\ (ipsubnet_level_ok (data st) blockInfo -> o <> Crashed).
Proof.
  induction cands as [| c rest IH]; intros siteID blockInfo gw st r st' Hs Hrun.
  - injection Hrun as <- <-. exists [], Exhausted.
    split; [constructor | split; [now rewrite app_nil_r |]].
    split; [split; reflexivity | discriminate].
  - cbn [ipsubnet_attempts] in Hrun.
    rewrite bind_d_string in Hrun by typed Hs.
    rewrite bind_d_int in Hrun by typed Hs.
    rewrite bind_d_string in Hrun by typed Hs.
    rewrite bind_d_string in Hrun by typed Hs.
    destruct (Nat.eqb (String.length (get_str (data st) "block")) 0) eqn:Hb;
      [| destruct (map_get blockInfo "level") as [| level | | |] eqn:Hlevel;
         cbn [assert_string] in Hrun;
         rewrite ?bind_assoc, ?bind_panic, ?bind_ret in Hrun ].
    3: { rewrite bind_d_bool in Hrun by typed Hs.
         rewrite bind_d_int in Hrun by typed Hs.
         rewrite bind_class_parameters in Hrun by typed Hs.
         rewrite bind_rand_Intn, bind_time_Sleep in Hrun.
         apply check_answer in Hrun.
         cbn [trace data entropy drawn world] in Hrun.
         conclude Hrun IH Hs c
           [EvSleep (entropy st (drawn st) mod 1000 * time_Millisecond)];
           settle. }
    1: { rewrite bind_ret, bind_d_bool in Hrun by typed Hs.
         rewrite bind_d_int in Hrun by typed Hs.
         rewrite bind_class_parameters in Hrun by typed Hs.
         rewrite bind_rand_Intn, bind_time_Sleep in Hrun.
         apply check_answer in Hrun.
         cbn [trace data entropy drawn world] in Hrun.
         conclude Hrun IH Hs c
           [EvSleep (entropy st (drawn st) mod 1000 * time_Millisecond)];
           settle. }
    all: crashed Hrun; intros [He | Hl];
      [ apply length_zero_iff_empty in He; congruence
      | rewrite Hlevel in Hl; discriminate Hl ].
Qed.

Lemma ip6subnet_hex_ok_tail d c rest :
  ip6subnet_hex_ok d (c :: rest) -> ip6subnet_hex_ok d rest.
Proof.
  intros [H | H]; [left; exact H | right; exact (Forall_inv_tail H)].
Qed.

Lemma ip6subnet_attempts_run cands :
  forall siteID blockInfo gw st r st',
    d_schema (data st) = resourceip6subnet ->
    ip6subnet_attempts s siteID blockInfo cands gw st = (r, st') ->
    exists evs o,
      Run "rest/ip6_subnet6_add" true cands evs o
      /\ trace st' = (trace st ++ evs)%list
      /\ result_of diag_nil diag_FromErr (Next tt)
           (ip6subnet_created (data st)) (data st) r (data st') o
      /\ (ip6subnet_hex_ok (data st) cands -> o <> Crashed).
Proof.
  induction cands as [| c rest IH]; intros siteID blockInfo gw st r st' Hs Hrun.
  - injection Hrun as <- <-. exists [], Exhausted.
    split; [constructor | split; [now rewrite app_nil_r |]].
    split; [split; reflexivity | discriminate].
  - cbn [ip6subnet_attempts] in Hrun.
    rewrite bind_d_string in Hrun by typed Hs.
    rewrite bind_d_int in Hrun by typed Hs.
    rewrite bind_d_string in Hrun by typed Hs.
    rewrite bind_d_string in Hrun by typed Hs.
    rewrite bind_d_bool in Hrun by typed Hs.
    rewrite bind_d_int in Hrun by typed Hs.
    destruct (get_int (data st) "gateway_offset" =? 0) eqn:Hg;
      [| unfold ip6subnet_gateway in Hrun;
         destruct (Go.big_SetString16 c) as [bigStartAddr |] eqn:Hhex ];
      rewrite ?bind_panic, ?bind_ret in Hrun.
    3: { crashed Hrun. intros [H0 | Hall].
         - rewrite H0 in Hg. discriminate Hg.
         - apply Forall_inv in Hall. congruence. }
    all: rewrite bind_class_parameters in Hrun by typed Hs;
      rewrite bind_rand_Intn, bind_time_Sleep in Hrun;
      apply check_answer in Hrun;
      cbn [trace data entropy drawn world] in Hrun;
      conclude Hrun IH Hs c
        [EvSleep (entropy st (drawn st) mod 1000 * time_Millisecond)];
      try settle.
    all: intros Hhex'; apply ip6subnet_hex_ok_tail in Hhex'; auto.
Qed.

Lemma vlan_attempts_run cands :
  forall st r st',
    d_schema (data st) = resourcevlan ->
    vlan_attempts s cands st = (r, st') ->
    exists evs o,
      Run "rest/vlm_vlan_add" false cands evs o
      /\ trace st' = (trace st ++ evs)%list
      /\ result_of None Some (Next tt)
           (vlan_created (data st)) (data st) r (data st') o
      /\ (True -> o <> Crashed).
Proof.
  induction cands as [| c rest IH]; intros st r st' Hs Hrun.
  - injection Hrun as <- <-. exists [], Exhausted.
    split; [constructor | split; [now rewrite app_nil_r |]].
    split; [split; reflexivity | discriminate].
  - cbn [vlan_attempts] in Hrun.
    rewrite bind_d_string in Hrun by typed Hs.
    rewrite bind_d_string in Hrun by typed Hs.
    apply (check_answer _ _ None Some (fun oid d => SetId d oid)) in Hrun.
    cbn [trace data entropy drawn world] in Hrun.
    conclude Hrun IH Hs c (@nil Event); settle.
Qed.

(* ---------------------------------------------------------------- *)
(** *** The candidate search only queries *)

Lemma ipsubnet_candidates_run st r1 st1 :
  d_schema (data st) = resourceipsubnet ->
  ipsubnet_candidates s st = (r1, st1) ->
  exists qs,
    trace st1 = (trace st ++ qs)%list
    /\ forallb is_query qs = true
    /\ data st1 = data st
    /\ r1 <> Return diag_nil.
Proof.
  intros Hs H. unfold ipsubnet_candidates in H.
  read H Hs. unfold ipsiteidbyname in H. query H; [searched H |].
  read H Hs. branch H.
  - rewrite bind_assoc in H. read H Hs.
    unfold ipsubnetinfobyname in H. rewrite bind_assoc in H.
    query H; [searched H |]. rewrite bind_ret in H.
    destruct (map_get x0 "id"); cbn [assert_string] in H;
      rewrite ?bind_panic, ?bind_ret in H; try searched H.
    read H Hs. read H Hs.
    unfold ipsubnetfindbysize in H. query H; searched H.
  - rewrite bind_assoc in H. read H Hs. branch H.
    + rewrite bind_assoc in H. read H Hs. searched H.
    + rewrite bind_ret in H.
      change (map_get [("id", VString "")] "id") with (VString "") in H.
      cbn [assert_string] in H. rewrite bind_ret in H.
      read H Hs. read H Hs.
      unfold ipsubnetfindbysize in H. query H; searched H.
Qed.

Lemma ip6subnet_candidates_run st r1 st1 :
  d_schema (data st) = resourceip6subnet ->
  ip6subnet_candidates s st = (r1, st1) ->
  exists qs,
    trace st1 = (trace st ++ qs)%list
    /\ forallb is_query qs = true
    /\ data st1 = data st
    /\ r1 <> Return diag_nil.
Proof.
  intros Hs H. unfold ip6subnet_candidates in H.
  read H Hs. unfold ipsiteidbyname in H. query H; [searched H |].
  read H Hs. branch H.
  - rewrite bind_assoc in H. read H Hs.
    unfold ip6subnetinfobyname in H. rewrite bind_assoc in H.
    query H; [searched H |]. rewrite bind_ret in H.
    destruct (map_get x0 "id"); cbn [assert_string] in H;
      rewrite ?bind_panic, ?bind_ret in H; try searched H.
    read H Hs. read H Hs.
    unfold ip6subnetfindbysize in H. query H; searched H.
  - rewrite bind_assoc in H. read H Hs. branch H.
    + rewrite bind_assoc in H. read H Hs. searched H.
    + rewrite bind_ret in H.
      change (map_get [("id", VString "")] "id") with (VString "") in H.
      cbn [assert_string] in H. rewrite bind_ret in H.
      read H Hs. read H Hs.
      unfold ip6subnetfindbysize in H. query H; searched H.
Qed.

(** [d.Get("request_id").(string)] on the integer attribute. *)
Lemma d_string_of_int {R} key st :
  schema_type (d_schema (data st)) key = Some TypeInt ->
  d_string (R := R) key st
  = (Panic "interface conversion: interface {} is int, not string", st).
Proof.
  intros H. unfold d_string. rewrite bind_get_d, (Get_int _ _ H). reflexivity.
Qed.

Lemma vlan_candidates_requested st :
  d_schema (data st) = resourcevlan ->
  0 < get_int (data st) "request_id" ->
  vlan_candidates s st
  = (Panic "interface conversion: interface {} is int, not string", st).
Proof.
  intros Hs Hid. unfold vlan_candidates.
  rewrite bind_d_int by typed Hs.
  apply Z.ltb_lt in Hid. rewrite Hid.
  unfold bind. rewrite d_string_of_int by typed Hs. reflexivity.
Qed.

Lemma vlan_candidates_run st r1 st1 :
  d_schema (data st) = resourcevlan ->
  vlan_candidates s st = (r1, st1) ->
  exists qs,
    trace st1 = (trace st ++ qs)%list
    /\ forallb is_query qs = true
    /\ data st1 = data st
    /\ r1 <> Return None.
Proof.
  intros Hs H.
  destruct (Z.ltb_spec 0 (get_int (data st) "request_id")) as [Hid | Hid].
  - rewrite (vlan_candidates_requested _ Hs Hid) in H.
    injection H as <- <-. exists []. rewrite app_nil_r.
    repeat split. discriminate.
  - unfold vlan_candidates in H. read H Hs.
    apply Z.ltb_ge in Hid. rewrite Hid in H.
    read H Hs. unfold vlanidfindfree in H. query H; searched H.
Qed.


Lemma resourceipsubnetCreate_from_candidates st siteID blockInfo cands st1 r st' :
  d_schema (data st) = resourceipsubnet ->
  ipsubnet_candidates s st = (Next (siteID, blockInfo, cands), st1) ->
  resourceipsubnetCreate s st = (r, st') ->
  exists qs evs o,
    forallb is_query qs = true
    /\ Run "rest/ip_subnet_add" true cands evs o
    /\ events_since st st' = (qs ++ evs)%list
    /\ result_of diag_nil diag_FromErr
         (Return (diag_Errorf (ipsubnet_exhausted (get_str (data st) "name"))))
         (ipsubnet_created (data st)) (data st) r (data st') o
    /\ (ipsubnet_level_ok (data st) blockInfo -> o <> Crashed).
Proof.
  intros Hs Hp H.
  destruct (ipsubnet_candidates_run _ _ _ Hs Hp) as (qs & Hq & Hqs & Hd & _).
  unfold resourceipsubnetCreate in H. unfold bind at 1 in H. rewrite Hp in H.
  unfold bind at 1 in H.
  match type of H with
  | context [ipsubnet_attempts ?a ?b ?c ?d ?e ?f] =>
      destruct (ipsubnet_attempts a b c d e f) as [r2 st2] eqn:Hl
  | context [ipsubnet_attempts ?a ?b ?c] =>
      destruct (ipsubnet_attempts a b c) as [r2 st2] eqn:Hl
  end.
  apply ipsubnet_attempts_run in Hl; [| rewrite Hd; exact Hs].
  destruct Hl as (evs & o & HR & Ht & Hres & Hok).
  rewrite Hd in Hres. try rewrite Hd in Hok.
  assert (Hev : trace st2 = (trace st ++ qs ++ evs)%list)
    by (rewrite Ht, Hq, app_assoc; reflexivity).
  exists qs, evs, o.
  split; [exact Hqs | split; [exact HR |]].
  destruct o; cbn [result_of] in *.
  - destruct Hres as [-> Hd2].
    rewrite bind_d_string in H by (rewrite Hd2; typed Hs).
    injection H as <- <-. rewrite Hd2.
    split; [apply events_since_app, Hev | auto].
  - destruct Hres as [-> Hd2]. injection H as <- <-.
    split; [apply events_since_app, Hev | auto].
  - destruct Hres as [-> Hd2]. injection H as <- <-.
    split; [apply events_since_app, Hev | auto].
  - destruct Hres as [[msg ->] Hd2]. injection H as <- <-.
    split; [apply events_since_app, Hev | eauto].
Qed.

Lemma resourceipsubnetCreate_engine st r st' :
  d_schema (data st) = resourceipsubnet ->
  resourceipsubnetCreate s st = (r, st') ->
  Engine "rest/ip_subnet_add" true diag_nil diag_FromErr
    (diag_Errorf (ipsubnet_exhausted (get_str (data st) "name"))) ipsubnet_created st r st'.
Proof.
  intros Hs H.
  destruct (ipsubnet_candidates s st) as [r1 st1] eqn:Hp.
  destruct r1 as [[[siteID blockInfo] cands] | e | msg].
  - destruct (resourceipsubnetCreate_from_candidates _ _ _ _ _ _ _ Hs Hp H)
      as (qs & evs & o & Hqs & HR & Hev & Hres & _).
    exists qs. split; [exact Hqs |]. right. exists cands, evs, o. auto.
  - destruct (ipsubnet_candidates_run _ _ _ Hs Hp) as (qs & Hq & Hqs & Hd & Hne).
    unfold resourceipsubnetCreate, bind in H. rewrite Hp in H. injection H as <- <-.
    exists qs. split; [exact Hqs |]. left.
    split; [apply events_since_app, Hq | split; [| exact Hd]].
    intros E. apply Hne. injection E as ->. reflexivity.
  - destruct (ipsubnet_candidates_run _ _ _ Hs Hp) as (qs & Hq & Hqs & Hd & Hne).
    unfold resourceipsubnetCreate, bind in H. rewrite Hp in H. injection H as <- <-.
    exists qs. split; [exact Hqs |]. left.
    split; [apply events_since_app, Hq | split; [discriminate | exact Hd]].
Qed.

Lemma resourceip6subnetCreate_from_candidates st siteID blockInfo cands st1 r st' :
  d_schema (data st) = resourceip6subnet ->
  ip6subnet_candidates s st = (Next (siteID, blockInfo, cands), st1) ->
  resourceip6subnetCreate s st = (r, st') ->
  exists qs evs o,
    forallb is_query qs = true
    /\ Run "rest/ip6_subnet6_add" true cands evs o
    /\ events_since st st' = (qs ++ evs)%list
    /\ result_of diag_nil diag_FromErr
         (Return (diag_Errorf (ip6subnet_exhausted (get_str (data st) "name"))))
         (ip6subnet_created (data st)) (data st) r (data st') o
    /\ (ip6subnet_hex_ok (data st) cands -> o <> Crashed).
Proof.
  intros Hs Hp H.
  destruct (ip6subnet_candidates_run _ _ _ Hs Hp) as (qs & Hq & Hqs & Hd & _).
  unfold resourceip6subnetCreate in H. unfold bind at 1 in H. rewrite Hp in H.
  unfold bind at 1 in H.
  match type of H with
  | context [ip6subnet_attempts ?a ?b ?c ?d ?e ?f] =>
      destruct (ip6subnet_attempts a b c d e f) as [r2 st2] eqn:Hl
  | context [ip6subnet_attempts ?a ?b ?c] =>
      destruct (ip6subnet_attempts a b c) as [r2 st2] eqn:Hl
  end.
  apply ip6subnet_attempts_run in Hl; [| rewrite Hd; exact Hs].
  destruct Hl as (evs & o & HR & Ht & Hres & Hok).
  rewrite Hd in Hres. try rewrite Hd in Hok.
  assert (Hev : trace st2 = (trace st ++ qs ++ evs)%list)
    by (rewrite Ht, Hq, app_assoc; reflexivity).
  exists qs, evs, o.
  split; [exact Hqs | split; [exact HR |]].
  destruct o; cbn [result_of] in *.
  - destruct Hres as [-> Hd2].
    rewrite bind_d_string in H by (rewrite Hd2; typed Hs).
    injection H as <- <-. rewrite Hd2.
    split; [apply events_since_app, Hev | auto].
  - destruct Hres as [-> Hd2]. injection H as <- <-.
    split; [apply events_since_app, Hev | auto].
  - destruct Hres as [-> Hd2]. injection H as <- <-.
    split; [apply events_since_app, Hev | auto].
  - destruct Hres as [[msg ->] Hd2]. injection H as <- <-.
    split; [apply events_since_app, Hev | eauto].
Qed.

Lemma resourceip6subnetCreate_engine st r st' :
  d_schema (data st) = resourceip6subnet ->
  resourceip6subnetCreate s st = (r, st') ->
  Engine "rest/ip6_subnet6_add" true diag_nil diag_FromErr
    (diag_Errorf (ip6subnet_exhausted (get_str (data st) "name"))) ip6subnet_created st r st'.
Proof.
  intros Hs H.
  destruct (ip6subnet_candidates s st) as [r1 st1] eqn:Hp.
  destruct r1 as [[[siteID blockInfo] cands] | e | msg].
  - destruct (resourceip6subnetCreate_from_candidates _ _ _ _ _ _ _ Hs Hp H)
      as (qs & evs & o & Hqs & HR & Hev & Hres & _).
    exists qs. split; [exact Hqs |]. right. exists cands, evs, o. auto.
  - destruct (ip6subnet_candidates_run _ _ _ Hs Hp) as (qs & Hq & Hqs & Hd & Hne).
    unfold resourceip6subnetCreate, bind in H. rewrite Hp in H. injection H as <- <-.
    exists qs. split; [exact Hqs |]. left.
    split; [apply events_since_app, Hq | split; [| exact Hd]].
    intros E. apply Hne. injection E as ->. reflexivity.
  - destruct (ip6subnet_candidates_run _ _ _ Hs Hp) as (qs & Hq & Hqs & Hd & Hne).
    unfold resourceip6subnetCreate, bind in H. rewrite Hp in H. injection H as <- <-.
    exists qs. split; [exact Hqs |]. left.
    split; [apply events_since_app, Hq | split; [discriminate | exact Hd]].
Qed.

Lemma resourcevlanCreate_from_candidates st cands st1 r st' :
  d_schema (data st) = resourcevlan ->
  vlan_candidates s st = (Next cands, st1) ->
  resourcevlanCreate s st = (r, st') ->
  exists qs evs o,
    forallb is_query qs = true
    /\ Run "rest/vlm_vlan_add" false cands evs o
    /\ events_since st st' = (qs ++ evs)%list
    /\ result_of None Some
         (Return (Some (vlan_exhausted (get_str (data st) "name"))))
         (vlan_created (data st)) (data st) r (data st') o
    /\ (True -> o <> Crashed).
Proof.
  intros Hs Hp H.
  destruct (vlan_candidates_run _ _ _ Hs Hp) as (qs & Hq & Hqs & Hd & _).
  unfold resourcevlanCreate in H. unfold bind at 1 in H. rewrite Hp in H.
  unfold bind at 1 in H.
  match type of H with
  | context [vlan_attempts ?a ?b ?c ?d ?e ?f] =>
      destruct (vlan_attempts a b c d e f) as [r2 st2] eqn:Hl
  | context [vlan_attempts ?a ?b ?c] =>
      destruct (vlan_attempts a b c) as [r2 st2] eqn:Hl
  end.
  apply vlan_attempts_run in Hl; [| rewrite Hd; exact Hs].
  destruct Hl as (evs & o & HR & Ht & Hres & Hok).
  rewrite Hd in Hres. try rewrite Hd in Hok.
  assert (Hev : trace st2 = (trace st ++ qs ++ evs)%list)
    by (rewrite Ht, Hq, app_assoc; reflexivity).
  exists qs, evs, o.
  split; [exact Hqs | split; [exact HR |]].
  destruct o; cbn [result_of] in *.
  - destruct Hres as [-> Hd2].
    rewrite bind_d_string in H by (rewrite Hd2; typed Hs).
    injection H as <- <-. rewrite Hd2.
    split; [apply events_since_app, Hev | auto].
  - destruct Hres as [-> Hd2]. injection H as <- <-.
    split; [apply events_since_app, Hev | auto].
  - destruct Hres as [-> Hd2]. injection H as <- <-.
    split; [apply events_since_app, Hev | auto].
  - destruct Hres as [[msg ->] Hd2]. injection H as <- <-.
    split; [apply events_since_app, Hev | eauto].
Qed.

Lemma resourcevlanCreate_engine st r st' :
  d_schema (data st) = resourcevlan ->
  resourcevlanCreate s st = (r, st') ->
  Engine "rest/vlm_vlan_add" false None Some
    (Some (vlan_exhausted (get_str (data st) "name"))) vlan_created st r st'.
Proof.
  intros Hs H.
  destruct (vlan_candidates s st) as [r1 st1] eqn:Hp.
  destruct r1 as [cands | e | msg].
  - destruct (resourcevlanCreate_from_candidates _ _ _ _ _ Hs Hp H)
      as (qs & evs & o & Hqs & HR & Hev & Hres & _).
    exists qs. split; [exact Hqs |]. right. exists cands, evs, o. auto.
  - destruct (vlan_candidates_run _ _ _ Hs Hp) as (qs & Hq & Hqs & Hd & Hne).
    unfold resourcevlanCreate, bind in H. rewrite Hp in H. injection H as <- <-.
    exists qs. split; [exact Hqs |]. left.
    split; [apply events_since_app, Hq | split; [| exact Hd]].
    intros E. apply Hne. injection E as ->. reflexivity.
  - destruct (vlan_candidates_run _ _ _ Hs Hp) as (qs & Hq & Hqs & Hd & Hne).
    unfold resourcevlanCreate, bind in H. rewrite Hp in H. injection H as <- <-.
    exists qs. split; [exact Hqs |]. left.
    split; [apply events_since_app, Hq | split; [discriminate | exact Hd]].
Qed.

End Loops.

(* ================================================================== *)
(** ** Facts about the resource data *)
(* ================================================================== *)

Lemma Set_id d key v : Id (Set_ d key v) = Id d.
Proof.
  unfold Set_. destruct (index (d_schema d) key) as [sc |]; [| reflexivity].
  destruct (has_type v (Type_ sc)); reflexivity.
Qed.

Lemma Set_schema d key v : d_schema (Set_ d key v) = d_schema d.
Proof.
  unfold Set_. destruct (index (d_schema d) key) as [sc |]; [| reflexivity].
  destruct (has_type v (Type_ sc)); reflexivity.
Qed.

Lemma Get_Set_same d key v t :
  schema_type (d_schema d) key = Some t ->
  has_type v t = true ->
  Get (Set_ d key v) key = v.
Proof.
  unfold schema_type, Set_, Get.
  destruct (index (d_schema d) key) as [sc |] eqn:E; simpl; [| discriminate].
  intros Ht Hv. injection Ht as <-. rewrite Hv. simpl.
  rewrite E, String.eqb_refl, Hv. reflexivity.
Qed.

Lemma Get_Set_other d key key' v :
  String.eqb key' key = false ->
  Get (Set_ d key' v) key = Get d key.
Proof.
  intros Hk. unfold Set_, Get.
  destruct (index (d_schema d) key') as [sc |]; [| reflexivity].
  destruct (has_type v (Type_ sc)); [| reflexivity].
  simpl. rewrite Hk. reflexivity.
Qed.

Lemma get_str_Set_same d key x :
  schema_type (d_schema d) key = Some TypeString ->
  get_str (Set_ d key (VString x)) key = x.
Proof.
  intros H. unfold get_str. rewrite (Get_Set_same _ _ _ _ H); reflexivity.
Qed.

Lemma get_str_Set_other d key key' v :
  String.eqb key' key = false ->
  get_str (Set_ d key' v) key = get_str d key.
Proof. intros H. unfold get_str. rewrite Get_Set_other; auto. Qed.

Lemma ipsubnet_created_id d c oid : Id (ipsubnet_created d c oid) = oid.
Proof.
  unfold ipsubnet_created.
  destruct (get_int d "gateway_offset" =? 0); rewrite ?Set_id; reflexivity.
Qed.

Lemma ip6subnet_created_id d c oid : Id (ip6subnet_created d c oid) = oid.
Proof.
  unfold ip6subnet_created.
  destruct (get_int d "gateway_offset" =? 0);
    [| destruct (Go.big_SetString16 c)]; rewrite ?Set_id; reflexivity.
Qed.

Lemma vlan_created_id d c oid : Id (vlan_created d c oid) = oid.
Proof. reflexivity. Qed.

Ltac schema_of Hs :=
  rewrite ?Set_schema; cbn [SetId d_schema]; rewrite Hs; reflexivity.

Lemma ipsubnet_created_address d c oid :
  d_schema d = resourceipsubnet ->
  get_str (ipsubnet_created d c oid) "address" = Codec.hexiptoip c.
Proof.
  intros Hs. unfold ipsubnet_created.
  destruct (get_int d "gateway_offset" =? 0).
  - rewrite get_str_Set_other by reflexivity.
    apply get_str_Set_same. schema_of Hs.
  - rewrite !get_str_Set_other by reflexivity.
    apply get_str_Set_same. schema_of Hs.
Qed.

Lemma ipsubnet_created_gateway d c oid :
  d_schema d = resourceipsubnet ->
  get_int d "gateway_offset" <> 0 ->
  get_str (ipsubnet_created d c oid) "gateway"
  = ipsubnet_gateway c (get_int d "prefix_size") (get_int d "gateway_offset").
Proof.
  intros Hs Hg. unfold ipsubnet_created.
  apply Z.eqb_neq in Hg. rewrite Hg.
  apply get_str_Set_same. schema_of Hs.
Qed.

Lemma ip6subnet_created_address d c oid :
  d_schema d = resourceip6subnet ->
  get_str (ip6subnet_created d c oid) "address" = Codec.hexip6toip6 c.
Proof.
  intros Hs. unfold ip6subnet_created.
  destruct (get_int d "gateway_offset" =? 0);
    [| destruct (Go.big_SetString16 c)].
  - apply get_str_Set_same. schema_of Hs.
  - rewrite get_str_Set_other by reflexivity.
    apply get_str_Set_same. schema_of Hs.
  - apply get_str_Set_same. schema_of Hs.
Qed.

Lemma ip6subnet_created_gateway d c oid bigStartAddr :
  d_schema d = resourceip6subnet ->
  get_int d "gateway_offset" <> 0 ->
  Go.big_SetString16 c = Some bigStartAddr ->
  get_str (ip6subnet_created d c oid) "gateway"
  = ip6subnet_gateway_at bigStartAddr (get_int d "prefix_size")
      (get_int d "gateway_offset").
Proof.
  intros Hs Hg Hc. unfold ip6subnet_created.
  apply Z.eqb_neq in Hg. rewrite Hg, Hc.
  apply get_str_Set_same. schema_of Hs.
Qed.

(** The [uint32] steps of the negative branch amount to one reduction
    modulo [2^32]. *)
Lemma uint32_end_anchor a size g :
  Go.uint32 (Go.uint32 (Go.uint32 (a + Go.uint32 size) - Go.uint32 g) - 1)
  = Go.uint32 (a + size - g - 1).
Proof.
  unfold Go.uint32. set (m := 2 ^ 32).
  rewrite Zminus_mod_idemp_l.
  replace ((a + size mod m) mod m - g mod m - 1)
    with ((a + size mod m) mod m - (g mod m + 1)) by lia.
  rewrite Zminus_mod_idemp_l.
  replace (a + size mod m - (g mod m + 1))
    with (a - (g mod m + 1) + size mod m) by lia.
  rewrite Z.add_mod_idemp_r by (unfold m; lia).
  replace (a - (g mod m + 1) + size) with (a + size - 1 - g mod m) by lia.
  rewrite Zminus_mod_idemp_r. f_equal. lia.
Qed.

Lemma uint32_start_anchor a g : Go.uint32 (a + Go.uint32 g) = Go.uint32 (a + g).
Proof. unfold Go.uint32. apply Z.add_mod_idemp_r. lia. Qed.

Lemma ipsubnet_gateway_negative c p g :
  g < 0 ->
  ipsubnet_gateway c p g
  = Codec.longtoip
      (Go.uint32 (Codec.iptolong (Codec.hexiptoip c)
                  + Codec.prefixlengthtosize p - Codec.abs g - 1)).
Proof.
  intros Hg. unfold ipsubnet_gateway.
  destruct (Z.ltb_spec 0 g); [lia |].
  rewrite uint32_end_anchor. reflexivity.
Qed.

Lemma ipsubnet_gateway_positive c p g :
  0 < g ->
  ipsubnet_gateway c p g
  = Codec.longtoip (Go.uint32 (Codec.iptolong (Codec.hexiptoip c) + g)).
Proof.
  intros Hg. unfold ipsubnet_gateway.
  destruct (Z.ltb_spec 0 g); [| lia].
  rewrite uint32_start_anchor. reflexivity.
Qed.

Lemma abs_negative g : g < 0 -> Codec.abs g = - g.
Proof. intros H. unfold Codec.abs. destruct (Z.ltb_spec g 0); lia. Qed.

(** What [reserved] asks of an answer, spelled out. *)
Lemma reserved_spec answer oid :
  reserved answer = Some oid
  <-> exists resp first others,
        answer = inr resp
        /\ (StatusCode resp = 200 \/ StatusCode resp = 201)
        /\ buf resp = first :: others
        /\ map_get first "ret_oid" = VString oid.
Proof.
  split.
  - destruct answer as [err | resp]; simpl; [discriminate |].
    unfold answered, ret_oid.
    destruct (buf resp) as [| first others] eqn:Eb; simpl.
    + rewrite andb_false_r. discriminate.
    + rewrite andb_true_r.
      destruct ((StatusCode resp =? 200) || (StatusCode resp =? 201)) eqn:Es;
        [| discriminate].
      destruct (map_get first "ret_oid") eqn:Em; simpl; try discriminate.
      intros E. injection E as ->.
      exists resp, first, others. repeat split; auto.
      apply orb_true_iff in Es as [Es | Es]; apply Z.eqb_eq in Es; auto.
  - intros (resp & first & others & -> & Hs & Hb & Hm). simpl.
    unfold answered, ret_oid. rewrite Hb. simpl. rewrite Hm. simpl.
    rewrite andb_true_r.
    destruct Hs as [-> | ->]; reflexivity.
Qed.

(* ================================================================== *)
(** ** Facts about a whole creation *)
(* ================================================================== *)

Lemma app_split_outside {A} (qs evs a : list A) y b :
  (qs ++ evs = a ++ y :: b)%list ->
  ~ In y qs ->
  exists a', a = (qs ++ a')%list /\ evs = (a' ++ y :: b)%list.
Proof.
  revert a. induction qs as [| q qs IH]; intros a H Hn.
  - exists a. auto.
  - destruct a as [| a0 a]; simpl in H.
    + injection H as <- _. exfalso. apply Hn. left. reflexivity.
    + injection H as <- H.
      destruct (IH a H) as (a' & -> & ->).
      * intros Hy. apply Hn. right. exact Hy.
      * exists a'. auto.
Qed.

Lemma queries_not_request qs e :
  forallb is_query qs = true -> is_request e = true -> ~ In e qs.
Proof.
  intros Hq He Hin. rewrite forallb_forall in Hq. specialize (Hq e Hin).
  destruct e; discriminate.
Qed.

Section EngineFacts.
Context {W R : Type}.
Variables (service : string) (jitter : bool) (ok : R) (fromErr : error -> R)
  (exhausted : R) (created : ResourceData -> string -> string -> ResourceData).
Hypothesis ok_not_error : forall err, fromErr err <> ok.
Hypothesis ok_not_exhausted : exhausted <> ok.
Hypothesis created_id : forall d c oid, Id (created d c oid) = oid.

Implicit Types st : St W.

(** A transport error is the last event of the creation and its result. *)
Lemma Engine_transport st r st' before m sv p err after :
  Engine service jitter ok fromErr exhausted created st r st' ->
  events_since st st'
  = (before ++ EvRequest m sv p (inl err) :: after)%list ->
  after = [] /\ r = Return (fromErr err).
Proof.
  intros (qs & Hqs & [(Hev & _) | (cands & evs & o & HR & Hev & Hres)]) E;
    rewrite Hev in E.
  - exfalso. apply (queries_not_request qs (EvRequest m sv p (inl err)) Hqs);
      [reflexivity |].
    rewrite E, in_app_iff. right. left. reflexivity.
  - apply app_split_outside in E;
      [| apply (queries_not_request _ _ Hqs); reflexivity].
    destruct E as (a' & _ & E).
    destruct (Run_transport_last _ _ _ _ _ _ _ _ _ _ _ HR E) as [-> ->].
    destruct Hres as [-> _]. auto.
Qed.

(** The creation succeeds exactly when one of its calls was answered by
    a success. *)
Lemma Engine_success_iff st r st' :
  Engine service jitter ok fromErr exhausted created st r st' ->
  r = Return ok
  <-> (exists e a oid,
         In e (events_since st st')
         /\ answer_of e = Some a /\ reserved a = Some oid).
Proof.
  intros (qs & Hqs & [(Hev & Hne & _) | (cands & evs & o & HR & Hev & Hres)]);
    rewrite Hev.
  - split; [contradiction |].
    intros (e & a & oid & Hin & Ha & _).
    rewrite (queries_no_answer _ _ Hqs Hin) in Ha. discriminate.
  - pose proof (Run_success_iff _ _ _ _ _ HR) as [Hto Hfrom]. split.
    + intros ->.
      destruct o; cbn [result_of] in Hres.
      * destruct Hres as [E _]. injection E as E. congruence.
      * destruct Hto as (e & a & oid' & Hin & Ha); eauto.
        exists e, a, oid'. rewrite in_app_iff. tauto.
      * destruct Hres as [E _]. injection E as E. symmetry in E.
        exfalso. exact (ok_not_error _ E).
      * destruct Hres as [[msg E] _]. discriminate E.
    + intros (e & a & oid & Hin & Ha & Hr).
      rewrite in_app_iff in Hin. destruct Hin as [Hin | Hin].
      * rewrite (queries_no_answer _ _ Hqs Hin) in Ha. discriminate.
      * destruct Hfrom as (c & oid' & ->); [exists e, a, oid; auto |].
        destruct Hres as [-> _]. reflexivity.
Qed.

(** On success the last event is the successful call, and the resource
    id is the entity id it returned. *)
Lemma Engine_success_last st r st' :
  Engine service jitter ok fromErr exhausted created st r st' ->
  r = Return ok ->
  exists before parameters resp,
    events_since st st'
    = (before ++ [EvRequest "post" service parameters (inr resp)])%list
    /\ reserved (inr resp) = Some (Id (data st')).
Proof.
  intros (qs & Hqs & [(Hev & Hne & _) | (cands & evs & o & HR & Hev & Hres)]) ->.
  - contradiction.
  - destruct o; cbn [result_of] in Hres.
    + destruct Hres as [E _]. injection E as E. congruence.
    + destruct Hres as [_ ->]. rewrite created_id.
      destruct (Run_reserved_last _ _ _ _ _ _ HR)
        as (_ & before & p & resp & -> & Hr).
      exists (qs ++ before)%list, p, resp.
      rewrite Hev, app_assoc. auto.
    + destruct Hres as [E _]. injection E as E. symmetry in E.
      exfalso. exact (ok_not_error _ E).
    + destruct Hres as [[msg E] _]. discriminate E.
Qed.

End EngineFacts.

(** With the jitter every call of a creation comes right after its sleep. *)
Lemma Engine_delayed {W R} service (ok : R) fromErr exhausted created
  (st : St W) r st' :
  Engine service true ok fromErr exhausted created st r st' ->
  delayed (events_since st st').
Proof.
  intros (qs & Hqs & [(Hev & _) | (cands & evs & o & HR & Hev & Hres)]);
    rewrite Hev; intros before e after E He.
  - exfalso. apply (queries_not_request qs e Hqs He).
    rewrite E, in_app_iff. right. left. reflexivity.
  - apply app_split_outside in E; [| apply (queries_not_request _ _ Hqs He)].
    destruct E as (a' & -> & E).
    destruct (Run_delayed _ _ _ _ HR _ _ _ E He) as (b' & dur & -> & Hdur).
    exists (qs ++ b')%list, dur. rewrite app_assoc. auto.
Qed.

(** Without the jitter a creation never sleeps. *)
Lemma Engine_never_sleeps {W R} service (ok : R) fromErr exhausted created
  (st : St W) r st' :
  Engine service false ok fromErr exhausted created st r st' ->
  forallb (fun e => negb (is_sleep e)) (events_since st st') = true.
Proof.
  intros (qs & Hqs & [(Hev & _) | (cands & evs & o & HR & Hev & Hres)]);
    rewrite Hev; rewrite ?forallb_app; rewrite forallb_forall in *.
  - intros e Hin. destruct e; try reflexivity. discriminate (Hqs _ Hin).
  - apply andb_true_iff. split; apply forallb_forall; intros e Hin.
    + destruct e; try reflexivity. discriminate (Hqs _ Hin).
    + apply Run_only_requests in HR. rewrite forallb_forall in HR.
      destruct e; try reflexivity. discriminate (HR _ Hin).
Qed.

Lemma Engine_success_data {W R} service jitter (ok : R) fromErr exhausted
  created (st : St W) r st' :
  (forall err, fromErr err <> ok) ->
  exhausted <> ok ->
  Engine service jitter ok fromErr exhausted created st r st' ->
  r = Return ok ->
  exists c oid, data st' = created (data st) c oid.
Proof.
  intros Herr Hexh
    (qs & Hqs & [(Hev & Hne & _) | (cands & evs & o & HR & Hev & Hres)]) ->.
  - contradiction.
  - destruct o; cbn [result_of] in Hres.
    + destruct Hres as [E _]. injection E as E. congruence.
    + destruct Hres as [_ ->]. eauto.
    + destruct Hres as [E _]. injection E as E. symmetry in E.
      exfalso. exact (Herr _ E).
    + destruct Hres as [[msg E] _]. discriminate E.
Qed.

(** When every call of the run conflicts, the creation falls through the
    loop after one call per candidate. *)
Lemma exhausted_after_conflicts {R} service jitter (ok : R) fromErr
  (exhausted : R) created d r d' qs cands evs o :
  forallb is_query qs = true ->
  Run service jitter cands evs o ->
  result_of ok fromErr (Return exhausted) created d r d' o ->
  o <> Crashed ->
  all_conflicts (qs ++ evs) ->
  List.length (requests (qs ++ evs)) = List.length cands
  /\ r = Return exhausted.
Proof.
  intros Hqs HR Hres Hc Hall.
  destruct (Run_all_conflicts _ _ _ _ _ HR) as [-> Hlen]; [| exact Hc |].
  - intros m sv p a Hin. apply (Hall m sv p a). rewrite in_app_iff. auto.
  - rewrite requests_app, (requests_queries _ Hqs). simpl.
    destruct Hres as [-> _]. auto.
Qed.

Section Claims.
Context {W : Type} (s : SOLIDserver W).
Implicit Types st : St W.

Lemma ipsubnet_exhaustion st st1 siteID blockInfo cands r st' :
  d_schema (data st) = resourceipsubnet ->
  ipsubnet_candidates s st = (Next (siteID, blockInfo, cands), st1) ->
  ipsubnet_level_ok (data st) blockInfo ->
  resourceipsubnetCreate s st = (r, st') ->
  all_conflicts (events_since st st') ->
  List.length (requests (events_since st st')) = List.length cands
  /\ r = Return (diag_Errorf (ipsubnet_exhausted (get_str (data st) "name"))).
Proof.
  intros Hs Hp Hok H Hall.
  destruct (resourceipsubnetCreate_from_candidates s _ _ _ _ _ _ _ Hs Hp H)
    as (qs & evs & o & Hqs & HR & Hev & Hres & Hc).
  rewrite Hev in *.
  apply (exhausted_after_conflicts _ _ _ _ _ _ _ _ _ _ _ _ _ Hqs HR Hres);
    auto.
Qed.

Lemma ip6subnet_exhaustion st st1 siteID blockInfo cands r st' :
  d_schema (data st) = resourceip6subnet ->
  ip6subnet_candidates s st = (Next (siteID, blockInfo, cands), st1) ->
  ip6subnet_hex_ok (data st) cands ->
  resourceip6subnetCreate s st = (r, st') ->
  all_conflicts (events_since st st') ->
  List.length (requests (events_since st st')) = List.length cands
  /\ r = Return (diag_Errorf (ip6subnet_exhausted (get_str (data st) "name"))).
Proof.
  intros Hs Hp Hok H Hall.
  destruct (resourceip6subnetCreate_from_candidates s _ _ _ _ _ _ _ Hs Hp H)
    as (qs & evs & o & Hqs & HR & Hev & Hres & Hc).
  rewrite Hev in *.
  apply (exhausted_after_conflicts _ _ _ _ _ _ _ _ _ _ _ _ _ Hqs HR Hres);
    auto.
Qed.

Lemma vlan_exhaustion st st1 cands r st' :
  d_schema (data st) = resourcevlan ->
  vlan_candidates s st = (Next cands, st1) ->
  resourcevlanCreate s st = (r, st') ->
  all_conflicts (events_since st st') ->
  List.length (requests (events_since st st')) = List.length cands
  /\ r = Return (Some (vlan_exhausted (get_str (data st) "name"))).
Proof.
  intros Hs Hp H Hall.
  destruct (resourcevlanCreate_from_candidates s _ _ _ _ _ Hs Hp H)
    as (qs & evs & o & Hqs & HR & Hev & Hres & Hc).
  rewrite Hev in *.
  apply (exhausted_after_conflicts _ _ _ _ _ _ _ _ _ _ _ _ _ Hqs HR Hres);
    auto.
Qed.

End Claims.

Section ToplevelTerminal.
Context {W : Type} (s : SOLIDserver W).
Implicit Types st : St W.

Lemma ipsubnet_toplevel_terminal st r st' :
  d_schema (data st) = resourceipsubnet ->
  get_str (data st) "block" = "" ->
  get_bool (data st) "terminal" = true ->
  resourceipsubnetCreate s st = (r, st') ->
  events_since st st' = [EvQuery "ipsiteidbyname" [get_str (data st) "space"]]
  /\ data st' = data st
  /\ (r = Return (diag_Errorf ("Can't create a terminal IP block subnet: "
                               ++ get_str (data st) "name"))
      \/ exists siteErr, r = Return (diag_FromErr siteErr)).
Proof.
  intros Hs Hb Ht H.
  unfold resourceipsubnetCreate, ipsubnet_candidates in H.
  rewrite bind_assoc in H. read H Hs.
  unfold ipsiteidbyname in H. rewrite bind_assoc in H. query H.
  - rewrite bind_return in H. injection H as <- <-. cbn [trace data].
    split; [apply events_since_app; reflexivity | eauto].
  - rewrite bind_assoc in H. read H Hs. rewrite Hb in H.
    cbn [String.length Nat.ltb Nat.leb] in H.
    rewrite !bind_assoc in H. read H Hs. rewrite Ht in H.
    rewrite !bind_assoc in H. read H Hs.
    rewrite !bind_return in H. injection H as <- <-. cbn [trace data].
    split; [apply events_since_app; reflexivity | eauto].
Qed.

Lemma ip6subnet_toplevel_terminal st r st' :
  d_schema (data st) = resourceip6subnet ->
  get_str (data st) "block" = "" ->
  get_bool (data st) "terminal" = true ->
  resourceip6subnetCreate s st = (r, st') ->
  events_since st st' = [EvQuery "ipsiteidbyname" [get_str (data st) "space"]]
  /\ data st' = data st
  /\ (r = Return (diag_Errorf ("Can't create a terminal IPv6 block subnet: "
                               ++ get_str (data st) "name"))
      \/ exists siteErr, r = Return (diag_FromErr siteErr)).
Proof.
  intros Hs Hb Ht H.
  unfold resourceip6subnetCreate, ip6subnet_candidates in H.
  rewrite bind_assoc in H. read H Hs.
  unfold ipsiteidbyname in H. rewrite bind_assoc in H. query H.
  - rewrite bind_return in H. injection H as <- <-. cbn [trace data].
    split; [apply events_since_app; reflexivity | eauto].
  - rewrite bind_assoc in H. read H Hs. rewrite Hb in H.
    cbn [String.length Nat.ltb Nat.leb] in H.
    rewrite !bind_assoc in H. read H Hs. rewrite Ht in H.
    rewrite !bind_assoc in H. read H Hs.
    rewrite !bind_return in H. injection H as <- <-. cbn [trace data].
    split; [apply events_since_app; reflexivity | eauto].
Qed.

End ToplevelTerminal.

(* ================================================================== *)
(** ** The IPv4 codec reads back what it writes *)
(* ================================================================== *)

Lemma split_on_no_sep sep u : Go.no_sep sep u = true -> Go.split_on sep u = [u].
Proof.
  induction u as [| c u IH]; simpl; [reflexivity |].
  intros H. apply andb_true_iff in H as [Hc Hu].
  apply negb_true_iff in Hc. rewrite Hc, (IH Hu). reflexivity.
Qed.

Lemma split_on_app sep u v :
  Go.no_sep sep u = true ->
  Go.split_on sep (u ++ String sep v) = u :: Go.split_on sep v.
Proof.
  induction u as [| c u IH]; simpl.
  - intros _. rewrite Ascii.eqb_refl. reflexivity.
  - intros H. apply andb_true_iff in H as [Hc Hu].
    apply negb_true_iff in Hc. rewrite Hc, (IH Hu). reflexivity.
Qed.

Lemma octets_text_ok : forallb Codec.octet_text_ok (seq 0 256) = true.
Proof. vm_compute. reflexivity. Qed.

Lemma octet_text x :
  0 <= x <= 255 ->
  Go.no_sep "." (Go.Itoa x) = true /\ Codec.octet (Go.Itoa x) = Some x.
Proof.
  intros Hx. pose proof octets_text_ok as H. rewrite forallb_forall in H.
  specialize (H (Z.to_nat x)). rewrite in_seq in H.
  assert (Hin : (0 <= Z.to_nat x < 0 + 256)%nat) by lia.
  specialize (H Hin).
  unfold Codec.octet_text_ok in H. rewrite Z2Nat.id in H by lia.
  apply andb_true_iff in H as [H1 H2].
  split; [exact H1 |].
  destruct (Codec.octet (Go.Itoa x)) as [y |]; [| discriminate].
  apply Z.eqb_eq in H2. congruence.
Qed.

Lemma octet_range n k : 0 <= Z.land (Z.shiftr n k) 255 <= 255.
Proof.
  assert (E : Z.land (Z.shiftr n k) 255 = Z.shiftr n k mod 256)
    by (apply (Z.land_ones (Z.shiftr n k) 8); lia).
  rewrite E.
  pose proof (Z.mod_pos_bound (Z.shiftr n k) 256 eq_refl). lia.
Qed.

Lemma octets_join n :
  0 <= n < 2 ^ 32 ->
  Z.lor (Z.lor (Z.lor (Z.shiftl (Z.land (Z.shiftr n 24) 255) 24)
                  (Z.shiftl (Z.land (Z.shiftr n 16) 255) 16))
           (Z.shiftl (Z.land (Z.shiftr n 8) 255) 8))
    (Z.land n 255) = n.
Proof.
  intros Hn. apply Z.bits_inj'. intros i Hi.
  rewrite !Z.lor_spec.
  rewrite !Z.shiftl_spec by lia.
  assert (H255 : forall j, Z.testbit 255 j = ((0 <=? j) && (j <? 8))).
  { intros j. change 255 with (Z.ones 8).
    destruct (Z.leb_spec 0 j), (Z.ltb_spec j 8); simpl.
    - apply Z.ones_spec_low; lia.
    - apply Z.ones_spec_high; lia.
    - apply Z.testbit_neg_r; lia.
    - apply Z.testbit_neg_r; lia. }
  destruct (Z.ltb_spec i 8), (Z.ltb_spec i 16), (Z.ltb_spec i 24), (Z.ltb_spec i 32); try lia.
  all: rewrite ?(Z.testbit_neg_r _ (i - 24)), ?(Z.testbit_neg_r _ (i - 16)), ?(Z.testbit_neg_r _ (i - 8)) by lia.
  all: rewrite ?Z.land_spec, ?Z.shiftr_spec, ?H255 by lia.
  all: repeat match goal with
         | |- context [?a <=? ?b] => destruct (Z.leb_spec a b); try lia
         | |- context [?a <? ?b] => destruct (Z.ltb_spec a b); try lia
         end; simpl; rewrite ?andb_true_r, ?andb_false_r, ?orb_false_r, ?orb_false_l.
  all: try (f_equal; lia).
  symmetry. apply (Z.bits_above_log2 n i); [lia |].
  destruct (Z.eq_dec n 0) as [-> | Hz]; [simpl; lia |].
  apply Z.log2_lt_pow2; [lia |].
  apply Z.lt_le_trans with (2 ^ 32); [lia | apply Z.pow_le_mono_r; lia].
Qed.

Lemma iptolong_longtoip n : 0 <= n < 2 ^ 32 -> Codec.iptolong (Codec.longtoip n) = n.
Proof.
  intros Hn. unfold Codec.iptolong, Codec.longtoip.
  destruct (octet_text _ (octet_range n 24)) as [Ha1 Ha2].
  destruct (octet_text _ (octet_range n 16)) as [Hb1 Hb2].
  destruct (octet_text _ (octet_range n 8)) as [Hc1 Hc2].
  destruct (octet_text _ (octet_range n 0)) as [Hd1 Hd2].
  rewrite Z.shiftr_0_r in Hd1, Hd2.
  assert (Hdot : forall v, "." ++ v = String "." v) by reflexivity.
  rewrite !Hdot.
  rewrite !split_on_app by assumption.
  rewrite split_on_no_sep by assumption.
  cbn [map]. rewrite Ha2, Hb2, Hc2, Hd2.
  apply octets_join, Hn.
Qed.

Lemma hex_val_range c d : Go.hex_val c = Some d -> 0 <= d < 16.
Proof.
  unfold Go.hex_val.
  set (n := Z.of_nat (nat_of_ascii c)).
  destruct ((48 <=? n) && (n <=? 57)) eqn:E1.
  - intros E. injection E as <-. apply andb_true_iff in E1 as [H1 H2]. lia.
  - destruct ((97 <=? n) && (n <=? 102)) eqn:E2.
    + intros E. injection E as <-. apply andb_true_iff in E2 as [H1 H2]. lia.
    + destruct ((65 <=? n) && (n <=? 70)) eqn:E3; [| discriminate].
      intros E. injection E as <-. apply andb_true_iff in E3 as [H1 H2]. lia.
Qed.

Lemma parse_hex_from_range h : forall acc n,
  0 <= acc ->
  Go.parse_hex_from acc h = Some n ->
  acc * 16 ^ Z.of_nat (String.length h) <= n
  < (acc + 1) * 16 ^ Z.of_nat (String.length h).
Proof.
  induction h as [| c h IH]; intros acc n Hacc; cbn [Go.parse_hex_from].
  - intros E. injection E as <-. simpl. lia.
  - destruct (Go.hex_val c) as [d |] eqn:Ed; [| discriminate].
    intros E. apply hex_val_range in Ed.
    apply IH in E; [| lia].
    change (String.length (String c h)) with (S (String.length h)).
    rewrite Nat2Z.inj_succ, Z.pow_succ_r by lia.
    set (p := 16 ^ Z.of_nat (String.length h)) in *.
    assert (0 < p) by (apply Z.pow_pos_nonneg; lia).
    nia.
Qed.

Lemma hexiptoip_value h n :
  String.length h = 8%nat ->
  Go.parse_hex h = Some n ->
  Codec.hexiptoip h = Codec.longtoip n /\ Codec.iptolong (Codec.hexiptoip h) = n.
Proof.
  intros Hl Hp. unfold Codec.hexiptoip. rewrite Hl, Hp. cbn [Nat.eqb].
  split; [reflexivity |].
  apply iptolong_longtoip.
  assert (E : Go.parse_hex_from 0 h = Some n)
    by (destruct h; [discriminate Hl | exact Hp]).
  apply parse_hex_from_range in E; [| lia]. rewrite Hl in E.
  change (16 ^ Z.of_nat 8) with (2 ^ 32) in E. lia.
Qed.

(* ================================================================== *)
(** ** The properties of the allocation engine *)
(* ================================================================== *)

Lemma all_conflicts_check evs :
  forallb (fun e => match answer_of e with
                    | Some a => conflict a
                    | None => true
                    end) evs = true ->
  all_conflicts evs.
Proof.
  intros H m sv p a Hin. rewrite forallb_forall in H.
  exact (H _ Hin).
Qed.

Lemma uint32_small x : 0 <= x < 2 ^ 32 -> Go.uint32 x = x.
Proof. intros H. apply Z.mod_small, H. Qed.

Lemma abs_Zabs g : Codec.abs g = Z.abs g.
Proof. unfold Codec.abs. destruct (Z.ltb_spec g 0); lia. Qed.

Lemma reserved_unambiguous answer oid :
  reserved answer = Some oid <-> unambiguous answer oid.
Proof.
  unfold unambiguous. split.
  - destruct answer as [err | resp]; simpl; [discriminate |].
    unfold answered.
    destruct ((StatusCode resp =? 200) || (StatusCode resp =? 201)) eqn:Es;
      [| discriminate].
    destruct (0 <? Z.of_nat (List.length (buf resp))); [| discriminate].
    simpl. intros Hr. exists resp. split; [reflexivity | split; [| exact Hr]].
    apply orb_true_iff in Es as [Es | Es]; apply Z.eqb_eq in Es; auto.
  - intros (resp & -> & Hs & Hr). simpl. unfold answered.
    assert (Hb : (0 <? Z.of_nat (List.length (buf resp))) = true).
    { unfold ret_oid in Hr. destruct (buf resp); [discriminate Hr | reflexivity]. }
    rewrite Hb, andb_true_r.
    destruct Hs as [-> | ->]; exact Hr.
Qed.

(* ================================================================== *)
(** ** The numbers behind the IPv6 notation *)
(* ================================================================== *)

Lemma drop_colons_colons s : forall i, drop_colons (Codec.colons i s) = drop_colons s.
Proof.
  induction s as [| c rest IH]; intros i; [reflexivity |].
  cbn [Codec.colons].
  destruct (Nat.eqb i 0 || negb (Nat.eqb (Nat.modulo i 4) 0));
    cbn [drop_colons]; rewrite ?Ascii.eqb_refl; cbn [drop_colons];
    rewrite IH; reflexivity.
Qed.

Lemma drop_colons_none s : Go.no_sep ":" s = true -> drop_colons s = s.
Proof.
  induction s as [| c rest IH]; [reflexivity |].
  cbn [Go.no_sep drop_colons]. intros H.
  apply andb_true_iff in H as [Hc Hrest].
  apply negb_true_iff in Hc. rewrite Hc, (IH Hrest). reflexivity.
Qed.

Lemma hex_val_not_colon c : Go.hex_val c <> None -> Ascii.eqb c ":" = false.
Proof.
  intros H. destruct (Ascii.eqb_spec c ":") as [-> |]; [| reflexivity].
  exfalso. apply H. reflexivity.
Qed.

Lemma parse_hex_from_no_colon s :
  forall acc, Go.parse_hex_from acc s <> None -> Go.no_sep ":" s = true.
Proof.
  induction s as [| c rest IH]; intros acc H; [reflexivity |].
  cbn [Go.parse_hex_from Go.no_sep] in *.
  destruct (Go.hex_val c) as [d |] eqn:Hc; [| contradiction].
  rewrite hex_val_not_colon by congruence. apply (IH _ H).
Qed.

Lemma parse_hex_no_colon s : Go.parse_hex s <> None -> Go.no_sep ":" s = true.
Proof.
  destruct s; [reflexivity |]. apply parse_hex_from_no_colon.
Qed.

(** How [SetString] reads its text: a sign and digits, or digits. *)
Lemma big_SetString16_cases s :
  Go.big_SetString16 s = Go.parse_hex s
  \/ exists rest,
       (s = String "-" rest
        /\ Go.big_SetString16 s = option_map Z.opp (Go.parse_hex rest))
       \/ (s = String "+" rest /\ Go.big_SetString16 s = Go.parse_hex rest).
Proof.
  destruct s as [| c rest]; [left; reflexivity |].
  destruct c as [[] [] [] [] [] [] [] []];
    try (left; reflexivity); right; exists rest; auto.
Qed.

Lemma big_SetString16_no_colon s :
  Go.big_SetString16 s <> None -> Go.no_sep ":" s = true.
Proof.
  destruct (big_SetString16_cases s) as [E | (rest & [[-> E] | [-> E]])];
    rewrite E; intros H.
  - apply parse_hex_no_colon, H.
  - cbn [Go.no_sep]. apply parse_hex_no_colon.
    destruct (Go.parse_hex rest); [discriminate | exact H].
  - cbn [Go.no_sep]. apply parse_hex_no_colon, H.
Qed.

(** The recorded form of a candidate denotes the candidate's number. *)
Lemma ip6_value_hexip6toip6 c :
  Go.big_SetString16 c <> None ->
  ip6_value (Codec.hexip6toip6 c) = Go.big_SetString16 c.
Proof.
  intros H. unfold ip6_value, Codec.hexip6toip6.
  rewrite drop_colons_colons, drop_colons_none; [reflexivity |].
  apply big_SetString16_no_colon, H.
Qed.

(** Reading back the digits that [%x] writes. *)
Lemma parse_hex_from_digits d :
  forall p,
    Go.parse_hex_from (Z.pos p) (HexadecimalString.NilEmpty.string_of_uint d)
    = Some (Z.pos (Pos.of_hex_uint_acc d p)).
Proof.
  induction d; intros p; cbn [HexadecimalString.NilEmpty.string_of_uint
    Go.parse_hex_from Pos.of_hex_uint_acc]; try reflexivity;
    match goal with
    | |- context [Go.hex_val ?c] =>
        let v := eval vm_compute in (Go.hex_val c) in
        change (Go.hex_val c) with v
    end; cbv iota beta;
    match goal with
    | |- Go.parse_hex_from ?a _ = Some (Z.pos (Pos.of_hex_uint_acc _ ?q)) =>
        replace a with (Z.pos q) by lia
    end; apply IHd.
Qed.

Lemma parse_hex_from_uint d :
  Go.parse_hex_from 0 (HexadecimalString.NilEmpty.string_of_uint d)
  = Some (Z.of_N (Pos.of_hex_uint d)).
Proof.
  induction d; cbn [HexadecimalString.NilEmpty.string_of_uint
    Go.parse_hex_from Pos.of_hex_uint]; try reflexivity;
    match goal with
    | |- context [Go.hex_val ?c] =>
        let v := eval vm_compute in (Go.hex_val c) in
        change (Go.hex_val c) with v
    end; cbv iota beta; [exact IHd | ..];
    match goal with
    | |- Go.parse_hex_from ?a _ = _ =>
        let v := eval vm_compute in a in change a with v
    end; apply parse_hex_from_digits.
Qed.

Lemma parse_hex_from_hex_digits n :
  0 <= n -> Go.parse_hex_from 0 (Go.hex_digits n) = Some n.
Proof.
  intros Hn. unfold Go.hex_digits, HexadecimalString.NilZero.string_of_uint.
  pose proof (HexadecimalN.Unsigned.of_to (Z.to_N n)) as E.
  unfold N.of_hex_uint in E.
  destruct (N.to_hex_uint (Z.to_N n)) eqn:Hd;
    try (rewrite parse_hex_from_uint, E, Z2N.id by exact Hn; reflexivity).
  cbn in E. change (Go.parse_hex_from 0 "0") with (Some 0). f_equal. lia.
Qed.

Lemma parse_hex_from_zeros k s :
  Go.parse_hex_from 0 (Go.zeros k ++ s) = Go.parse_hex_from 0 s.
Proof. induction k; [reflexivity | exact IHk]. Qed.

Lemma hex_digits_not_empty n : Go.hex_digits n <> "".
Proof.
  unfold Go.hex_digits, HexadecimalString.NilZero.string_of_uint.
  destruct (N.to_hex_uint (Z.to_N n)); discriminate.
Qed.

Lemma hex_digits_start n :
  exists c rest, Go.hex_digits n = String c rest /\ Go.hex_val c <> None.
Proof.
  unfold Go.hex_digits, HexadecimalString.NilZero.string_of_uint.
  destruct (N.to_hex_uint (Z.to_N n));
    cbn [HexadecimalString.NilEmpty.string_of_uint];
    eexists; eexists; (split; [reflexivity | vm_compute; discriminate]).
Qed.

Lemma parse_hex_padded k n :
  0 <= n -> Go.parse_hex (Go.zeros k ++ Go.hex_digits n) = Some n.
Proof.
  intros Hn.
  assert (E : Go.parse_hex (Go.zeros k ++ Go.hex_digits n)
              = Go.parse_hex_from 0 (Go.zeros k ++ Go.hex_digits n)).
  { destruct k; cbn [Go.zeros append]; [| reflexivity].
    destruct (Go.hex_digits n) eqn:Hd; [| reflexivity].
    exfalso. exact (hex_digits_not_empty _ Hd). }
  rewrite E, parse_hex_from_zeros. apply parse_hex_from_hex_digits, Hn.
Qed.

Lemma big_SetString16_digits s c rest :
  s = String c rest -> Go.hex_val c <> None ->
  Go.big_SetString16 s = Go.parse_hex s.
Proof.
  intros -> Hc.
  destruct c as [[] [] [] [] [] [] [] []]; try reflexivity;
    exfalso; apply Hc; reflexivity.
Qed.

(** [SetString] reads back what [%0wx] writes. *)
Lemma big_SetString16_sprintf_0x w n :
  Go.big_SetString16 (Go.sprintf_0x w n) = Some n.
Proof.
  unfold Go.sprintf_0x. destruct (Z.ltb_spec n 0) as [Hn | Hn].
  - change ("-" ++ ?x) with (String "-" x). cbn [Go.big_SetString16].
    rewrite parse_hex_padded by lia. cbn [option_map]. f_equal. lia.
  - cbn [append]. rewrite Z.abs_eq by exact Hn.
    set (k := (w - String.length "" - String.length (Go.hex_digits n))%nat).
    rewrite <- (parse_hex_padded k n Hn).
    destruct k.
    + cbn [Go.zeros append].
      destruct (hex_digits_start n) as (c & rest & E & Hc).
      apply (big_SetString16_digits _ c rest E Hc).
    + apply (big_SetString16_digits _ "0" (Go.zeros k ++ Go.hex_digits n));
        [reflexivity | vm_compute; discriminate].
Qed.

(** The number of a gateway as it is recorded. *)
Lemma ip6_value_wire n :
  ip6_value (Codec.hexip6toip6 (Codec.BigIntToHexStr n)) = Some n.
Proof.
  rewrite ip6_value_hexip6toip6; unfold Codec.BigIntToHexStr;
    rewrite big_SetString16_sprintf_0x; [reflexivity | discriminate].
Qed.

(* ================================================================== *)
(** ** How the runs end, and their pace *)
(* ================================================================== *)

Lemma jittered_queries entropy k qs evs :
  forallb is_query qs = true ->
  jittered entropy k evs -> jittered entropy k (qs ++ evs).
Proof.
  induction qs as [| q qs IH]; [auto |].
  cbn [forallb]. intros H Hj. apply andb_true_iff in H as [Hq Hqs].
  destruct q; try discriminate Hq. cbn [app jittered]. auto.
Qed.

Lemma all_conflicts_nil : all_conflicts [].
Proof. intros m sv p a []. Qed.

Lemma all_conflicts_queries qs evs :
  forallb is_query qs = true -> all_conflicts evs -> all_conflicts (qs ++ evs).
Proof.
  intros Hq Hall m sv p a Hin. rewrite in_app_iff in Hin.
  destruct Hin as [Hin | Hin]; [| exact (Hall _ _ _ _ Hin)].
  rewrite forallb_forall in Hq. discriminate (Hq _ Hin).
Qed.

Lemma last_answer_queries qs evs a :
  forallb is_query qs = true -> last_answer evs a -> last_answer (qs ++ evs) a.
Proof.
  intros Hq (before & m & sv & p & -> & Hall).
  exists (qs ++ before)%list, m, sv, p. rewrite app_assoc.
  split; [reflexivity | apply all_conflicts_queries; assumption].
Qed.

Section RunEnds.
Variables (service : string) (jitter : bool).

Lemma all_conflicts_attempt pre p resp evs :
  delay jitter pre ->
  reserved (inr resp) = None ->
  all_conflicts evs ->
  all_conflicts (pre ++ EvRequest "post" service p (inr resp) :: evs).
Proof.
  intros Hd Hr Hall m sv q a Hin. rewrite in_app_iff in Hin.
  destruct Hin as [Hin | [E | Hin]].
  - apply (delay_sleeps _ _ _ Hd) in Hin. discriminate Hin.
  - injection E as _ _ _ <-. unfold conflict. rewrite Hr. reflexivity.
  - exact (Hall _ _ _ _ Hin).
Qed.

Lemma last_answer_attempt pre p resp evs a :
  delay jitter pre ->
  reserved (inr resp) = None ->
  last_answer evs a ->
  last_answer (pre ++ EvRequest "post" service p (inr resp) :: evs) a.
Proof.
  intros Hd Hr (before & m & sv & q & -> & Hall).
  exists (pre ++ EvRequest "post" service p (inr resp) :: before)%list, m, sv, q.
  split; [rewrite <- app_assoc; reflexivity |].
  apply all_conflicts_attempt; assumption.
Qed.

Lemma last_answer_first pre m sv p a :
  delay jitter pre -> last_answer (pre ++ [EvRequest m sv p a]) a.
Proof.
  intros Hd. exists pre, m, sv, p. split; [reflexivity |].
  intros m' sv' q a' Hin. apply (delay_sleeps _ _ _ Hd) in Hin.
  discriminate Hin.
Qed.

(** How a run of the loop ends, read off its events. *)
Lemma Run_ends cands evs o :
  Run service jitter cands evs o ->
  match o with
  | Exhausted =>
      all_conflicts evs
      /\ List.length (requests evs) = List.length cands
  | Reserved c oid =>
      exists resp, last_answer evs (inr resp) /\ reserved (inr resp) = Some oid
  | Failed err => last_answer evs (inl err)
  | Crashed => True
  end.
Proof.
  induction 1 as [| | c rest pre p err Hd | c rest pre p resp oid Hd Hr
                  | c rest pre p resp evs o Hd Hr HR IH].
  - split; [apply all_conflicts_nil | reflexivity].
  - exact I.
  - apply last_answer_first, Hd.
  - exists resp. split; [apply last_answer_first, Hd | exact Hr].
  - destruct o.
    + destruct IH as [Hall Hlen]. split.
      * apply all_conflicts_attempt; assumption.
      * rewrite requests_app, (delay_requests _ _ Hd). simpl.
        fold (requests evs). rewrite Hlen. reflexivity.
    + destruct IH as (resp' & Hl & Hres). exists resp'.
      split; [apply last_answer_attempt; assumption | exact Hres].
    + apply last_answer_attempt; assumption.
    + exact I.
Qed.

End RunEnds.

(* ---------------------------------------------------------------- *)
(** *** The pace of the loops *)

(** Conclude an attempt of a loop with the jitter. *)
Ltac paced Hrun IH Hs :=
  let w' := fresh "w'" in let answer := fresh "answer" in
  let err := fresh "err" in let resp := fresh "resp" in
  let oid := fresh "oid" in let evs := fresh "evs" in
  let Ht := fresh "Ht" in let Hj := fresh "Hj" in
  destruct Hrun as (w' & answer & Hrun);
  destruct answer as [err | resp];
  [ destruct Hrun as [_ ->]; eexists; cbn [trace];
    rewrite <- ?app_assoc; split; [reflexivity |];
    cbn [app jittered]; split; [reflexivity | exact I]
  | cbv zeta in Hrun; destruct (reserved (inr resp)) as [oid |];
    [ destruct Hrun as [_ ->]; eexists; cbn [trace];
      rewrite <- ?app_assoc; split; [reflexivity |];
      cbn [app jittered]; split; [reflexivity | exact I]
    | apply IH in Hrun; [| exact Hs];
      destruct Hrun as (evs & Ht & Hj);
      cbn [trace data entropy drawn] in Ht, Hj;
      eexists; rewrite Ht, <- ?app_assoc; split; [reflexivity |];
      cbn [app jittered]; split; [reflexivity | exact Hj] ] ].

(** Close a branch of a candidate search: no draw was made. *)
Ltac undrawn H :=
  injection H as <- <-; cbn [entropy drawn]; split; reflexivity.

Section Pace.
Context {W : Type} (s : SOLIDserver W).
Implicit Types st : St W.

Lemma ipsubnet_attempts_jittered cands :
  forall siteID blockInfo gw st r st',
    d_schema (data st) = resourceipsubnet ->
    ipsubnet_attempts s siteID blockInfo cands gw st = (r, st') ->
    exists evs,
      trace st' = (trace st ++ evs)%list
      /\ jittered (entropy st) (drawn st) evs.
Proof.
  induction cands as [| c rest IH]; intros siteID blockInfo gw st r st' Hs Hrun.
  - injection Hrun as <- <-. exists [].
    split; [now rewrite app_nil_r | exact I].
  - cbn [ipsubnet_attempts] in Hrun.
    rewrite bind_d_string in Hrun by typed Hs.
    rewrite bind_d_int in Hrun by typed Hs.
    rewrite bind_d_string in Hrun by typed Hs.
    rewrite bind_d_string in Hrun by typed Hs.
    destruct (Nat.eqb (String.length (get_str (data st) "block")) 0) eqn:Hb;
      [| destruct (map_get blockInfo "level") as [| level | | |] eqn:Hlevel;
         cbn [assert_string] in Hrun;
         rewrite ?bind_assoc, ?bind_panic, ?bind_ret in Hrun ].
    3: { rewrite bind_d_bool in Hrun by typed Hs.
         rewrite bind_d_int in Hrun by typed Hs.
         rewrite bind_class_parameters in Hrun by typed Hs.
         rewrite bind_rand_Intn, bind_time_Sleep in Hrun.
         apply check_answer in Hrun.
         cbn [trace data entropy drawn world] in Hrun.
         paced Hrun IH Hs. }
    1: { rewrite bind_ret, bind_d_bool in Hrun by typed Hs.
         rewrite bind_d_int in Hrun by typed Hs.
         rewrite bind_class_parameters in Hrun by typed Hs.
         rewrite bind_rand_Intn, bind_time_Sleep in Hrun.
         apply check_answer in Hrun.
         cbn [trace data entropy drawn world] in Hrun.
         paced Hrun IH Hs. }
    all: injection Hrun as <- <-; exists [];
      split; [now rewrite app_nil_r | exact I].
Qed.

Lemma ip6subnet_attempts_jittered cands :
  forall siteID blockInfo gw st r st',
    d_schema (data st) = resourceip6subnet ->
    ip6subnet_attempts s siteID blockInfo cands gw st = (r, st') ->
    exists evs,
      trace st' = (trace st ++ evs)%list
      /\ jittered (entropy st) (drawn st) evs.
Proof.
  induction cands as [| c rest IH]; intros siteID blockInfo gw st r st' Hs Hrun.
  - injection Hrun as <- <-. exists [].
    split; [now rewrite app_nil_r | exact I].
  - cbn [ip6subnet_attempts] in Hrun.
    rewrite bind_d_string in Hrun by typed Hs.
    rewrite bind_d_int in Hrun by typed Hs.
    rewrite bind_d_string in Hrun by typed Hs.
    rewrite bind_d_string in Hrun by typed Hs.
    rewrite bind_d_bool in Hrun by typed Hs.
    rewrite bind_d_int in Hrun by typed Hs.
    destruct (get_int (data st) "gateway_offset" =? 0) eqn:Hg;
      [| unfold ip6subnet_gateway in Hrun;
         destruct (Go.big_SetString16 c) as [bigStartAddr |] eqn:Hhex ];
      rewrite ?bind_panic, ?bind_ret in Hrun.
    3: { injection Hrun as <- <-. exists [].
         split; [now rewrite app_nil_r | exact I]. }
    all: rewrite bind_class_parameters in Hrun by typed Hs;
      rewrite bind_rand_Intn, bind_time_Sleep in Hrun;
      apply check_answer in Hrun;
      cbn [trace data entropy drawn world] in Hrun;
      paced Hrun IH Hs.
Qed.

(** The candidate search makes no draw from the random source. *)
Lemma ipsubnet_candidates_undrawn st r1 st1 :
  d_schema (data st) = resourceipsubnet ->
  ipsubnet_candidates s st = (r1, st1) ->
  entropy st1 = entropy st /\ drawn st1 = drawn st.
Proof.
  intros Hs H. unfold ipsubnet_candidates in H.
  read H Hs. unfold ipsiteidbyname in H. query H; [undrawn H |].
  read H Hs. branch H.
  - rewrite bind_assoc in H. read H Hs.
    unfold ipsubnetinfobyname in H. rewrite bind_assoc in H.
    query H; [undrawn H |]. rewrite bind_ret in H.
    destruct (map_get x0 "id"); cbn [assert_string] in H;
      rewrite ?bind_panic, ?bind_ret in H; try undrawn H.
    read H Hs. read H Hs.
    unfold ipsubnetfindbysize in H. query H; undrawn H.
  - rewrite bind_assoc in H. read H Hs. branch H.
    + rewrite bind_assoc in H. read H Hs. undrawn H.
    + rewrite bind_ret in H.
      change (map_get [("id", VString "")] "id") with (VString "") in H.
      cbn [assert_string] in H. rewrite bind_ret in H.
      read H Hs. read H Hs.
      unfold ipsubnetfindbysize in H. query H; undrawn H.
Qed.

Lemma ip6subnet_candidates_undrawn st r1 st1 :
  d_schema (data st) = resourceip6subnet ->
  ip6subnet_candidates s st = (r1, st1) ->
  entropy st1 = entropy st /\ drawn st1 = drawn st.
Proof.
  intros Hs H. unfold ip6subnet_candidates in H.
  read H Hs. unfold ipsiteidbyname in H. query H; [undrawn H |].
  read H Hs. branch H.
  - rewrite bind_assoc in H. read H Hs.
    unfold ip6subnetinfobyname in H. rewrite bind_assoc in H.
    query H; [undrawn H |]. rewrite bind_ret in H.
    destruct (map_get x0 "id"); cbn [assert_string] in H;
      rewrite ?bind_panic, ?bind_ret in H; try undrawn H.
    read H Hs. read H Hs.
    unfold ip6subnetfindbysize in H. query H; undrawn H.
  - rewrite bind_assoc in H. read H Hs. branch H.
    + rewrite bind_assoc in H. read H Hs. undrawn H.
    + rewrite bind_ret in H.
      change (map_get [("id", VString "")] "id") with (VString "") in H.
      cbn [assert_string] in H. rewrite bind_ret in H.
      read H Hs. read H Hs.
      unfold ip6subnetfindbysize in H. query H; undrawn H.
Qed.

(** A creation is its search followed by its loop; what comes after the
    loop leaves no event. *)
Lemma resourceipsubnetCreate_loop st r st' :
  d_schema (data st) = resourceipsubnet ->
  resourceipsubnetCreate s st = (r, st') ->
  (exists r1, ipsubnet_candidates s st = (r1, st')
              /\ forall found, r1 <> Next found)
  \/ (exists siteID blockInfo cands st1 r2 st2,
        ipsubnet_candidates s st = (Next (siteID, blockInfo, cands), st1)
        /\ ipsubnet_attempts s siteID blockInfo cands "" st1 = (r2, st2)
        /\ trace st' = trace st2
        /\ (r = Return diag_nil -> r2 = Return diag_nil /\ st' = st2)).
Proof.
  intros Hs H.
  destruct (ipsubnet_candidates s st) as [r1 st1] eqn:Hp.
  destruct (ipsubnet_candidates_run s _ _ _ Hs Hp) as (qs & Hq & Hqs & Hd & _).
  unfold resourceipsubnetCreate in H. unfold bind at 1 in H. rewrite Hp in H.
  destruct r1 as [[[siteID blockInfo] cands] | e | msg].
  - right. unfold bind at 1 in H.
    destruct (ipsubnet_attempts s siteID blockInfo cands "" st1)
      as [r2 st2] eqn:Hl.
    exists siteID, blockInfo, cands, st1, r2, st2.
    split; [reflexivity | split; [exact Hl |]].
    pose proof Hl as Hl'.
    apply ipsubnet_attempts_run in Hl'; [| rewrite Hd; exact Hs].
    destruct Hl' as (evs0 & o & _ & _ & Hres & _).
    destruct o; cbn [result_of] in Hres.
    + destruct Hres as [-> Hd2].
      rewrite bind_d_string in H by (rewrite Hd2, Hd; typed Hs).
      injection H as <- <-. split; [reflexivity | discriminate].
    + destruct Hres as [-> _]. injection H as <- <-. auto.
    + destruct Hres as [-> _]. injection H as <- <-. auto.
    + destruct Hres as [[msg ->] _]. injection H as <- <-.
      split; [reflexivity | discriminate].
  - left. injection H as <- <-. eexists. split; [reflexivity | discriminate].
  - left. injection H as <- <-. eexists. split; [reflexivity | discriminate].
Qed.

Lemma resourceip6subnetCreate_loop st r st' :
  d_schema (data st) = resourceip6subnet ->
  resourceip6subnetCreate s st = (r, st') ->
  (exists r1, ip6subnet_candidates s st = (r1, st')
              /\ forall found, r1 <> Next found)
  \/ (exists siteID blockInfo cands st1 r2 st2,
        ip6subnet_candidates s st = (Next (siteID, blockInfo, cands), st1)
        /\ ip6subnet_attempts s siteID blockInfo cands "" st1 = (r2, st2)
        /\ trace st' = trace st2
        /\ (r = Return diag_nil -> r2 = Return diag_nil /\ st' = st2)).
Proof.
  intros Hs H.
  destruct (ip6subnet_candidates s st) as [r1 st1] eqn:Hp.
  destruct (ip6subnet_candidates_run s _ _ _ Hs Hp) as (qs & Hq & Hqs & Hd & _).
  unfold resourceip6subnetCreate in H. unfold bind at 1 in H. rewrite Hp in H.
  destruct r1 as [[[siteID blockInfo] cands] | e | msg].
  - right. unfold bind at 1 in H.
    destruct (ip6subnet_attempts s siteID blockInfo cands "" st1)
      as [r2 st2] eqn:Hl.
    exists siteID, blockInfo, cands, st1, r2, st2.
    split; [reflexivity | split; [exact Hl |]].
    pose proof Hl as Hl'.
    apply ip6subnet_attempts_run in Hl'; [| rewrite Hd; exact Hs].
    destruct Hl' as (evs0 & o & _ & _ & Hres & _).
    destruct o; cbn [result_of] in Hres.
    + destruct Hres as [-> Hd2].
      rewrite bind_d_string in H by (rewrite Hd2, Hd; typed Hs).
      injection H as <- <-. split; [reflexivity | discriminate].
    + destruct Hres as [-> _]. injection H as <- <-. auto.
    + destruct Hres as [-> _]. injection H as <- <-. auto.
    + destruct Hres as [[msg ->] _]. injection H as <- <-.
      split; [reflexivity | discriminate].
  - left. injection H as <- <-. eexists. split; [reflexivity | discriminate].
  - left. injection H as <- <-. eexists. split; [reflexivity | discriminate].
Qed.

Lemma resourceipsubnetCreate_jittered st r st' :
  d_schema (data st) = resourceipsubnet ->
  resourceipsubnetCreate s st = (r, st') ->
  jittered (entropy st) (drawn st) (events_since st st').
Proof.
  intros Hs H.
  destruct (resourceipsubnetCreate_loop _ _ _ Hs H)
    as [(r1 & Hp & _)
       | (siteID & blockInfo & cands & st1 & r2 & st2 & Hp & Hl & Ht & _)];
    destruct (ipsubnet_candidates_run s _ _ _ Hs Hp) as (qs & Hq & Hqs & Hd & _).
  - rewrite (events_since_app _ _ _ Hq), <- (app_nil_r qs).
    apply jittered_queries; [exact Hqs | exact I].
  - destruct (ipsubnet_candidates_undrawn _ _ _ Hs Hp) as [He Hn].
    apply ipsubnet_attempts_jittered in Hl; [| rewrite Hd; exact Hs].
    destruct Hl as (evs & Ht2 & Hj). rewrite He, Hn in Hj.
    rewrite (events_since_app st st' (qs ++ evs))
      by (rewrite Ht, Ht2, Hq, app_assoc; reflexivity).
    apply jittered_queries; assumption.
Qed.

Lemma resourceip6subnetCreate_jittered st r st' :
  d_schema (data st) = resourceip6subnet ->
  resourceip6subnetCreate s st = (r, st') ->
  jittered (entropy st) (drawn st) (events_since st st').
Proof.
  intros Hs H.
  destruct (resourceip6subnetCreate_loop _ _ _ Hs H)
    as [(r1 & Hp & _)
       | (siteID & blockInfo & cands & st1 & r2 & st2 & Hp & Hl & Ht & _)];
    destruct (ip6subnet_candidates_run s _ _ _ Hs Hp) as (qs & Hq & Hqs & Hd & _).
  - rewrite (events_since_app _ _ _ Hq), <- (app_nil_r qs).
    apply jittered_queries; [exact Hqs | exact I].
  - destruct (ip6subnet_candidates_undrawn _ _ _ Hs Hp) as [He Hn].
    apply ip6subnet_attempts_jittered in Hl; [| rewrite Hd; exact Hs].
    destruct Hl as (evs & Ht2 & Hj). rewrite He, Hn in Hj.
    rewrite (events_since_app st st' (qs ++ evs))
      by (rewrite Ht, Ht2, Hq, app_assoc; reflexivity).
    apply jittered_queries; assumption.
Qed.

(** A successful IPv6 creation with a gateway offset reserved a
    candidate that [SetString] could read. *)
Lemma ip6subnet_attempts_reserved cands :
  forall siteID blockInfo gw st st',
    d_schema (data st) = resourceip6subnet ->
    get_int (data st) "gateway_offset" <> 0 ->
    ip6subnet_attempts s siteID blockInfo cands gw st = (Return diag_nil, st') ->
    exists c oid bigStartAddr,
      In c cands
      /\ Go.big_SetString16 c = Some bigStartAddr
      /\ data st' = ip6subnet_created (data st) c oid.
Proof.
  induction cands as [| c rest IH]; intros siteID blockInfo gw st st' Hs Hg Hrun.
  - discriminate Hrun.
  - cbn [ip6subnet_attempts] in Hrun.
    rewrite bind_d_string in Hrun by typed Hs.
    rewrite bind_d_int in Hrun by typed Hs.
    rewrite bind_d_string in Hrun by typed Hs.
    rewrite bind_d_string in Hrun by typed Hs.
    rewrite bind_d_bool in Hrun by typed Hs.
    rewrite bind_d_int in Hrun by typed Hs.
    pose proof Hg as Hg'. apply Z.eqb_neq in Hg'. rewrite Hg' in Hrun.
    unfold ip6subnet_gateway in Hrun.
    destruct (Go.big_SetString16 c) as [bigStartAddr |] eqn:Hhex;
      rewrite ?bind_panic, ?bind_ret in Hrun; [| discriminate Hrun].
    rewrite bind_class_parameters in Hrun by typed Hs.
    rewrite bind_rand_Intn, bind_time_Sleep in Hrun.
    apply check_answer in Hrun.
    cbn [trace data entropy drawn world] in Hrun.
    destruct Hrun as (w' & answer & Hrun).
    destruct answer as [err | resp]; [destruct Hrun as [E _]; discriminate E |].
    cbv zeta in Hrun. destruct (reserved (inr resp)) as [oid |].
    + destruct Hrun as [_ ->]. exists c, oid, bigStartAddr.
      split; [left; reflexivity | split; [exact Hhex |]].
      cbn [data]. unfold ip6subnet_created. rewrite Hg', Hhex. reflexivity.
    + apply IH in Hrun; [| exact Hs | exact Hg].
      destruct Hrun as (c' & oid & start & Hin & Hc' & Hd).
      exists c', oid, start. split; [right; exact Hin | auto].
Qed.

Lemma resourceip6subnetCreate_reserved st st' :
  d_schema (data st) = resourceip6subnet ->
  get_int (data st) "gateway_offset" <> 0 ->
  resourceip6subnetCreate s st = (Return diag_nil, st') ->
  exists c bigStartAddr,
    Go.big_SetString16 c = Some bigStartAddr
    /\ get_str (data st') "address" = Codec.hexip6toip6 c
    /\ get_str (data st') "gateway"
       = ip6subnet_gateway_at bigStartAddr (get_int (data st) "prefix_size")
           (get_int (data st) "gateway_offset").
Proof.
  intros Hs Hg H.
  destruct (resourceip6subnetCreate_loop _ _ _ Hs H)
    as [(r1 & Hp & Hn)
       | (siteID & blockInfo & cands & st1 & r2 & st2 & Hp & Hl & _ & Hr)];
    destruct (ip6subnet_candidates_run s _ _ _ Hs Hp) as (qs & Hq & Hqs & Hd & Hne).
  - exfalso.
    unfold resourceip6subnetCreate in H. unfold bind at 1 in H.
    rewrite Hp in H. destruct r1 as [found | e | msg].
    + exact (Hn found eq_refl).
    + injection H as E. apply Hne. rewrite E. reflexivity.
    + discriminate H.
  - destruct (Hr eq_refl) as [-> ->].
    apply ip6subnet_attempts_reserved in Hl;
      [| rewrite Hd; exact Hs | rewrite Hd; exact Hg].
    destruct Hl as (c & oid & start & _ & Hc & Hd2). rewrite Hd in Hd2.
    exists c, start. split; [exact Hc |]. rewrite Hd2.
    split; [apply ip6subnet_created_address, Hs |].
    apply (ip6subnet_created_gateway _ _ _ _ Hs Hg Hc).
Qed.

End Pace.

Section Reserved.
Context {W : Type} (s : SOLIDserver W).
Implicit Types st : St W.

(** The data of an IPv4 subnet after a successful creation. *)
Lemma ipsubnet_reserved_gateway st st' :
  d_schema (data st) = resourceipsubnet ->
  get_int (data st) "gateway_offset" <> 0 ->
  resourceipsubnetCreate s st = (Return diag_nil, st') ->
  exists c,
    get_str (data st') "address" = Codec.hexiptoip c
    /\ get_str (data st') "gateway"
       = ipsubnet_gateway c (get_int (data st) "prefix_size")
           (get_int (data st) "gateway_offset").
Proof.
  intros Hs Hg H.
  pose proof (resourceipsubnetCreate_engine s _ _ _ Hs H) as He.
  apply Engine_success_data in He;
    [| discriminate | discriminate | reflexivity].
  destruct He as (c & oid & Hd). exists c. rewrite Hd.
  split; [apply ipsubnet_created_address, Hs |].
  apply ipsubnet_created_gateway; assumption.
Qed.

(** The data of an IPv6 subnet after a successful creation. *)
Lemma ip6subnet_reserved_gateway st st1 st' siteID blockInfo cands :
  d_schema (data st) = resourceip6subnet ->
  ip6subnet_candidates s st = (Next (siteID, blockInfo, cands), st1) ->
  Forall (fun c => Go.big_SetString16 c <> None) cands ->
  get_int (data st) "gateway_offset" <> 0 ->
  resourceip6subnetCreate s st = (Return diag_nil, st') ->
  exists c start,
    In c cands
    /\ Go.big_SetString16 c = Some start
    /\ get_str (data st') "address" = Codec.hexip6toip6 c
    /\ get_str (data st') "gateway"
       = ip6subnet_gateway_at start (get_int (data st) "prefix_size")
           (get_int (data st) "gateway_offset").
Proof.
  intros Hs Hp Hhex Hg H.
  destruct (resourceip6subnetCreate_from_candidates s _ _ _ _ _ _ _ Hs Hp H)
    as (qs & evs & o & Hqs & HR & Hev & Hres & Hc).
  destruct o; cbn [result_of] in Hres;
    try (destruct Hres as [E _]; discriminate E);
    try (destruct Hres as [[msg E] _]; discriminate E).
  destruct Hres as [_ Hd].
  destruct (Run_reserved_last _ _ _ _ _ _ HR) as (Hin & _).
  rewrite Forall_forall in Hhex. specialize (Hhex _ Hin).
  destruct (Go.big_SetString16 candidate) as [start |] eqn:Hstart;
    [| contradiction].
  exists candidate, start.
  split; [exact Hin | split; [exact Hstart |]].
  rewrite Hd. split; [apply ip6subnet_created_address, Hs |].
  apply (ip6subnet_created_gateway _ _ _ _ Hs Hg Hstart).
Qed.

End Reserved.

Section Statements.
Context {W : Type} (s : SOLIDserver W).
Implicit Types st : St W.

(** C1, as amended.  For every IPv4 subnet creation that succeeds with a
    negative [gateway_offset] [g], over a reserved block with start address
    [start] and size [2^(32-prefix_size)], the gateway recorded on the
    created subnet is the dotted form of [start + blockSize - |g| - 1],
    computed modulo [2^32]: the offset is counted back from the last address of the
    block, so that offset -1 on 10.0.0.0/24 gives 10.0.0.254. *)
Theorem ipsubnet_gateway_from_block_end st st' :
  d_schema (data st) = resourceipsubnet ->
  get_int (data st) "gateway_offset" < 0 ->
  resourceipsubnetCreate s st = (Return diag_nil, st') ->
  let start := Codec.iptolong (get_str (data st') "address") in
  let blockSize := Codec.prefixlengthtosize (get_int (data st) "prefix_size") in
  let g := get_int (data st) "gateway_offset" in
  get_str (data st') "gateway"
  = Codec.longtoip (Go.uint32 (start + blockSize - Codec.abs g - 1))
  /\ Codec.iptolong (get_str (data st') "gateway")
     = Go.uint32 (start + blockSize - Codec.abs g - 1)
  /\ (0 <= start + blockSize - Codec.abs g - 1 < 2 ^ 32 ->
      get_str (data st') "gateway"
      = Codec.longtoip (start + blockSize - Codec.abs g - 1)).
Proof.
  intros Hs Hg H start blockSize g.
  destruct (ipsubnet_reserved_gateway s _ _ Hs (Z.lt_neq _ _ Hg) H)
    as (c & Ha & Hgw).
  assert (E : get_str (data st') "gateway"
              = Codec.longtoip
                  (Go.uint32 (start + blockSize - Codec.abs g - 1))).
  { subst start blockSize g. rewrite Hgw, Ha.
    apply ipsubnet_gateway_negative, Hg. }
  split; [exact E | split].
  - rewrite E. apply iptolong_longtoip.
    unfold Go.uint32. apply Z.mod_pos_bound. reflexivity.
  - intros Hr. rewrite E, uint32_small by exact Hr. reflexivity.
Qed.

(** C2, as amended.  Gateway offset resolution makes no range check.
    Once the search has handed its candidates to the loop, a creation
    with a nonzero offset ends in one of three ways, none of which
    looks at the gateway: success on the first call that the inventory
    answers with 200 or 201 and an entity id, the transport error of a
    call, or the exhaustion error after the inventory refused every
    candidate.  On success the gateway recorded is [blockStart + offset]
    (offset > 0) or the end-anchored address (offset < 0), whether or not
    it lies in the block; IPv4 computes it modulo [2^32] (a result past
    [2^32-1] wraps), IPv6 in arbitrary precision.  The only other end is
    a panic of the loop, which the offset does not decide either: the
    parent block came back without its level (IPv4), a candidate is no
    hexadecimal numeral (IPv6). *)
Theorem gateway_offset_unchecked :
  (forall st siteID blockInfo cands st1 r st',
     d_schema (data st) = resourceipsubnet ->
     ipsubnet_candidates s st = (Next (siteID, blockInfo, cands), st1) ->
     get_int (data st) "gateway_offset" <> 0 ->
     resourceipsubnetCreate s st = (r, st') ->
     let start := Codec.iptolong (get_str (data st') "address") in
     let blockSize :=
       Codec.prefixlengthtosize (get_int (data st) "prefix_size") in
     let g := get_int (data st) "gateway_offset" in
     (r = Return diag_nil
      /\ (exists resp,
            last_answer (events_since st st') (inr resp)
            /\ unambiguous (inr resp) (Id (data st')))
      /\ get_str (data st') "gateway"
         = Codec.longtoip
             (Go.uint32 (if 0 <? g then start + g
                         else start + blockSize - Codec.abs g - 1)))
     \/ (exists err,
           r = Return (diag_FromErr err)
           /\ last_answer (events_since st st') (inl err)
           /\ data st' = data st)
     \/ (r = Return (diag_Errorf
                       (ipsubnet_exhausted (get_str (data st) "name")))
         /\ all_conflicts (events_since st st')
         /\ List.length (requests (events_since st st')) = List.length cands
         /\ data st' = data st)
     \/ ((exists msg, r = Panic msg)
         /\ ~ ipsubnet_level_ok (data st) blockInfo
         /\ data st' = data st))
  /\ (forall st siteID blockInfo cands st1 r st',
        d_schema (data st) = resourceip6subnet ->
        ip6subnet_candidates s st = (Next (siteID, blockInfo, cands), st1) ->
        get_int (data st) "gateway_offset" <> 0 ->
        resourceip6subnetCreate s st = (r, st') ->
        let blockSize :=
          Codec.prefix6lengthtosize (get_int (data st) "prefix_size") in
        let g := get_int (data st) "gateway_offset" in
        (r = Return diag_nil
         /\ (exists resp,
               last_answer (events_since st st') (inr resp)
               /\ unambiguous (inr resp) (Id (data st')))
         /\ (exists start,
               ip6_value (get_str (data st') "address") = Some start
               /\ get_str (data st') "gateway"
                  = Codec.hexip6toip6
                      (Codec.BigIntToHexStr
                         (if 0 <? g then start + g
                          else start + blockSize - Codec.abs g))
               /\ ip6_value (get_str (data st') "gateway")
                  = Some (if 0 <? g then start + g
                          else start + blockSize - Codec.abs g)))
        \/ (exists err,
              r = Return (diag_FromErr err)
              /\ last_answer (events_since st st') (inl err)
              /\ data st' = data st)
        \/ (r = Return (diag_Errorf
                          (ip6subnet_exhausted (get_str (data st) "name")))
            /\ all_conflicts (events_since st st')
            /\ List.length (requests (events_since st st'))
               = List.length cands
            /\ data st' = data st)
        \/ ((exists msg, r = Panic msg)
            /\ ~ Forall (fun c => Go.big_SetString16 c <> None) cands
            /\ data st' = data st)).
Proof.
  split.
  - intros st siteID blockInfo cands st1 r st' Hs Hp Hg H start blockSize g.
    destruct (resourceipsubnetCreate_from_candidates s _ _ _ _ _ _ _ Hs Hp H)
      as (qs & evs & o & Hqs & HR & Hev & Hres & Hc).
    pose proof (Run_ends _ _ _ _ _ HR) as He. rewrite Hev.
    destruct o; cbn [result_of] in Hres.
    + right. right. left. destruct Hres as [-> ->]. destruct He as [Hall Hlen].
      split; [reflexivity |].
      split; [apply all_conflicts_queries; assumption |].
      split; [| reflexivity].
      rewrite requests_app, (requests_queries _ Hqs). exact Hlen.
    + left. destruct Hres as [-> Hd]. destruct He as (resp & Hl & Hr).
      split; [reflexivity |]. split.
      * exists resp. split; [apply last_answer_queries; assumption |].
        rewrite Hd, ipsubnet_created_id. apply reserved_unambiguous, Hr.
      * destruct (ipsubnet_reserved_gateway s _ _ Hs Hg H) as (c & Ha & Hgw).
        subst start blockSize g. rewrite Hgw, Ha.
        destruct (Z.ltb_spec 0 (get_int (data st) "gateway_offset")).
        -- apply ipsubnet_gateway_positive. assumption.
        -- apply ipsubnet_gateway_negative. lia.
    + right. left. destruct Hres as [-> ->]. exists err.
      split; [reflexivity |].
      split; [apply last_answer_queries; assumption | reflexivity].
    + right. right. right. destruct Hres as [Hm ->].
      split; [exact Hm | split; [| reflexivity]].
      intros Hok. exact (Hc Hok eq_refl).
  - intros st siteID blockInfo cands st1 r st' Hs Hp Hg H blockSize g.
    destruct (resourceip6subnetCreate_from_candidates s _ _ _ _ _ _ _ Hs Hp H)
      as (qs & evs & o & Hqs & HR & Hev & Hres & Hc).
    pose proof (Run_ends _ _ _ _ _ HR) as He. rewrite Hev.
    destruct o; cbn [result_of] in Hres.
    + right. right. left. destruct Hres as [-> ->]. destruct He as [Hall Hlen].
      split; [reflexivity |].
      split; [apply all_conflicts_queries; assumption |].
      split; [| reflexivity].
      rewrite requests_app, (requests_queries _ Hqs). exact Hlen.
    + left. destruct Hres as [-> Hd]. destruct He as (resp & Hl & Hr).
      split; [reflexivity |]. split.
      * exists resp. split; [apply last_answer_queries; assumption |].
        rewrite Hd, ip6subnet_created_id. apply reserved_unambiguous, Hr.
      * destruct (resourceip6subnetCreate_reserved s _ _ Hs Hg H)
          as (c & start & Hstart & Ha & Hgw).
        exists start. rewrite Ha, Hgw.
        rewrite ip6_value_hexip6toip6 by congruence.
        split; [exact Hstart |].
        unfold ip6subnet_gateway_at. subst g blockSize.
        destruct (0 <? get_int (data st) "gateway_offset");
          (split; [reflexivity | apply ip6_value_wire]).
    + right. left. destruct Hres as [-> ->]. exists err.
      split; [reflexivity |].
      split; [apply last_answer_queries; assumption | reflexivity].
    + right. right. right. destruct Hres as [Hm ->].
      split; [exact Hm | split; [| reflexivity]].
      intros Hhex. apply Hc; [right; exact Hhex | reflexivity].
Qed.

(** C3, as amended.  For every creation request whose candidate list
    has length [k], if the inventory reports a conflict on every
    reservation attempt and the loop does not panic while it builds a
    call -- the parent block of an IPv4 subnet came back with its level,
    the candidates of an IPv6 subnet with a gateway offset are
    hexadecimal numerals -- the engine makes exactly [k] reservation
    calls, one per candidate, and then returns the terminal exhaustion
    error. *)
Theorem exhaustion_after_k_attempts :
  (forall st st1 siteID blockInfo cands r st',
     d_schema (data st) = resourceipsubnet ->
     ipsubnet_candidates s st = (Next (siteID, blockInfo, cands), st1) ->
     ipsubnet_level_ok (data st) blockInfo ->
     resourceipsubnetCreate s st = (r, st') ->
     all_conflicts (events_since st st') ->
     List.length (requests (events_since st st')) = List.length cands
     /\ r = Return (diag_Errorf
                      (ipsubnet_exhausted (get_str (data st) "name"))))
  /\ (forall st st1 siteID blockInfo cands r st',
        d_schema (data st) = resourceip6subnet ->
        ip6subnet_candidates s st = (Next (siteID, blockInfo, cands), st1) ->
        ip6subnet_hex_ok (data st) cands ->
        resourceip6subnetCreate s st = (r, st') ->
        all_conflicts (events_since st st') ->
        List.length (requests (events_since st st')) = List.length cands
        /\ r = Return (diag_Errorf
                         (ip6subnet_exhausted (get_str (data st) "name"))))
  /\ (forall st st1 cands r st',
        d_schema (data st) = resourcevlan ->
        vlan_candidates s st = (Next cands, st1) ->
        resourcevlanCreate s st = (r, st') ->
        all_conflicts (events_since st st') ->
        List.length (requests (events_since st st')) = List.length cands
        /\ r = Return (Some (vlan_exhausted (get_str (data st) "name")))).
Proof.
  split; [| split]; intros.
  - eapply ipsubnet_exhaustion; eauto.
  - eapply ip6subnet_exhaustion; eauto.
  - eapply vlan_exhaustion; eauto.
Qed.

(** C4, on the code.  A VLAN creation with an explicit requested
    identifier ([request_id > 0]) does skip the search, but it never
    reaches the reservation loop: [d.Get("request_id").(string)] asserts
    a string on the integer attribute and panics before any call. *)
Theorem resourcevlanCreate_requested_id_panics st :
  d_schema (data st) = resourcevlan ->
  0 < get_int (data st) "request_id" ->
  resourcevlanCreate s st
  = (Panic "interface conversion: interface {} is int, not string", st).
Proof.
  intros Hs Hid. unfold resourcevlanCreate, bind.
  rewrite (vlan_candidates_requested s _ Hs Hid). reflexivity.
Qed.

(** C5.  For every creation request, a reservation attempt that fails
    with a transport-level error is the last event of the run -- no
    further candidate is attempted -- and the error is the result. *)
Theorem transport_error_aborts :
  (forall st r st' i m sv p err,
     d_schema (data st) = resourceipsubnet ->
     resourceipsubnetCreate s st = (r, st') ->
     nth_error (events_since st st') i = Some (EvRequest m sv p (inl err)) ->
     List.length (events_since st st') = S i
     /\ r = Return (diag_FromErr err))
  /\ (forall st r st' i m sv p err,
        d_schema (data st) = resourceip6subnet ->
        resourceip6subnetCreate s st = (r, st') ->
        nth_error (events_since st st') i = Some (EvRequest m sv p (inl err)) ->
        List.length (events_since st st') = S i
        /\ r = Return (diag_FromErr err))
  /\ (forall st r st' i m sv p err,
        d_schema (data st) = resourcevlan ->
        resourcevlanCreate s st = (r, st') ->
        nth_error (events_since st st') i = Some (EvRequest m sv p (inl err)) ->
        List.length (events_since st st') = S i
        /\ r = Return (Some err)).
Proof.
  split; [| split]; intros st r st' i m sv p err Hs H Hn;
    apply nth_error_split in Hn as (before & after & E & Hi).
  - pose proof (resourceipsubnetCreate_engine s _ _ _ Hs H) as He.
    destruct (Engine_transport _ _ _ _ _ _ _ _ _ _ _ _ _ _ _ He E) as [-> ->].
    rewrite E, length_app. simpl. split; [lia | reflexivity].
  - pose proof (resourceip6subnetCreate_engine s _ _ _ Hs H) as He.
    destruct (Engine_transport _ _ _ _ _ _ _ _ _ _ _ _ _ _ _ He E) as [-> ->].
    rewrite E, length_app. simpl. split; [lia | reflexivity].
  - pose proof (resourcevlanCreate_engine s _ _ _ Hs H) as He.
    destruct (Engine_transport _ _ _ _ _ _ _ _ _ _ _ _ _ _ _ He E) as [-> ->].
    rewrite E, length_app. simpl. split; [lia | reflexivity].
Qed.

(** C6.  For every IPv6 subnet creation that succeeds with a negative
    [gateway_offset] [g], the gateway is computed on arbitrary-precision
    integers as [blockStart + 2^(128-prefix_size) - |g|], anchored to the
    block end: [blockStart] is the number of the address recorded on the
    subnet, and the gateway recorded is the colon notation of that sum,
    which reads back as the very same number, without any reduction. *)
Theorem ip6subnet_gateway_from_block_end st st' :
  d_schema (data st) = resourceip6subnet ->
  get_int (data st) "gateway_offset" < 0 ->
  resourceip6subnetCreate s st = (Return diag_nil, st') ->
  exists blockStart,
    ip6_value (get_str (data st') "address") = Some blockStart
    /\ get_str (data st') "gateway"
       = Codec.hexip6toip6
           (Codec.BigIntToHexStr
              (blockStart + 2 ^ (128 - get_int (data st) "prefix_size")
               - Z.abs (get_int (data st) "gateway_offset")))
    /\ ip6_value (get_str (data st') "gateway")
       = Some (blockStart + 2 ^ (128 - get_int (data st) "prefix_size")
               - Z.abs (get_int (data st) "gateway_offset")).
Proof.
  intros Hs Hg H.
  destruct (resourceip6subnetCreate_reserved s _ _ Hs (Z.lt_neq _ _ Hg) H)
    as (c & start & Hstart & Ha & Hgw).
  exists start. rewrite Ha, Hgw.
  rewrite ip6_value_hexip6toip6 by congruence.
  split; [exact Hstart |].
  unfold ip6subnet_gateway_at.
  destruct (Z.ltb_spec 0 (get_int (data st) "gateway_offset")); [lia |].
  rewrite abs_Zabs. unfold Codec.prefix6lengthtosize.
  split; [reflexivity | apply ip6_value_wire].
Qed.

(** C7.  For every creation request, the engine reports success if and
    only if one reservation call unambiguously succeeded (status 200 or
    201 together with a [ret_oid]); that call is then the last event of
    the run and the resource id is exactly the entity id it returned. *)
Theorem success_iff_reserved :
  (forall st r st',
     d_schema (data st) = resourceipsubnet ->
     resourceipsubnetCreate s st = (r, st') ->
     (r = Return diag_nil
      <-> exists e a oid,
            In e (events_since st st')
            /\ answer_of e = Some a /\ unambiguous a oid)
     /\ (r = Return diag_nil ->
         exists before parameters resp,
           events_since st st'
           = (before
              ++ [EvRequest "post" "rest/ip_subnet_add" parameters
                    (inr resp)])%list
           /\ unambiguous (inr resp) (Id (data st'))))
  /\ (forall st r st',
        d_schema (data st) = resourceip6subnet ->
        resourceip6subnetCreate s st = (r, st') ->
        (r = Return diag_nil
         <-> exists e a oid,
               In e (events_since st st')
               /\ answer_of e = Some a /\ unambiguous a oid)
        /\ (r = Return diag_nil ->
            exists before parameters resp,
              events_since st st'
              = (before
                 ++ [EvRequest "post" "rest/ip6_subnet6_add" parameters
                       (inr resp)])%list
              /\ unambiguous (inr resp) (Id (data st'))))
  /\ (forall st r st',
        d_schema (data st) = resourcevlan ->
        resourcevlanCreate s st = (r, st') ->
        (r = Return None
         <-> exists e a oid,
               In e (events_since st st')
               /\ answer_of e = Some a /\ unambiguous a oid)
        /\ (r = Return None ->
            exists before parameters resp,
              events_since st st'
              = (before
                 ++ [EvRequest "post" "rest/vlm_vlan_add" parameters
                       (inr resp)])%list
              /\ unambiguous (inr resp) (Id (data st')))).
Proof.
  assert (Hiff : forall evs,
             (exists e a oid,
                In e evs /\ answer_of e = Some a /\ reserved a = Some oid)
             <-> (exists e a oid,
                    In e evs /\ answer_of e = Some a /\ unambiguous a oid)).
  { intros evs.
    split; intros (e & a & oid & Hin & Ha & Hr); exists e, a, oid;
      (split; [exact Hin | split; [exact Ha |]]);
      apply reserved_unambiguous; exact Hr. }
  split; [| split]; intros st r st' Hs H.
  - pose proof (resourceipsubnetCreate_engine s _ _ _ Hs H) as He. split.
    + rewrite <- Hiff. apply (Engine_success_iff _ _ _ _ _ _) in He;
        [exact He | discriminate | discriminate].
    + intros Hr.
      apply (Engine_success_last _ _ _ _ _ _) in He;
        [| discriminate | discriminate | apply ipsubnet_created_id | exact Hr].
      destruct He as (before & p & resp & Hev & Hres).
      exists before, p, resp. split; [exact Hev |].
      apply reserved_unambiguous, Hres.
  - pose proof (resourceip6subnetCreate_engine s _ _ _ Hs H) as He. split.
    + rewrite <- Hiff. apply (Engine_success_iff _ _ _ _ _ _) in He;
        [exact He | discriminate | discriminate].
    + intros Hr.
      apply (Engine_success_last _ _ _ _ _ _) in He;
        [| discriminate | discriminate | apply ip6subnet_created_id | exact Hr].
      destruct He as (before & p & resp & Hev & Hres).
      exists before, p, resp. split; [exact Hev |].
      apply reserved_unambiguous, Hres.
  - pose proof (resourcevlanCreate_engine s _ _ _ Hs H) as He. split.
    + rewrite <- Hiff. apply (Engine_success_iff _ _ _ _ _ _) in He;
        [exact He | discriminate | discriminate].
    + intros Hr.
      apply (Engine_success_last _ _ _ _ _ _) in He;
        [| discriminate | discriminate | apply vlan_created_id | exact Hr].
      destruct He as (before & p & resp & Hev & Hres).
      exists before, p, resp. split; [exact Hev |].
      apply reserved_unambiguous, Hres.
Qed.

(** C8, on the code.  The update of a VLAN never re-runs the search or
    the reservation loop, but it makes no inventory call either:
    [d.Get("vlan_id").(string)] asserts a string on the integer attribute
    and panics while the parameters of the edit are being built. *)
Theorem resourcevlanUpdate_panics st :
  d_schema (data st) = resourcevlan ->
  resourcevlanUpdate s st
  = (Panic "interface conversion: interface {} is int, not string", st).
Proof.
  intros Hs. unfold resourcevlanUpdate. rewrite bind_get_d.
  unfold bind. rewrite d_string_of_int by typed Hs. reflexivity.
Qed.

(** C9, as amended.  In every IPv4 and IPv6 subnet creation, each
    reservation call comes right after a sleep, hence a delay shorter
    than one second, and the sleep before the call of the [i]-th attempt
    lasts [rand.Intn(1000)] milliseconds: the [i]-th number that the
    creation draws from the random source, reduced modulo 1000.  The VLAN
    creation issues its reservation calls without any delay. *)
Theorem reservation_delay :
  (forall st r st',
     d_schema (data st) = resourceipsubnet ->
     resourceipsubnetCreate s st = (r, st') ->
     delayed (events_since st st')
     /\ jittered (entropy st) (drawn st) (events_since st st'))
  /\ (forall st r st',
        d_schema (data st) = resourceip6subnet ->
        resourceip6subnetCreate s st = (r, st') ->
        delayed (events_since st st')
        /\ jittered (entropy st) (drawn st) (events_since st st'))
  /\ (forall st r st',
        d_schema (data st) = resourcevlan ->
        resourcevlanCreate s st = (r, st') ->
        forallb (fun e => negb (is_sleep e)) (events_since st st') = true).
Proof.
  split; [| split]; intros st r st' Hs H.
  - split.
    + eapply Engine_delayed, resourceipsubnetCreate_engine; eassumption.
    + eapply resourceipsubnetCreate_jittered; eassumption.
  - split.
    + eapply Engine_delayed, resourceip6subnetCreate_engine; eassumption.
    + eapply resourceip6subnetCreate_jittered; eassumption.
  - eapply Engine_never_sleeps, resourcevlanCreate_engine; eassumption.
Qed.

(** C10.  For both IPv4 and IPv6 subnet creation, a request with an empty
    parent block name and [terminal = true] fails with an error right
    after the scope lookup: no candidate search and no reservation call
    is made, and the resource data is left as it was. *)
Theorem toplevel_terminal_rejected :
  (forall st r st',
     d_schema (data st) = resourceipsubnet ->
     get_str (data st) "block" = "" ->
     get_bool (data st) "terminal" = true ->
     resourceipsubnetCreate s st = (r, st') ->
     (exists e, r = Return e /\ e <> diag_nil)
     /\ events_since st st'
        = [EvQuery "ipsiteidbyname" [get_str (data st) "space"]]
     /\ data st' = data st)
  /\ (forall st r st',
        d_schema (data st) = resourceip6subnet ->
        get_str (data st) "block" = "" ->
        get_bool (data st) "terminal" = true ->
        resourceip6subnetCreate s st = (r, st') ->
        (exists e, r = Return e /\ e <> diag_nil)
        /\ events_since st st'
           = [EvQuery "ipsiteidbyname" [get_str (data st) "space"]]
        /\ data st' = data st).
Proof.
  split; intros st r st' Hs Hb Ht H.
  - destruct (ipsubnet_toplevel_terminal s _ _ _ Hs Hb Ht H)
      as (Hev & Hd & [-> | [siteErr ->]]);
      (split; [eexists; split; [reflexivity | discriminate] | auto]).
  - destruct (ip6subnet_toplevel_terminal s _ _ _ Hs Hb Ht H)
      as (Hev & Hd & [-> | [siteErr ->]]);
      (split; [eexists; split; [reflexivity | discriminate] | auto]).
Qed.

End Statements.

(* ================================================================== *)
(** ** The properties on the test inventories *)
(* ================================================================== *)

Lemma run_pair {A B} (x : A * B) : x = (fst x, snd x).
Proof. destruct x; reflexivity. Qed.

(** Offset -1 on a /24 reserved at 10.0.0.0. *)
Lemma ipsubnet_gateway_from_block_end_witness :
  d_schema (data Mock.gateway_minus1) = resourceipsubnet
  /\ get_int (data Mock.gateway_minus1) "gateway_offset" < 0
  /\ resourceipsubnetCreate Mock.inventory4 Mock.gateway_minus1
     = (Return diag_nil, snd (run4 Mock.gateway_minus1))
  /\ (let start :=
        Codec.iptolong
          (get_str (data (snd (run4 Mock.gateway_minus1))) "address") in
      let blockSize :=
        Codec.prefixlengthtosize
          (get_int (data Mock.gateway_minus1) "prefix_size") in
      let g := get_int (data Mock.gateway_minus1) "gateway_offset" in
      get_str (data (snd (run4 Mock.gateway_minus1))) "gateway"
      = Codec.longtoip (Go.uint32 (start + blockSize - Codec.abs g - 1))
      /\ Codec.iptolong
           (get_str (data (snd (run4 Mock.gateway_minus1))) "gateway")
         = Go.uint32 (start + blockSize - Codec.abs g - 1)
      /\ (0 <= start + blockSize - Codec.abs g - 1 < 2 ^ 32 ->
          get_str (data (snd (run4 Mock.gateway_minus1))) "gateway"
          = Codec.longtoip (start + blockSize - Codec.abs g - 1))).
Proof.
  assert (Hs : d_schema (data Mock.gateway_minus1) = resourceipsubnet)
    by reflexivity.
  assert (Hg : get_int (data Mock.gateway_minus1) "gateway_offset" < 0)
    by (vm_compute; reflexivity).
  assert (H : resourceipsubnetCreate Mock.inventory4 Mock.gateway_minus1
              = (Return diag_nil, snd (run4 Mock.gateway_minus1)))
    by (vm_compute; reflexivity).
  exact (conj Hs (conj Hg (conj H
           (ipsubnet_gateway_from_block_end Mock.inventory4
              Mock.gateway_minus1 (snd (run4 Mock.gateway_minus1))
              Hs Hg H)))).
Defined.

(** C1, as stated, fails: offset -1 on the /24 reserved at 10.0.0.0
    records the gateway 10.0.0.254, not the address
    [start + blockSize - |g|], which is 10.0.0.255. *)
Lemma ipsubnet_gateway_minus1_is_not_255 :
  fst (run4 Mock.gateway_minus1) = Return diag_nil
  /\ get_int (data Mock.gateway_minus1) "gateway_offset" = -1
  /\ get_str (data (snd (run4 Mock.gateway_minus1))) "address"
     = "10.0.0.0"
  /\ get_str (data (snd (run4 Mock.gateway_minus1))) "gateway"
     = "10.0.0.254"
  /\ Codec.longtoip
       (Codec.iptolong "10.0.0.0" + Codec.prefixlengthtosize 24
        - Codec.abs (-1)) = "10.0.0.255"
  /\ get_str (data (snd (run4 Mock.gateway_minus1))) "gateway"
     <> Codec.longtoip
          (Codec.iptolong "10.0.0.0" + Codec.prefixlengthtosize 24
           - Codec.abs (-1)).
Proof. vm_compute. repeat split. discriminate. Qed.

(** Offset 256 on a /24 reserved at 10.0.0.0 and on a /120 reserved at
    2001:db8::, both past the end of the block. *)
Lemma gateway_offset_unchecked_witness :
  (d_schema (data Mock.gateway_256) = resourceipsubnet
   /\ ipsubnet_candidates Mock.inventory4 Mock.gateway_256
      = (Next ("2", Mock.block24, Mock.net10), snd (found4 Mock.gateway_256))
   /\ get_int (data Mock.gateway_256) "gateway_offset" <> 0
   /\ resourceipsubnetCreate Mock.inventory4 Mock.gateway_256
      = (fst (run4 Mock.gateway_256), snd (run4 Mock.gateway_256))
   /\ (let start :=
         Codec.iptolong
           (get_str (data (snd (run4 Mock.gateway_256))) "address") in
       let blockSize :=
         Codec.prefixlengthtosize
           (get_int (data Mock.gateway_256) "prefix_size") in
       let g := get_int (data Mock.gateway_256) "gateway_offset" in
       (fst (run4 Mock.gateway_256) = Return diag_nil
        /\ (exists resp,
              last_answer
                (events_since Mock.gateway_256 (snd (run4 Mock.gateway_256)))
                (inr resp)
              /\ unambiguous (inr resp)
                   (Id (data (snd (run4 Mock.gateway_256)))))
        /\ get_str (data (snd (run4 Mock.gateway_256))) "gateway"
           = Codec.longtoip
               (Go.uint32 (if 0 <? g then start + g
                           else start + blockSize - Codec.abs g - 1)))
       \/ (exists err,
             fst (run4 Mock.gateway_256) = Return (diag_FromErr err)
             /\ last_answer
                  (events_since Mock.gateway_256
                     (snd (run4 Mock.gateway_256))) (inl err)
             /\ data (snd (run4 Mock.gateway_256)) = data Mock.gateway_256)
       \/ (fst (run4 Mock.gateway_256)
           = Return (diag_Errorf
                       (ipsubnet_exhausted
                          (get_str (data Mock.gateway_256) "name")))
           /\ all_conflicts
                (events_since Mock.gateway_256 (snd (run4 Mock.gateway_256)))
           /\ List.length
                (requests
                   (events_since Mock.gateway_256
                      (snd (run4 Mock.gateway_256))))
              = List.length Mock.net10
           /\ data (snd (run4 Mock.gateway_256)) = data Mock.gateway_256)
       \/ ((exists msg, fst (run4 Mock.gateway_256) = Panic msg)
           /\ ~ ipsubnet_level_ok (data Mock.gateway_256) Mock.block24
           /\ data (snd (run4 Mock.gateway_256)) = data Mock.gateway_256)))
  /\ (d_schema (data Mock.gateway6_past) = resourceip6subnet
      /\ ip6subnet_candidates Mock.inventory6 Mock.gateway6_past
         = (Next ("2", Mock.block24, Mock.net2001),
            snd (found6 Mock.gateway6_past))
      /\ get_int (data Mock.gateway6_past) "gateway_offset" <> 0
      /\ resourceip6subnetCreate Mock.inventory6 Mock.gateway6_past
         = (fst (run6 Mock.gateway6_past), snd (run6 Mock.gateway6_past))
      /\ (let blockSize :=
            Codec.prefix6lengthtosize
              (get_int (data Mock.gateway6_past) "prefix_size") in
          let g := get_int (data Mock.gateway6_past) "gateway_offset" in
          (fst (run6 Mock.gateway6_past) = Return diag_nil
           /\ (exists resp,
                 last_answer
                   (events_since Mock.gateway6_past
                      (snd (run6 Mock.gateway6_past))) (inr resp)
                 /\ unambiguous (inr resp)
                      (Id (data (snd (run6 Mock.gateway6_past)))))
           /\ (exists start,
                 ip6_value
                   (get_str (data (snd (run6 Mock.gateway6_past))) "address")
                 = Some start
                 /\ get_str (data (snd (run6 Mock.gateway6_past))) "gateway"
                    = Codec.hexip6toip6
                        (Codec.BigIntToHexStr
                           (if 0 <? g then start + g
                            else start + blockSize - Codec.abs g))
                 /\ ip6_value
                      (get_str (data (snd (run6 Mock.gateway6_past)))
                         "gateway")
                    = Some (if 0 <? g then start + g
                            else start + blockSize - Codec.abs g)))
          \/ (exists err,
                fst (run6 Mock.gateway6_past) = Return (diag_FromErr err)
                /\ last_answer
                     (events_since Mock.gateway6_past
                        (snd (run6 Mock.gateway6_past))) (inl err)
                /\ data (snd (run6 Mock.gateway6_past))
                   = data Mock.gateway6_past)
          \/ (fst (run6 Mock.gateway6_past)
              = Return (diag_Errorf
                          (ip6subnet_exhausted
                             (get_str (data Mock.gateway6_past) "name")))
              /\ all_conflicts
                   (events_since Mock.gateway6_past
                      (snd (run6 Mock.gateway6_past)))
              /\ List.length
                   (requests
                      (events_since Mock.gateway6_past
                         (snd (run6 Mock.gateway6_past))))
                 = List.length Mock.net2001
              /\ data (snd (run6 Mock.gateway6_past))
                 = data Mock.gateway6_past)
          \/ ((exists msg, fst (run6 Mock.gateway6_past) = Panic msg)
              /\ ~ Forall (fun c => Go.big_SetString16 c <> None)
                     Mock.net2001
              /\ data (snd (run6 Mock.gateway6_past))
                 = data Mock.gateway6_past))).
Proof.
  assert (Hs : d_schema (data Mock.gateway_256) = resourceipsubnet)
    by reflexivity.
  assert (Hp : ipsubnet_candidates Mock.inventory4 Mock.gateway_256
               = (Next ("2", Mock.block24, Mock.net10),
                  snd (found4 Mock.gateway_256)))
    by (vm_compute; reflexivity).
  assert (Hg : get_int (data Mock.gateway_256) "gateway_offset" <> 0)
    by (vm_compute; discriminate).
  assert (H : resourceipsubnetCreate Mock.inventory4 Mock.gateway_256
              = (fst (run4 Mock.gateway_256), snd (run4 Mock.gateway_256)))
    by (apply run_pair).
  assert (Hs6 : d_schema (data Mock.gateway6_past) = resourceip6subnet)
    by reflexivity.
  assert (Hp6 : ip6subnet_candidates Mock.inventory6 Mock.gateway6_past
                = (Next ("2", Mock.block24, Mock.net2001),
                   snd (found6 Mock.gateway6_past)))
    by (vm_compute; reflexivity).
  assert (Hg6 : get_int (data Mock.gateway6_past) "gateway_offset" <> 0)
    by (vm_compute; discriminate).
  assert (H6 : resourceip6subnetCreate Mock.inventory6 Mock.gateway6_past
               = (fst (run6 Mock.gateway6_past), snd (run6 Mock.gateway6_past)))
    by (apply run_pair).
  exact (conj
           (conj Hs (conj Hp (conj Hg (conj H
              (proj1 (gateway_offset_unchecked Mock.inventory4)
                 Mock.gateway_256 "2" Mock.block24 Mock.net10
                 (snd (found4 Mock.gateway_256))
                 (fst (run4 Mock.gateway_256)) (snd (run4 Mock.gateway_256))
                 Hs Hp Hg H)))))
           (conj Hs6 (conj Hp6 (conj Hg6 (conj H6
              (proj2 (gateway_offset_unchecked Mock.inventory6)
                 Mock.gateway6_past "2" Mock.block24 Mock.net2001
                 (snd (found6 Mock.gateway6_past))
                 (fst (run6 Mock.gateway6_past)) (snd (run6 Mock.gateway6_past))
                 Hs6 Hp6 Hg6 H6)))))).
Defined.

(** C2, as stated, fails: on a /24 reserved at 10.0.0.0 the offsets 256
    and -300 do not fail; the creation succeeds and records the gateways
    10.0.1.0 and 9.255.255.211, both outside the block; on the /24
    reserved at 255.255.255.0 the offset 256 wraps past [2^32-1] to
    0.0.0.0 without any error; and on the /120 reserved at 2001:db8:: the
    offset 256 succeeds with the gateway 2001:db8::100, the first address
    after the block. *)
Lemma gateway_offset_out_of_block_accepted :
  (fst (run4 Mock.gateway_256) = Return diag_nil
   /\ get_str (data (snd (run4 Mock.gateway_256))) "address" = "10.0.0.0"
   /\ get_str (data (snd (run4 Mock.gateway_256))) "gateway" = "10.0.1.0"
   /\ Codec.iptolong "10.0.0.0" + Codec.prefixlengthtosize 24 - 1
      < Codec.iptolong "10.0.1.0")
  /\ (fst (run4 Mock.gateway_minus300) = Return diag_nil
      /\ get_str (data (snd (run4 Mock.gateway_minus300))) "address"
         = "10.0.0.0"
      /\ get_str (data (snd (run4 Mock.gateway_minus300))) "gateway"
         = "9.255.255.211"
      /\ Codec.iptolong "9.255.255.211" < Codec.iptolong "10.0.0.0")
  /\ (fst (resourceipsubnetCreate Mock.inventory_top Mock.gateway_wrap)
      = Return diag_nil
      /\ get_str
           (data (snd (resourceipsubnetCreate Mock.inventory_top
                         Mock.gateway_wrap))) "address"
         = "255.255.255.0"
      /\ get_str
           (data (snd (resourceipsubnetCreate Mock.inventory_top
                         Mock.gateway_wrap))) "gateway"
         = "0.0.0.0"
      /\ 2 ^ 32 - 1 < Codec.iptolong "255.255.255.0" + 256)
  /\ (fst (run6 Mock.gateway6_past) = Return diag_nil
      /\ get_int (data Mock.gateway6_past) "prefix_size" = 120
      /\ get_int (data Mock.gateway6_past) "gateway_offset" = 256
      /\ get_str (data (snd (run6 Mock.gateway6_past))) "address"
         = "2001:0db8:0000:0000:0000:0000:0000:0000"
      /\ get_str (data (snd (run6 Mock.gateway6_past))) "gateway"
         = "2001:0db8:0000:0000:0000:0000:0000:0100"
      /\ match ip6_value "2001:0db8:0000:0000:0000:0000:0000:0000",
               ip6_value "2001:0db8:0000:0000:0000:0000:0000:0100" with
         | Some blockStart, Some gateway =>
             blockStart + Codec.prefix6lengthtosize 120 - 1 < gateway
         | _, _ => False
         end).
Proof. vm_compute. repeat split. Qed.

(** Three candidates, every attempt a conflict (IPv4); two candidates
    (IPv6 and VLAN). *)
Lemma exhaustion_after_k_attempts_witness :
  (d_schema (data Mock.all_taken4) = resourceipsubnet
   /\ ipsubnet_candidates Mock.inventory4 Mock.all_taken4
      = (Next ("2", Mock.block24, Mock.net10),
         snd (found4 Mock.all_taken4))
   /\ ipsubnet_level_ok (data Mock.all_taken4) Mock.block24
   /\ resourceipsubnetCreate Mock.inventory4 Mock.all_taken4
      = (fst (run4 Mock.all_taken4), snd (run4 Mock.all_taken4))
   /\ all_conflicts
        (events_since Mock.all_taken4 (snd (run4 Mock.all_taken4)))
   /\ (List.length
         (requests
            (events_since Mock.all_taken4 (snd (run4 Mock.all_taken4))))
       = List.length Mock.net10
       /\ fst (run4 Mock.all_taken4)
          = Return (diag_Errorf
                      (ipsubnet_exhausted
                         (get_str (data Mock.all_taken4) "name")))))
  /\ (List.length
        (requests
           (events_since Mock.all_taken6 (snd (run6 Mock.all_taken6))))
      = List.length Mock.net2001
      /\ fst (run6 Mock.all_taken6)
         = Return (diag_Errorf
                     (ip6subnet_exhausted
                        (get_str (data Mock.all_taken6) "name"))))
  /\ (List.length
        (requests
           (events_since Mock.all_taken_vlan
              (snd (run_vlan Mock.all_taken_vlan))))
      = List.length ["100"; "101"]
      /\ fst (run_vlan Mock.all_taken_vlan)
         = Return (Some (vlan_exhausted
                           (get_str (data Mock.all_taken_vlan) "name")))).
Proof.
  assert (Hs : d_schema (data Mock.all_taken4) = resourceipsubnet)
    by reflexivity.
  assert (Hp : ipsubnet_candidates Mock.inventory4 Mock.all_taken4
               = (Next ("2", Mock.block24, Mock.net10),
                  snd (found4 Mock.all_taken4)))
    by (vm_compute; reflexivity).
  assert (Hok : ipsubnet_level_ok (data Mock.all_taken4) Mock.block24)
    by (right; reflexivity).
  assert (H : resourceipsubnetCreate Mock.inventory4 Mock.all_taken4
              = (fst (run4 Mock.all_taken4), snd (run4 Mock.all_taken4)))
    by (apply run_pair).
  assert (Hall : all_conflicts
                   (events_since Mock.all_taken4 (snd (run4 Mock.all_taken4))))
    by (apply all_conflicts_check; vm_compute; reflexivity).
  assert (Hs6 : d_schema (data Mock.all_taken6) = resourceip6subnet)
    by reflexivity.
  assert (Hp6 : ip6subnet_candidates Mock.inventory6 Mock.all_taken6
                = (Next ("2", Mock.block24, Mock.net2001),
                   snd (found6 Mock.all_taken6)))
    by (vm_compute; reflexivity).
  assert (Hok6 : ip6subnet_hex_ok (data Mock.all_taken6) Mock.net2001)
    by (right; repeat constructor; vm_compute; discriminate).
  assert (H6 : resourceip6subnetCreate Mock.inventory6 Mock.all_taken6
               = (fst (run6 Mock.all_taken6), snd (run6 Mock.all_taken6)))
    by (apply run_pair).
  assert (Hall6 : all_conflicts
                    (events_since Mock.all_taken6 (snd (run6 Mock.all_taken6))))
    by (apply all_conflicts_check; vm_compute; reflexivity).
  assert (Hsv : d_schema (data Mock.all_taken_vlan) = resourcevlan)
    by reflexivity.
  assert (Hpv : vlan_candidates Mock.inventory_vlan Mock.all_taken_vlan
                = (Next ["100"; "101"], snd (found_vlan Mock.all_taken_vlan)))
    by (vm_compute; reflexivity).
  assert (Hv : resourcevlanCreate Mock.inventory_vlan Mock.all_taken_vlan
               = (fst (run_vlan Mock.all_taken_vlan),
                  snd (run_vlan Mock.all_taken_vlan)))
    by (apply run_pair).
  assert (Hallv : all_conflicts
                    (events_since Mock.all_taken_vlan
                       (snd (run_vlan Mock.all_taken_vlan))))
    by (apply all_conflicts_check; vm_compute; reflexivity).
  exact (conj
           (conj Hs (conj Hp (conj Hok (conj H (conj Hall
              (proj1 (exhaustion_after_k_attempts Mock.inventory4)
                 Mock.all_taken4 (snd (found4 Mock.all_taken4))
                 "2" Mock.block24 Mock.net10
                 (fst (run4 Mock.all_taken4)) (snd (run4 Mock.all_taken4))
                 Hs Hp Hok H Hall))))))
           (conj
              (proj1 (proj2 (exhaustion_after_k_attempts Mock.inventory6))
                 Mock.all_taken6 (snd (found6 Mock.all_taken6))
                 "2" Mock.block24 Mock.net2001
                 (fst (run6 Mock.all_taken6)) (snd (run6 Mock.all_taken6))
                 Hs6 Hp6 Hok6 H6 Hall6)
              (proj2 (proj2 (exhaustion_after_k_attempts Mock.inventory_vlan))
                 Mock.all_taken_vlan (snd (found_vlan Mock.all_taken_vlan))
                 ["100"; "101"]
                 (fst (run_vlan Mock.all_taken_vlan))
                 (snd (run_vlan Mock.all_taken_vlan))
                 Hsv Hpv Hv Hallv))).
Defined.

(** C3, as stated, fails: the loop can panic while it builds a call, and
    then stops short of its [k] calls with no exhaustion error, though
    every call it made was answered by a conflict.  With a parent block
    that came back without its level, the IPv4 creation panics before
    the first of its three calls; with a second candidate that is no
    hexadecimal numeral and a gateway offset, the IPv6 creation panics
    after one call out of two. *)
Lemma exhaustion_cut_short_by_panic :
  (fst (ipsubnet_candidates Mock.inventory_flat Mock.all_taken4)
   = Next ("2", [("id", VString "12")], Mock.net10)
   /\ all_conflicts
        (events_since Mock.all_taken4
           (snd (resourceipsubnetCreate Mock.inventory_flat Mock.all_taken4)))
   /\ requests
        (events_since Mock.all_taken4
           (snd (resourceipsubnetCreate Mock.inventory_flat Mock.all_taken4)))
      = []
   /\ fst (resourceipsubnetCreate Mock.inventory_flat Mock.all_taken4)
      = Panic "interface conversion: interface {} is nil, not string")
  /\ (fst (ip6subnet_candidates Mock.inventory_odd Mock.all_taken6)
      = Next ("2", Mock.block24,
              ["20010db8000000000000000000000000"; "2001:db8:0:1::"])
      /\ all_conflicts
           (events_since Mock.all_taken6
              (snd (resourceip6subnetCreate Mock.inventory_odd
                      Mock.all_taken6)))
      /\ List.length
           (requests
              (events_since Mock.all_taken6
                 (snd (resourceip6subnetCreate Mock.inventory_odd
                         Mock.all_taken6)))) = 1%nat
      /\ fst (resourceip6subnetCreate Mock.inventory_odd Mock.all_taken6)
         = Panic "runtime error: invalid memory address or nil pointer dereference").
Proof.
  repeat split; try (vm_compute; reflexivity);
    apply all_conflicts_check; vm_compute; reflexivity.
Qed.

(** An explicit identifier, 5, asked of the VLAN manager. *)
Lemma resourcevlanCreate_requested_id_panics_witness :
  d_schema (data Mock.vlan_requested) = resourcevlan
  /\ 0 < get_int (data Mock.vlan_requested) "request_id"
  /\ resourcevlanCreate Mock.inventory_vlan Mock.vlan_requested
     = (Panic "interface conversion: interface {} is int, not string",
        Mock.vlan_requested).
Proof.
  assert (Hs : d_schema (data Mock.vlan_requested) = resourcevlan)
    by reflexivity.
  assert (Hid : 0 < get_int (data Mock.vlan_requested) "request_id")
    by (vm_compute; reflexivity).
  exact (conj Hs (conj Hid
           (resourcevlanCreate_requested_id_panics Mock.inventory_vlan
              Mock.vlan_requested Hs Hid))).
Defined.

(** The second attempt meets a refused connection (IPv4); the first one
    does (IPv6, VLAN); the remaining script is never played. *)
Lemma transport_error_aborts_witness :
  (d_schema (data Mock.unreachable4) = resourceipsubnet
   /\ resourceipsubnetCreate Mock.inventory4 Mock.unreachable4
      = (fst (run4 Mock.unreachable4), snd (run4 Mock.unreachable4))
   /\ nth_error
        (events_since Mock.unreachable4 (snd (run4 Mock.unreachable4))) 6
      = Some (EvRequest "post" "rest/ip_subnet_add"
                (parameters_of
                   (nth 6 (trace (snd (run4 Mock.unreachable4))) (EvSleep 0)))
                (inl "connection refused"))
   /\ (List.length
         (events_since Mock.unreachable4 (snd (run4 Mock.unreachable4)))
       = 7%nat
       /\ fst (run4 Mock.unreachable4)
          = Return (diag_FromErr "connection refused")))
  /\ (List.length
        (events_since Mock.unreachable6 (snd (run6 Mock.unreachable6)))
      = 5%nat
      /\ fst (run6 Mock.unreachable6)
         = Return (diag_FromErr "connection refused"))
  /\ (List.length
        (events_since Mock.unreachable_vlan
           (snd (run_vlan Mock.unreachable_vlan)))
      = 2%nat
      /\ fst (run_vlan Mock.unreachable_vlan)
         = Return (Some "connection refused")).
Proof.
  assert (Hs : d_schema (data Mock.unreachable4) = resourceipsubnet)
    by reflexivity.
  assert (H : resourceipsubnetCreate Mock.inventory4 Mock.unreachable4
              = (fst (run4 Mock.unreachable4), snd (run4 Mock.unreachable4)))
    by (apply run_pair).
  assert (Hn : nth_error
                 (events_since Mock.unreachable4
                    (snd (run4 Mock.unreachable4))) 6
               = Some (EvRequest "post" "rest/ip_subnet_add"
                         (parameters_of
                            (nth 6 (trace (snd (run4 Mock.unreachable4)))
                               (EvSleep 0)))
                         (inl "connection refused")))
    by (vm_compute; reflexivity).
  assert (Hs6 : d_schema (data Mock.unreachable6) = resourceip6subnet)
    by reflexivity.
  assert (H6 : resourceip6subnetCreate Mock.inventory6 Mock.unreachable6
               = (fst (run6 Mock.unreachable6), snd (run6 Mock.unreachable6)))
    by (apply run_pair).
  assert (Hn6 : nth_error
                  (events_since Mock.unreachable6
                     (snd (run6 Mock.unreachable6))) 4
                = Some (EvRequest "post" "rest/ip6_subnet6_add"
                          (parameters_of
                             (nth 4 (trace (snd (run6 Mock.unreachable6)))
                                (EvSleep 0)))
                          (inl "connection refused")))
    by (vm_compute; reflexivity).
  assert (Hsv : d_schema (data Mock.unreachable_vlan) = resourcevlan)
    by reflexivity.
  assert (Hv : resourcevlanCreate Mock.inventory_vlan Mock.unreachable_vlan
               = (fst (run_vlan Mock.unreachable_vlan),
                  snd (run_vlan Mock.unreachable_vlan)))
    by (apply run_pair).
  assert (Hnv : nth_error
                  (events_since Mock.unreachable_vlan
                     (snd (run_vlan Mock.unreachable_vlan))) 1
                = Some (EvRequest "post" "rest/vlm_vlan_add"
                          (parameters_of
                             (nth 1
                                (trace (snd (run_vlan Mock.unreachable_vlan)))
                                (EvSleep 0)))
                          (inl "connection refused")))
    by (vm_compute; reflexivity).
  exact (conj
           (conj Hs (conj H (conj Hn
              (proj1 (transport_error_aborts Mock.inventory4)
                 Mock.unreachable4 _ _ 6%nat _ _ _ _ Hs H Hn))))
           (conj
              (proj1 (proj2 (transport_error_aborts Mock.inventory6))
                 Mock.unreachable6 _ _ 4%nat _ _ _ _ Hs6 H6 Hn6)
              (proj2 (proj2 (transport_error_aborts Mock.inventory_vlan))
                 Mock.unreachable_vlan _ _ 1%nat _ _ _ _ Hsv Hv Hnv))).
Defined.

(** Offset -1 on a /64 reserved at 2001:db8::. *)
Lemma ip6subnet_gateway_from_block_end_witness :
  d_schema (data Mock.gateway6_minus1) = resourceip6subnet
  /\ get_int (data Mock.gateway6_minus1) "gateway_offset" < 0
  /\ resourceip6subnetCreate Mock.inventory6 Mock.gateway6_minus1
     = (Return diag_nil, snd (run6 Mock.gateway6_minus1))
  /\ (exists blockStart,
        ip6_value (get_str (data (snd (run6 Mock.gateway6_minus1))) "address")
        = Some blockStart
        /\ get_str (data (snd (run6 Mock.gateway6_minus1))) "gateway"
           = Codec.hexip6toip6
               (Codec.BigIntToHexStr
                  (blockStart
                   + 2 ^ (128 - get_int (data Mock.gateway6_minus1)
                                  "prefix_size")
                   - Z.abs (get_int (data Mock.gateway6_minus1)
                              "gateway_offset")))
        /\ ip6_value
             (get_str (data (snd (run6 Mock.gateway6_minus1))) "gateway")
           = Some (blockStart
                   + 2 ^ (128 - get_int (data Mock.gateway6_minus1)
                                  "prefix_size")
                   - Z.abs (get_int (data Mock.gateway6_minus1)
                              "gateway_offset"))).
Proof.
  assert (Hs : d_schema (data Mock.gateway6_minus1) = resourceip6subnet)
    by reflexivity.
  assert (Hg : get_int (data Mock.gateway6_minus1) "gateway_offset" < 0)
    by (vm_compute; reflexivity).
  assert (H : resourceip6subnetCreate Mock.inventory6 Mock.gateway6_minus1
              = (Return diag_nil, snd (run6 Mock.gateway6_minus1)))
    by (vm_compute; reflexivity).
  exact (conj Hs (conj Hg (conj H
           (ip6subnet_gateway_from_block_end Mock.inventory6
              Mock.gateway6_minus1 (snd (run6 Mock.gateway6_minus1))
              Hs Hg H)))).
Defined.

(** The gateway of that /64 is its last address. *)
Example ip6subnet_gateway_minus1 :
  get_str (data (snd (run6 Mock.gateway6_minus1))) "gateway"
  = "2001:0db8:0000:0000:ffff:ffff:ffff:ffff"
  /\ ip6_value "2001:0db8:0000:0000:ffff:ffff:ffff:ffff"
     = Some (42540766411282592875350729025363378175).
Proof. vm_compute. split; reflexivity. Qed.

(** The first candidate is taken, the second one goes through. *)
Lemma success_iff_reserved_witness :
  (d_schema (data Mock.second_wins4) = resourceipsubnet
   /\ resourceipsubnetCreate Mock.inventory4 Mock.second_wins4
      = (fst (run4 Mock.second_wins4), snd (run4 Mock.second_wins4))
   /\ ((fst (run4 Mock.second_wins4) = Return diag_nil
        <-> exists e a oid,
              In e (events_since Mock.second_wins4
                      (snd (run4 Mock.second_wins4)))
              /\ answer_of e = Some a /\ unambiguous a oid)
       /\ (fst (run4 Mock.second_wins4) = Return diag_nil ->
           exists before parameters resp,
             events_since Mock.second_wins4 (snd (run4 Mock.second_wins4))
             = (before
                ++ [EvRequest "post" "rest/ip_subnet_add" parameters
                      (inr resp)])%list
             /\ unambiguous (inr resp)
                  (Id (data (snd (run4 Mock.second_wins4)))))))
  /\ fst (run4 Mock.second_wins4) = Return diag_nil
  /\ Id (data (snd (run4 Mock.second_wins4))) = "77"
  /\ Id (data (snd (run6 Mock.second_wins6))) = "78"
  /\ Id (data (snd (run_vlan Mock.second_wins_vlan))) = "79".
Proof.
  assert (Hs : d_schema (data Mock.second_wins4) = resourceipsubnet)
    by reflexivity.
  assert (H : resourceipsubnetCreate Mock.inventory4 Mock.second_wins4
              = (fst (run4 Mock.second_wins4), snd (run4 Mock.second_wins4)))
    by (apply run_pair).
  split.
  - exact (conj Hs (conj H
             (proj1 (success_iff_reserved Mock.inventory4)
                Mock.second_wins4 _ _ Hs H))).
  - vm_compute. repeat split.
Defined.

(** Renaming the VLAN 100 of the domain [campus]. *)
Lemma resourcevlanUpdate_panics_witness :
  d_schema (data Mock.vlan_renamed) = resourcevlan
  /\ resourcevlanUpdate Mock.inventory_vlan Mock.vlan_renamed
     = (Panic "interface conversion: interface {} is int, not string",
        Mock.vlan_renamed).
Proof.
  assert (Hs : d_schema (data Mock.vlan_renamed) = resourcevlan)
    by reflexivity.
  exact (conj Hs
           (resourcevlanUpdate_panics Mock.inventory_vlan Mock.vlan_renamed
              Hs)).
Defined.

(** Two attempts each: two sleeps for the subnets, none for the VLAN. *)
Lemma reservation_delay_witness :
  (d_schema (data Mock.second_wins4) = resourceipsubnet
   /\ resourceipsubnetCreate Mock.inventory4 Mock.second_wins4
      = (fst (run4 Mock.second_wins4), snd (run4 Mock.second_wins4))
   /\ delayed
        (events_since Mock.second_wins4 (snd (run4 Mock.second_wins4)))
   /\ jittered (entropy Mock.second_wins4) (drawn Mock.second_wins4)
        (events_since Mock.second_wins4 (snd (run4 Mock.second_wins4))))
  /\ (d_schema (data Mock.second_wins6) = resourceip6subnet
      /\ resourceip6subnetCreate Mock.inventory6 Mock.second_wins6
         = (fst (run6 Mock.second_wins6), snd (run6 Mock.second_wins6))
      /\ delayed
           (events_since Mock.second_wins6 (snd (run6 Mock.second_wins6)))
      /\ jittered (entropy Mock.second_wins6) (drawn Mock.second_wins6)
           (events_since Mock.second_wins6 (snd (run6 Mock.second_wins6))))
  /\ (d_schema (data Mock.second_wins_vlan) = resourcevlan
      /\ resourcevlanCreate Mock.inventory_vlan Mock.second_wins_vlan
         = (fst (run_vlan Mock.second_wins_vlan),
            snd (run_vlan Mock.second_wins_vlan))
      /\ forallb (fun e => negb (is_sleep e))
           (events_since Mock.second_wins_vlan
              (snd (run_vlan Mock.second_wins_vlan))) = true).
Proof.
  assert (Hs : d_schema (data Mock.second_wins4) = resourceipsubnet)
    by reflexivity.
  assert (H : resourceipsubnetCreate Mock.inventory4 Mock.second_wins4
              = (fst (run4 Mock.second_wins4), snd (run4 Mock.second_wins4)))
    by (apply run_pair).
  assert (Hs6 : d_schema (data Mock.second_wins6) = resourceip6subnet)
    by reflexivity.
  assert (H6 : resourceip6subnetCreate Mock.inventory6 Mock.second_wins6
               = (fst (run6 Mock.second_wins6), snd (run6 Mock.second_wins6)))
    by (apply run_pair).
  assert (Hsv : d_schema (data Mock.second_wins_vlan) = resourcevlan)
    by reflexivity.
  assert (Hv : resourcevlanCreate Mock.inventory_vlan Mock.second_wins_vlan
               = (fst (run_vlan Mock.second_wins_vlan),
                  snd (run_vlan Mock.second_wins_vlan)))
    by (apply run_pair).
  exact (conj
           (conj Hs (conj H
              (proj1 (reservation_delay Mock.inventory4)
                 Mock.second_wins4 _ _ Hs H)))
           (conj
              (conj Hs6 (conj H6
                 (proj1 (proj2 (reservation_delay Mock.inventory6))
                    Mock.second_wins6 _ _ Hs6 H6)))
              (conj Hsv (conj Hv
                 (proj2 (proj2 (reservation_delay Mock.inventory_vlan))
                    Mock.second_wins_vlan _ _ Hsv Hv))))).
Defined.

(** The two sleeps of that IPv4 creation: the first two numbers of the
    source, 4321 and 12240, give 321 ms and 240 ms. *)
Example reservation_delay_durations :
  map (fun e => match e with EvSleep duration => Some duration | _ => None end)
    (filter is_sleep
       (events_since Mock.second_wins4 (snd (run4 Mock.second_wins4))))
  = [Some (321 * time_Millisecond); Some (240 * time_Millisecond)].
Proof. vm_compute. reflexivity. Qed.

(** C9, as stated, fails for the VLAN variant: its two reservation calls
    are issued without any sleep before them. *)
Lemma vlan_reservation_not_delayed :
  List.length
    (requests
       (events_since Mock.second_wins_vlan
          (snd (run_vlan Mock.second_wins_vlan)))) = 2%nat
  /\ ~ delayed
        (events_since Mock.second_wins_vlan
           (snd (run_vlan Mock.second_wins_vlan))).
Proof.
  split; [vm_compute; reflexivity |].
  intros Hd.
  destruct (Hd (firstn 1 (events_since Mock.second_wins_vlan
                            (snd (run_vlan Mock.second_wins_vlan))))
               (nth 1 (events_since Mock.second_wins_vlan
                         (snd (run_vlan Mock.second_wins_vlan))) (EvSleep 0))
               (skipn 2 (events_since Mock.second_wins_vlan
                           (snd (run_vlan Mock.second_wins_vlan)))))
    as (before & duration & Hb & _).
  - vm_compute. reflexivity.
  - vm_compute. reflexivity.
  - vm_compute in Hb. destruct before as [| x [| y before]]; discriminate Hb.
Qed.

(** A top-level block left terminal by the schema's default. *)
Lemma toplevel_terminal_rejected_witness :
  (d_schema (data Mock.toplevel4) = resourceipsubnet
   /\ get_str (data Mock.toplevel4) "block" = ""
   /\ get_bool (data Mock.toplevel4) "terminal" = true
   /\ resourceipsubnetCreate Mock.inventory4 Mock.toplevel4
      = (fst (run4 Mock.toplevel4), snd (run4 Mock.toplevel4))
   /\ ((exists e, fst (run4 Mock.toplevel4) = Return e /\ e <> diag_nil)
       /\ events_since Mock.toplevel4 (snd (run4 Mock.toplevel4))
          = [EvQuery "ipsiteidbyname" [get_str (data Mock.toplevel4) "space"]]
       /\ data (snd (run4 Mock.toplevel4)) = data Mock.toplevel4))
  /\ (d_schema (data Mock.toplevel6) = resourceip6subnet
      /\ get_str (data Mock.toplevel6) "block" = ""
      /\ get_bool (data Mock.toplevel6) "terminal" = true
      /\ resourceip6subnetCreate Mock.inventory6 Mock.toplevel6
         = (fst (run6 Mock.toplevel6), snd (run6 Mock.toplevel6))
      /\ ((exists e, fst (run6 Mock.toplevel6) = Return e /\ e <> diag_nil)
          /\ events_since Mock.toplevel6 (snd (run6 Mock.toplevel6))
             = [EvQuery "ipsiteidbyname"
                  [get_str (data Mock.toplevel6) "space"]]
          /\ data (snd (run6 Mock.toplevel6)) = data Mock.toplevel6)).
Proof.
  assert (Hs : d_schema (data Mock.toplevel4) = resourceipsubnet)
    by reflexivity.
  assert (Hb : get_str (data Mock.toplevel4) "block" = "")
    by (vm_compute; reflexivity).
  assert (Ht : get_bool (data Mock.toplevel4) "terminal" = true)
    by (vm_compute; reflexivity).
  assert (H : resourceipsubnetCreate Mock.inventory4 Mock.toplevel4
              = (fst (run4 Mock.toplevel4), snd (run4 Mock.toplevel4)))
    by (apply run_pair).
  assert (Hs6 : d_schema (data Mock.toplevel6) = resourceip6subnet)
    by reflexivity.
  assert (Hb6 : get_str (data Mock.toplevel6) "block" = "")
    by (vm_compute; reflexivity).
  assert (Ht6 : get_bool (data Mock.toplevel6) "terminal" = true)
    by (vm_compute; reflexivity).
  assert (H6 : resourceip6subnetCreate Mock.inventory6 Mock.toplevel6
               = (fst (run6 Mock.toplevel6), snd (run6 Mock.toplevel6)))
    by (apply run_pair).
  exact (conj
           (conj Hs (conj Hb (conj Ht (conj H
              (proj1 (toplevel_terminal_rejected Mock.inventory4)
                 Mock.toplevel4 _ _ Hs Hb Ht H)))))
           (conj Hs6 (conj Hb6 (conj Ht6 (conj H6
              (proj2 (toplevel_terminal_rejected Mock.inventory6)
                 Mock.toplevel6 _ _ Hs6 Hb6 Ht6 H6)))))).
Defined.

(* ================================================================== *)
(** ** Update, delete, read and import: the steps *)
(* ================================================================== *)

Section LifecycleSteps.
Context {W R : Type}.
Implicit Types st : St W.

Lemma bind_d_SetId {B} id (k : unit -> M W R B) st :
  bind (d_SetId id) k st
  = k tt (mkSt (world st) (SetId (data st) id) (entropy st) (drawn st)
            (trace st)).
Proof. reflexivity. Qed.

Lemma bind_d_Set {B} key v (k : unit -> M W R B) st :
  bind (d_Set key v) k st
  = k tt (mkSt (world st) (Set_ (data st) key v) (entropy st) (drawn st)
            (trace st)).
Proof. reflexivity. Qed.

Lemma bind_update_class_parameters {B} (k : Values -> M W R B) st :
  schema_type (d_schema (data st)) "gateway_offset" = Some TypeInt ->
  schema_type (d_schema (data st)) "gateway" = Some TypeString ->
  schema_type (d_schema (data st)) "class_parameters" = Some TypeMap ->
  bind update_class_parameters k st
  = k (update_class_parameters_of (data st)) st.
Proof.
  intros Ho Hg Hc. unfold update_class_parameters, update_class_parameters_of.
  rewrite bind_assoc, (bind_d_int _ _ _ Ho).
  destruct (negb (get_int (data st) "gateway_offset" =? 0)).
  - rewrite !bind_assoc, (bind_d_string _ _ _ Hg), bind_ret, bind_assoc.
    rewrite (bind_class_parameters _ _ _ _ Hc). reflexivity.
  - rewrite bind_assoc, bind_ret, bind_assoc.
    rewrite (bind_class_parameters _ _ _ _ Hc). reflexivity.
Qed.

End LifecycleSteps.

Ltac request s H :=
  rewrite bind_Request in H;
  cbn [world data entropy drawn trace] in H;
  match type of H with
  | context [srv_Request s ?m ?sv ?p ?w] =>
      let w' := fresh "w'" in let answer := fresh "answer" in
      destruct (srv_Request s m sv p w) as [w' answer]; cbn [fst snd] in H
  end.

Section Update.
Context {W : Type} (s : SOLIDserver W).
Implicit Types st : St W.

Lemma resourceipsubnetUpdate_run st r st' :
  d_schema (data st) = resourceipsubnet ->
  resourceipsubnetUpdate s st = (r, st') ->
  exists parameters answer,
    trace st'
    = (trace st ++ [EvRequest "put" "rest/ip_subnet_add" parameters answer])%list
    /\ index parameters "subnet_id" = Some (Id (data st))
    /\ index parameters "add_flag" = Some "edit_only"
    /\ index parameters "subnet_name" = Some (get_str (data st) "name")
    /\ index parameters "subnet_class_parameters"
       = Some (Go.Encode (update_class_parameters_of (data st)))
    /\ match answer with
       | inl err => r = Return (diag_FromErr err) /\ data st' = data st
       | inr resp =>
           match reserved answer with
           | Some oid => r = Return diag_nil /\ data st' = SetId (data st) oid
           | None =>
               r = Return (diag_Errorf
                             (failure_message "Unable to update IP subnet: "
                                (get_str (data st) "name") resp LF))
               /\ data st' = data st
           end
       end.
Proof.
  intros Hs H. unfold resourceipsubnetUpdate in H.
  rewrite bind_get_d in H.
  read H Hs. read H Hs. read H Hs.
  rewrite bind_update_class_parameters in H by typed Hs.
  request s H.
  eexists. exists answer.
  destruct answer as [err | resp]; cbn [reserved].
  - injection H as <- <-. cbn [trace data]. repeat split.
  - destruct (if answered resp then ret_oid resp else None) as [oid |].
    + rewrite bind_d_SetId in H. injection H as <- <-.
      cbn [trace data]. repeat split.
    + unfold failure_message. destruct (first_errmsg resp) as [errMsg |];
        read H Hs; injection H as <- <-; cbn [trace data]; repeat split.
Qed.

Lemma resourceip6subnetUpdate_run st r st' :
  d_schema (data st) = resourceip6subnet ->
  resourceip6subnetUpdate s st = (r, st') ->
  exists parameters answer,
    trace st'
    = (trace st ++ [EvRequest "put" "rest/ip6_subnet6_add" parameters answer])%list
    /\ index parameters "subnet6_id" = Some (Id (data st))
    /\ index parameters "add_flag" = Some "edit_only"
    /\ index parameters "subnet6_name" = Some (get_str (data st) "name")
    /\ index parameters "subnet6_class_parameters"
       = Some (Go.Encode (update_class_parameters_of (data st)))
    /\ match answer with
       | inl err => r = Return (diag_FromErr err) /\ data st' = data st
       | inr resp =>
           match reserved answer with
           | Some oid => r = Return diag_nil /\ data st' = SetId (data st) oid
           | None =>
               r = Return (diag_Errorf
                             (failure_message "Unable to update IPv6 subnet: "
                                (get_str (data st) "name") resp LF))
               /\ data st' = data st
           end
       end.
Proof.
  intros Hs H. unfold resourceip6subnetUpdate in H.
  rewrite bind_get_d in H.
  read H Hs. read H Hs. read H Hs.
  rewrite bind_update_class_parameters in H by typed Hs.
  request s H.
  eexists. exists answer.
  destruct answer as [err | resp]; cbn [reserved].
  - injection H as <- <-. cbn [trace data]. repeat split.
  - destruct (if answered resp then ret_oid resp else None) as [oid |].
    + rewrite bind_d_SetId in H. injection H as <- <-.
      cbn [trace data]. repeat split.
    + unfold failure_message. destruct (first_errmsg resp) as [errMsg |];
        read H Hs; injection H as <- <-; cbn [trace data]; repeat split.
Qed.


Lemma resourceipsubnetgatewayDelete_run st r st' :
  d_schema (data st) = resourceipsubnet ->
  resourceipsubnetgatewayDelete s st = (r, st') ->
  exists answer,
    trace st'
    = (trace st
       ++ [EvRequest "delete" "rest/ip_delete"
             [("site_name", get_str (data st) "space");
              ("hostaddr", get_str (data st) "gateway")] answer])%list
    /\ data st' = data st
    /\ r = Return (match answer with
                   | inl err => diag_FromErr err
                   | inr _ => diag_nil
                   end).
Proof.
  intros Hs H. unfold resourceipsubnetgatewayDelete in H.
  rewrite bind_get_d in H.
  rewrite (Get_string (data st) "gateway") in H by typed Hs.
  cbn [not_nil] in H.
  read H Hs. read H Hs. request s H.
  exists answer. destruct answer as [err | resp];
    injection H as <- <-; cbn [trace data]; repeat split.
Qed.

Lemma resourceipsubnetDelete_run st r st' :
  d_schema (data st) = resourceipsubnet ->
  resourceipsubnetDelete s st = (r, st') ->
  exists pre answer,
    gateway_freed "rest/ip_delete" (data st) pre
    /\ trace st'
       = (trace st ++ pre
          ++ [EvRequest "delete" "rest/ip_subnet_delete"
                [("subnet_id", Id (data st))] answer])%list
    /\ match answer with
       | inl err => r = Return (diag_FromErr err) /\ data st' = data st
       | inr resp =>
           if not_deleted resp then
             r = Return (diag_Errorf
                           (deletion_message "Unable to delete IP subnet : "
                              (get_str (data st) "name") resp))
             /\ data st' = data st
           else r = Return diag_nil /\ data st' = SetId (data st) ""
       end.
Proof.
  intros Hs H. unfold resourceipsubnetDelete in H.
  rewrite bind_get_d in H.
  rewrite (Get_int (data st) "gateway_offset") in H by typed Hs.
  cbn [not_int_zero] in H. unfold gateway_freed.
  destruct (negb (get_int (data st) "gateway_offset" =? 0)).
  - rewrite !bind_assoc in H. unfold bind at 1, call in H.
    destruct (resourceipsubnetgatewayDelete s st) as [rg stg] eqn:Hg.
    destruct (resourceipsubnetgatewayDelete_run _ _ _ Hs Hg) as (ga & Ht & Hd & ->).
    rewrite !bind_ret, bind_get_d in H. request s H.
    rewrite Hd, Ht, <- app_assoc in *.
    eexists. exists answer. split; [exists ga; reflexivity |].
    destruct answer as [err | resp].
    + injection H as <- <-. cbn [trace data]. repeat split.
    + destruct (not_deleted resp).
      * unfold deletion_message. destruct (first_errmsg resp) as [errMsg |];
          read H Hs; injection H as <- <-; cbn [trace data]; repeat split.
      * rewrite bind_d_SetId in H. injection H as <- <-.
        cbn [trace data]. repeat split.
  - rewrite bind_ret, bind_get_d in H. request s H.
    exists [], answer. split; [reflexivity |].
    destruct answer as [err | resp].
    + injection H as <- <-. cbn [trace data]. repeat split.
    + destruct (not_deleted resp).
      * unfold deletion_message. destruct (first_errmsg resp) as [errMsg |];
          read H Hs; injection H as <- <-; cbn [trace data]; repeat split.
      * rewrite bind_d_SetId in H. injection H as <- <-.
        cbn [trace data]. repeat split.
Qed.

Lemma resourceip6subnetgatewayDelete_run st r st' :
  d_schema (data st) = resourceip6subnet ->
  resourceip6subnetgatewayDelete s st = (r, st') ->
  exists answer,
    trace st'
    = (trace st
       ++ [EvRequest "delete" "rest/ip6_address6_delete"
             [("site_name", get_str (data st) "space");
              ("hostaddr", get_str (data st) "gateway")] answer])%list
    /\ data st' = data st
    /\ r = Return (match answer with
                   | inl err => diag_FromErr err
                   | inr _ => diag_nil
                   end).
Proof.
  intros Hs H. unfold resourceip6subnetgatewayDelete in H.
  rewrite bind_get_d in H.
  rewrite (Get_string (data st) "gateway") in H by typed Hs.
  cbn [not_nil] in H.
  read H Hs. read H Hs. request s H.
  exists answer. destruct answer as [err | resp];
    injection H as <- <-; cbn [trace data]; repeat split.
Qed.

Lemma resourceip6subnetDelete_run st r st' :
  d_schema (data st) = resourceip6subnet ->
  resourceip6subnetDelete s st = (r, st') ->
  exists pre answer,
    gateway_freed "rest/ip6_address6_delete" (data st) pre
    /\ trace st'
       = (trace st ++ pre
          ++ [EvRequest "delete" "rest/ip6_subnet6_delete"
                [("subnet6_id", Id (data st))] answer])%list
    /\ match answer with
       | inl err => r = Return (diag_FromErr err) /\ data st' = data st
       | inr resp =>
           if not_deleted resp then
             r = Return (diag_Errorf
                           (deletion_message "Unable to delete IPv6 subnet : "
                              (get_str (data st) "name") resp))
             /\ data st' = data st
           else r = Return diag_nil /\ data st' = SetId (data st) ""
       end.
Proof.
  intros Hs H. unfold resourceip6subnetDelete in H.
  rewrite bind_get_d in H.
  rewrite (Get_int (data st) "gateway_offset") in H by typed Hs.
  cbn [not_int_zero] in H. unfold gateway_freed.
  destruct (negb (get_int (data st) "gateway_offset" =? 0)).
  - rewrite !bind_assoc in H. unfold bind at 1, call in H.
    destruct (resourceip6subnetgatewayDelete s st) as [rg stg] eqn:Hg.
    destruct (resourceip6subnetgatewayDelete_run _ _ _ Hs Hg) as (ga & Ht & Hd & ->).
    rewrite !bind_ret, bind_get_d in H. request s H.
    rewrite Hd, Ht, <- app_assoc in *.
    eexists. exists answer. split; [exists ga; reflexivity |].
    destruct answer as [err | resp].
    + injection H as <- <-. cbn [trace data]. repeat split.
    + destruct (not_deleted resp).
      * unfold deletion_message. destruct (first_errmsg resp) as [errMsg |];
          read H Hs; injection H as <- <-; cbn [trace data]; repeat split.
      * rewrite bind_d_SetId in H. injection H as <- <-.
        cbn [trace data]. repeat split.
  - rewrite bind_ret, bind_get_d in H. request s H.
    exists [], answer. split; [reflexivity |].
    destruct answer as [err | resp].
    + injection H as <- <-. cbn [trace data]. repeat split.
    + destruct (not_deleted resp).
      * unfold deletion_message. destruct (first_errmsg resp) as [errMsg |];
          read H Hs; injection H as <- <-; cbn [trace data]; repeat split.
      * rewrite bind_d_SetId in H. injection H as <- <-.
        cbn [trace data]. repeat split.
Qed.

End Update.

Section VlanLifecycle.
Context {W : Type} (s : SOLIDserver W).
Implicit Types st : St W.

Lemma resourcevlanExists_run st r st' :
  resourcevlanExists s st = (r, st') ->
  exists answer,
    trace st'
    = (trace st
       ++ [EvRequest "get" "rest/vlmvlan_info"
             [("vlmvlan_id", Id (data st))] answer])%list
    /\ match answer with
       | inl err => r = Return (false, Some err) /\ data st' = data st
       | inr resp =>
           if answered resp
           then r = Return (true, None) /\ data st' = data st
           else r = Return (false, None) /\ data st' = SetId (data st) ""
       end.
Proof.
  intros H. unfold resourcevlanExists in H.
  rewrite bind_get_d in H. request s H.
  exists answer. destruct answer as [err | resp].
  - injection H as <- <-. cbn [trace data]. repeat split.
  - destruct (answered resp).
    + injection H as <- <-. cbn [trace data]. repeat split.
    + rewrite bind_d_SetId in H. injection H as <- <-.
      cbn [trace data]. repeat split.
Qed.

Lemma resourcevlanDelete_run st r st' :
  d_schema (data st) = resourcevlan ->
  resourcevlanDelete s st = (r, st') ->
  exists answer,
    trace st'
    = (trace st
       ++ [EvRequest "delete" "rest/vlm_vlan_delete"
             [("vlmvlan_id", Id (data st))] answer])%list
    /\ match answer with
       | inl err => r = Return (Some err) /\ data st' = data st
       | inr resp =>
           match (if negb (StatusCode resp =? 204) then first_errmsg resp
                  else None) with
           | Some errmsg =>
               r = Return (Some ("SOLIDServer - Unable to delete vlan : "
                                 ++ get_str (data st) "name"
                                 ++ " (" ++ errmsg ++ ")"))
               /\ data st' = data st
           | None => r = Return None /\ data st' = SetId (data st) ""
           end
       end.
Proof.
  intros Hs H. unfold resourcevlanDelete in H.
  rewrite bind_get_d in H. request s H.
  exists answer. destruct answer as [err | resp].
  - injection H as <- <-. cbn [trace data]. repeat split.
  - unfold first_errmsg.
    destruct (negb (StatusCode resp =? 204));
      [destruct (0 <? Z.of_nat (List.length (buf resp))) |];
      cbn [andb] in H; cbv iota in H;
      try destruct (string_ok (map_get (nth 0 (buf resp) []) "errmsg"))
        as [errmsg |];
      try (rewrite bind_d_SetId in H; injection H as <- <-;
           cbn [trace data]; repeat split).
    read H Hs. injection H as <- <-. cbn [trace data]. repeat split.
Qed.

Lemma resourcevlanRead_run st r st' :
  d_schema (data st) = resourcevlan ->
  resourcevlanRead s st = (r, st') ->
  exists answer,
    trace st'
    = (trace st
       ++ [EvRequest "get" "rest/vlmvlan_info"
             [("vlmvlan_id", Id (data st))] answer])%list
    /\ match answer with
       | inl err => r = Return (Some err) /\ data st' = data st
       | inr resp =>
           if found resp then
             match map_get (nth 0 (buf resp) []) "vlmvlan_vlan_id",
                   map_get (nth 0 (buf resp) []) "vlmvlan_name" with
             | VString id_text, VString name =>
                 r = Return None
                 /\ data st'
                    = Set_ (Set_ (data st) "name" (VString name)) "vlan_id"
                        (VInt (match Go.Atoi id_text with
                               | Some n => n
                               | None => 0
                               end))
             | _, _ => (exists msg, r = Panic msg) /\ data st' = data st
             end
           else
             r = Return (Some ("SOLIDServer - Unable to find vlan: "
                               ++ get_str (data st) "name" ++ LF))
             /\ data st' = data st
       end.
Proof.
  intros Hs H. unfold resourcevlanRead in H.
  rewrite bind_get_d in H. request s H.
  exists answer. destruct answer as [err | resp].
  - injection H as <- <-. cbn [trace data]. repeat split.
  - destruct (found resp).
    + destruct (map_get (nth 0 (buf resp) []) "vlmvlan_vlan_id");
        cbn [assert_string] in H; rewrite ?bind_panic, ?bind_ret in H;
        try (injection H as <- <-; cbn [trace data]; repeat split; eauto).
      destruct (map_get (nth 0 (buf resp) []) "vlmvlan_name");
        cbn [assert_string] in H; rewrite ?bind_panic, ?bind_ret in H;
        rewrite ?bind_d_Set in H;
        injection H as <- <-; cbn [trace data]; repeat split; eauto.
    + read H Hs. injection H as <- <-. cbn [trace data]. repeat split.
Qed.

Lemma resourcevlanImportState_run st r st' :
  resourcevlanImportState s st = (r, st') ->
  exists answer,
    trace st'
    = (trace st
       ++ [EvRequest "get" "rest/vlmvlan_info"
             [("vlmvlan_id", Id (data st))] answer])%list
    /\ match answer with
       | inl err => r = Return (Some err) /\ data st' = data st
       | inr resp =>
           if found resp then
             match map_get (nth 0 (buf resp) []) "vlmvlan_name" with
             | VString name =>
                 r = Return None
                 /\ data st' = Set_ (data st) "name" (VString name)
             | _ => (exists msg, r = Panic msg) /\ data st' = data st
             end
           else
             r = Return (Some ("SOLIDServer - Unable to find and import vlan (oid): "
                               ++ Id (data st) ++ LF))
             /\ data st' = data st
       end.
Proof.
  intros H. unfold resourcevlanImportState in H.
  rewrite bind_get_d in H. request s H.
  exists answer. destruct answer as [err | resp].
  - injection H as <- <-. cbn [trace data]. repeat split.
  - destruct (found resp).
    + destruct (map_get (nth 0 (buf resp) []) "vlmvlan_name");
        cbn [assert_string] in H; rewrite ?bind_panic, ?bind_ret in H;
        rewrite ?bind_d_Set in H;
        injection H as <- <-; cbn [trace data]; repeat split; eauto.
    + rewrite bind_get_d in H. injection H as <- <-.
      cbn [trace data]. repeat split.
Qed.

End VlanLifecycle.

(* ================================================================== *)
(** ** Reading a subnet back *)
(* ================================================================== *)

Lemma values_append_values m key value :
  Forall (fun kv : string * list string => snd kv <> []) m ->
  Forall (fun kv : string * list string => snd kv <> [])
    (values_append m key value).
Proof.
  induction m as [| [k vs] m IH]; intros H; cbn [values_append].
  - constructor; [discriminate | constructor].
  - inversion H as [| ? ? Hk Hm]; subst.
    destruct (String.eqb k key).
    + constructor; [| exact Hm]. cbn [snd]. destruct vs; discriminate.
    + constructor; [exact Hk | apply IH, Hm].
Qed.

Lemma parse_setting_values m setting :
  Forall (fun kv : string * list string => snd kv <> []) m ->
  Forall (fun kv : string * list string => snd kv <> [])
    (parse_setting m setting).
Proof.
  intros H. unfold parse_setting.
  destruct (negb (Go.no_sep ";" setting)); [exact H |].
  destruct (String.eqb setting ""); [exact H |].
  destruct (strings_Cut "=" setting) as [key value].
  destruct (QueryUnescape key); [| exact H].
  destruct (QueryUnescape _); [| exact H].
  apply values_append_values, H.
Qed.

(** Every key of a parsed query has at least one value. *)
Lemma ParseQuery_values query :
  Forall (fun kv : string * list string => snd kv <> []) (ParseQuery query).
Proof.
  unfold ParseQuery.
  assert (G : forall l m,
             Forall (fun kv : string * list string => snd kv <> []) m ->
             Forall (fun kv : string * list string => snd kv <> [])
               (fold_left parse_setting l m)).
  { induction l as [| x l IH]; intros m H; cbn [fold_left];
      [exact H | apply IH, parse_setting_values, H]. }
  apply G. constructor.
Qed.

Lemma index_values (retrieved : list (string * list string)) key :
  Forall (fun kv : string * list string => snd kv <> []) retrieved ->
  index retrieved key <> Some [].
Proof.
  induction retrieved as [| [k vs] m IH]; intros H; cbn [index];
    [discriminate |].
  inversion H as [| ? ? Hk Hm]; subst.
  destruct (String.eqb k key); [| apply IH, Hm].
  intros E. injection E as ->. apply Hk. reflexivity.
Qed.

Section Reading.
Context {W R : Type}.
Implicit Types st : St W.

Lemma compute_class_parameters_run current retrieved :
  Forall (fun kv : string * list string => snd kv <> []) retrieved ->
  forall computed st,
    compute_class_parameters (W := W) (R := R) current retrieved computed st
    = (Next (computed_class_parameters current retrieved computed), st).
Proof.
  intros Hv. induction current as [| [ck v] rest IH]; intros computed st;
    cbn [compute_class_parameters computed_class_parameters fold_left fst];
    [reflexivity |].
  unfold retrieved_value. pose proof (index_values _ ck Hv) as Hne.
  destruct (index retrieved ck) as [[| v0 rv] |].
  - contradiction Hne. reflexivity.
  - cbn [first_value]. rewrite bind_ret. apply IH.
  - apply IH.
Qed.

(** [d.Set] on a state given by its parts. *)
Lemma bind_d_Set_at {B} key v (k : unit -> M W R B) w d e n tr :
  bind (d_Set key v) k (mkSt w d e n tr)
  = k tt (mkSt w (Set_ d key v) e n tr).
Proof. reflexivity. Qed.

Lemma bind_read_class_parameters_st {B} record field raw
  (k : unit -> M W R B) st :
  schema_type (d_schema (data st)) "class_parameters" = Some TypeMap ->
  map_get record field = VString raw ->
  bind (read_class_parameters record field) k st
  = k tt (mkSt (world st) (class_parameters_read (data st) raw)
            (entropy st) (drawn st) (trace st)).
Proof.
  intros Hc Hf. unfold read_class_parameters, class_parameters_read, d_map.
  rewrite !bind_assoc, bind_get_d.
  destruct (Get_map _ _ Hc) as [E _]. rewrite E. cbn [assert_map].
  rewrite bind_ret, Hf. cbn [assert_string]. rewrite bind_assoc, bind_ret.
  pose proof (ParseQuery_values raw) as Hv.
  pose proof (index_values _ "gateway" Hv) as Hne.
  rewrite bind_assoc.
  destruct (index (ParseQuery raw) "gateway") as [[| g rv] |].
  - contradiction Hne. reflexivity.
  - cbn [first_value]. rewrite bind_assoc, bind_ret, bind_d_Set.
    rewrite bind_assoc. unfold bind at 1.
    rewrite (compute_class_parameters_run _ _ Hv). rewrite bind_d_Set.
    reflexivity.
  - rewrite bind_ret, bind_assoc. unfold bind at 1.
    rewrite (compute_class_parameters_run _ _ Hv). rewrite bind_d_Set.
    destruct st; reflexivity.
Qed.

Lemma bind_read_class_parameters {B} record field raw
  (k : unit -> M W R B) w d e n tr :
  schema_type (d_schema d) "class_parameters" = Some TypeMap ->
  map_get record field = VString raw ->
  bind (read_class_parameters record field) k (mkSt w d e n tr)
  = k tt (mkSt w (class_parameters_read d raw) e n tr).
Proof.
  intros Hc Hf.
  exact (bind_read_class_parameters_st record field raw k
           (mkSt w d e n tr) Hc Hf).
Qed.

(** Without the class parameters in the record the read stops on the
    failed assertion. *)
Lemma bind_read_class_parameters_panics {B} record field
  (k : unit -> M W R B) st :
  schema_type (d_schema (data st)) "class_parameters" = Some TypeMap ->
  is_string (map_get record field) = false ->
  exists msg, bind (read_class_parameters record field) k st = (Panic msg, st).
Proof.
  intros Hc Hf. unfold read_class_parameters, d_map.
  rewrite !bind_assoc, bind_get_d.
  destruct (Get_map _ _ Hc) as [E _]. rewrite E. cbn [assert_map].
  rewrite bind_ret.
  destruct (map_get record field); try discriminate Hf;
    cbn [assert_string]; rewrite bind_assoc, bind_panic; eauto.
Qed.

End Reading.

(** One asserted field of the record: either it is a string and the
    run goes on, or the run stops there. *)
Ltac field H :=
  cbv zeta in H; rewrite ?bind_assoc in H;
  match type of H with
  | bind (assert_string (map_get ?record ?key)) _ _ = _ =>
      let x := fresh "x" in
      destruct (map_get record key) as [| x | | |] eqn:?;
      cbn [assert_string is_string andb] in *;
      rewrite ?bind_panic, ?bind_ret in H;
      [ injection H as <- <-; cbn [trace data];
        rewrite ?Set_id, ?Set_schema; repeat split; eauto
      | repeat first [rewrite bind_d_Set_at in H | rewrite bind_assoc in H]
      | injection H as <- <-; cbn [trace data];
        rewrite ?Set_id, ?Set_schema; repeat split; eauto
      | injection H as <- <-; cbn [trace data];
        rewrite ?Set_id, ?Set_schema; repeat split; eauto
      | injection H as <- <-; cbn [trace data];
        rewrite ?Set_id, ?Set_schema; repeat split; eauto ]
  end.

(** The last field, the class parameters, and the end of the read. *)
Ltac class_parameters H Hs :=
  rewrite ?bind_assoc in H;
  match type of H with
  | context [read_class_parameters ?record ?key] =>
      let raw := fresh "raw" in let Hraw := fresh "Hraw" in
      let msg := fresh "msg" in let E := fresh "E" in
      destruct (map_get record key) as [| raw | | |] eqn:Hraw;
      cbn [is_string andb];
      [ | rewrite (bind_read_class_parameters _ _ raw) in H;
          [| rewrite !Set_schema, Hs; reflexivity | exact Hraw];
          apply pair_equal_spec in H as [<- <-]; cbn [trace data];
          repeat split
        | | | ];
      match type of H with
      | bind _ ?k ?st = _ =>
          destruct (bind_read_class_parameters_panics record key k st)
            as [msg E];
          [ cbn [data]; rewrite !Set_schema, Hs; reflexivity
          | rewrite Hraw; reflexivity |]
      end;
      rewrite E in H; apply pair_equal_spec in H as [<- <-];
      cbn [trace data]; rewrite ?Set_id, ?Set_schema;
      repeat split; eauto
  end.

Section SubnetRead.
Context {W : Type} (s : SOLIDserver W).
Implicit Types st : St W.

Lemma resourceipsubnetRead_run st r st' :
  d_schema (data st) = resourceipsubnet ->
  resourceipsubnetRead s st = (r, st') ->
  exists answer,
    trace st'
    = (trace st
       ++ [EvRequest "get" "rest/ip_block_subnet_info"
             [("subnet_id", Id (data st))] answer])%list
    /\ read_outcome diag_FromErr diag_nil
         (fun d => diag_Errorf ("Unable to find IP subnet: "
                                ++ get_str d "name" ++ LF))
         ipsubnet_fields ipsubnet_read (data st) answer r (data st').
Proof.
  intros Hs H. unfold resourceipsubnetRead in H.
  rewrite bind_get_d in H. request s H.
  exists answer. unfold read_outcome. destruct answer as [err | resp].
  - injection H as <- <-. cbn [trace data]. repeat split.
  - destruct (found resp).
    + unfold ipsubnet_read, fields_ok, ipsubnet_fields, text.
      cbn [forallb].
      do 5 field H. class_parameters H Hs.
    + read H Hs. injection H as <- <-. cbn [trace data]. repeat split.
Qed.

Lemma resourceipsubnetImportState_run st r st' :
  d_schema (data st) = resourceipsubnet ->
  resourceipsubnetImportState s st = (r, st') ->
  exists answer,
    trace st'
    = (trace st
       ++ [EvRequest "get" "rest/ip_block_subnet_info"
             [("subnet_id", Id (data st))] answer])%list
    /\ read_outcome (fun err => Some err) None
         (fun d => Some ("SOLIDServer - Unable to find and import IP subnet (oid): "
                         ++ Id d ++ LF))
         ipsubnet_import_fields ipsubnet_imported (data st) answer r
         (data st').
Proof.
  intros Hs H. unfold resourceipsubnetImportState in H.
  rewrite bind_get_d in H. request s H.
  exists answer. unfold read_outcome. destruct answer as [err | resp].
  - injection H as <- <-. cbn [trace data]. repeat split.
  - destruct (found resp).
    + unfold ipsubnet_imported, fields_ok, ipsubnet_import_fields, text.
      cbn [forallb].
      do 6 field H. class_parameters H Hs.
    + rewrite bind_get_d in H. injection H as <- <-.
      cbn [trace data]. repeat split.
Qed.

Lemma resourceip6subnetRead_run st r st' :
  d_schema (data st) = resourceip6subnet ->
  resourceip6subnetRead s st = (r, st') ->
  exists answer,
    trace st'
    = (trace st
       ++ [EvRequest "get" "rest/ip6_block6_subnet6_info"
             [("subnet6_id", Id (data st))] answer])%list
    /\ read_outcome diag_FromErr diag_nil
         (fun d => diag_Errorf ("Unable to find IPv6 subnet: "
                                ++ get_str d "name" ++ LF))
         ip6subnet_fields ip6subnet_read (data st) answer r (data st').
Proof.
  intros Hs H. unfold resourceip6subnetRead in H.
  rewrite bind_get_d in H. request s H.
  exists answer. unfold read_outcome. destruct answer as [err | resp].
  - injection H as <- <-. cbn [trace data]. repeat split.
  - destruct (found resp).
    + unfold ip6subnet_record in H.
      unfold ip6subnet_read, fields_ok, ip6subnet_fields, text.
      cbn [forallb].
      do 5 field H. class_parameters H Hs.
    + read H Hs. injection H as <- <-. cbn [trace data]. repeat split.
Qed.

Lemma resourceip6subnetImportState_run st r st' :
  d_schema (data st) = resourceip6subnet ->
  resourceip6subnetImportState s st = (r, st') ->
  exists answer,
    trace st'
    = (trace st
       ++ [EvRequest "get" "rest/ip6_block6_subnet6_info"
             [("subnet6_id", Id (data st))] answer])%list
    /\ read_outcome (fun err => Some err) None
         (fun d => Some ("SOLIDServer - Unable to find and import IPv6 subnet (oid): "
                         ++ Id d ++ LF))
         ip6subnet_fields ip6subnet_read (data st) answer r (data st').
Proof.
  intros Hs H. unfold resourceip6subnetImportState in H.
  rewrite bind_get_d in H. request s H.
  exists answer. unfold read_outcome. destruct answer as [err | resp].
  - injection H as <- <-. cbn [trace data]. repeat split.
  - destruct (found resp).
    + unfold ip6subnet_record in H.
      unfold ip6subnet_read, fields_ok, ip6subnet_fields, text.
      cbn [forallb].
      do 5 field H. class_parameters H Hs.
    + rewrite bind_get_d in H. injection H as <- <-.
      cbn [trace data]. repeat split.
Qed.

End SubnetRead.

(* ================================================================== *)
(** ** Further properties of the three resources *)
(* ================================================================== *)

(** A creation that does not succeed leaves the resource data alone. *)
Lemma Engine_failure_data {W R} service jitter (ok : R) fromErr exhausted
  created (st : St W) r st' :
  Engine service jitter ok fromErr exhausted created st r st' ->
  r <> Return ok ->
  data st' = data st.
Proof.
  intros (qs & Hqs & [(_ & _ & Hd) | (cands & evs & o & HR & Hev & Hres)]) Hne.
  - exact Hd.
  - destruct o; cbn [result_of] in Hres; try apply Hres.
    destruct Hres as [-> _]. contradiction Hne. reflexivity.
Qed.

(** The calls of a run are reservations posted to its service. *)
Lemma Run_requests_post service jitter cands evs o :
  Run service jitter cands evs o ->
  forall e, In e (requests evs) ->
            exists p a, e = EvRequest "post" service p a.
Proof.
  induction 1 as [| | c rest pre q err Hd | c rest pre q resp oid Hd Hr
                  | c rest pre q resp evs o Hd Hr HR IH]; intros e Hin.
  - destruct Hin.
  - destruct Hin.
  - rewrite requests_app, (delay_requests _ _ Hd) in Hin.
    destruct Hin as [<- | []]. eauto.
  - rewrite requests_app, (delay_requests _ _ Hd) in Hin.
    destruct Hin as [<- | []]. eauto.
  - rewrite requests_app, (delay_requests _ _ Hd) in Hin.
    destruct Hin as [<- | Hin]; [eauto | exact (IH _ Hin)].
Qed.

(* ---------------------------------------------------------------- *)
(** *** What the creation leaves for the later calls *)

Lemma Get_SetId d id key : Get (SetId d id) key = Get d key.
Proof. reflexivity. Qed.

Lemma ipsubnet_created_schema d c oid :
  d_schema (ipsubnet_created d c oid) = d_schema d.
Proof.
  unfold ipsubnet_created.
  destruct (get_int d "gateway_offset" =? 0); rewrite ?Set_schema; reflexivity.
Qed.

Lemma ip6subnet_created_schema d c oid :
  d_schema (ip6subnet_created d c oid) = d_schema d.
Proof.
  unfold ip6subnet_created.
  destruct (get_int d "gateway_offset" =? 0);
    [| destruct (Go.big_SetString16 c)]; rewrite ?Set_schema; reflexivity.
Qed.

(** The creation writes the prefix, the address, the netmask and the
    gateway, and no other attribute. *)
Lemma ipsubnet_created_keeps d c oid key :
  String.eqb "prefix" key = false ->
  String.eqb "address" key = false ->
  String.eqb "netmask" key = false ->
  String.eqb "gateway" key = false ->
  Get (ipsubnet_created d c oid) key = Get d key.
Proof.
  intros H1 H2 H3 H4. unfold ipsubnet_created.
  destruct (get_int d "gateway_offset" =? 0);
    rewrite ?Get_Set_other by assumption; reflexivity.
Qed.

Lemma ip6subnet_created_keeps d c oid key :
  String.eqb "prefix" key = false ->
  String.eqb "address" key = false ->
  String.eqb "gateway" key = false ->
  Get (ip6subnet_created d c oid) key = Get d key.
Proof.
  intros H1 H2 H3. unfold ip6subnet_created.
  destruct (get_int d "gateway_offset" =? 0);
    [| destruct (Go.big_SetString16 c)];
    rewrite ?Get_Set_other by assumption; reflexivity.
Qed.

Section Created.
Context {W : Type} (s : SOLIDserver W).
Implicit Types st : St W.

Lemma resourceipsubnetCreate_created st st1 :
  d_schema (data st) = resourceipsubnet ->
  resourceipsubnetCreate s st = (Return diag_nil, st1) ->
  exists c oid, data st1 = ipsubnet_created (data st) c oid.
Proof.
  intros Hs H.
  pose proof (resourceipsubnetCreate_engine s _ _ _ Hs H) as He.
  apply Engine_success_data in He;
    [exact He | discriminate | discriminate | reflexivity].
Qed.

Lemma resourceip6subnetCreate_created st st1 :
  d_schema (data st) = resourceip6subnet ->
  resourceip6subnetCreate s st = (Return diag_nil, st1) ->
  exists c oid, data st1 = ip6subnet_created (data st) c oid.
Proof.
  intros Hs H.
  pose proof (resourceip6subnetCreate_engine s _ _ _ Hs H) as He.
  apply Engine_success_data in He;
    [exact He | discriminate | discriminate | reflexivity].
Qed.

(** The data of a subnet created with a gateway offset, as the later
    calls read it. *)
Lemma resourceipsubnetCreate_leaves st st1 :
  d_schema (data st) = resourceipsubnet ->
  get_int (data st) "gateway_offset" <> 0 ->
  resourceipsubnetCreate s st = (Return diag_nil, st1) ->
  exists c,
    d_schema (data st1) = resourceipsubnet
    /\ get_int (data st1) "gateway_offset" = get_int (data st) "gateway_offset"
    /\ get_str (data st1) "space" = get_str (data st) "space"
    /\ get_map (data st1) "class_parameters"
       = get_map (data st) "class_parameters"
    /\ get_str (data st1) "address" = Codec.hexiptoip c
    /\ get_str (data st1) "gateway"
       = ipsubnet_gateway c (get_int (data st) "prefix_size")
           (get_int (data st) "gateway_offset").
Proof.
  intros Hs Hg H.
  destruct (resourceipsubnetCreate_created _ _ Hs H) as (c & oid & ->).
  exists c. rewrite ipsubnet_created_schema.
  split; [exact Hs |].
  split; [unfold get_int; rewrite ipsubnet_created_keeps by reflexivity;
          reflexivity |].
  split; [unfold get_str; rewrite ipsubnet_created_keeps by reflexivity;
          reflexivity |].
  split; [unfold get_map; rewrite ipsubnet_created_keeps by reflexivity;
          reflexivity |].
  split; [apply ipsubnet_created_address, Hs
         | apply ipsubnet_created_gateway; assumption].
Qed.

Lemma resourceip6subnetCreate_leaves st st0 st1 siteID blockInfo cands :
  d_schema (data st) = resourceip6subnet ->
  ip6subnet_candidates s st = (Next (siteID, blockInfo, cands), st0) ->
  Forall (fun c => Go.big_SetString16 c <> None) cands ->
  get_int (data st) "gateway_offset" <> 0 ->
  resourceip6subnetCreate s st = (Return diag_nil, st1) ->
  exists c start,
    In c cands
    /\ Go.big_SetString16 c = Some start
    /\ d_schema (data st1) = resourceip6subnet
    /\ get_int (data st1) "gateway_offset" = get_int (data st) "gateway_offset"
    /\ get_str (data st1) "space" = get_str (data st) "space"
    /\ get_map (data st1) "class_parameters"
       = get_map (data st) "class_parameters"
    /\ get_str (data st1) "address" = Codec.hexip6toip6 c
    /\ get_str (data st1) "gateway"
       = ip6subnet_gateway_at start (get_int (data st) "prefix_size")
           (get_int (data st) "gateway_offset").
Proof.
  intros Hs Hp Hhex Hg H.
  destruct (ip6subnet_reserved_gateway s _ _ _ _ _ _ Hs Hp Hhex Hg H)
    as (c & start & Hin & Hstart & Haddr & Hgw).
  exists c, start. split; [exact Hin | split; [exact Hstart |]].
  destruct (resourceip6subnetCreate_created _ _ Hs H) as (c' & oid & E).
  rewrite E in *. rewrite ip6subnet_created_schema.
  split; [exact Hs |].
  split; [unfold get_int; rewrite ip6subnet_created_keeps by reflexivity;
          reflexivity |].
  split; [unfold get_str; rewrite ip6subnet_created_keeps by reflexivity;
          reflexivity |].
  split; [unfold get_map; rewrite ip6subnet_created_keeps by reflexivity;
          reflexivity |].
  split; assumption.
Qed.

End Created.

(* ---------------------------------------------------------------- *)
(** *** The calls of the loops, candidate by candidate *)

Lemma calls_with_nil P cands : calls_with P cands [].
Proof. constructor. Qed.

Lemma calls_with_last P c rest pre method service p a :
  requests pre = [] ->
  P p c ->
  calls_with P (c :: rest) (pre ++ [EvRequest method service p a]).
Proof.
  intros Hp H1. unfold calls_with. rewrite requests_app, Hp.
  cbn. constructor; [exact H1 | constructor].
Qed.

Lemma calls_with_next P c rest pre method service p a evs :
  requests pre = [] ->
  P p c ->
  calls_with P rest evs ->
  calls_with P (c :: rest) (pre ++ EvRequest method service p a :: evs).
Proof.
  intros Hp H1 Hc. unfold calls_with in *. rewrite requests_app, Hp.
  cbn [app requests filter is_request List.length firstn].
  fold (requests evs). constructor; [exact H1 | exact Hc].
Qed.

Lemma calls_with_queries P cands qs evs :
  forallb is_query qs = true ->
  calls_with P cands evs ->
  calls_with P cands (qs ++ evs).
Proof.
  intros Hq Hc. unfold calls_with in *.
  rewrite requests_app, (requests_queries _ Hq). exact Hc.
Qed.

Lemma calls_with_impl (P Q : Values -> string -> Prop) cands evs :
  (forall p c, P p c -> Q p c) ->
  calls_with P cands evs -> calls_with Q cands evs.
Proof.
  intros HPQ. unfold calls_with.
  generalize (firstn (List.length (requests evs)) cands).
  induction (requests evs) as [| e l IH]; intros l' H; inversion H; subst;
    constructor; auto.
Qed.

(** Conclude an attempt from what [check_answer] says; [sent] proves
    what the call carries. *)
Ltac follow Hrun IH Hs pfx sent :=
  let w' := fresh "w'" in let answer := fresh "answer" in
  let err := fresh "err" in let resp := fresh "resp" in
  let oid := fresh "oid" in let evs := fresh "evs" in
  let Ht := fresh "Ht" in let Hc := fresh "Hc" in
  destruct Hrun as (w' & answer & Hrun);
  destruct answer as [err | resp];
  [ destruct Hrun as [_ ->]; eexists; cbn [trace];
    rewrite <- ?app_assoc; split; [reflexivity |];
    apply (calls_with_last _ _ _ pfx); [reflexivity | sent]
  | cbv zeta in Hrun; destruct (reserved (inr resp)) as [oid |];
    [ destruct Hrun as [_ ->]; eexists; cbn [trace];
      rewrite <- ?app_assoc; split; [reflexivity |];
      apply (calls_with_last _ _ _ pfx); [reflexivity | sent]
    | apply IH in Hrun; [| exact Hs];
      destruct Hrun as (evs & Ht & Hc); cbn [trace data] in Ht, Hc;
      eexists; rewrite Ht, <- ?app_assoc; split; [reflexivity |];
      apply (calls_with_next _ _ _ pfx); [reflexivity | sent | exact Hc] ] ].

Section Calls.
Context {W : Type} (s : SOLIDserver W).
Implicit Types st : St W.

Lemma ipsubnet_attempts_calls cands :
  forall siteID blockInfo gw st r st',
    d_schema (data st) = resourceipsubnet ->
    ipsubnet_attempts s siteID blockInfo cands gw st = (r, st') ->
    exists evs,
      trace st' = (trace st ++ evs)%list
      /\ calls_with (ipsubnet_call (data st)) cands evs.
Proof.
  induction cands as [| c rest IH]; intros siteID blockInfo gw st r st' Hs Hrun.
  - injection Hrun as <- <-. exists [].
    split; [now rewrite app_nil_r | apply calls_with_nil].
  - cbn [ipsubnet_attempts] in Hrun.
    rewrite bind_d_string in Hrun by typed Hs.
    rewrite bind_d_int in Hrun by typed Hs.
    rewrite bind_d_string in Hrun by typed Hs.
    rewrite bind_d_string in Hrun by typed Hs.
    destruct (Nat.eqb (String.length (get_str (data st) "block")) 0) eqn:Hb;
      [| destruct (map_get blockInfo "level") as [| level | | |] eqn:Hlevel;
         cbn [assert_string] in Hrun;
         rewrite ?bind_assoc, ?bind_panic, ?bind_ret in Hrun ].
    3: { rewrite bind_d_bool in Hrun by typed Hs.
         rewrite bind_d_int in Hrun by typed Hs.
         rewrite bind_class_parameters in Hrun by typed Hs.
         rewrite bind_rand_Intn, bind_time_Sleep in Hrun.
         apply check_answer in Hrun.
         cbn [trace data entropy drawn world] in Hrun.
         destruct (get_int (data st) "gateway_offset" =? 0) eqn:Hg;
           follow Hrun IH Hs
             [EvSleep (entropy st (drawn st) mod 1000 * time_Millisecond)]
             ltac:(unfold ipsubnet_call, ipsubnet_class_parameters;
                   rewrite Hg; repeat split). }
    1: { rewrite bind_ret, bind_d_bool in Hrun by typed Hs.
         rewrite bind_d_int in Hrun by typed Hs.
         rewrite bind_class_parameters in Hrun by typed Hs.
         rewrite bind_rand_Intn, bind_time_Sleep in Hrun.
         apply check_answer in Hrun.
         cbn [trace data entropy drawn world] in Hrun.
         destruct (get_int (data st) "gateway_offset" =? 0) eqn:Hg;
           follow Hrun IH Hs
             [EvSleep (entropy st (drawn st) mod 1000 * time_Millisecond)]
             ltac:(unfold ipsubnet_call, ipsubnet_class_parameters;
                   rewrite Hg; repeat split). }
    all: injection Hrun as <- <-; exists [];
      split; [now rewrite app_nil_r | apply calls_with_nil].
Qed.

Lemma ip6subnet_attempts_calls cands :
  forall siteID blockInfo gw st r st',
    d_schema (data st) = resourceip6subnet ->
    ip6subnet_attempts s siteID blockInfo cands gw st = (r, st') ->
    exists evs,
      trace st' = (trace st ++ evs)%list
      /\ calls_with (ip6subnet_call (data st)) cands evs.
Proof.
  induction cands as [| c rest IH]; intros siteID blockInfo gw st r st' Hs Hrun.
  - injection Hrun as <- <-. exists [].
    split; [now rewrite app_nil_r | apply calls_with_nil].
  - cbn [ip6subnet_attempts] in Hrun.
    rewrite bind_d_string in Hrun by typed Hs.
    rewrite bind_d_int in Hrun by typed Hs.
    rewrite bind_d_string in Hrun by typed Hs.
    rewrite bind_d_string in Hrun by typed Hs.
    rewrite bind_d_bool in Hrun by typed Hs.
    rewrite bind_d_int in Hrun by typed Hs.
    destruct (get_int (data st) "gateway_offset" =? 0) eqn:Hg;
      [| unfold ip6subnet_gateway in Hrun;
         destruct (Go.big_SetString16 c) as [bigStartAddr |] eqn:Hhex ];
      rewrite ?bind_panic, ?bind_ret in Hrun.
    3: { injection Hrun as <- <-. exists [].
         split; [now rewrite app_nil_r | apply calls_with_nil]. }
    all: destruct (Nat.eqb (String.length (get_str (data st) "block")) 0);
      rewrite bind_class_parameters in Hrun by typed Hs;
      rewrite bind_rand_Intn, bind_time_Sleep in Hrun;
      apply check_answer in Hrun;
      cbn [trace data entropy drawn world] in Hrun;
      follow Hrun IH Hs
        [EvSleep (entropy st (drawn st) mod 1000 * time_Millisecond)]
        ltac:(unfold ip6subnet_call, ip6subnet_class_parameters;
              rewrite Hg, ?Hhex; repeat split).
Qed.

Lemma vlan_attempts_calls cands :
  forall st r st',
    d_schema (data st) = resourcevlan ->
    vlan_attempts s cands st = (r, st') ->
    exists evs,
      trace st' = (trace st ++ evs)%list
      /\ calls_with vlan_call cands evs.
Proof.
  induction cands as [| c rest IH]; intros st r st' Hs Hrun.
  - injection Hrun as <- <-. exists [].
    split; [now rewrite app_nil_r | apply calls_with_nil].
  - cbn [vlan_attempts] in Hrun.
    rewrite bind_d_string in Hrun by typed Hs.
    rewrite bind_d_string in Hrun by typed Hs.
    apply (check_answer _ _ _ None Some (fun oid d => SetId d oid)) in Hrun.
    cbn [trace data entropy drawn world] in Hrun.
    follow Hrun IH Hs (@nil Event) ltac:(split; reflexivity).
Qed.

(** The calls of a creation are those of its loop. *)
Lemma resourceipsubnetCreate_calls st siteID blockInfo cands st1 r st' :
  d_schema (data st) = resourceipsubnet ->
  ipsubnet_candidates s st = (Next (siteID, blockInfo, cands), st1) ->
  resourceipsubnetCreate s st = (r, st') ->
  calls_with (ipsubnet_call (data st)) cands (events_since st st').
Proof.
  intros Hs Hp H.
  destruct (ipsubnet_candidates_run s _ _ _ Hs Hp) as (qs & Hq & Hqs & Hd & _).
  unfold resourceipsubnetCreate in H. unfold bind at 1 in H. rewrite Hp in H.
  unfold bind at 1 in H.
  match type of H with
  | context [ipsubnet_attempts ?a ?b ?c ?d ?e ?f] =>
      destruct (ipsubnet_attempts a b c d e f) as [r2 st2] eqn:Hl
  end.
  pose proof Hl as Hl'.
  apply ipsubnet_attempts_run in Hl'; [| rewrite Hd; exact Hs].
  destruct Hl' as (evs0 & o & _ & _ & Hres & _).
  apply ipsubnet_attempts_calls in Hl; [| rewrite Hd; exact Hs].
  destruct Hl as (evs & Ht & Hc). rewrite Hd in Hc.
  assert (Htr : trace st' = trace st2).
  { destruct o; cbn [result_of] in Hres.
    - destruct Hres as [-> Hd2].
      rewrite bind_d_string in H by (rewrite Hd2, Hd; typed Hs).
      injection H as <- <-. reflexivity.
    - destruct Hres as [-> _]. injection H as <- <-. reflexivity.
    - destruct Hres as [-> _]. injection H as <- <-. reflexivity.
    - destruct Hres as [[msg ->] _]. injection H as <- <-. reflexivity. }
  rewrite (events_since_app st st' (qs ++ evs))
    by (rewrite Htr, Ht, Hq, app_assoc; reflexivity).
  apply calls_with_queries; assumption.
Qed.

Lemma resourceip6subnetCreate_calls st siteID blockInfo cands st1 r st' :
  d_schema (data st) = resourceip6subnet ->
  ip6subnet_candidates s st = (Next (siteID, blockInfo, cands), st1) ->
  resourceip6subnetCreate s st = (r, st') ->
  calls_with (ip6subnet_call (data st)) cands (events_since st st').
Proof.
  intros Hs Hp H.
  destruct (ip6subnet_candidates_run s _ _ _ Hs Hp) as (qs & Hq & Hqs & Hd & _).
  unfold resourceip6subnetCreate in H. unfold bind at 1 in H. rewrite Hp in H.
  unfold bind at 1 in H.
  match type of H with
  | context [ip6subnet_attempts ?a ?b ?c ?d ?e ?f] =>
      destruct (ip6subnet_attempts a b c d e f) as [r2 st2] eqn:Hl
  end.
  pose proof Hl as Hl'.
  apply ip6subnet_attempts_run in Hl'; [| rewrite Hd; exact Hs].
  destruct Hl' as (evs0 & o & _ & _ & Hres & _).
  apply ip6subnet_attempts_calls in Hl; [| rewrite Hd; exact Hs].
  destruct Hl as (evs & Ht & Hc). rewrite Hd in Hc.
  assert (Htr : trace st' = trace st2).
  { destruct o; cbn [result_of] in Hres.
    - destruct Hres as [-> Hd2].
      rewrite bind_d_string in H by (rewrite Hd2, Hd; typed Hs).
      injection H as <- <-. reflexivity.
    - destruct Hres as [-> _]. injection H as <- <-. reflexivity.
    - destruct Hres as [-> _]. injection H as <- <-. reflexivity.
    - destruct Hres as [[msg ->] _]. injection H as <- <-. reflexivity. }
  rewrite (events_since_app st st' (qs ++ evs))
    by (rewrite Htr, Ht, Hq, app_assoc; reflexivity).
  apply calls_with_queries; assumption.
Qed.

Lemma resourcevlanCreate_calls st cands st1 r st' :
  d_schema (data st) = resourcevlan ->
  vlan_candidates s st = (Next cands, st1) ->
  resourcevlanCreate s st = (r, st') ->
  calls_with vlan_call cands (events_since st st').
Proof.
  intros Hs Hp H.
  destruct (vlan_candidates_run s _ _ _ Hs Hp) as (qs & Hq & Hqs & Hd & _).
  unfold resourcevlanCreate in H. unfold bind at 1 in H. rewrite Hp in H.
  unfold bind at 1 in H.
  match type of H with
  | context [vlan_attempts ?a ?b ?c] =>
      destruct (vlan_attempts a b c) as [r2 st2] eqn:Hl
  end.
  pose proof Hl as Hl'.
  apply vlan_attempts_run in Hl'; [| rewrite Hd; exact Hs].
  destruct Hl' as (evs0 & o & _ & _ & Hres & _).
  apply vlan_attempts_calls in Hl; [| rewrite Hd; exact Hs].
  destruct Hl as (evs & Ht & Hc).
  assert (Htr : trace st' = trace st2).
  { destruct o; cbn [result_of] in Hres.
    - destruct Hres as [-> Hd2].
      rewrite bind_d_string in H by (rewrite Hd2, Hd; typed Hs).
      injection H as <- <-. reflexivity.
    - destruct Hres as [-> _]. injection H as <- <-. reflexivity.
    - destruct Hres as [-> _]. injection H as <- <-. reflexivity.
    - destruct Hres as [[msg ->] _]. injection H as <- <-. reflexivity. }
  rewrite (events_since_app st st' (qs ++ evs))
    by (rewrite Htr, Ht, Hq, app_assoc; reflexivity).
  apply calls_with_queries; assumption.
Qed.

End Calls.

(* ---------------------------------------------------------------- *)
(** *** What a read leaves in the resource data *)

Lemma map_value_typed m : has_type (map_value m) TypeMap = true.
Proof.
  unfold map_value. cbn [has_type].
  induction m as [| kv m IH]; [reflexivity | exact IH].
Qed.

Lemma index_map_assign m k v k' :
  index (map_assign m k v) k'
  = if String.eqb k k' then Some v else index m k'.
Proof.
  induction m as [| [k0 v0] m IH]; cbn [map_assign index]; [reflexivity |].
  destruct (String.eqb k0 k) eqn:E0.
  - apply String.eqb_eq in E0 as ->. cbn [index].
    destruct (String.eqb k k'); reflexivity.
  - cbn [index]. destruct (String.eqb k0 k') eqn:E1; [| exact IH].
    apply String.eqb_eq in E1 as ->.
    rewrite String.eqb_sym, E0. reflexivity.
Qed.

(** The computed class parameters hold the declared keys, and no other
    key. *)
Lemma computed_class_parameters_lookup current retrieved :
  forall computed key,
    index (computed_class_parameters current retrieved computed) key
    = match index current key with
      | Some _ => Some (retrieved_value retrieved key)
      | None => index computed key
      end.
Proof.
  unfold computed_class_parameters.
  induction current as [| [ck v] rest IH]; intros computed key;
    cbn [fold_left index fst]; [reflexivity |].
  rewrite IH, index_map_assign.
  destruct (String.eqb ck key) eqn:E; [| reflexivity].
  apply String.eqb_eq in E as ->. destruct (index rest key); reflexivity.
Qed.

Lemma index_map_value (m : Values) key :
  index (map (fun kv => (fst kv, VString (snd kv))) m) key
  = option_map VString (index m key).
Proof.
  induction m as [| [k v] m IH]; cbn [map index fst snd]; [reflexivity |].
  destruct (String.eqb k key); [reflexivity | exact IH].
Qed.

Lemma class_parameters_read_id d raw : Id (class_parameters_read d raw) = Id d.
Proof.
  unfold class_parameters_read.
  destruct (index (ParseQuery raw) "gateway") as [[| g rv] |];
    rewrite ?Set_id; reflexivity.
Qed.

Lemma class_parameters_read_schema d raw :
  d_schema (class_parameters_read d raw) = d_schema d.
Proof.
  unfold class_parameters_read.
  destruct (index (ParseQuery raw) "gateway") as [[| g rv] |];
    rewrite ?Set_schema; reflexivity.
Qed.

(** The shared end of a read writes the gateway and the class
    parameters, and no other attribute. *)
Lemma class_parameters_read_keeps d raw key :
  String.eqb "gateway" key = false ->
  String.eqb "class_parameters" key = false ->
  Get (class_parameters_read d raw) key = Get d key.
Proof.
  intros H1 H2. unfold class_parameters_read.
  destruct (index (ParseQuery raw) "gateway") as [[| g rv] |];
    rewrite ?Get_Set_other by assumption; reflexivity.
Qed.

Lemma class_parameters_read_gateway d raw :
  schema_type (d_schema d) "gateway" = Some TypeString ->
  get_str (class_parameters_read d raw) "gateway"
  = match index (ParseQuery raw) "gateway" with
    | Some (gateway :: _) => gateway
    | _ => get_str d "gateway"
    end.
Proof.
  intros Hg. unfold class_parameters_read.
  rewrite get_str_Set_other by reflexivity.
  destruct (index (ParseQuery raw) "gateway") as [[| g rv] |];
    try reflexivity.
  apply get_str_Set_same, Hg.
Qed.

Lemma class_parameters_read_lookup d raw key :
  schema_type (d_schema d) "class_parameters" = Some TypeMap ->
  index (get_map (class_parameters_read d raw) "class_parameters") key
  = match index (get_map d "class_parameters") key with
    | Some _ => Some (VString (retrieved_value (ParseQuery raw) key))
    | None => None
    end.
Proof.
  intros Hc. unfold class_parameters_read, get_map at 1.
  erewrite Get_Set_same;
    [| destruct (index (ParseQuery raw) "gateway") as [[| g rv] |];
       rewrite ?Set_schema; exact Hc
     | apply map_value_typed ].
  unfold map_value. rewrite index_map_value, computed_class_parameters_lookup.
  destruct (index (get_map d "class_parameters") key); reflexivity.
Qed.

Lemma ipsubnet_read_id d record : Id (ipsubnet_read d record) = Id d.
Proof.
  unfold ipsubnet_read. rewrite class_parameters_read_id, !Set_id.
  reflexivity.
Qed.

Lemma ip6subnet_read_id d record : Id (ip6subnet_read d record) = Id d.
Proof.
  unfold ip6subnet_read. rewrite class_parameters_read_id, !Set_id.
  reflexivity.
Qed.

Lemma ipsubnet_imported_id d record : Id (ipsubnet_imported d record) = Id d.
Proof.
  unfold ipsubnet_imported. rewrite class_parameters_read_id, !Set_id.
  reflexivity.
Qed.

Lemma ipsubnet_imported_schema d record :
  d_schema (ipsubnet_imported d record) = d_schema d.
Proof.
  unfold ipsubnet_imported. rewrite class_parameters_read_schema, !Set_schema.
  reflexivity.
Qed.

(* ---------------------------------------------------------------- *)
(** *** Class parameters sent and read back *)

Lemma append_assoc (u v w : string) : ((u ++ v) ++ w = u ++ v ++ w)%string.
Proof. induction u as [| c u IH]; simpl; [reflexivity | rewrite IH; reflexivity]. Qed.

Lemma no_sep_app sep u v :
  Go.no_sep sep (u ++ v) = Go.no_sep sep u && Go.no_sep sep v.
Proof.
  induction u as [| c u IH]; simpl; [reflexivity |].
  rewrite IH, andb_assoc. reflexivity.
Qed.

Lemma QueryEscape_cons c x :
  Go.QueryEscape (String c x) = (Go.QueryEscape (String c "") ++ Go.QueryEscape x)%string.
Proof.
  cbn [Go.QueryEscape]. destruct (Go.unreserved c); [reflexivity |].
  destruct (Ascii.eqb c " "); reflexivity.
Qed.

Lemma escaped_byte_no_sep c :
  Go.no_sep "&" (Go.QueryEscape (String c "")) = true
  /\ Go.no_sep "=" (Go.QueryEscape (String c "")) = true
  /\ Go.no_sep ";" (Go.QueryEscape (String c "")) = true.
Proof.
  destruct c as [[] [] [] [] [] [] [] []]; vm_compute; auto.
Qed.

Lemma QueryEscape_no_sep sep x :
  sep = "&"%char \/ sep = "="%char \/ sep = ";"%char ->
  Go.no_sep sep (Go.QueryEscape x) = true.
Proof.
  intros Hsep. induction x as [| c x IH]; [reflexivity |].
  rewrite QueryEscape_cons, no_sep_app, IH, andb_true_r.
  destruct (escaped_byte_no_sep c) as (H1 & H2 & H3).
  destruct Hsep as [-> | [-> | ->]]; assumption.
Qed.

Lemma unescape_byte c x :
  QueryUnescape (Go.QueryEscape (String c "") ++ x)
  = option_map (String c) (QueryUnescape x).
Proof.
  destruct c as [[] [] [] [] [] [] [] []]; reflexivity.
Qed.

Lemma QueryUnescape_QueryEscape x : QueryUnescape (Go.QueryEscape x) = Some x.
Proof.
  induction x as [| c x IH]; [reflexivity |].
  rewrite QueryEscape_cons, unescape_byte, IH. reflexivity.
Qed.


Lemma setting_no_sep sep kv :
  sep = "&"%char \/ sep = ";"%char ->
  Go.no_sep sep (setting kv) = true.
Proof.
  intros Hsep. unfold setting.
  rewrite !no_sep_app, !QueryEscape_no_sep by tauto.
  destruct Hsep as [-> | ->]; reflexivity.
Qed.

Lemma join_pairs_cons kv kv' rest :
  Go.join_pairs (kv :: kv' :: rest)
  = (setting kv ++ String "&" (Go.join_pairs (kv' :: rest)))%string.
Proof.
  destruct kv as [k v]. cbn [Go.join_pairs]. unfold setting. cbn [fst snd].
  rewrite !append_assoc. reflexivity.
Qed.

Lemma split_join_pairs kv l :
  Go.split_on "&" (Go.join_pairs (kv :: l)) = map setting (kv :: l).
Proof.
  revert kv. induction l as [| kv' l IH]; intros kv.
  - destruct kv as [k v]. cbn [Go.join_pairs map].
    apply (split_on_no_sep "&" (setting (k, v))), setting_no_sep. auto.
  - rewrite join_pairs_cons, split_on_app by (apply setting_no_sep; auto).
    rewrite IH. reflexivity.
Qed.

Lemma strings_Cut_app u w :
  Go.no_sep "=" u = true ->
  strings_Cut "=" (u ++ String "=" w) = (u, Some w).
Proof.
  induction u as [| c u IH]; cbn [strings_Cut append Go.no_sep].
  - reflexivity.
  - intros H. apply andb_true_iff in H as [Hc Hu].
    apply negb_true_iff in Hc. rewrite Hc, (IH Hu). reflexivity.
Qed.

Lemma setting_not_empty kv : String.eqb (setting kv) "" = false.
Proof.
  unfold setting. destruct (Go.QueryEscape (fst kv)); reflexivity.
Qed.

Lemma parse_setting_setting m kv :
  parse_setting m (setting kv) = values_append m (fst kv) (snd kv).
Proof.
  unfold parse_setting.
  rewrite (setting_no_sep ";") by auto. cbn [negb].
  rewrite setting_not_empty. unfold setting.
  change (Go.QueryEscape (fst kv) ++ "=" ++ Go.QueryEscape (snd kv))%string
    with (Go.QueryEscape (fst kv) ++ String "=" (Go.QueryEscape (snd kv)))%string.
  rewrite strings_Cut_app by (apply QueryEscape_no_sep; auto).
  rewrite !QueryUnescape_QueryEscape. reflexivity.
Qed.

Lemma ParseQuery_join_pairs l :
  ParseQuery (Go.join_pairs l)
  = fold_left (fun m kv => values_append m (fst kv) (snd kv)) l [].
Proof.
  unfold ParseQuery. destruct l as [| kv l]; [reflexivity |].
  rewrite split_join_pairs. generalize (@nil (string * list string)).
  generalize (kv :: l). clear. intros l.
  induction l as [| kv l IH]; intros m; cbn [map fold_left]; [reflexivity |].
  rewrite parse_setting_setting. apply IH.
Qed.

Lemma index_values_append m key value key' :
  index (values_append m key value) key'
  = if String.eqb key key'
    then Some (match index m key with
               | Some vs => vs ++ [value]
               | None => [value]
               end)%list
    else index m key'.
Proof.
  induction m as [| [k vs] m IH]; cbn [values_append index].
  - destruct (String.eqb key key'); reflexivity.
  - destruct (String.eqb k key) eqn:E0.
    + apply String.eqb_eq in E0 as ->. cbn [index].
      destruct (String.eqb key key'); reflexivity.
    + cbn [index]. destruct (String.eqb k key') eqn:E1.
      * apply String.eqb_eq in E1 as ->.
        rewrite String.eqb_sym, E0. reflexivity.
      * rewrite IH. reflexivity.
Qed.

Lemma index_appended l : forall m key,
  index (fold_left (fun m kv => values_append m (fst kv) (snd kv)) l m) key
  = match index m key, values_of key l with
    | Some vs, w => Some (vs ++ w)%list
    | None, [] => None
    | None, w => Some w
    end.
Proof.
  unfold values_of.
  induction l as [| [k v] l IH]; intros m key; cbn [fold_left map filter fst snd].
  - destruct (index m key); [rewrite app_nil_r |]; reflexivity.
  - rewrite IH, index_values_append.
    destruct (String.eqb k key) eqn:E.
    + apply String.eqb_eq in E as ->. cbn [map snd].
      destruct (index m key) as [vs |].
      * rewrite <- app_assoc. reflexivity.
      * reflexivity.
    + reflexivity.
Qed.

Lemma insert_by_key_perm kv l :
  Permutation.Permutation (Go.insert_by_key kv l) (kv :: l).
Proof.
  induction l as [| kv' l IH]; cbn [Go.insert_by_key].
  - apply Permutation.Permutation_refl.
  - destruct (String.ltb (fst kv) (fst kv')).
    + apply Permutation.Permutation_refl.
    + apply Permutation.perm_trans with (kv' :: kv :: l).
      * apply Permutation.perm_skip, IH.
      * apply Permutation.perm_swap.
Qed.

Lemma sort_by_key_perm l : Permutation.Permutation (Go.sort_by_key l) l.
Proof.
  unfold Go.sort_by_key.
  assert (G : forall l acc,
             Permutation.Permutation
               (fold_left (fun acc kv => Go.insert_by_key kv acc) l acc)
               (acc ++ l)%list).
  { clear. induction l as [| kv l IH]; intros acc; cbn [fold_left].
    - rewrite app_nil_r. apply Permutation.Permutation_refl.
    - apply Permutation.perm_trans with (Go.insert_by_key kv acc ++ l)%list.
      + apply IH.
      + apply Permutation.perm_trans with ((kv :: acc) ++ l)%list.
        * apply Permutation.Permutation_app_tail, insert_by_key_perm.
        * apply (Permutation.Permutation_middle acc l kv). }
  apply (G l []).
Qed.

Lemma values_of_perm key l l' :
  Permutation.Permutation l l' ->
  Permutation.Permutation (values_of key l) (values_of key l').
Proof.
  unfold values_of. induction 1 as [| x l l' HP IH | x y l | l l' l'' H1 IH1 H2 IH2];
    cbn [filter].
  - constructor.
  - destruct (String.eqb (fst x) key); cbn [map]; [constructor |]; exact IH.
  - destruct (String.eqb (fst x) key), (String.eqb (fst y) key); cbn [map];
      try apply Permutation.Permutation_refl.
    apply Permutation.perm_swap.
  - apply Permutation.perm_trans with (1 := IH1). exact IH2.
Qed.

(** A key with at most one value comes back from the query with that
    value. *)
Lemma ParseQuery_Encode_single vs key :
  (List.length (values_of key vs) <= 1)%nat ->
  index (ParseQuery (Go.Encode vs)) key
  = match values_of key vs with
    | [] => None
    | w => Some w
    end.
Proof.
  intros Hlen. unfold Go.Encode.
  rewrite ParseQuery_join_pairs, index_appended. cbn [index].
  pose proof (values_of_perm key _ _ (sort_by_key_perm vs)) as HP.
  destruct (values_of key vs) as [| v [| v' w]].
  - apply Permutation.Permutation_sym, Permutation.Permutation_nil in HP.
    rewrite HP. reflexivity.
  - apply Permutation.Permutation_sym, Permutation.Permutation_length_1_inv in HP.
    rewrite HP. reflexivity.
  - cbn in Hlen. lia.
Qed.

Lemma index_absent {A} (m : list (string * A)) key :
  ~ In key (map fst m) -> index m key = None.
Proof.
  induction m as [| [k v] m IH]; cbn [map fst In index]; [reflexivity |].
  intros H. destruct (String.eqb k key) eqn:E.
  - apply String.eqb_eq in E. tauto.
  - apply IH. tauto.
Qed.

Lemma values_of_app key l l' :
  values_of key (l ++ l')%list = (values_of key l ++ values_of key l')%list.
Proof. unfold values_of. rewrite filter_app, map_app. reflexivity. Qed.

Lemma values_of_strings_of cp key :
  NoDup (map fst cp) ->
  values_of key (strings_of cp)
  = match index cp key with
    | Some v => [match v with VString x => x | _ => "" end]
    | None => []
    end.
Proof.
  induction cp as [| [k v] cp IH]; intros Hn; [reflexivity |].
  cbn [map fst] in Hn. inversion Hn as [| ? ? Hk Hcp]; subst.
  unfold values_of in *. cbn [strings_of map filter fst snd index].
  destruct (String.eqb k key) eqn:E.
  - apply String.eqb_eq in E as ->. cbn [map snd].
    fold (strings_of cp). rewrite (IH Hcp), (index_absent _ _ Hk).
    reflexivity.
  - fold (strings_of cp). apply IH, Hcp.
Qed.

(** What a read finds for a key in the class parameters that an update
    of the resource data [d] sends. *)
Lemma update_class_parameters_read_back d key :
  NoDup (map fst (get_map d "class_parameters")) ->
  ~ In "gateway" (map fst (get_map d "class_parameters")) ->
  index (ParseQuery (Go.Encode (update_class_parameters_of d))) key
  = if String.eqb "gateway" key
    then if negb (get_int d "gateway_offset" =? 0)
         then Some [get_str d "gateway"] else None
    else match index (get_map d "class_parameters") key with
         | Some v => Some [match v with VString x => x | _ => "" end]
         | None => None
         end.
Proof.
  intros Hn Hg.
  assert (Hv : values_of key (update_class_parameters_of d)
               = ((if String.eqb "gateway" key
                   then if negb (get_int d "gateway_offset" =? 0)
                        then [get_str d "gateway"] else []
                   else [])
                  ++ match index (get_map d "class_parameters") key with
                     | Some v => [match v with VString x => x | _ => "" end]
                     | None => []
                     end)%list).
  { unfold update_class_parameters_of.
    rewrite values_of_app, (values_of_strings_of _ _ Hn).
    f_equal. unfold values_of.
    destruct (negb (get_int d "gateway_offset" =? 0)); cbn [filter fst map];
      destruct (String.eqb "gateway" key); reflexivity. }
  rewrite ParseQuery_Encode_single; rewrite Hv.
  - destruct (String.eqb "gateway" key) eqn:E.
    + apply String.eqb_eq in E as <-. rewrite (index_absent _ _ Hg).
      destruct (negb (get_int d "gateway_offset" =? 0)); reflexivity.
    + destruct (index (get_map d "class_parameters") key); reflexivity.
  - destruct (String.eqb "gateway" key) eqn:E.
    + apply String.eqb_eq in E as <-. rewrite (index_absent _ _ Hg).
      destruct (negb (get_int d "gateway_offset" =? 0)); cbn; lia.
    + destruct (index (get_map d "class_parameters") key); cbn; lia.
Qed.

(** The values of a class parameter map are strings. *)
Lemma typed_map_lookup (m : GoMap) key v :
  forallb (fun kv => is_string (snd kv)) m = true ->
  index m key = Some v ->
  v = VString (match v with VString x => x | _ => "" end).
Proof.
  induction m as [| [k w] m IH]; cbn [forallb index snd]; [discriminate |].
  intros H E. apply andb_true_iff in H as [Hw Hm].
  destruct (String.eqb k key).
  - injection E as <-. destruct w; try discriminate Hw. reflexivity.
  - exact (IH Hm E).
Qed.

(** A read of what an update sent changes neither the class parameters
    nor the gateway. *)
Lemma class_parameters_read_back d0 d :
  schema_type (d_schema d) "class_parameters" = Some TypeMap ->
  schema_type (d_schema d) "gateway" = Some TypeString ->
  get_map d "class_parameters" = get_map d0 "class_parameters" ->
  get_int d "gateway_offset" = get_int d0 "gateway_offset" ->
  get_str d "gateway" = get_str d0 "gateway" ->
  schema_type (d_schema d0) "class_parameters" = Some TypeMap ->
  NoDup (map fst (get_map d0 "class_parameters")) ->
  ~ In "gateway" (map fst (get_map d0 "class_parameters")) ->
  let d' := class_parameters_read d (Go.Encode (update_class_parameters_of d0)) in
  (forall key,
     index (get_map d' "class_parameters") key
     = index (get_map d0 "class_parameters") key)
  /\ get_str d' "gateway" = get_str d0 "gateway".
Proof.
  intros Hc Hgw Hm Ho Hg Hc0 Hn Hng d'. subst d'. split.
  - intros key. rewrite class_parameters_read_lookup by exact Hc.
    rewrite Hm. unfold retrieved_value.
    rewrite (update_class_parameters_read_back _ _ Hn Hng).
    destruct (index (get_map d0 "class_parameters") key) as [v |] eqn:E;
      [| reflexivity].
    destruct (String.eqb "gateway" key) eqn:Ek.
    + apply String.eqb_eq in Ek as <-.
      rewrite (index_absent _ _ Hng) in E. discriminate E.
    + f_equal. symmetry.
      apply (typed_map_lookup _ _ _ (proj2 (Get_map _ _ Hc0)) E).
  - rewrite class_parameters_read_gateway by exact Hgw.
    rewrite (update_class_parameters_read_back _ _ Hn Hng).
    cbn. destruct (negb (get_int d0 "gateway_offset" =? 0)); [reflexivity | exact Hg].
Qed.

Section ReadSuccess.
Context {W : Type} (s : SOLIDserver W).
Implicit Types st : St W.

Lemma resourceipsubnetRead_success st st' :
  d_schema (data st) = resourceipsubnet ->
  resourceipsubnetRead s st = (Return diag_nil, st') ->
  exists resp,
    events_since st st'
    = [EvRequest "get" "rest/ip_block_subnet_info"
         [("subnet_id", Id (data st))] (inr resp)]
    /\ data st' = ipsubnet_read (data st) (nth 0 (buf resp) []).
Proof.
  intros Hs H. destruct (resourceipsubnetRead_run s _ _ _ Hs H) as (a & Ht & Ho).
  unfold read_outcome in Ho. destruct a as [err | resp].
  - destruct Ho as [E _]. discriminate E.
  - exists resp. split; [apply events_since_app, Ht |].
    destruct (found resp); [destruct (fields_ok _ _) |].
    + apply Ho.
    + destruct Ho as [[msg E] _]. discriminate E.
    + destruct Ho as [E _]. discriminate E.
Qed.

Lemma resourceip6subnetRead_success st st' :
  d_schema (data st) = resourceip6subnet ->
  resourceip6subnetRead s st = (Return diag_nil, st') ->
  exists resp,
    events_since st st'
    = [EvRequest "get" "rest/ip6_block6_subnet6_info"
         [("subnet6_id", Id (data st))] (inr resp)]
    /\ data st' = ip6subnet_read (data st) (nth 0 (buf resp) []).
Proof.
  intros Hs H. destruct (resourceip6subnetRead_run s _ _ _ Hs H) as (a & Ht & Ho).
  unfold read_outcome in Ho. destruct a as [err | resp].
  - destruct Ho as [E _]. discriminate E.
  - exists resp. split; [apply events_since_app, Ht |].
    destruct (found resp); [destruct (fields_ok _ _) |].
    + apply Ho.
    + destruct Ho as [[msg E] _]. discriminate E.
    + destruct Ho as [E _]. discriminate E.
Qed.

Lemma resourceipsubnetImportState_success st st' :
  d_schema (data st) = resourceipsubnet ->
  resourceipsubnetImportState s st = (Return None, st') ->
  exists resp,
    events_since st st'
    = [EvRequest "get" "rest/ip_block_subnet_info"
         [("subnet_id", Id (data st))] (inr resp)]
    /\ data st' = ipsubnet_imported (data st) (nth 0 (buf resp) []).
Proof.
  intros Hs H.
  destruct (resourceipsubnetImportState_run s _ _ _ Hs H) as (a & Ht & Ho).
  unfold read_outcome in Ho. destruct a as [err | resp].
  - destruct Ho as [E _]. discriminate E.
  - exists resp. split; [apply events_since_app, Ht |].
    destruct (found resp); [destruct (fields_ok _ _) |].
    + apply Ho.
    + destruct Ho as [[msg E] _]. discriminate E.
    + destruct Ho as [E _]. discriminate E.
Qed.

Lemma resourceip6subnetImportState_success st st' :
  d_schema (data st) = resourceip6subnet ->
  resourceip6subnetImportState s st = (Return None, st') ->
  exists resp,
    events_since st st'
    = [EvRequest "get" "rest/ip6_block6_subnet6_info"
         [("subnet6_id", Id (data st))] (inr resp)]
    /\ data st' = ip6subnet_read (data st) (nth 0 (buf resp) []).
Proof.
  intros Hs H.
  destruct (resourceip6subnetImportState_run s _ _ _ Hs H) as (a & Ht & Ho).
  unfold read_outcome in Ho. destruct a as [err | resp].
  - destruct Ho as [E _]. discriminate E.
  - exists resp. split; [apply events_since_app, Ht |].
    destruct (found resp); [destruct (fields_ok _ _) |].
    + apply Ho.
    + destruct Ho as [[msg E] _]. discriminate E.
    + destruct Ho as [E _]. discriminate E.
Qed.

End ReadSuccess.

(** Reading an attribute back through the writes of a read. *)
Ltac written Hs :=
  unfold get_str, get_int, get_bool, get_map;
  repeat first
    [ rewrite class_parameters_read_keeps by reflexivity
    | rewrite Get_Set_other by reflexivity
    | erewrite Get_Set_same
        by first [rewrite ?Set_schema, Hs; reflexivity | reflexivity] ];
  try reflexivity.

(** [strconv.Atoi] reads back what [strconv.Itoa] wrote. *)
Lemma Atoi_Itoa n : Go.Atoi (Go.Itoa n) = Some n.
Proof.
  unfold Go.Atoi, Go.Itoa. rewrite DecimalString.NilZero.isi.
  - cbn [option_map]. rewrite DecimalZ.of_to. reflexivity.
  - destruct n; cbn [Z.to_int]; try discriminate.
    intros E. injection E as E.
    exact (DecimalPos.Unsigned.to_uint_nonnil _ E).
  - destruct n; cbn [Z.to_int]; try discriminate.
    intros E. injection E as E.
    exact (DecimalPos.Unsigned.to_uint_nonnil _ E).
Qed.

(** The one event of a run and its answer. *)
Lemma single_event_answer {W} (st st' : St W) method service parameters
  answer answer' :
  trace st'
  = (trace st ++ [EvRequest method service parameters answer])%list ->
  events_since st st' = [EvRequest method service parameters answer'] ->
  answer = answer'.
Proof.
  intros Ht He. rewrite (events_since_app _ _ _ Ht) in He.
  injection He as <-. reflexivity.
Qed.

Section Further.
Context {W : Type} (s : SOLIDserver W).
Implicit Types st : St W.

(** X1.  A creation that does not return success leaves the resource data
    as it found it: no id is set and no attribute is written,
    whether the search failed, the candidates ran out or a call met
    a transport error. *)
Theorem creation_failure_records_nothing :
  (forall st r st',
       d_schema (data st) = resourceipsubnet ->
       resourceipsubnetCreate s st
       = (r, st') ->
       r <> Return diag_nil ->
       data st' = data st)
  /\ (forall st r st',
       d_schema (data st) = resourceip6subnet ->
       resourceip6subnetCreate s st
       = (r, st') ->
       r <> Return diag_nil ->
       data st' = data st)
  /\ (forall st r st',
       d_schema (data st) = resourcevlan ->
       resourcevlanCreate s st
       = (r, st') ->
       r <> Return None ->
       data st' = data st).
Proof.
  split; [| split]; intros st r st' Hs H Hne.
  - exact (Engine_failure_data _ _ _ _ _ _ _ _ _
             (resourceipsubnetCreate_engine s _ _ _ Hs H) Hne).
  - exact (Engine_failure_data _ _ _ _ _ _ _ _ _
             (resourceip6subnetCreate_engine s _ _ _ Hs H) Hne).
  - exact (Engine_failure_data _ _ _ _ _ _ _ _ _
             (resourcevlanCreate_engine s _ _ _ Hs H) Hne).
Qed.

(** X2.  A creation makes at most one call per candidate the search
    found, and each of its calls is a reservation posted to the
    service of the resource. *)
Theorem creation_calls_bounded :
  (forall st siteID blockInfo cands st1 r st',
       d_schema (data st) = resourceipsubnet ->
       ipsubnet_candidates s st = (Next (siteID, blockInfo, cands), st1) ->
       resourceipsubnetCreate s st
       = (r, st') ->
       (List.length (requests (events_since st st'))
        <= List.length cands)%nat
       /\ forall e, In e (requests (events_since st st')) ->
                    exists p a, e = EvRequest "post" "rest/ip_subnet_add" p a)
  /\ (forall st siteID blockInfo cands st1 r st',
       d_schema (data st) = resourceip6subnet ->
       ip6subnet_candidates s st = (Next (siteID, blockInfo, cands), st1) ->
       resourceip6subnetCreate s st
       = (r, st') ->
       (List.length (requests (events_since st st'))
        <= List.length cands)%nat
       /\ forall e, In e (requests (events_since st st')) ->
                    exists p a, e = EvRequest "post" "rest/ip6_subnet6_add" p a)
  /\ (forall st cands st1 r st',
       d_schema (data st) = resourcevlan ->
       vlan_candidates s st = (Next cands, st1) ->
       resourcevlanCreate s st
       = (r, st') ->
       (List.length (requests (events_since st st'))
        <= List.length cands)%nat
       /\ forall e, In e (requests (events_since st st')) ->
                    exists p a, e = EvRequest "post" "rest/vlm_vlan_add" p a).
Proof.
  split; [| split].
  - intros st siteID blockInfo cands st1 r st' Hs Hp H.
    destruct (resourceipsubnetCreate_from_candidates s _ _ _ _ _ _ _ Hs Hp H)
      as (qs & evs & o & Hqs & HR & Hev & _).
    rewrite Hev, requests_app, (requests_queries _ Hqs). cbn [app].
    split; [exact (Run_requests_le _ _ _ _ _ HR)
           | exact (Run_requests_post _ _ _ _ _ HR)].
  - intros st siteID blockInfo cands st1 r st' Hs Hp H.
    destruct (resourceip6subnetCreate_from_candidates s _ _ _ _ _ _ _ Hs Hp H)
      as (qs & evs & o & Hqs & HR & Hev & _).
    rewrite Hev, requests_app, (requests_queries _ Hqs). cbn [app].
    split; [exact (Run_requests_le _ _ _ _ _ HR)
           | exact (Run_requests_post _ _ _ _ _ HR)].
  - intros st cands st1 r st' Hs Hp H.
    destruct (resourcevlanCreate_from_candidates s _ _ _ _ _ Hs Hp H)
      as (qs & evs & o & Hqs & HR & Hev & _).
    rewrite Hev, requests_app, (requests_queries _ Hqs). cbn [app].
    split; [exact (Run_requests_le _ _ _ _ _ HR)
           | exact (Run_requests_post _ _ _ _ _ HR)].
Qed.

(** X3.  The update of a subnet is one call and nothing else: an
    [edit_only] put to the add service, addressed to the current id,
    with the name and the class parameters of the resource data; the
    stored gateway goes with them when a gateway offset is set. *)
Theorem subnet_update_call :
  (forall st r st',
       d_schema (data st) = resourceipsubnet ->
       resourceipsubnetUpdate s st
       = (r, st') ->
       exists parameters answer,
         events_since st st'
         = [EvRequest "put" "rest/ip_subnet_add" parameters answer]
         /\ index parameters "subnet_id" = Some (Id (data st))
         /\ index parameters "add_flag" = Some "edit_only"
         /\ index parameters "subnet_name"
            = Some (get_str (data st) "name")
         /\ index parameters "subnet_class_parameters"
            = Some (Go.Encode (update_class_parameters_of (data st))))
  /\ (forall st r st',
       d_schema (data st) = resourceip6subnet ->
       resourceip6subnetUpdate s st
       = (r, st') ->
       exists parameters answer,
         events_since st st'
         = [EvRequest "put" "rest/ip6_subnet6_add" parameters answer]
         /\ index parameters "subnet6_id" = Some (Id (data st))
         /\ index parameters "add_flag" = Some "edit_only"
         /\ index parameters "subnet6_name"
            = Some (get_str (data st) "name")
         /\ index parameters "subnet6_class_parameters"
            = Some (Go.Encode (update_class_parameters_of (data st)))).
Proof.
  split; intros st r st' Hs H.
  - destruct (resourceipsubnetUpdate_run s _ _ _ Hs H)
      as (p & a & Ht & H1 & H2 & H3 & H4 & _).
    exists p, a. split; [apply events_since_app, Ht | auto].
  - destruct (resourceip6subnetUpdate_run s _ _ _ Hs H)
      as (p & a & Ht & H1 & H2 & H3 & H4 & _).
    exists p, a. split; [apply events_since_app, Ht | auto].
Qed.

(** X4.  The update of a subnet succeeds exactly when its call is
    answered with 200 or 201 and an entity id; the resource id
    becomes that id and no attribute changes.  Any other answer is
    a returned error (that of the call, or a message built from the
    answer) and leaves the resource data alone. *)
Theorem subnet_update_result :
  (forall st r st',
       d_schema (data st) = resourceipsubnet ->
       resourceipsubnetUpdate s st
       = (r, st') ->
       exists parameters answer,
         events_since st st'
         = [EvRequest "put" "rest/ip_subnet_add" parameters answer]
         /\ match reserved answer with
            | Some oid =>
                r = Return diag_nil /\ data st' = SetId (data st) oid
            | None =>
                (exists e, r = Return e /\ e <> diag_nil
                           /\ (forall err, answer = inl err ->
                               e = diag_FromErr err)
                           /\ (forall resp, answer = inr resp ->
                               exists msg, e = diag_Errorf msg))
                /\ data st' = data st
            end)
  /\ (forall st r st',
       d_schema (data st) = resourceip6subnet ->
       resourceip6subnetUpdate s st
       = (r, st') ->
       exists parameters answer,
         events_since st st'
         = [EvRequest "put" "rest/ip6_subnet6_add" parameters answer]
         /\ match reserved answer with
            | Some oid =>
                r = Return diag_nil /\ data st' = SetId (data st) oid
            | None =>
                (exists e, r = Return e /\ e <> diag_nil
                           /\ (forall err, answer = inl err ->
                               e = diag_FromErr err)
                           /\ (forall resp, answer = inr resp ->
                               exists msg, e = diag_Errorf msg))
                /\ data st' = data st
            end).
Proof.
  split; intros st r st' Hs H.
  - destruct (resourceipsubnetUpdate_run s _ _ _ Hs H)
      as (p & a & Ht & _ & _ & _ & _ & Hr).
    exists p, a. split; [apply events_since_app, Ht |].
    destruct a as [err | resp]; cbn [reserved] in *.
    + destruct Hr as [-> ->]. split; [| reflexivity].
      eexists. split; [reflexivity |]. split; [discriminate |].
      split; [intros e E; injection E as <-; reflexivity
             | intros resp E; discriminate E].
    + destruct (if answered resp then ret_oid resp else None) as [oid |].
      * exact Hr.
      * destruct Hr as [-> ->]. split; [| reflexivity].
        eexists. split; [reflexivity |]. split; [discriminate |].
        split; [intros e E; discriminate E | intros resp' E; eauto].
  - destruct (resourceip6subnetUpdate_run s _ _ _ Hs H)
      as (p & a & Ht & _ & _ & _ & _ & Hr).
    exists p, a. split; [apply events_since_app, Ht |].
    destruct a as [err | resp]; cbn [reserved] in *.
    + destruct Hr as [-> ->]. split; [| reflexivity].
      eexists. split; [reflexivity |]. split; [discriminate |].
      split; [intros e E; injection E as <-; reflexivity
             | intros resp E; discriminate E].
    + destruct (if answered resp then ret_oid resp else None) as [oid |].
      * exact Hr.
      * destruct Hr as [-> ->]. split; [| reflexivity].
        eexists. split; [reflexivity |]. split; [discriminate |].
        split; [intros e E; discriminate E | intros resp' E; eauto].
Qed.

(** X5.  The deletion of the gateway of a subnet always makes its call
    (the guard on the stored gateway never skips it), for the
    stored gateway in the space of the subnet, and reports success
    whatever the inventory answers; only a transport error is
    reported.  The resource data is not touched. *)
Theorem gateway_deletion_ignores_the_answer :
  (forall st r st',
       d_schema (data st) = resourceipsubnet ->
       resourceipsubnetgatewayDelete s st
       = (r, st') ->
       data st' = data st
       /\ exists answer,
            events_since st st'
            = [EvRequest "delete" "rest/ip_delete"
                 [("site_name", get_str (data st) "space");
                  ("hostaddr", get_str (data st) "gateway")] answer]
            /\ r = Return (match answer with
                             | inl err => diag_FromErr err
                             | inr _ => diag_nil
                             end))
  /\ (forall st r st',
       d_schema (data st) = resourceip6subnet ->
       resourceip6subnetgatewayDelete s st
       = (r, st') ->
       data st' = data st
       /\ exists answer,
            events_since st st'
            = [EvRequest "delete" "rest/ip6_address6_delete"
                 [("site_name", get_str (data st) "space");
                  ("hostaddr", get_str (data st) "gateway")] answer]
            /\ r = Return (match answer with
                             | inl err => diag_FromErr err
                             | inr _ => diag_nil
                             end)).
Proof.
  split; intros st r st' Hs H.
  - destruct (resourceipsubnetgatewayDelete_run s _ _ _ Hs H)
      as (a & Ht & Hd & Hr).
    split; [exact Hd |]. exists a.
    split; [apply events_since_app, Ht | exact Hr].
  - destruct (resourceip6subnetgatewayDelete_run s _ _ _ Hs H)
      as (a & Ht & Hd & Hr).
    split; [exact Hd |]. exists a.
    split; [apply events_since_app, Ht | exact Hr].
Qed.

(** X6.  The deletion of a subnet first frees the gateway, by one call
    and only when a gateway offset is set, and then always deletes
    the subnet itself by its id: whatever the deletion of the
    gateway met, the subnet deletion is the last call of the run. *)
Theorem subnet_deletion_calls :
  (forall st r st',
       d_schema (data st) = resourceipsubnet ->
       resourceipsubnetDelete s st
       = (r, st') ->
       exists pre answer,
         gateway_freed "rest/ip_delete" (data st) pre
         /\ events_since st st'
            = (pre ++ [EvRequest "delete" "rest/ip_subnet_delete"
                        [("subnet_id", Id (data st))] answer])%list)
  /\ (forall st r st',
       d_schema (data st) = resourceip6subnet ->
       resourceip6subnetDelete s st
       = (r, st') ->
       exists pre answer,
         gateway_freed "rest/ip6_address6_delete" (data st) pre
         /\ events_since st st'
            = (pre ++ [EvRequest "delete" "rest/ip6_subnet6_delete"
                        [("subnet6_id", Id (data st))] answer])%list).
Proof.
  split; intros st r st' Hs H.
  - destruct (resourceipsubnetDelete_run s _ _ _ Hs H)
      as (pre & a & Hg & Ht & _).
    exists pre, a. split; [exact Hg | apply events_since_app, Ht].
  - destruct (resourceip6subnetDelete_run s _ _ _ Hs H)
      as (pre & a & Hg & Ht & _).
    exists pre, a. split; [exact Hg | apply events_since_app, Ht].
Qed.

(** X7.  The result of the deletion of a subnet is decided by the answer
    to its last call alone: status 200 or 204 is a success and
    unsets the resource id; any other status (201 included) is an
    error, a transport error is handed on, and both leave the
    resource data alone.  What the deletion of the gateway met
    plays no part. *)
Theorem subnet_deletion_result :
  (forall st r st',
       d_schema (data st) = resourceipsubnet ->
       resourceipsubnetDelete s st
       = (r, st') ->
       exists before parameters answer,
         events_since st st'
         = (before ++ [EvRequest "delete" "rest/ip_subnet_delete" parameters
                         answer])%list
         /\ match answer with
            | inl err =>
                r = Return (diag_FromErr err) /\ data st' = data st
            | inr resp =>
                if (StatusCode resp =? 200) || (StatusCode resp =? 204)
                then r = Return diag_nil
                     /\ data st' = SetId (data st) ""
                else (exists msg, r = Return (diag_Errorf msg))
                     /\ data st' = data st
            end)
  /\ (forall st r st',
       d_schema (data st) = resourceip6subnet ->
       resourceip6subnetDelete s st
       = (r, st') ->
       exists before parameters answer,
         events_since st st'
         = (before ++ [EvRequest "delete" "rest/ip6_subnet6_delete" parameters
                         answer])%list
         /\ match answer with
            | inl err =>
                r = Return (diag_FromErr err) /\ data st' = data st
            | inr resp =>
                if (StatusCode resp =? 200) || (StatusCode resp =? 204)
                then r = Return diag_nil
                     /\ data st' = SetId (data st) ""
                else (exists msg, r = Return (diag_Errorf msg))
                     /\ data st' = data st
            end).
Proof.
  split; intros st r st' Hs H.
  - destruct (resourceipsubnetDelete_run s _ _ _ Hs H)
      as (pre & a & _ & Ht & Hr).
    exists pre, [("subnet_id", Id (data st))], a.
    split; [apply events_since_app, Ht |].
    destruct a as [err | resp]; [exact Hr |].
    unfold not_deleted in Hr. rewrite <- negb_orb in Hr.
    destruct ((StatusCode resp =? 200) || (StatusCode resp =? 204));
      cbn [negb] in Hr; [exact Hr |].
    destruct Hr as [-> ->]. eauto.
  - destruct (resourceip6subnetDelete_run s _ _ _ Hs H)
      as (pre & a & _ & Ht & Hr).
    exists pre, [("subnet6_id", Id (data st))], a.
    split; [apply events_since_app, Ht |].
    destruct a as [err | resp]; [exact Hr |].
    unfold not_deleted in Hr. rewrite <- negb_orb in Hr.
    destruct ((StatusCode resp =? 200) || (StatusCode resp =? 204));
      cbn [negb] in Hr; [exact Hr |].
    destruct Hr as [-> ->]. eauto.
Qed.

(** X8.  The update of a subnet that was created with a gateway offset
    is addressed to the entity id the creation stored and sends, as
    the first class parameter, the gateway the creation computed
    for the candidate [c] it reserved, followed by the declared
    class parameters. *)
Theorem update_after_creation_resends_gateway :
  (forall st st1 r st',
       d_schema (data st) = resourceipsubnet ->
       get_int (data st) "gateway_offset" <> 0 ->
       resourceipsubnetCreate s st = (Return diag_nil, st1) ->
       resourceipsubnetUpdate s st1 = (r, st') ->
       exists c parameters answer,
         get_str (data st1) "address" = Codec.hexiptoip c
         /\ events_since st1 st'
            = [EvRequest "put" "rest/ip_subnet_add" parameters answer]
         /\ index parameters "subnet_id" = Some (Id (data st1))
         /\ index parameters "subnet_class_parameters"
            = Some (Go.Encode
                      (("gateway",
                        ipsubnet_gateway c (get_int (data st) "prefix_size")
                          (get_int (data st) "gateway_offset"))
                       :: strings_of
                            (get_map (data st) "class_parameters"))))
  /\ (forall st st0 st1 siteID blockInfo cands r st',
       d_schema (data st) = resourceip6subnet ->
       ip6subnet_candidates s st
       = (Next (siteID, blockInfo, cands), st0) ->
       Forall (fun c => Go.big_SetString16 c <> None) cands ->
       get_int (data st) "gateway_offset" <> 0 ->
       resourceip6subnetCreate s st = (Return diag_nil, st1) ->
       resourceip6subnetUpdate s st1 = (r, st') ->
       exists c start parameters answer,
         In c cands
         /\ Go.big_SetString16 c = Some start
         /\ get_str (data st1) "address" = Codec.hexip6toip6 c
         /\ events_since st1 st'
            = [EvRequest "put" "rest/ip6_subnet6_add" parameters answer]
         /\ index parameters "subnet6_id" = Some (Id (data st1))
         /\ index parameters "subnet6_class_parameters"
            = Some (Go.Encode
                      (("gateway",
                        ip6subnet_gateway_at start (get_int (data st) "prefix_size")
                          (get_int (data st) "gateway_offset"))
                       :: strings_of
                            (get_map (data st) "class_parameters")))).
Proof.
  split.
  - intros st st1 r st' Hs Hg Hc H.
    destruct (resourceipsubnetCreate_leaves s _ _ Hs Hg Hc)
      as (c & Hs1 & Ho & _ & Hcp & Haddr & Hgw).
    destruct (resourceipsubnetUpdate_run s _ _ _ Hs1 H)
      as (p & a & Ht & H1 & _ & _ & H4 & _).
    exists c, p, a. split; [exact Haddr |].
    split; [apply events_since_app, Ht |].
    split; [exact H1 |]. rewrite H4. unfold update_class_parameters_of.
    rewrite Ho, Hcp, Hgw. apply Z.eqb_neq in Hg. rewrite Hg. reflexivity.
  - intros st st0 st1 siteID blockInfo cands r st' Hs Hp Hhex Hg Hc H.
    destruct (resourceip6subnetCreate_leaves s _ _ _ _ _ _ Hs Hp Hhex Hg Hc)
      as (c & start & Hin & Hstart & Hs1 & Ho & _ & Hcp & Haddr & Hgw).
    destruct (resourceip6subnetUpdate_run s _ _ _ Hs1 H)
      as (p & a & Ht & H1 & _ & _ & H4 & _).
    exists c, start, p, a. split; [exact Hin |]. split; [exact Hstart |].
    split; [exact Haddr |].
    split; [apply events_since_app, Ht |].
    split; [exact H1 |]. rewrite H4. unfold update_class_parameters_of.
    rewrite Ho, Hcp, Hgw. apply Z.eqb_neq in Hg. rewrite Hg. reflexivity.
Qed.

(** X9.  The deletion of a subnet that was created with a gateway
    offset makes exactly two calls: it frees, in the space of the
    subnet, the gateway the creation computed for the candidate [c]
    it reserved, and then deletes the entity whose id the creation
    stored. *)
Theorem deletion_after_creation_frees_gateway :
  (forall st st1 r st',
       d_schema (data st) = resourceipsubnet ->
       get_int (data st) "gateway_offset" <> 0 ->
       resourceipsubnetCreate s st = (Return diag_nil, st1) ->
       resourceipsubnetDelete s st1 = (r, st') ->
       exists c freed answer,
         get_str (data st1) "address" = Codec.hexiptoip c
         /\ events_since st1 st'
            = [EvRequest "delete" "rest/ip_delete"
                 [("site_name", get_str (data st) "space");
                  ("hostaddr",
                   ipsubnet_gateway c (get_int (data st) "prefix_size")
                     (get_int (data st) "gateway_offset"))]
                 freed;
               EvRequest "delete" "rest/ip_subnet_delete"
                 [("subnet_id", Id (data st1))] answer])
  /\ (forall st st0 st1 siteID blockInfo cands r st',
       d_schema (data st) = resourceip6subnet ->
       ip6subnet_candidates s st
       = (Next (siteID, blockInfo, cands), st0) ->
       Forall (fun c => Go.big_SetString16 c <> None) cands ->
       get_int (data st) "gateway_offset" <> 0 ->
       resourceip6subnetCreate s st = (Return diag_nil, st1) ->
       resourceip6subnetDelete s st1 = (r, st') ->
       exists c start freed answer,
         In c cands
         /\ Go.big_SetString16 c = Some start
         /\ get_str (data st1) "address" = Codec.hexip6toip6 c
         /\ events_since st1 st'
            = [EvRequest "delete" "rest/ip6_address6_delete"
                 [("site_name", get_str (data st) "space");
                  ("hostaddr",
                   ip6subnet_gateway_at start (get_int (data st) "prefix_size")
                     (get_int (data st) "gateway_offset"))]
                 freed;
               EvRequest "delete" "rest/ip6_subnet6_delete"
                 [("subnet6_id", Id (data st1))] answer]).
Proof.
  split.
  - intros st st1 r st' Hs Hg Hc H.
    destruct (resourceipsubnetCreate_leaves s _ _ Hs Hg Hc)
      as (c & Hs1 & Ho & Hsp & _ & Haddr & Hgw).
    destruct (resourceipsubnetDelete_run s _ _ _ Hs1 H)
      as (pre & a & Hf & Ht & _).
    unfold gateway_freed in Hf. rewrite Ho in Hf.
    apply Z.eqb_neq in Hg. rewrite Hg in Hf. cbn [negb] in Hf.
    destruct Hf as [freed ->]. rewrite Hsp, Hgw in Ht.
    exists c, freed, a. split; [exact Haddr |]. apply events_since_app, Ht.
  - intros st st0 st1 siteID blockInfo cands r st' Hs Hp Hhex Hg Hc H.
    destruct (resourceip6subnetCreate_leaves s _ _ _ _ _ _ Hs Hp Hhex Hg Hc)
      as (c & start & Hin & Hstart & Hs1 & Ho & Hsp & _ & Haddr & Hgw).
    destruct (resourceip6subnetDelete_run s _ _ _ Hs1 H)
      as (pre & a & Hf & Ht & _).
    unfold gateway_freed in Hf. rewrite Ho in Hf.
    apply Z.eqb_neq in Hg. rewrite Hg in Hf. cbn [negb] in Hf.
    destruct Hf as [freed ->]. rewrite Hsp, Hgw in Ht.
    exists c, start, freed, a. split; [exact Hin |]. split; [exact Hstart |].
    split; [exact Haddr |]. apply events_since_app, Ht.
Qed.

(** X10.  A read is one [get] addressed to the current id, and it never
    changes the id: an entity that the inventory does not know any
    more keeps its local id (only the existence check unsets it).
    A read that returns an error leaves the whole resource data
    alone. *)
Theorem read_keeps_the_id :
  (forall st r st',
       d_schema (data st) = resourceipsubnet ->
       resourceipsubnetRead s st
       = (r, st') ->
       exists answer,
         events_since st st'
         = [EvRequest "get" "rest/ip_block_subnet_info"
              [("subnet_id", Id (data st))] answer]
         /\ Id (data st') = Id (data st)
         /\ (forall e, r = Return e -> e <> diag_nil ->
                       data st' = data st))
  /\ (forall st r st',
       d_schema (data st) = resourceip6subnet ->
       resourceip6subnetRead s st
       = (r, st') ->
       exists answer,
         events_since st st'
         = [EvRequest "get" "rest/ip6_block6_subnet6_info"
              [("subnet6_id", Id (data st))] answer]
         /\ Id (data st') = Id (data st)
         /\ (forall e, r = Return e -> e <> diag_nil ->
                       data st' = data st))
  /\ (forall st r st',
       d_schema (data st) = resourcevlan ->
       resourcevlanRead s st
       = (r, st') ->
       exists answer,
         events_since st st'
         = [EvRequest "get" "rest/vlmvlan_info"
              [("vlmvlan_id", Id (data st))] answer]
         /\ Id (data st') = Id (data st)
         /\ (forall e, r = Return e -> e <> None ->
                       data st' = data st)).
Proof.
  split; [| split]; intros st r st' Hs H.
  - destruct (resourceipsubnetRead_run s _ _ _ Hs H) as (a & Ht & Ho).
    exists a. split; [apply events_since_app, Ht |].
    unfold read_outcome in Ho. destruct a as [err | resp].
    + destruct Ho as [-> ->]. auto.
    + destruct (found resp); [destruct (fields_ok _ _) |].
      * destruct Ho as [-> ->]. split; [apply ipsubnet_read_id |].
        intros e E Hne. injection E as <-. contradiction.
      * destruct Ho as [[msg ->] [Hid _]]. split; [exact Hid |].
        intros e E. discriminate E.
      * destruct Ho as [-> ->]. auto.
  - destruct (resourceip6subnetRead_run s _ _ _ Hs H) as (a & Ht & Ho).
    exists a. split; [apply events_since_app, Ht |].
    unfold read_outcome in Ho. destruct a as [err | resp].
    + destruct Ho as [-> ->]. auto.
    + destruct (found resp); [destruct (fields_ok _ _) |].
      * destruct Ho as [-> ->]. split; [apply ip6subnet_read_id |].
        intros e E Hne. injection E as <-. contradiction.
      * destruct Ho as [[msg ->] [Hid _]]. split; [exact Hid |].
        intros e E. discriminate E.
      * destruct Ho as [-> ->]. auto.
  - destruct (resourcevlanRead_run s _ _ _ Hs H) as (a & Ht & Ho).
    exists a. split; [apply events_since_app, Ht |].
    destruct a as [err | resp].
    + destruct Ho as [-> ->]. auto.
    + destruct (found resp).
      * destruct (map_get (nth 0 (buf resp) []) "vlmvlan_vlan_id");
          try (destruct Ho as [[msg ->] ->]; split; [reflexivity |];
               intros e E; discriminate E).
        destruct (map_get (nth 0 (buf resp) []) "vlmvlan_name");
          try (destruct Ho as [[msg ->] ->]; split; [reflexivity |];
               intros e E; discriminate E).
        destruct Ho as [-> ->]. rewrite !Set_id. split; [reflexivity |].
        intros e E Hne. injection E as <-. contradiction.
      * destruct Ho as [-> ->]. auto.
Qed.

(** X11.  When the inventory answers the read of a subnet with status
    200 and a record, the read succeeds exactly when the record
    holds its six fields as strings; a record that lacks one of
    them makes the read panic on the failed assertion instead of
    returning an error. *)
Theorem subnet_read_needs_every_field :
  (forall st r st' resp,
       d_schema (data st) = resourceipsubnet ->
       resourceipsubnetRead s st
       = (r, st') ->
       events_since st st'
       = [EvRequest "get" "rest/ip_block_subnet_info"
            [("subnet_id", Id (data st))] (inr resp)] ->
       found resp = true ->
       if fields_ok (nth 0 (buf resp) []) ipsubnet_fields
       then r = Return diag_nil
       else exists msg, r = Panic msg)
  /\ (forall st r st' resp,
       d_schema (data st) = resourceip6subnet ->
       resourceip6subnetRead s st
       = (r, st') ->
       events_since st st'
       = [EvRequest "get" "rest/ip6_block6_subnet6_info"
            [("subnet6_id", Id (data st))] (inr resp)] ->
       found resp = true ->
       if fields_ok (nth 0 (buf resp) []) ip6subnet_fields
       then r = Return diag_nil
       else exists msg, r = Panic msg).
Proof.
  split; intros st r st' resp Hs H He Hf.
  - destruct (resourceipsubnetRead_run s _ _ _ Hs H) as (a & Ht & Ho).
    rewrite (single_event_answer _ _ _ _ _ _ _ Ht He) in Ho.
    unfold read_outcome in Ho. rewrite Hf in Ho.
    destruct (fields_ok _ _); [apply Ho | apply Ho].
  - destruct (resourceip6subnetRead_run s _ _ _ Hs H) as (a & Ht & Ho).
    rewrite (single_event_answer _ _ _ _ _ _ _ Ht He) in Ho.
    unfold read_outcome in Ho. rewrite Hf in Ho.
    destruct (fields_ok _ _); [apply Ho | apply Ho].
Qed.

(** X12.  A successful read of a subnet takes the space, the block, the
    name, the class and the terminal flag (the text "1") from the
    record of the inventory, and leaves the addressing alone: the
    address, the prefix, its size, the netmask, the gateway offset
    and the requested address are what they were. *)
Theorem subnet_read_refreshes :
  (forall st st',
       d_schema (data st) = resourceipsubnet ->
       resourceipsubnetRead s st = (Return diag_nil, st') ->
       exists resp,
         events_since st st'
         = [EvRequest "get" "rest/ip_block_subnet_info"
              [("subnet_id", Id (data st))] (inr resp)]
         /\ get_str (data st') "space" = text (nth 0 (buf resp) []) "site_name"
         /\ get_str (data st') "block"
            = text (nth 0 (buf resp) []) "parent_subnet_name"
         /\ get_str (data st') "name" = text (nth 0 (buf resp) []) "subnet_name"
         /\ get_str (data st') "class"
            = text (nth 0 (buf resp) []) "subnet_class_name"
         /\ get_bool (data st') "terminal"
            = String.eqb (text (nth 0 (buf resp) []) "is_terminal") "1"
         /\ Forall (fun key => Get (data st') key = Get (data st) key)
              ["address"; "prefix"; "prefix_size"; "netmask";
               "gateway_offset"; "request_ip"])
  /\ (forall st st',
       d_schema (data st) = resourceip6subnet ->
       resourceip6subnetRead s st = (Return diag_nil, st') ->
       exists resp,
         events_since st st'
         = [EvRequest "get" "rest/ip6_block6_subnet6_info"
              [("subnet6_id", Id (data st))] (inr resp)]
         /\ get_str (data st') "space" = text (nth 0 (buf resp) []) "site_name"
         /\ get_str (data st') "block"
            = text (nth 0 (buf resp) []) "parent_subnet6_name"
         /\ get_str (data st') "name" = text (nth 0 (buf resp) []) "subnet6_name"
         /\ get_str (data st') "class"
            = text (nth 0 (buf resp) []) "subnet6_class_name"
         /\ get_bool (data st') "terminal"
            = String.eqb (text (nth 0 (buf resp) []) "is_terminal") "1"
         /\ Forall (fun key => Get (data st') key = Get (data st) key)
              ["address"; "prefix"; "prefix_size"; "gateway_offset";
               "request_ip"]).
Proof.
  split; intros st st' Hs H.
  - destruct (resourceipsubnetRead_success s _ _ Hs H) as (resp & He & ->).
    exists resp. split; [exact He |]. unfold ipsubnet_read.
    repeat split; try (written Hs).
    repeat constructor; written Hs.
  - destruct (resourceip6subnetRead_success s _ _ Hs H) as (resp & He & ->).
    exists resp. split; [exact He |]. unfold ip6subnet_read.
    repeat split; try (written Hs).
    repeat constructor; written Hs.
Qed.

(** X13.  After a successful read of a subnet the class parameters
    hold exactly the keys that were declared before: each with the
    first value the inventory sent for it, or the empty string when
    it sent none; a parameter of the inventory that is not declared
    is dropped.  The gateway is the one the inventory sent among the
    class parameters, and the stored one when it sent none. *)
Theorem subnet_read_class_parameters :
  (forall st st',
       d_schema (data st) = resourceipsubnet ->
       resourceipsubnetRead s st = (Return diag_nil, st') ->
       exists resp,
         events_since st st'
         = [EvRequest "get" "rest/ip_block_subnet_info"
              [("subnet_id", Id (data st))] (inr resp)]
         /\ (forall key,
               index (get_map (data st') "class_parameters") key
               = match index (get_map (data st) "class_parameters") key with
                 | Some _ =>
                     Some (VString
                             (retrieved_value
                                (ParseQuery
                                   (text (nth 0 (buf resp) []) "subnet_class_parameters"))
                                key))
                 | None => None
                 end)
         /\ get_str (data st') "gateway"
            = match index (ParseQuery
                             (text (nth 0 (buf resp) []) "subnet_class_parameters"))
                      "gateway" with
              | Some (gateway :: _) => gateway
              | _ => get_str (data st) "gateway"
              end)
  /\ (forall st st',
       d_schema (data st) = resourceip6subnet ->
       resourceip6subnetRead s st = (Return diag_nil, st') ->
       exists resp,
         events_since st st'
         = [EvRequest "get" "rest/ip6_block6_subnet6_info"
              [("subnet6_id", Id (data st))] (inr resp)]
         /\ (forall key,
               index (get_map (data st') "class_parameters") key
               = match index (get_map (data st) "class_parameters") key with
                 | Some _ =>
                     Some (VString
                             (retrieved_value
                                (ParseQuery
                                   (text (nth 0 (buf resp) []) "subnet6_class_parameters"))
                                key))
                 | None => None
                 end)
         /\ get_str (data st') "gateway"
            = match index (ParseQuery
                             (text (nth 0 (buf resp) []) "subnet6_class_parameters"))
                      "gateway" with
              | Some (gateway :: _) => gateway
              | _ => get_str (data st) "gateway"
              end).
Proof.
  split; intros st st' Hs H.
  - destruct (resourceipsubnetRead_success s _ _ Hs H) as (resp & He & ->).
    exists resp. split; [exact He |]. unfold ipsubnet_read. split.
    + intros key. rewrite class_parameters_read_lookup
        by (rewrite ?Set_schema, Hs; reflexivity).
      unfold get_map. rewrite !Get_Set_other by reflexivity. reflexivity.
    + rewrite class_parameters_read_gateway
        by (rewrite ?Set_schema, Hs; reflexivity).
      rewrite !get_str_Set_other by reflexivity. reflexivity.
  - destruct (resourceip6subnetRead_success s _ _ Hs H) as (resp & He & ->).
    exists resp. split; [exact He |]. unfold ip6subnet_read. split.
    + intros key. rewrite class_parameters_read_lookup
        by (rewrite ?Set_schema, Hs; reflexivity).
      unfold get_map. rewrite !Get_Set_other by reflexivity. reflexivity.
    + rewrite class_parameters_read_gateway
        by (rewrite ?Set_schema, Hs; reflexivity).
      rewrite !get_str_Set_other by reflexivity. reflexivity.
Qed.

(** X14.  The import of an IPv4 subnet sets the gateway offset to 0, so
    the deletion of an imported subnet is the deletion of the
    subnet alone: the gateway is never freed, whether the import
    found one or not. *)
Theorem deletion_after_import_keeps_gateway :
  forall st st1 r st',
    d_schema (data st) = resourceipsubnet ->
    resourceipsubnetImportState s st = (Return None, st1) ->
    resourceipsubnetDelete s st1
    = (r, st') ->
    exists answer,
      events_since st1 st'
      = [EvRequest "delete" "rest/ip_subnet_delete"
           [("subnet_id", Id (data st))] answer].
Proof.
  intros st st1 r st' Hs Hi H.
  destruct (resourceipsubnetImportState_success s _ _ Hs Hi) as (resp & _ & Hd).
  assert (Hs1 : d_schema (data st1) = resourceipsubnet)
    by (rewrite Hd, ipsubnet_imported_schema; exact Hs).
  destruct (resourceipsubnetDelete_run s _ _ _ Hs1 H) as (pre & a & Hf & Ht & _).
  assert (Ho : get_int (data st1) "gateway_offset" = 0)
    by (rewrite Hd; unfold ipsubnet_imported; written Hs).
  unfold gateway_freed in Hf. rewrite Ho in Hf. cbn in Hf. subst pre.
  rewrite Hd, ipsubnet_imported_id in Ht.
  exists a. apply events_since_app, Ht.
Qed.

(** X15.  A successful import of an IPv4 subnet keeps the id it was
    given, stores the start address of the record in dotted
    notation, a prefix that is this address followed by the stored
    prefix size, the gateway offset 0 and no requested address. *)
Theorem ipsubnet_import_addressing :
  forall st st',
    d_schema (data st) = resourceipsubnet ->
    resourceipsubnetImportState s st = (Return None, st') ->
    exists resp,
      events_since st st'
      = [EvRequest "get" "rest/ip_block_subnet_info"
           [("subnet_id", Id (data st))] (inr resp)]
      /\ Id (data st') = Id (data st)
      /\ get_str (data st') "address"
         = Codec.hexiptoip (text (nth 0 (buf resp) []) "start_ip_addr")
      /\ get_str (data st') "prefix"
         = get_str (data st') "address" ++ "/"
           ++ Go.Itoa (get_int (data st') "prefix_size")
      /\ get_int (data st') "gateway_offset" = 0
      /\ get_str (data st') "request_ip" = "".
Proof.
  intros st st' Hs H.
  destruct (resourceipsubnetImportState_success s _ _ Hs H) as (resp & He & ->).
  exists resp. split; [exact He |].
  split; [apply ipsubnet_imported_id |].
  unfold ipsubnet_imported. repeat split; written Hs.
Qed.

(** X16.  Unlike the import of an IPv4 subnet, a successful import of
    an IPv6 subnet stores neither the address nor the prefix nor
    its size: these attributes, the gateway offset and the
    requested address are what they were before the import. *)
Theorem ip6subnet_import_leaves_addressing :
  forall st st',
    d_schema (data st) = resourceip6subnet ->
    resourceip6subnetImportState s st = (Return None, st') ->
    exists resp,
      events_since st st'
      = [EvRequest "get" "rest/ip6_block6_subnet6_info"
           [("subnet6_id", Id (data st))] (inr resp)]
      /\ Id (data st') = Id (data st)
      /\ get_str (data st') "name"
         = text (nth 0 (buf resp) []) "subnet6_name"
      /\ Forall (fun key => Get (data st') key = Get (data st) key)
           ["address"; "prefix"; "prefix_size"; "gateway_offset";
            "request_ip"].
Proof.
  intros st st' Hs H.
  destruct (resourceip6subnetImportState_success s _ _ Hs H)
    as (resp & He & ->).
  exists resp. split; [exact He |].
  split; [apply ip6subnet_read_id |].
  unfold ip6subnet_read. split; [written Hs |].
  repeat constructor; written Hs.
Qed.

(** X17.  The existence check of a VLAN is one [get] addressed to the
    current id.  It answers true exactly when the inventory answers
    200 or 201 with a record; when the inventory answers otherwise
    it answers false without an error and unsets the resource id;
    when the call itself fails it hands the error on and keeps the
    id.  It never touches an attribute. *)
Theorem vlan_exists_unsets_id :
  forall st r st',
    resourcevlanExists s st
    = (r, st') ->
    d_attrs (data st') = d_attrs (data st)
    /\ exists answer,
         events_since st st'
         = [EvRequest "get" "rest/vlmvlan_info"
              [("vlmvlan_id", Id (data st))] answer]
         /\ match answer with
            | inl err =>
                r = Return (false, Some err)
                /\ Id (data st') = Id (data st)
            | inr resp =>
                if answered resp
                then r = Return (true, None)
                     /\ Id (data st') = Id (data st)
                else r = Return (false, None) /\ Id (data st') = ""
            end.
Proof.
  intros st r st' H.
  destruct (resourcevlanExists_run s _ _ _ H) as (a & Ht & Ho).
  assert (Ha : d_attrs (data st') = d_attrs (data st)).
  { destruct a as [err | resp]; [destruct Ho as [_ ->]; reflexivity |].
    destruct (answered resp); destruct Ho as [_ ->]; reflexivity. }
  split; [exact Ha |]. exists a. split; [apply events_since_app, Ht |].
  destruct a as [err | resp].
  - destruct Ho as [-> ->]. auto.
  - destruct (answered resp); destruct Ho as [-> ->]; auto.
Qed.

(** X18.  The deletion of a VLAN fails only when the inventory answers
    with another status than 204 and an error message.  Every other
    answer, whatever its status, counts as a deletion: the result
    is a success and the resource id is unset. *)
Theorem vlan_deletion_is_lenient :
  forall st r st',
    d_schema (data st) = resourcevlan ->
    resourcevlanDelete s st
    = (r, st') ->
    exists answer,
      events_since st st'
      = [EvRequest "delete" "rest/vlm_vlan_delete"
           [("vlmvlan_id", Id (data st))] answer]
      /\ match answer with
         | inl err => r = Return (Some err) /\ data st' = data st
         | inr resp =>
             if (StatusCode resp =? 204)
                || match first_errmsg resp with
                   | Some _ => false
                   | None => true
                   end
             then r = Return None /\ data st' = SetId (data st) ""
             else (exists msg, r = Return (Some msg))
                  /\ data st' = data st
         end.
Proof.
  intros st r st' Hs H.
  destruct (resourcevlanDelete_run s _ _ _ Hs H) as (a & Ht & Ho).
  exists a. split; [apply events_since_app, Ht |].
  destruct a as [err | resp]; [exact Ho |].
  destruct (StatusCode resp =? 204); cbn [negb orb] in *; [exact Ho |].
  destruct (first_errmsg resp) as [errmsg |]; [| exact Ho].
  destruct Ho as [-> ->]. eauto.
Qed.

(** X19.  When the inventory answers the read of a VLAN with status 200
    and a record that holds a name and the decimal numeral of the
    number [n] (an [int]), the read succeeds and stores that name
    and the number [n]; the id, the domain and the requested number
    are what they were. *)
Theorem vlan_read_refreshes :
  forall st r st' resp name n,
    d_schema (data st) = resourcevlan ->
    resourcevlanRead s st
    = (r, st') ->
    events_since st st'
    = [EvRequest "get" "rest/vlmvlan_info"
         [("vlmvlan_id", Id (data st))] (inr resp)] ->
    found resp = true ->
    map_get (nth 0 (buf resp) []) "vlmvlan_name" = VString name ->
    - 2 ^ 63 <= n < 2 ^ 63 ->
    map_get (nth 0 (buf resp) []) "vlmvlan_vlan_id"
    = VString (Go.Itoa n) ->
    r = Return None
    /\ Id (data st') = Id (data st)
    /\ get_str (data st') "name" = name
    /\ get_int (data st') "vlan_id" = n
    /\ get_str (data st') "vlan_domain" = get_str (data st) "vlan_domain"
    /\ get_int (data st') "request_id" = get_int (data st) "request_id".
Proof.
  intros st r st' resp name n Hs H He Hf Hn _ Hi.
  destruct (resourcevlanRead_run s _ _ _ Hs H) as (a & Ht & Ho).
  rewrite (single_event_answer _ _ _ _ _ _ _ Ht He) in Ho.
  rewrite Hf, Hi, Hn, Atoi_Itoa in Ho. destruct Ho as [-> ->].
  split; [reflexivity |]. rewrite !Set_id.
  repeat split; written Hs.
Qed.

(** X20.  A successful import of a VLAN stores the name of the record
    and nothing else: the id and every other attribute, the VLAN
    number and the domain among them, are what they were before
    the import. *)
Theorem vlan_import_sets_only_name :
  forall st st',
    d_schema (data st) = resourcevlan ->
    resourcevlanImportState s st = (Return None, st') ->
    exists resp,
      events_since st st'
      = [EvRequest "get" "rest/vlmvlan_info"
           [("vlmvlan_id", Id (data st))] (inr resp)]
      /\ Id (data st') = Id (data st)
      /\ get_str (data st') "name"
         = text (nth 0 (buf resp) []) "vlmvlan_name"
      /\ forall key, String.eqb "name" key = false ->
                     Get (data st') key = Get (data st) key.
Proof.
  intros st st' Hs H.
  destruct (resourcevlanImportState_run s _ _ _ H) as (a & Ht & Ho).
  destruct a as [err | resp]; [destruct Ho as [E _]; discriminate E |].
  exists resp. split; [apply events_since_app, Ht |].
  destruct (found resp); [| destruct Ho as [E _]; discriminate E].
  unfold text.
  destruct (map_get (nth 0 (buf resp) []) "vlmvlan_name");
    try (destruct Ho as [[msg E] _]; discriminate E).
  destruct Ho as [_ ->]. rewrite Set_id.
  split; [reflexivity |]. split; [written Hs |].
  intros key Hk. apply Get_Set_other, Hk.
Qed.

(** X21.  The reservation calls of a creation go through the candidates
    in the order in which the search returned them, one call per
    candidate from the first one on, without skipping or repeating
    one; each call asks for a creation that never overwrites
    ([add_flag] is [new_only]) and carries its candidate: the
    address in the notation of the inventory for a subnet, the
    number for a VLAN. *)
Theorem creation_calls_follow_candidates :
  (forall st siteID blockInfo cands st1 r st',
       d_schema (data st) = resourceipsubnet ->
       ipsubnet_candidates s st = (Next (siteID, blockInfo, cands), st1) ->
       resourceipsubnetCreate s st
       = (r, st') ->
       calls_for "subnet_addr" Codec.hexiptoip cands
         (events_since st st'))
  /\ (forall st siteID blockInfo cands st1 r st',
       d_schema (data st) = resourceip6subnet ->
       ip6subnet_candidates s st = (Next (siteID, blockInfo, cands), st1) ->
       resourceip6subnetCreate s st
       = (r, st') ->
       calls_for "subnet6_addr" Codec.hexip6toip6 cands
         (events_since st st'))
  /\ (forall st cands st1 r st',
       d_schema (data st) = resourcevlan ->
       vlan_candidates s st = (Next cands, st1) ->
       resourcevlanCreate s st
       = (r, st') ->
       calls_for "vlmvlan_vlan_id" (fun vlan_id => vlan_id) cands
         (events_since st st')).
Proof.
  split; [| split].
  - intros st siteID blockInfo cands st1 r st' Hs Hp H.
    apply (calls_with_impl (ipsubnet_call (data st)));
      [| exact (resourceipsubnetCreate_calls s _ _ _ _ _ _ _ Hs Hp H)].
    intros p c (H1 & H2 & _). auto.
  - intros st siteID blockInfo cands st1 r st' Hs Hp H.
    apply (calls_with_impl (ip6subnet_call (data st)));
      [| exact (resourceip6subnetCreate_calls s _ _ _ _ _ _ _ Hs Hp H)].
    intros p c (H1 & H2 & _). auto.
  - intros st cands st1 r st' Hs Hp H.
    exact (resourcevlanCreate_calls s _ _ _ _ _ Hs Hp H).
Qed.

(** X22.  A successful creation writes, besides the id, only the
    attributes it computes: the prefix, the address, the netmask
    and the gateway for an IPv4 subnet, the prefix, the address and
    the gateway for an IPv6 subnet; every other attribute reads as
    before.  The creation of a VLAN writes no attribute at all: the
    number it reserved is not stored. *)
Theorem creation_writes_computed_attributes_only :
  (forall st st',
       d_schema (data st) = resourceipsubnet ->
       resourceipsubnetCreate s st = (Return diag_nil, st') ->
       forall key,
         ~ In key ["prefix"; "address"; "netmask"; "gateway"] ->
         Get (data st') key = Get (data st) key)
  /\ (forall st st',
       d_schema (data st) = resourceip6subnet ->
       resourceip6subnetCreate s st = (Return diag_nil, st') ->
       forall key,
         ~ In key ["prefix"; "address"; "gateway"] ->
         Get (data st') key = Get (data st) key)
  /\ (forall st st',
       d_schema (data st) = resourcevlan ->
       resourcevlanCreate s st = (Return None, st') ->
       d_attrs (data st') = d_attrs (data st)).
Proof.
  split; [| split]; intros st st' Hs H.
  - destruct (resourceipsubnetCreate_created s _ _ Hs H) as (c & oid & ->).
    intros key Hk. cbn [In] in Hk.
    apply ipsubnet_created_keeps; apply String.eqb_neq; intros E; tauto.
  - destruct (resourceip6subnetCreate_created s _ _ Hs H) as (c & oid & ->).
    intros key Hk. cbn [In] in Hk.
    apply ip6subnet_created_keeps; apply String.eqb_neq; intros E; tauto.
  - pose proof (resourcevlanCreate_engine s _ _ _ Hs H) as He.
    apply Engine_success_data in He;
      [| discriminate | discriminate | reflexivity].
    destruct He as (c & oid & ->). reflexivity.
Qed.

(** X23.  When the inventory refuses the update or the deletion of a
    subnet and gives an error message, the diagnostic that is
    returned names the subnet and quotes that message. *)
Theorem refusals_carry_the_inventory_message :
  (forall st r st' parameters resp errMsg,
       d_schema (data st) = resourceipsubnet ->
       resourceipsubnetUpdate s st
       = (r, st') ->
       events_since st st'
       = [EvRequest "put" "rest/ip_subnet_add" parameters
            (inr resp)] ->
       reserved (inr resp) = None ->
       first_errmsg resp = Some errMsg ->
       r = Return (diag_Errorf ("Unable to update IP subnet: "
                                 ++ get_str (data st) "name"
                                 ++ " (" ++ errMsg ++ ")")))
  /\ (forall st r st' parameters resp errMsg,
       d_schema (data st) = resourceip6subnet ->
       resourceip6subnetUpdate s st
       = (r, st') ->
       events_since st st'
       = [EvRequest "put" "rest/ip6_subnet6_add" parameters
            (inr resp)] ->
       reserved (inr resp) = None ->
       first_errmsg resp = Some errMsg ->
       r = Return (diag_Errorf ("Unable to update IPv6 subnet: "
                                 ++ get_str (data st) "name"
                                 ++ " (" ++ errMsg ++ ")")))
  /\ (forall st r st' before parameters resp errMsg,
       d_schema (data st) = resourceipsubnet ->
       resourceipsubnetDelete s st
       = (r, st') ->
       events_since st st'
       = (before ++ [EvRequest "delete" "rest/ip_subnet_delete"
                        parameters (inr resp)])%list ->
       not_deleted resp = true ->
       first_errmsg resp = Some errMsg ->
       r = Return (diag_Errorf ("Unable to delete IP subnet : "
                                 ++ get_str (data st) "name"
                                 ++ " (" ++ errMsg ++ ")")))
  /\ (forall st r st' before parameters resp errMsg,
       d_schema (data st) = resourceip6subnet ->
       resourceip6subnetDelete s st
       = (r, st') ->
       events_since st st'
       = (before ++ [EvRequest "delete" "rest/ip6_subnet6_delete"
                        parameters (inr resp)])%list ->
       not_deleted resp = true ->
       first_errmsg resp = Some errMsg ->
       r = Return (diag_Errorf ("Unable to delete IPv6 subnet : "
                                 ++ get_str (data st) "name"
                                 ++ " (" ++ errMsg ++ ")"))).
Proof.
  split; [| split; [| split]].
  - intros st r st' parameters resp errMsg Hs H He Hr Hm.
    destruct (resourceipsubnetUpdate_run s _ _ _ Hs H)
      as (p & a & Ht & _ & _ & _ & _ & Ho).
    rewrite (events_since_app _ _ _ Ht) in He. injection He as -> ->.
    rewrite Hr in Ho. unfold failure_message in Ho. rewrite Hm in Ho.
    apply Ho.
  - intros st r st' parameters resp errMsg Hs H He Hr Hm.
    destruct (resourceip6subnetUpdate_run s _ _ _ Hs H)
      as (p & a & Ht & _ & _ & _ & _ & Ho).
    rewrite (events_since_app _ _ _ Ht) in He. injection He as -> ->.
    rewrite Hr in Ho. unfold failure_message in Ho. rewrite Hm in Ho.
    apply Ho.
  - intros st r st' before parameters resp errMsg Hs H He Hn Hm.
    destruct (resourceipsubnetDelete_run s _ _ _ Hs H)
      as (pre & a & _ & Ht & Ho).
    rewrite (events_since_app _ _ _ Ht) in He.
    apply app_inj_tail in He as [_ He]. injection He as _ ->.
    rewrite Hn in Ho. unfold deletion_message in Ho. rewrite Hm in Ho.
    apply Ho.
  - intros st r st' before parameters resp errMsg Hs H He Hn Hm.
    destruct (resourceip6subnetDelete_run s _ _ _ Hs H)
      as (pre & a & _ & Ht & Ho).
    rewrite (events_since_app _ _ _ Ht) in He.
    apply app_inj_tail in He as [_ He]. injection He as _ ->.
    rewrite Hn in Ho. unfold deletion_message in Ho. rewrite Hm in Ho.
    apply Ho.
Qed.

(** X24.  The class parameters pass through the inventory unchanged:
    when the record of a subnet holds the class parameters as an
    update of the resource data encodes them, a read stores for
    every key the value that was declared, and the gateway that was
    stored.  The keys of the declared class parameters are
    distinct, as those of a Go map are, and [gateway], which the
    update adds itself, is not among them. *)
Theorem read_restores_what_update_sent :
  (forall st st' resp,
       d_schema (data st) = resourceipsubnet ->
       NoDup (map fst (get_map (data st) "class_parameters")) ->
       ~ In "gateway" (map fst (get_map (data st) "class_parameters")) ->
       resourceipsubnetRead s st = (Return diag_nil, st') ->
       events_since st st'
       = [EvRequest "get" "rest/ip_block_subnet_info"
            [("subnet_id", Id (data st))] (inr resp)] ->
       text (nth 0 (buf resp) []) "subnet_class_parameters"
       = Go.Encode (update_class_parameters_of (data st)) ->
       (forall key,
          index (get_map (data st') "class_parameters") key
          = index (get_map (data st) "class_parameters") key)
       /\ get_str (data st') "gateway" = get_str (data st) "gateway")
  /\ (forall st st' resp,
       d_schema (data st) = resourceip6subnet ->
       NoDup (map fst (get_map (data st) "class_parameters")) ->
       ~ In "gateway" (map fst (get_map (data st) "class_parameters")) ->
       resourceip6subnetRead s st = (Return diag_nil, st') ->
       events_since st st'
       = [EvRequest "get" "rest/ip6_block6_subnet6_info"
            [("subnet6_id", Id (data st))] (inr resp)] ->
       text (nth 0 (buf resp) []) "subnet6_class_parameters"
       = Go.Encode (update_class_parameters_of (data st)) ->
       (forall key,
          index (get_map (data st') "class_parameters") key
          = index (get_map (data st) "class_parameters") key)
       /\ get_str (data st') "gateway" = get_str (data st) "gateway").
Proof.
  split; intros st st' resp Hs Hn Hg H He Ht.
  - destruct (resourceipsubnetRead_success s _ _ Hs H) as (resp' & He' & ->).
    rewrite He in He'. injection He' as <-.
    unfold ipsubnet_read. rewrite Ht.
    apply class_parameters_read_back; try assumption;
      try (rewrite ?Set_schema, Hs; reflexivity); written Hs.
  - destruct (resourceip6subnetRead_success s _ _ Hs H) as (resp' & He' & ->).
    rewrite He in He'. injection He' as <-.
    unfold ip6subnet_read. rewrite Ht.
    apply class_parameters_read_back; try assumption;
      try (rewrite ?Set_schema, Hs; reflexivity); written Hs.
Qed.

(** X25.  The gateway is computed anew for every candidate: the
    reservation call for a candidate carries, as class parameters,
    the gateway computed for this very candidate when a gateway
    offset is set, followed by the declared class parameters. *)
Theorem reservation_calls_carry_their_gateway :
  (forall st siteID blockInfo cands st1 r st',
       d_schema (data st) = resourceipsubnet ->
       ipsubnet_candidates s st
       = (Next (siteID, blockInfo, cands), st1) ->
       resourceipsubnetCreate s st
       = (r, st') ->
       calls_with
         (fun parameters candidate =>
            index parameters "subnet_class_parameters"
            = Some (Go.Encode (ipsubnet_class_parameters (data st) candidate)))
         cands (events_since st st'))
  /\ (forall st siteID blockInfo cands st1 r st',
       d_schema (data st) = resourceip6subnet ->
       ip6subnet_candidates s st
       = (Next (siteID, blockInfo, cands), st1) ->
       resourceip6subnetCreate s st
       = (r, st') ->
       calls_with
         (fun parameters candidate =>
            index parameters "subnet6_class_parameters"
            = Some (Go.Encode (ip6subnet_class_parameters (data st) candidate)))
         cands (events_since st st')).
Proof.
  split.
  - intros st siteID blockInfo cands st1 r st' Hs Hp H.
    apply (calls_with_impl (ipsubnet_call (data st)));
      [| exact (resourceipsubnetCreate_calls s _ _ _ _ _ _ _ Hs Hp H)].
    intros p c (_ & _ & H3). exact H3.
  - intros st siteID blockInfo cands st1 r st' Hs Hp H.
    apply (calls_with_impl (ip6subnet_call (data st)));
      [| exact (resourceip6subnetCreate_calls s _ _ _ _ _ _ _ Hs Hp H)].
    intros p c (_ & _ & H3). exact H3.
Qed.

(** X26.  An import is one [get] addressed to the id it was given and
    never changes this id.  When it returns an error, the resource
    data is untouched and the error is the transport error of the
    call, or a message that quotes the id when the inventory did
    not answer 200 with a record. *)
Theorem import_failure_keeps_data :
  (forall st r st',
       d_schema (data st) = resourceipsubnet ->
       resourceipsubnetImportState s st
       = (r, st') ->
       exists answer,
         events_since st st'
         = [EvRequest "get" "rest/ip_block_subnet_info"
              [("subnet_id", Id (data st))] answer]
         /\ Id (data st') = Id (data st)
         /\ forall e,
              r = Return (Some e) ->
              data st' = data st
              /\ e = match answer with
                     | inl err => err
                     | inr _ =>
                         "SOLIDServer - Unable to find and import IP subnet (oid): "
                         ++ Id (data st) ++ LF
                     end)
  /\ (forall st r st',
       d_schema (data st) = resourceip6subnet ->
       resourceip6subnetImportState s st
       = (r, st') ->
       exists answer,
         events_since st st'
         = [EvRequest "get" "rest/ip6_block6_subnet6_info"
              [("subnet6_id", Id (data st))] answer]
         /\ Id (data st') = Id (data st)
         /\ forall e,
              r = Return (Some e) ->
              data st' = data st
              /\ e = match answer with
                     | inl err => err
                     | inr _ =>
                         "SOLIDServer - Unable to find and import IPv6 subnet (oid): "
                         ++ Id (data st) ++ LF
                     end)
  /\ (forall st r st',
       d_schema (data st) = resourcevlan ->
       resourcevlanImportState s st
       = (r, st') ->
       exists answer,
         events_since st st'
         = [EvRequest "get" "rest/vlmvlan_info"
              [("vlmvlan_id", Id (data st))] answer]
         /\ Id (data st') = Id (data st)
         /\ forall e,
              r = Return (Some e) ->
              data st' = data st
              /\ e = match answer with
                     | inl err => err
                     | inr _ =>
                         "SOLIDServer - Unable to find and import vlan (oid): "
                         ++ Id (data st) ++ LF
                     end).
Proof.
  split; [| split]; intros st r st' Hs H.
  - destruct (resourceipsubnetImportState_run s _ _ _ Hs H) as (a & Ht & Ho).
    exists a. split; [apply events_since_app, Ht |].
    unfold read_outcome in Ho. destruct a as [err | resp].
    + destruct Ho as [-> ->]. split; [reflexivity |].
      intros e E. injection E as <-. auto.
    + destruct (found resp); [destruct (fields_ok _ _) |].
      * destruct Ho as [-> ->]. split; [apply ipsubnet_imported_id |].
        intros e E. discriminate E.
      * destruct Ho as [[msg ->] [Hid _]]. split; [exact Hid |].
        intros e E. discriminate E.
      * destruct Ho as [-> ->]. split; [reflexivity |].
        intros e E. injection E as <-. auto.
  - destruct (resourceip6subnetImportState_run s _ _ _ Hs H) as (a & Ht & Ho).
    exists a. split; [apply events_since_app, Ht |].
    unfold read_outcome in Ho. destruct a as [err | resp].
    + destruct Ho as [-> ->]. split; [reflexivity |].
      intros e E. injection E as <-. auto.
    + destruct (found resp); [destruct (fields_ok _ _) |].
      * destruct Ho as [-> ->]. split; [apply ip6subnet_read_id |].
        intros e E. discriminate E.
      * destruct Ho as [[msg ->] [Hid _]]. split; [exact Hid |].
        intros e E. discriminate E.
      * destruct Ho as [-> ->]. split; [reflexivity |].
        intros e E. injection E as <-. auto.
  - destruct (resourcevlanImportState_run s _ _ _ H) as (a & Ht & Ho).
    exists a. split; [apply events_since_app, Ht |].
    destruct a as [err | resp].
    + destruct Ho as [-> ->]. split; [reflexivity |].
      intros e E. injection E as <-. auto.
    + destruct (found resp).
      * destruct (map_get (nth 0 (buf resp) []) "vlmvlan_name");
          try (destruct Ho as [[msg ->] ->]; split; [reflexivity |];
               intros e E; discriminate E).
        destruct Ho as [-> ->]. rewrite Set_id. split; [reflexivity |].
        intros e E. discriminate E.
      * destruct Ho as [-> ->]. split; [reflexivity |].
        intros e E. injection E as <-. auto.
Qed.

(** X27.  When the search finds no candidate, the creation makes no
    call at all: it ends where the search ended, with the error
    that it is unable to create the resource, and leaves the
    resource data alone. *)
Theorem creation_without_candidates :
  (forall st siteID blockInfo st1 r st',
       d_schema (data st) = resourceipsubnet ->
       ipsubnet_candidates s st = (Next (siteID, blockInfo, []), st1) ->
       resourceipsubnetCreate s st
       = (r, st') ->
       r = Return (diag_Errorf (ipsubnet_exhausted (get_str (data st) "name")))
       /\ st' = st1
       /\ requests (events_since st st') = []
       /\ data st' = data st)
  /\ (forall st siteID blockInfo st1 r st',
       d_schema (data st) = resourceip6subnet ->
       ip6subnet_candidates s st = (Next (siteID, blockInfo, []), st1) ->
       resourceip6subnetCreate s st
       = (r, st') ->
       r = Return (diag_Errorf (ip6subnet_exhausted (get_str (data st) "name")))
       /\ st' = st1
       /\ requests (events_since st st') = []
       /\ data st' = data st)
  /\ (forall st st1 r st',
       d_schema (data st) = resourcevlan ->
       vlan_candidates s st = (Next [], st1) ->
       resourcevlanCreate s st
       = (r, st') ->
       r = Return (Some (vlan_exhausted (get_str (data st) "name")))
       /\ st' = st1
       /\ requests (events_since st st') = []
       /\ data st' = data st).
Proof.
  split; [| split].
  - intros st siteID blockInfo st1 r st' Hs Hp H.
    destruct (ipsubnet_candidates_run s _ _ _ Hs Hp) as (qs & Hq & Hqs & Hd & _).
    unfold resourceipsubnetCreate in H. unfold bind at 1 in H. rewrite Hp in H.
    cbn [ipsubnet_attempts] in H. rewrite ?bind_ret in H.
    rewrite bind_d_string in H by (rewrite Hd; typed Hs).
    injection H as <- <-. rewrite Hd.
    split; [reflexivity | split; [reflexivity |]].
    split; [| reflexivity].
    rewrite (events_since_app _ _ _ Hq). apply requests_queries, Hqs.
  - intros st siteID blockInfo st1 r st' Hs Hp H.
    destruct (ip6subnet_candidates_run s _ _ _ Hs Hp) as (qs & Hq & Hqs & Hd & _).
    unfold resourceip6subnetCreate in H. unfold bind at 1 in H. rewrite Hp in H.
    cbn [ip6subnet_attempts] in H. rewrite ?bind_ret in H.
    rewrite bind_d_string in H by (rewrite Hd; typed Hs).
    injection H as <- <-. rewrite Hd.
    split; [reflexivity | split; [reflexivity |]].
    split; [| reflexivity].
    rewrite (events_since_app _ _ _ Hq). apply requests_queries, Hqs.
  - intros st st1 r st' Hs Hp H.
    destruct (vlan_candidates_run s _ _ _ Hs Hp) as (qs & Hq & Hqs & Hd & _).
    unfold resourcevlanCreate in H. unfold bind at 1 in H. rewrite Hp in H.
    cbn [vlan_attempts] in H. rewrite ?bind_ret in H.
    rewrite bind_d_string in H by (rewrite Hd; typed Hs).
    injection H as <- <-. rewrite Hd.
    split; [reflexivity | split; [reflexivity |]].
    split; [| reflexivity].
    rewrite (events_since_app _ _ _ Hq). apply requests_queries, Hqs.
Qed.

End Further.

(* ---------------------------------------------------------------- *)
(** *** The properties above on the test inventories *)

(** A refused connection (IPv4, VLAN) and a run out of candidates (IPv6). *)
Lemma creation_failure_records_nothing_witness :
  ((d_schema (data Mock.unreachable4) = resourceipsubnet)
   /\ (resourceipsubnetCreate Mock.inventory4 Mock.unreachable4
   = ((fst (run4 Mock.unreachable4)), (snd (run4 Mock.unreachable4))))
   /\ ((fst (run4 Mock.unreachable4)) <> Return diag_nil)
   /\ (data (snd (run4 Mock.unreachable4)) = data Mock.unreachable4))
  /\ ((d_schema (data Mock.all_taken6) = resourceip6subnet)
   /\ (resourceip6subnetCreate Mock.inventory6 Mock.all_taken6
   = ((fst (run6 Mock.all_taken6)), (snd (run6 Mock.all_taken6))))
   /\ ((fst (run6 Mock.all_taken6)) <> Return diag_nil)
   /\ (data (snd (run6 Mock.all_taken6)) = data Mock.all_taken6))
  /\ ((d_schema (data Mock.unreachable_vlan) = resourcevlan)
   /\ (resourcevlanCreate Mock.inventory_vlan Mock.unreachable_vlan
   = ((fst (run_vlan Mock.unreachable_vlan)),
       (snd (run_vlan Mock.unreachable_vlan))))
   /\ ((fst (run_vlan Mock.unreachable_vlan)) <> Return None)
   /\ (data (snd (run_vlan Mock.unreachable_vlan)) = data
       Mock.unreachable_vlan)).
Proof.
  assert (H0_0 : d_schema (data Mock.unreachable4) = resourceipsubnet)
    by (reflexivity).
  assert (H0_1 : resourceipsubnetCreate Mock.inventory4 Mock.unreachable4
    = ((fst (run4 Mock.unreachable4)), (snd (run4 Mock.unreachable4))))
    by (apply run_pair).
  assert (H0_2 : (fst (run4 Mock.unreachable4)) <> Return diag_nil)
    by (vm_compute; discriminate).
  assert (H1_0 : d_schema (data Mock.all_taken6) = resourceip6subnet)
    by (reflexivity).
  assert (H1_1 : resourceip6subnetCreate Mock.inventory6 Mock.all_taken6
    = ((fst (run6 Mock.all_taken6)), (snd (run6 Mock.all_taken6))))
    by (apply run_pair).
  assert (H1_2 : (fst (run6 Mock.all_taken6)) <> Return diag_nil)
    by (vm_compute; discriminate).
  assert (H2_0 : d_schema (data Mock.unreachable_vlan) = resourcevlan)
    by (reflexivity).
  assert (H2_1 : resourcevlanCreate Mock.inventory_vlan Mock.unreachable_vlan
    = ((fst (run_vlan Mock.unreachable_vlan)),
        (snd (run_vlan Mock.unreachable_vlan))))
    by (apply run_pair).
  assert (H2_2 : (fst (run_vlan Mock.unreachable_vlan)) <> Return None)
    by (vm_compute; discriminate).
  exact (conj
      (conj H0_0
      (conj H0_1
      (conj H0_2
      ((proj1 (creation_failure_records_nothing Mock.inventory4))
      (Mock.unreachable4) (fst (run4 Mock.unreachable4))
      (snd (run4 Mock.unreachable4)) H0_0 H0_1 H0_2))))
     (conj (conj H1_0
         (conj H1_1
         (conj H1_2
         ((proj1 (proj2 (creation_failure_records_nothing Mock.inventory6)))
         (Mock.all_taken6) (fst (run6 Mock.all_taken6))
         (snd (run6 Mock.all_taken6)) H1_0 H1_1 H1_2))))
     (conj H2_0
         (conj H2_1
         (conj H2_2
         ((proj2 (proj2
         (creation_failure_records_nothing Mock.inventory_vlan)))
         (Mock.unreachable_vlan) (fst (run_vlan Mock.unreachable_vlan))
         (snd (run_vlan Mock.unreachable_vlan)) H2_0 H2_1 H2_2)))))).
Defined.

(** The second candidate wins: two calls for three (two) candidates. *)
Lemma creation_calls_bounded_witness :
  ((d_schema (data Mock.second_wins4) = resourceipsubnet)
   /\ (ipsubnet_candidates Mock.inventory4 Mock.second_wins4 =
       (Next ("2", Mock.block24, Mock.net10),
       (snd (found4 Mock.second_wins4))))
   /\ (resourceipsubnetCreate Mock.inventory4 Mock.second_wins4
   = ((fst (run4 Mock.second_wins4)), (snd (run4 Mock.second_wins4))))
   /\ ((List.length
       (requests
       (events_since Mock.second_wins4 (snd (run4 Mock.second_wins4))))
    <= List.length Mock.net10)%nat
   /\ forall e, In e
       (requests
       (events_since Mock.second_wins4 (snd (run4 Mock.second_wins4)))) ->
                exists p a, e = EvRequest "post" "rest/ip_subnet_add" p a))
  /\ ((d_schema (data Mock.second_wins6) = resourceip6subnet)
   /\ (ip6subnet_candidates Mock.inventory6 Mock.second_wins6 =
       (Next ("2", Mock.block24, Mock.net2001),
       (snd (found6 Mock.second_wins6))))
   /\ (resourceip6subnetCreate Mock.inventory6 Mock.second_wins6
   = ((fst (run6 Mock.second_wins6)), (snd (run6 Mock.second_wins6))))
   /\ ((List.length
       (requests
       (events_since Mock.second_wins6 (snd (run6 Mock.second_wins6))))
    <= List.length Mock.net2001)%nat
   /\ forall e, In e
       (requests
       (events_since Mock.second_wins6 (snd (run6 Mock.second_wins6)))) ->
                exists p a, e = EvRequest "post" "rest/ip6_subnet6_add" p a))
  /\ ((d_schema (data Mock.second_wins_vlan) = resourcevlan)
   /\ (vlan_candidates Mock.inventory_vlan Mock.second_wins_vlan =
       (Next (["100"; "101"]), (snd (found_vlan Mock.second_wins_vlan))))
   /\ (resourcevlanCreate Mock.inventory_vlan Mock.second_wins_vlan
   = ((fst (run_vlan Mock.second_wins_vlan)),
       (snd (run_vlan Mock.second_wins_vlan))))
   /\ ((List.length
       (requests
       (events_since Mock.second_wins_vlan
       (snd (run_vlan Mock.second_wins_vlan))))
    <= List.length (["100"; "101"]))%nat
   /\ forall e, In e
       (requests
       (events_since Mock.second_wins_vlan
       (snd (run_vlan Mock.second_wins_vlan)))) ->
                exists p a, e = EvRequest "post" "rest/vlm_vlan_add" p a)).
Proof.
  assert (H0_0 : d_schema (data Mock.second_wins4) = resourceipsubnet)
    by (reflexivity).
  assert (H0_1 : ipsubnet_candidates Mock.inventory4 Mock.second_wins4 =
      (Next ("2", Mock.block24, Mock.net10),
      (snd (found4 Mock.second_wins4))))
    by (vm_compute; reflexivity).
  assert (H0_2 : resourceipsubnetCreate Mock.inventory4 Mock.second_wins4
    = ((fst (run4 Mock.second_wins4)), (snd (run4 Mock.second_wins4))))
    by (apply run_pair).
  assert (H1_0 : d_schema (data Mock.second_wins6) = resourceip6subnet)
    by (reflexivity).
  assert (H1_1 : ip6subnet_candidates Mock.inventory6 Mock.second_wins6 =
      (Next ("2", Mock.block24, Mock.net2001),
      (snd (found6 Mock.second_wins6))))
    by (vm_compute; reflexivity).
  assert (H1_2 : resourceip6subnetCreate Mock.inventory6 Mock.second_wins6
    = ((fst (run6 Mock.second_wins6)), (snd (run6 Mock.second_wins6))))
    by (apply run_pair).
  assert (H2_0 : d_schema (data Mock.second_wins_vlan) = resourcevlan)
    by (reflexivity).
  assert (H2_1 : vlan_candidates Mock.inventory_vlan Mock.second_wins_vlan =
      (Next (["100"; "101"]), (snd (found_vlan Mock.second_wins_vlan))))
    by (vm_compute; reflexivity).
  assert (H2_2 : resourcevlanCreate Mock.inventory_vlan Mock.second_wins_vlan
    = ((fst (run_vlan Mock.second_wins_vlan)),
        (snd (run_vlan Mock.second_wins_vlan))))
    by (apply run_pair).
  exact (conj
      (conj H0_0
      (conj H0_1
      (conj H0_2
      ((proj1 (creation_calls_bounded Mock.inventory4)) (Mock.second_wins4)
      ("2") (Mock.block24) (Mock.net10) (snd (found4 Mock.second_wins4))
      (fst (run4 Mock.second_wins4)) (snd (run4 Mock.second_wins4)) H0_0 H0_1
      H0_2))))
     (conj (conj H1_0
         (conj H1_1
         (conj H1_2
         ((proj1 (proj2 (creation_calls_bounded Mock.inventory6)))
         (Mock.second_wins6) ("2") (Mock.block24) (Mock.net2001)
         (snd (found6 Mock.second_wins6)) (fst (run6 Mock.second_wins6))
         (snd (run6 Mock.second_wins6)) H1_0 H1_1 H1_2))))
     (conj H2_0
         (conj H2_1
         (conj H2_2
         ((proj2 (proj2 (creation_calls_bounded Mock.inventory_vlan)))
         (Mock.second_wins_vlan) (["100"; "101"])
         (snd (found_vlan Mock.second_wins_vlan))
         (fst (run_vlan Mock.second_wins_vlan))
         (snd (run_vlan Mock.second_wins_vlan)) H2_0 H2_1 H2_2)))))).
Defined.

(** The update of [lan] and of [lan6]. *)
Lemma subnet_update_call_witness :
  ((d_schema (data Scenario.accepted4) = resourceipsubnet)
   /\ (resourceipsubnetUpdate Mock.inventory4 Scenario.accepted4
   = ((fst (update4 Scenario.accepted4)), (snd (update4 Scenario.accepted4))))
   /\ (exists parameters answer,
     events_since Scenario.accepted4 (snd (update4 Scenario.accepted4))
     = [EvRequest "put" "rest/ip_subnet_add" parameters answer]
     /\ index parameters "subnet_id" = Some (Id (data Scenario.accepted4))
     /\ index parameters "add_flag" = Some "edit_only"
     /\ index parameters "subnet_name"
        = Some (get_str (data Scenario.accepted4) "name")
     /\ index parameters "subnet_class_parameters"
        = Some (Go.Encode
            (update_class_parameters_of (data Scenario.accepted4)))))
  /\ ((d_schema (data Scenario.accepted6) = resourceip6subnet)
   /\ (resourceip6subnetUpdate Mock.inventory6 Scenario.accepted6
   = ((fst (update6 Scenario.accepted6)), (snd (update6 Scenario.accepted6))))
   /\ (exists parameters answer,
     events_since Scenario.accepted6 (snd (update6 Scenario.accepted6))
     = [EvRequest "put" "rest/ip6_subnet6_add" parameters answer]
     /\ index parameters "subnet6_id" = Some (Id (data Scenario.accepted6))
     /\ index parameters "add_flag" = Some "edit_only"
     /\ index parameters "subnet6_name"
        = Some (get_str (data Scenario.accepted6) "name")
     /\ index parameters "subnet6_class_parameters"
        = Some (Go.Encode
            (update_class_parameters_of (data Scenario.accepted6))))).
Proof.
  assert (H0_0 : d_schema (data Scenario.accepted4) = resourceipsubnet)
    by (reflexivity).
  assert (H0_1 : resourceipsubnetUpdate Mock.inventory4 Scenario.accepted4
    = ((fst (update4 Scenario.accepted4)),
        (snd (update4 Scenario.accepted4))))
    by (apply run_pair).
  assert (H1_0 : d_schema (data Scenario.accepted6) = resourceip6subnet)
    by (reflexivity).
  assert (H1_1 : resourceip6subnetUpdate Mock.inventory6 Scenario.accepted6
    = ((fst (update6 Scenario.accepted6)),
        (snd (update6 Scenario.accepted6))))
    by (apply run_pair).
  exact (conj
      (conj H0_0
      (conj H0_1
      ((proj1 (subnet_update_call Mock.inventory4)) (Scenario.accepted4)
      (fst (update4 Scenario.accepted4)) (snd (update4 Scenario.accepted4))
      H0_0 H0_1)))
     (conj H1_0
         (conj H1_1
         ((proj2 (subnet_update_call Mock.inventory6)) (Scenario.accepted6)
         (fst (update6 Scenario.accepted6)) (snd (update6 Scenario.accepted6))
         H1_0 H1_1)))).
Defined.

(** An accepted update (IPv4) and a refused one (IPv6). *)
Lemma subnet_update_result_witness :
  ((d_schema (data Scenario.moved4) = resourceipsubnet)
   /\ (resourceipsubnetUpdate Mock.inventory4 Scenario.moved4
   = ((fst (update4 Scenario.moved4)), (snd (update4 Scenario.moved4))))
   /\ (exists parameters answer,
     events_since Scenario.moved4 (snd (update4 Scenario.moved4))
     = [EvRequest "put" "rest/ip_subnet_add" parameters answer]
     /\ match reserved answer with
        | Some oid =>
            (fst (update4 Scenario.moved4)) = Return diag_nil /\ data
                (snd (update4 Scenario.moved4)) = SetId (data Scenario.moved4)
                oid
        | None =>
            (exists e, (fst (update4 Scenario.moved4)) = Return e /\ e <>
                diag_nil
                       /\ (forall err, answer = inl err ->
                           e = diag_FromErr err)
                       /\ (forall resp, answer = inr resp ->
                           exists msg, e = diag_Errorf msg))
            /\ data (snd (update4 Scenario.moved4)) = data Scenario.moved4
        end))
  /\ ((d_schema (data Scenario.read_only6) = resourceip6subnet)
   /\ (resourceip6subnetUpdate Mock.inventory6 Scenario.read_only6
   = ((fst (update6 Scenario.read_only6)),
       (snd (update6 Scenario.read_only6))))
   /\ (exists parameters answer,
     events_since Scenario.read_only6 (snd (update6 Scenario.read_only6))
     = [EvRequest "put" "rest/ip6_subnet6_add" parameters answer]
     /\ match reserved answer with
        | Some oid =>
            (fst (update6 Scenario.read_only6)) = Return diag_nil /\ data
                (snd (update6 Scenario.read_only6)) = SetId
                (data Scenario.read_only6) oid
        | None =>
            (exists e, (fst (update6 Scenario.read_only6)) = Return e /\ e <>
                diag_nil
                       /\ (forall err, answer = inl err ->
                           e = diag_FromErr err)
                       /\ (forall resp, answer = inr resp ->
                           exists msg, e = diag_Errorf msg))
            /\ data (snd (update6 Scenario.read_only6)) = data
                Scenario.read_only6
        end)).
Proof.
  assert (H0_0 : d_schema (data Scenario.moved4) = resourceipsubnet)
    by (reflexivity).
  assert (H0_1 : resourceipsubnetUpdate Mock.inventory4 Scenario.moved4
    = ((fst (update4 Scenario.moved4)), (snd (update4 Scenario.moved4))))
    by (apply run_pair).
  assert (H1_0 : d_schema (data Scenario.read_only6) = resourceip6subnet)
    by (reflexivity).
  assert (H1_1 : resourceip6subnetUpdate Mock.inventory6 Scenario.read_only6
    = ((fst (update6 Scenario.read_only6)),
        (snd (update6 Scenario.read_only6))))
    by (apply run_pair).
  exact (conj
      (conj H0_0
      (conj H0_1
      ((proj1 (subnet_update_result Mock.inventory4)) (Scenario.moved4)
      (fst (update4 Scenario.moved4)) (snd (update4 Scenario.moved4)) H0_0
      H0_1)))
     (conj H1_0
         (conj H1_1
         ((proj2 (subnet_update_result Mock.inventory6)) (Scenario.read_only6)
         (fst (update6 Scenario.read_only6))
         (snd (update6 Scenario.read_only6)) H1_0 H1_1)))).
Defined.

(** A deletion answered by a 500 (IPv4) and one that is not answered (IPv6). *)
Lemma gateway_deletion_ignores_the_answer_witness :
  ((d_schema (data Scenario.gateway_in_use4) = resourceipsubnet)
   /\ (resourceipsubnetgatewayDelete Mock.inventory4 Scenario.gateway_in_use4
   = ((fst (free4 Scenario.gateway_in_use4)),
       (snd (free4 Scenario.gateway_in_use4))))
   /\ (data (snd (free4 Scenario.gateway_in_use4)) = data
       Scenario.gateway_in_use4
   /\ exists answer,
        events_since Scenario.gateway_in_use4
            (snd (free4 Scenario.gateway_in_use4))
        = [EvRequest "delete" "rest/ip_delete"
             [("site_name", get_str (data Scenario.gateway_in_use4) "space");
              ("hostaddr", get_str (data Scenario.gateway_in_use4) "gateway")]
                  answer]
        /\ (fst (free4 Scenario.gateway_in_use4)) = Return (match answer with
                         | inl err => diag_FromErr err
                         | inr _ => diag_nil
                         end)))
  /\ ((d_schema (data Scenario.gateway_unreachable6) = resourceip6subnet)
   /\ (resourceip6subnetgatewayDelete Mock.inventory6
       Scenario.gateway_unreachable6
   = ((fst (free6 Scenario.gateway_unreachable6)),
       (snd (free6 Scenario.gateway_unreachable6))))
   /\ (data (snd (free6 Scenario.gateway_unreachable6)) = data
       Scenario.gateway_unreachable6
   /\ exists answer,
        events_since Scenario.gateway_unreachable6
            (snd (free6 Scenario.gateway_unreachable6))
        = [EvRequest "delete" "rest/ip6_address6_delete"
             [("site_name", get_str (data Scenario.gateway_unreachable6)
                 "space");
              ("hostaddr", get_str (data Scenario.gateway_unreachable6)
                  "gateway")] answer]
        /\ (fst (free6 Scenario.gateway_unreachable6)) = Return
            (match answer with
                         | inl err => diag_FromErr err
                         | inr _ => diag_nil
                         end))).
Proof.
  assert (H0_0 : d_schema (data Scenario.gateway_in_use4) = resourceipsubnet)
    by (reflexivity).
  assert (H0_1 : resourceipsubnetgatewayDelete Mock.inventory4
      Scenario.gateway_in_use4
    = ((fst (free4 Scenario.gateway_in_use4)),
        (snd (free4 Scenario.gateway_in_use4))))
    by (apply run_pair).
  assert (H1_0 : d_schema (data Scenario.gateway_unreachable6) =
      resourceip6subnet)
    by (reflexivity).
  assert (H1_1 : resourceip6subnetgatewayDelete Mock.inventory6
      Scenario.gateway_unreachable6
    = ((fst (free6 Scenario.gateway_unreachable6)),
        (snd (free6 Scenario.gateway_unreachable6))))
    by (apply run_pair).
  exact (conj
      (conj H0_0
      (conj H0_1
      ((proj1 (gateway_deletion_ignores_the_answer Mock.inventory4))
      (Scenario.gateway_in_use4) (fst (free4 Scenario.gateway_in_use4))
      (snd (free4 Scenario.gateway_in_use4)) H0_0 H0_1)))
     (conj H1_0
         (conj H1_1
         ((proj2 (gateway_deletion_ignores_the_answer Mock.inventory6))
         (Scenario.gateway_unreachable6)
         (fst (free6 Scenario.gateway_unreachable6))
         (snd (free6 Scenario.gateway_unreachable6)) H1_0 H1_1)))).
Defined.

(** The gateway cannot be freed (IPv4); both deletions go through (IPv6). *)
Lemma subnet_deletion_calls_witness :
  ((d_schema (data Scenario.gateway_stuck4) = resourceipsubnet)
   /\ (resourceipsubnetDelete Mock.inventory4 Scenario.gateway_stuck4
   = ((fst (delete4 Scenario.gateway_stuck4)),
       (snd (delete4 Scenario.gateway_stuck4))))
   /\ (exists pre answer,
     gateway_freed "rest/ip_delete" (data Scenario.gateway_stuck4) pre
     /\ events_since Scenario.gateway_stuck4
         (snd (delete4 Scenario.gateway_stuck4))
        = (pre ++ [EvRequest "delete" "rest/ip_subnet_delete"
                    [("subnet_id", Id (data Scenario.gateway_stuck4))]
                        answer])%list))
  /\ ((d_schema (data Scenario.removed6) = resourceip6subnet)
   /\ (resourceip6subnetDelete Mock.inventory6 Scenario.removed6
   = ((fst (delete6 Scenario.removed6)), (snd (delete6 Scenario.removed6))))
   /\ (exists pre answer,
     gateway_freed "rest/ip6_address6_delete" (data Scenario.removed6) pre
     /\ events_since Scenario.removed6 (snd (delete6 Scenario.removed6))
        = (pre ++ [EvRequest "delete" "rest/ip6_subnet6_delete"
                    [("subnet6_id", Id (data Scenario.removed6))]
                        answer])%list)).
Proof.
  assert (H0_0 : d_schema (data Scenario.gateway_stuck4) = resourceipsubnet)
    by (reflexivity).
  assert (H0_1 : resourceipsubnetDelete Mock.inventory4
      Scenario.gateway_stuck4
    = ((fst (delete4 Scenario.gateway_stuck4)),
        (snd (delete4 Scenario.gateway_stuck4))))
    by (apply run_pair).
  assert (H1_0 : d_schema (data Scenario.removed6) = resourceip6subnet)
    by (reflexivity).
  assert (H1_1 : resourceip6subnetDelete Mock.inventory6 Scenario.removed6
    = ((fst (delete6 Scenario.removed6)), (snd (delete6 Scenario.removed6))))
    by (apply run_pair).
  exact (conj
      (conj H0_0
      (conj H0_1
      ((proj1 (subnet_deletion_calls Mock.inventory4))
      (Scenario.gateway_stuck4) (fst (delete4 Scenario.gateway_stuck4))
      (snd (delete4 Scenario.gateway_stuck4)) H0_0 H0_1)))
     (conj H1_0
         (conj H1_1
         ((proj2 (subnet_deletion_calls Mock.inventory6)) (Scenario.removed6)
         (fst (delete6 Scenario.removed6)) (snd (delete6 Scenario.removed6))
         H1_0 H1_1)))).
Defined.

(** A deletion that succeeds although the gateway could not be freed
    (IPv4), and one answered by a 201 (IPv6). *)
Lemma subnet_deletion_result_witness :
  ((d_schema (data Scenario.gateway_stuck4) = resourceipsubnet)
   /\ (resourceipsubnetDelete Mock.inventory4 Scenario.gateway_stuck4
   = ((fst (delete4 Scenario.gateway_stuck4)),
       (snd (delete4 Scenario.gateway_stuck4))))
   /\ (exists before parameters answer,
     events_since Scenario.gateway_stuck4
         (snd (delete4 Scenario.gateway_stuck4))
     = (before ++ [EvRequest "delete" "rest/ip_subnet_delete" parameters
                     answer])%list
     /\ match answer with
        | inl err =>
            (fst (delete4 Scenario.gateway_stuck4)) = Return
                (diag_FromErr err) /\ data
                (snd (delete4 Scenario.gateway_stuck4)) = data
                Scenario.gateway_stuck4
        | inr resp =>
            if (StatusCode resp =? 200) || (StatusCode resp =? 204)
            then (fst (delete4 Scenario.gateway_stuck4)) = Return diag_nil
                 /\ data (snd (delete4 Scenario.gateway_stuck4)) = SetId
                     (data Scenario.gateway_stuck4) ""
            else (exists msg, (fst (delete4 Scenario.gateway_stuck4)) = Return
                (diag_Errorf msg))
                 /\ data (snd (delete4 Scenario.gateway_stuck4)) = data
                     Scenario.gateway_stuck4
        end))
  /\ ((d_schema (data Scenario.half_removed6) = resourceip6subnet)
   /\ (resourceip6subnetDelete Mock.inventory6 Scenario.half_removed6
   = ((fst (delete6 Scenario.half_removed6)),
       (snd (delete6 Scenario.half_removed6))))
   /\ (exists before parameters answer,
     events_since Scenario.half_removed6
         (snd (delete6 Scenario.half_removed6))
     = (before ++ [EvRequest "delete" "rest/ip6_subnet6_delete" parameters
                     answer])%list
     /\ match answer with
        | inl err =>
            (fst (delete6 Scenario.half_removed6)) = Return (diag_FromErr err)
                /\ data (snd (delete6 Scenario.half_removed6)) = data
                Scenario.half_removed6
        | inr resp =>
            if (StatusCode resp =? 200) || (StatusCode resp =? 204)
            then (fst (delete6 Scenario.half_removed6)) = Return diag_nil
                 /\ data (snd (delete6 Scenario.half_removed6)) = SetId
                     (data Scenario.half_removed6) ""
            else (exists msg, (fst (delete6 Scenario.half_removed6)) = Return
                (diag_Errorf msg))
                 /\ data (snd (delete6 Scenario.half_removed6)) = data
                     Scenario.half_removed6
        end)).
Proof.
  assert (H0_0 : d_schema (data Scenario.gateway_stuck4) = resourceipsubnet)
    by (reflexivity).
  assert (H0_1 : resourceipsubnetDelete Mock.inventory4
      Scenario.gateway_stuck4
    = ((fst (delete4 Scenario.gateway_stuck4)),
        (snd (delete4 Scenario.gateway_stuck4))))
    by (apply run_pair).
  assert (H1_0 : d_schema (data Scenario.half_removed6) = resourceip6subnet)
    by (reflexivity).
  assert (H1_1 : resourceip6subnetDelete Mock.inventory6
      Scenario.half_removed6
    = ((fst (delete6 Scenario.half_removed6)),
        (snd (delete6 Scenario.half_removed6))))
    by (apply run_pair).
  exact (conj
      (conj H0_0
      (conj H0_1
      ((proj1 (subnet_deletion_result Mock.inventory4))
      (Scenario.gateway_stuck4) (fst (delete4 Scenario.gateway_stuck4))
      (snd (delete4 Scenario.gateway_stuck4)) H0_0 H0_1)))
     (conj H1_0
         (conj H1_1
         ((proj2 (subnet_deletion_result Mock.inventory6))
         (Scenario.half_removed6) (fst (delete6 Scenario.half_removed6))
         (snd (delete6 Scenario.half_removed6)) H1_0 H1_1)))).
Defined.

(** Creation with the offset -1, then an update, for [lan] and [lan6]. *)
Lemma update_after_creation_resends_gateway_witness :
  ((d_schema (data Scenario.updated4) = resourceipsubnet)
   /\ (get_int (data Scenario.updated4) "gateway_offset" <> 0)
   /\ (resourceipsubnetCreate Mock.inventory4 Scenario.updated4 =
       (Return diag_nil, (snd (run4 Scenario.updated4))))
   /\ (resourceipsubnetUpdate Mock.inventory4 (snd (run4 Scenario.updated4)) =
       ((fst (update4 (snd (run4 Scenario.updated4)))),
       (snd (update4 (snd (run4 Scenario.updated4))))))
   /\ (exists c parameters answer,
     get_str (data (snd (run4 Scenario.updated4))) "address" = Codec.hexiptoip
         c
     /\ events_since (snd (run4 Scenario.updated4))
         (snd (update4 (snd (run4 Scenario.updated4))))
        = [EvRequest "put" "rest/ip_subnet_add" parameters answer]
     /\ index parameters "subnet_id" = Some
         (Id (data (snd (run4 Scenario.updated4))))
     /\ index parameters "subnet_class_parameters"
        = Some (Go.Encode
                  (("gateway",
                    ipsubnet_gateway c
                        (get_int (data Scenario.updated4) "prefix_size")
                      (get_int (data Scenario.updated4) "gateway_offset"))
                   :: strings_of
                        (get_map (data Scenario.updated4)
                            "class_parameters")))))
  /\ ((d_schema (data Scenario.updated6) = resourceip6subnet)
   /\ (ip6subnet_candidates Mock.inventory6 Scenario.updated6
   = (Next ("2", Mock.block24, Mock.net2001),
       (snd (found6 Scenario.updated6))))
   /\ (Forall (fun c => Go.big_SetString16 c <> None) Mock.net2001)
   /\ (get_int (data Scenario.updated6) "gateway_offset" <> 0)
   /\ (resourceip6subnetCreate Mock.inventory6 Scenario.updated6 =
       (Return diag_nil, (snd (run6 Scenario.updated6))))
   /\ (resourceip6subnetUpdate Mock.inventory6 (snd (run6 Scenario.updated6))
       = ((fst (update6 (snd (run6 Scenario.updated6)))),
       (snd (update6 (snd (run6 Scenario.updated6))))))
   /\ (exists c start parameters answer,
     In c Mock.net2001
     /\ Go.big_SetString16 c = Some start
     /\ get_str (data (snd (run6 Scenario.updated6))) "address" =
         Codec.hexip6toip6 c
     /\ events_since (snd (run6 Scenario.updated6))
         (snd (update6 (snd (run6 Scenario.updated6))))
        = [EvRequest "put" "rest/ip6_subnet6_add" parameters answer]
     /\ index parameters "subnet6_id" = Some
         (Id (data (snd (run6 Scenario.updated6))))
     /\ index parameters "subnet6_class_parameters"
        = Some (Go.Encode
                  (("gateway",
                    ip6subnet_gateway_at start
                        (get_int (data Scenario.updated6) "prefix_size")
                      (get_int (data Scenario.updated6) "gateway_offset"))
                   :: strings_of
                        (get_map (data Scenario.updated6)
                            "class_parameters"))))).
Proof.
  assert (H0_0 : d_schema (data Scenario.updated4) = resourceipsubnet)
    by (reflexivity).
  assert (H0_1 : get_int (data Scenario.updated4) "gateway_offset" <> 0)
    by (vm_compute; discriminate).
  assert (H0_2 : resourceipsubnetCreate Mock.inventory4 Scenario.updated4 =
      (Return diag_nil, (snd (run4 Scenario.updated4))))
    by (vm_compute; reflexivity).
  assert (H0_3 : resourceipsubnetUpdate Mock.inventory4
      (snd (run4 Scenario.updated4)) =
      ((fst (update4 (snd (run4 Scenario.updated4)))),
      (snd (update4 (snd (run4 Scenario.updated4))))))
    by (apply run_pair).
  assert (H1_0 : d_schema (data Scenario.updated6) = resourceip6subnet)
    by (reflexivity).
  assert (H1_1 : ip6subnet_candidates Mock.inventory6 Scenario.updated6
    = (Next ("2", Mock.block24, Mock.net2001),
        (snd (found6 Scenario.updated6))))
    by (vm_compute; reflexivity).
  assert (H1_2 : Forall (fun c => Go.big_SetString16 c <> None) Mock.net2001)
    by (repeat constructor; discriminate).
  assert (H1_3 : get_int (data Scenario.updated6) "gateway_offset" <> 0)
    by (vm_compute; discriminate).
  assert (H1_4 : resourceip6subnetCreate Mock.inventory6 Scenario.updated6 =
      (Return diag_nil, (snd (run6 Scenario.updated6))))
    by (vm_compute; reflexivity).
  assert (H1_5 : resourceip6subnetUpdate Mock.inventory6
      (snd (run6 Scenario.updated6)) =
      ((fst (update6 (snd (run6 Scenario.updated6)))),
      (snd (update6 (snd (run6 Scenario.updated6))))))
    by (apply run_pair).
  exact (conj
      (conj H0_0
      (conj H0_1
      (conj H0_2
      (conj H0_3
      ((proj1 (update_after_creation_resends_gateway Mock.inventory4))
      (Scenario.updated4) (snd (run4 Scenario.updated4))
      (fst (update4 (snd (run4 Scenario.updated4))))
      (snd (update4 (snd (run4 Scenario.updated4)))) H0_0 H0_1 H0_2 H0_3)))))
     (conj H1_0
         (conj H1_1
         (conj H1_2
         (conj H1_3
         (conj H1_4
         (conj H1_5
         ((proj2 (update_after_creation_resends_gateway Mock.inventory6))
         (Scenario.updated6) (snd (found6 Scenario.updated6))
         (snd (run6 Scenario.updated6)) ("2") (Mock.block24) (Mock.net2001)
         (fst (update6 (snd (run6 Scenario.updated6))))
         (snd (update6 (snd (run6 Scenario.updated6)))) H1_0 H1_1 H1_2 H1_3
         H1_4 H1_5)))))))).
Defined.

(** Creation with the offset -1, then a deletion, for [lan] and [lan6]. *)
Lemma deletion_after_creation_frees_gateway_witness :
  ((d_schema (data Scenario.dropped4) = resourceipsubnet)
   /\ (get_int (data Scenario.dropped4) "gateway_offset" <> 0)
   /\ (resourceipsubnetCreate Mock.inventory4 Scenario.dropped4 =
       (Return diag_nil, (snd (run4 Scenario.dropped4))))
   /\ (resourceipsubnetDelete Mock.inventory4 (snd (run4 Scenario.dropped4)) =
       ((fst (delete4 (snd (run4 Scenario.dropped4)))),
       (snd (delete4 (snd (run4 Scenario.dropped4))))))
   /\ (exists c freed answer,
     get_str (data (snd (run4 Scenario.dropped4))) "address" = Codec.hexiptoip
         c
     /\ events_since (snd (run4 Scenario.dropped4))
         (snd (delete4 (snd (run4 Scenario.dropped4))))
        = [EvRequest "delete" "rest/ip_delete"
             [("site_name", get_str (data Scenario.dropped4) "space");
              ("hostaddr",
               ipsubnet_gateway c
                   (get_int (data Scenario.dropped4) "prefix_size")
                 (get_int (data Scenario.dropped4) "gateway_offset"))]
             freed;
           EvRequest "delete" "rest/ip_subnet_delete"
             [("subnet_id", Id (data (snd (run4 Scenario.dropped4))))]
                 answer]))
  /\ ((d_schema (data Scenario.dropped6) = resourceip6subnet)
   /\ (ip6subnet_candidates Mock.inventory6 Scenario.dropped6
   = (Next ("2", Mock.block24, Mock.net2001),
       (snd (found6 Scenario.dropped6))))
   /\ (Forall (fun c => Go.big_SetString16 c <> None) Mock.net2001)
   /\ (get_int (data Scenario.dropped6) "gateway_offset" <> 0)
   /\ (resourceip6subnetCreate Mock.inventory6 Scenario.dropped6 =
       (Return diag_nil, (snd (run6 Scenario.dropped6))))
   /\ (resourceip6subnetDelete Mock.inventory6 (snd (run6 Scenario.dropped6))
       = ((fst (delete6 (snd (run6 Scenario.dropped6)))),
       (snd (delete6 (snd (run6 Scenario.dropped6))))))
   /\ (exists c start freed answer,
     In c Mock.net2001
     /\ Go.big_SetString16 c = Some start
     /\ get_str (data (snd (run6 Scenario.dropped6))) "address" =
         Codec.hexip6toip6 c
     /\ events_since (snd (run6 Scenario.dropped6))
         (snd (delete6 (snd (run6 Scenario.dropped6))))
        = [EvRequest "delete" "rest/ip6_address6_delete"
             [("site_name", get_str (data Scenario.dropped6) "space");
              ("hostaddr",
               ip6subnet_gateway_at start
                   (get_int (data Scenario.dropped6) "prefix_size")
                 (get_int (data Scenario.dropped6) "gateway_offset"))]
             freed;
           EvRequest "delete" "rest/ip6_subnet6_delete"
             [("subnet6_id", Id (data (snd (run6 Scenario.dropped6))))]
                 answer])).
Proof.
  assert (H0_0 : d_schema (data Scenario.dropped4) = resourceipsubnet)
    by (reflexivity).
  assert (H0_1 : get_int (data Scenario.dropped4) "gateway_offset" <> 0)
    by (vm_compute; discriminate).
  assert (H0_2 : resourceipsubnetCreate Mock.inventory4 Scenario.dropped4 =
      (Return diag_nil, (snd (run4 Scenario.dropped4))))
    by (vm_compute; reflexivity).
  assert (H0_3 : resourceipsubnetDelete Mock.inventory4
      (snd (run4 Scenario.dropped4)) =
      ((fst (delete4 (snd (run4 Scenario.dropped4)))),
      (snd (delete4 (snd (run4 Scenario.dropped4))))))
    by (apply run_pair).
  assert (H1_0 : d_schema (data Scenario.dropped6) = resourceip6subnet)
    by (reflexivity).
  assert (H1_1 : ip6subnet_candidates Mock.inventory6 Scenario.dropped6
    = (Next ("2", Mock.block24, Mock.net2001),
        (snd (found6 Scenario.dropped6))))
    by (vm_compute; reflexivity).
  assert (H1_2 : Forall (fun c => Go.big_SetString16 c <> None) Mock.net2001)
    by (repeat constructor; discriminate).
  assert (H1_3 : get_int (data Scenario.dropped6) "gateway_offset" <> 0)
    by (vm_compute; discriminate).
  assert (H1_4 : resourceip6subnetCreate Mock.inventory6 Scenario.dropped6 =
      (Return diag_nil, (snd (run6 Scenario.dropped6))))
    by (vm_compute; reflexivity).
  assert (H1_5 : resourceip6subnetDelete Mock.inventory6
      (snd (run6 Scenario.dropped6)) =
      ((fst (delete6 (snd (run6 Scenario.dropped6)))),
      (snd (delete6 (snd (run6 Scenario.dropped6))))))
    by (apply run_pair).
  exact (conj
      (conj H0_0
      (conj H0_1
      (conj H0_2
      (conj H0_3
      ((proj1 (deletion_after_creation_frees_gateway Mock.inventory4))
      (Scenario.dropped4) (snd (run4 Scenario.dropped4))
      (fst (delete4 (snd (run4 Scenario.dropped4))))
      (snd (delete4 (snd (run4 Scenario.dropped4)))) H0_0 H0_1 H0_2 H0_3)))))
     (conj H1_0
         (conj H1_1
         (conj H1_2
         (conj H1_3
         (conj H1_4
         (conj H1_5
         ((proj2 (deletion_after_creation_frees_gateway Mock.inventory6))
         (Scenario.dropped6) (snd (found6 Scenario.dropped6))
         (snd (run6 Scenario.dropped6)) ("2") (Mock.block24) (Mock.net2001)
         (fst (delete6 (snd (run6 Scenario.dropped6))))
         (snd (delete6 (snd (run6 Scenario.dropped6)))) H1_0 H1_1 H1_2 H1_3
         H1_4 H1_5)))))))).
Defined.

(** An unknown subnet (IPv4), a known one (IPv6) and an unknown VLAN. *)
Lemma read_keeps_the_id_witness :
  ((d_schema (data Scenario.unknown4) = resourceipsubnet)
   /\ (resourceipsubnetRead Mock.inventory4 Scenario.unknown4
   = ((fst (read4 Scenario.unknown4)), (snd (read4 Scenario.unknown4))))
   /\ (exists answer,
     events_since Scenario.unknown4 (snd (read4 Scenario.unknown4))
     = [EvRequest "get" "rest/ip_block_subnet_info"
          [("subnet_id", Id (data Scenario.unknown4))] answer]
     /\ Id (data (snd (read4 Scenario.unknown4))) = Id
         (data Scenario.unknown4)
     /\ (forall e, (fst (read4 Scenario.unknown4)) = Return e -> e <> diag_nil
         ->
                   data (snd (read4 Scenario.unknown4)) = data
                       Scenario.unknown4)))
  /\ ((d_schema (data Scenario.refreshed6) = resourceip6subnet)
   /\ (resourceip6subnetRead Mock.inventory6 Scenario.refreshed6
   = ((fst (read6 Scenario.refreshed6)), (snd (read6 Scenario.refreshed6))))
   /\ (exists answer,
     events_since Scenario.refreshed6 (snd (read6 Scenario.refreshed6))
     = [EvRequest "get" "rest/ip6_block6_subnet6_info"
          [("subnet6_id", Id (data Scenario.refreshed6))] answer]
     /\ Id (data (snd (read6 Scenario.refreshed6))) = Id
         (data Scenario.refreshed6)
     /\ (forall e, (fst (read6 Scenario.refreshed6)) = Return e -> e <>
         diag_nil ->
                   data (snd (read6 Scenario.refreshed6)) = data
                       Scenario.refreshed6)))
  /\ ((d_schema (data Scenario.unknown_vlan) = resourcevlan)
   /\ (resourcevlanRead Mock.inventory_vlan Scenario.unknown_vlan
   = ((fst (read_vlan Scenario.unknown_vlan)),
       (snd (read_vlan Scenario.unknown_vlan))))
   /\ (exists answer,
     events_since Scenario.unknown_vlan
         (snd (read_vlan Scenario.unknown_vlan))
     = [EvRequest "get" "rest/vlmvlan_info"
          [("vlmvlan_id", Id (data Scenario.unknown_vlan))] answer]
     /\ Id (data (snd (read_vlan Scenario.unknown_vlan))) = Id
         (data Scenario.unknown_vlan)
     /\ (forall e, (fst (read_vlan Scenario.unknown_vlan)) = Return e -> e <>
         None ->
                   data (snd (read_vlan Scenario.unknown_vlan)) = data
                       Scenario.unknown_vlan))).
Proof.
  assert (H0_0 : d_schema (data Scenario.unknown4) = resourceipsubnet)
    by (reflexivity).
  assert (H0_1 : resourceipsubnetRead Mock.inventory4 Scenario.unknown4
    = ((fst (read4 Scenario.unknown4)), (snd (read4 Scenario.unknown4))))
    by (apply run_pair).
  assert (H1_0 : d_schema (data Scenario.refreshed6) = resourceip6subnet)
    by (reflexivity).
  assert (H1_1 : resourceip6subnetRead Mock.inventory6 Scenario.refreshed6
    = ((fst (read6 Scenario.refreshed6)), (snd (read6 Scenario.refreshed6))))
    by (apply run_pair).
  assert (H2_0 : d_schema (data Scenario.unknown_vlan) = resourcevlan)
    by (reflexivity).
  assert (H2_1 : resourcevlanRead Mock.inventory_vlan Scenario.unknown_vlan
    = ((fst (read_vlan Scenario.unknown_vlan)),
        (snd (read_vlan Scenario.unknown_vlan))))
    by (apply run_pair).
  exact (conj
      (conj H0_0
      (conj H0_1
      ((proj1 (read_keeps_the_id Mock.inventory4)) (Scenario.unknown4)
      (fst (read4 Scenario.unknown4)) (snd (read4 Scenario.unknown4)) H0_0
      H0_1)))
     (conj (conj H1_0
         (conj H1_1
         ((proj1 (proj2 (read_keeps_the_id Mock.inventory6)))
         (Scenario.refreshed6) (fst (read6 Scenario.refreshed6))
         (snd (read6 Scenario.refreshed6)) H1_0 H1_1)))
     (conj H2_0
         (conj H2_1
         ((proj2 (proj2 (read_keeps_the_id Mock.inventory_vlan)))
         (Scenario.unknown_vlan) (fst (read_vlan Scenario.unknown_vlan))
         (snd (read_vlan Scenario.unknown_vlan)) H2_0 H2_1))))).
Defined.

(** A record without class parameters (IPv4, a panic) and a full one (IPv6). *)
Lemma subnet_read_needs_every_field_witness :
  ((d_schema (data Scenario.truncated4) = resourceipsubnet)
   /\ (resourceipsubnetRead Mock.inventory4 Scenario.truncated4
   = ((fst (read4 Scenario.truncated4)), (snd (read4 Scenario.truncated4))))
   /\ (events_since Scenario.truncated4 (snd (read4 Scenario.truncated4))
   = [EvRequest "get" "rest/ip_block_subnet_info"
        [("subnet_id", Id (data Scenario.truncated4))]
            (inr (mkResponse 200 [Fixture.lan_record_short]))])
   /\ (found (mkResponse 200 [Fixture.lan_record_short]) = true)
   /\ (if fields_ok
       (nth 0 (buf (mkResponse 200 [Fixture.lan_record_short])) [])
       ipsubnet_fields
   then (fst (read4 Scenario.truncated4)) = Return diag_nil
   else exists msg, (fst (read4 Scenario.truncated4)) = Panic msg))
  /\ ((d_schema (data Scenario.refreshed6) = resourceip6subnet)
   /\ (resourceip6subnetRead Mock.inventory6 Scenario.refreshed6
   = ((fst (read6 Scenario.refreshed6)), (snd (read6 Scenario.refreshed6))))
   /\ (events_since Scenario.refreshed6 (snd (read6 Scenario.refreshed6))
   = [EvRequest "get" "rest/ip6_block6_subnet6_info"
        [("subnet6_id", Id (data Scenario.refreshed6))]
            (inr (mkResponse 200 [Fixture.lan6_record]))])
   /\ (found (mkResponse 200 [Fixture.lan6_record]) = true)
   /\ (if fields_ok (nth 0 (buf (mkResponse 200 [Fixture.lan6_record])) [])
       ip6subnet_fields
   then (fst (read6 Scenario.refreshed6)) = Return diag_nil
   else exists msg, (fst (read6 Scenario.refreshed6)) = Panic msg)).
Proof.
  assert (H0_0 : d_schema (data Scenario.truncated4) = resourceipsubnet)
    by (reflexivity).
  assert (H0_1 : resourceipsubnetRead Mock.inventory4 Scenario.truncated4
    = ((fst (read4 Scenario.truncated4)), (snd (read4 Scenario.truncated4))))
    by (apply run_pair).
  assert (H0_2 : events_since Scenario.truncated4
      (snd (read4 Scenario.truncated4))
    = [EvRequest "get" "rest/ip_block_subnet_info"
         [("subnet_id", Id (data Scenario.truncated4))]
             (inr (mkResponse 200 [Fixture.lan_record_short]))])
    by (vm_compute; reflexivity).
  assert (H0_3 : found (mkResponse 200 [Fixture.lan_record_short]) = true)
    by (reflexivity).
  assert (H1_0 : d_schema (data Scenario.refreshed6) = resourceip6subnet)
    by (reflexivity).
  assert (H1_1 : resourceip6subnetRead Mock.inventory6 Scenario.refreshed6
    = ((fst (read6 Scenario.refreshed6)), (snd (read6 Scenario.refreshed6))))
    by (apply run_pair).
  assert (H1_2 : events_since Scenario.refreshed6
      (snd (read6 Scenario.refreshed6))
    = [EvRequest "get" "rest/ip6_block6_subnet6_info"
         [("subnet6_id", Id (data Scenario.refreshed6))]
             (inr (mkResponse 200 [Fixture.lan6_record]))])
    by (vm_compute; reflexivity).
  assert (H1_3 : found (mkResponse 200 [Fixture.lan6_record]) = true)
    by (reflexivity).
  exact (conj
      (conj H0_0
      (conj H0_1
      (conj H0_2
      (conj H0_3
      ((proj1 (subnet_read_needs_every_field Mock.inventory4))
      (Scenario.truncated4) (fst (read4 Scenario.truncated4))
      (snd (read4 Scenario.truncated4))
      (mkResponse 200 [Fixture.lan_record_short]) H0_0 H0_1 H0_2 H0_3)))))
     (conj H1_0
         (conj H1_1
         (conj H1_2
         (conj H1_3
         ((proj2 (subnet_read_needs_every_field Mock.inventory6))
         (Scenario.refreshed6) (fst (read6 Scenario.refreshed6))
         (snd (read6 Scenario.refreshed6))
         (mkResponse 200 [Fixture.lan6_record]) H1_0 H1_1 H1_2 H1_3)))))).
Defined.

(** The read of [lan], renamed in the inventory, and of [lan6]. *)
Lemma subnet_read_refreshes_witness :
  ((d_schema (data Scenario.refreshed4) = resourceipsubnet)
   /\ (resourceipsubnetRead Mock.inventory4 Scenario.refreshed4 =
       (Return diag_nil, (snd (read4 Scenario.refreshed4))))
   /\ (exists resp,
     events_since Scenario.refreshed4 (snd (read4 Scenario.refreshed4))
     = [EvRequest "get" "rest/ip_block_subnet_info"
          [("subnet_id", Id (data Scenario.refreshed4))] (inr resp)]
     /\ get_str (data (snd (read4 Scenario.refreshed4))) "space" = text
         (nth 0 (buf resp) []) "site_name"
     /\ get_str (data (snd (read4 Scenario.refreshed4))) "block"
        = text (nth 0 (buf resp) []) "parent_subnet_name"
     /\ get_str (data (snd (read4 Scenario.refreshed4))) "name" = text
         (nth 0 (buf resp) []) "subnet_name"
     /\ get_str (data (snd (read4 Scenario.refreshed4))) "class"
        = text (nth 0 (buf resp) []) "subnet_class_name"
     /\ get_bool (data (snd (read4 Scenario.refreshed4))) "terminal"
        = String.eqb (text (nth 0 (buf resp) []) "is_terminal") "1"
     /\ Forall
         (fun key => Get (data (snd (read4 Scenario.refreshed4))) key = Get
         (data Scenario.refreshed4) key)
          ["address"; "prefix"; "prefix_size"; "netmask";
           "gateway_offset"; "request_ip"]))
  /\ ((d_schema (data Scenario.refreshed6) = resourceip6subnet)
   /\ (resourceip6subnetRead Mock.inventory6 Scenario.refreshed6 =
       (Return diag_nil, (snd (read6 Scenario.refreshed6))))
   /\ (exists resp,
     events_since Scenario.refreshed6 (snd (read6 Scenario.refreshed6))
     = [EvRequest "get" "rest/ip6_block6_subnet6_info"
          [("subnet6_id", Id (data Scenario.refreshed6))] (inr resp)]
     /\ get_str (data (snd (read6 Scenario.refreshed6))) "space" = text
         (nth 0 (buf resp) []) "site_name"
     /\ get_str (data (snd (read6 Scenario.refreshed6))) "block"
        = text (nth 0 (buf resp) []) "parent_subnet6_name"
     /\ get_str (data (snd (read6 Scenario.refreshed6))) "name" = text
         (nth 0 (buf resp) []) "subnet6_name"
     /\ get_str (data (snd (read6 Scenario.refreshed6))) "class"
        = text (nth 0 (buf resp) []) "subnet6_class_name"
     /\ get_bool (data (snd (read6 Scenario.refreshed6))) "terminal"
        = String.eqb (text (nth 0 (buf resp) []) "is_terminal") "1"
     /\ Forall
         (fun key => Get (data (snd (read6 Scenario.refreshed6))) key = Get
         (data Scenario.refreshed6) key)
          ["address"; "prefix"; "prefix_size"; "gateway_offset";
           "request_ip"])).
Proof.
  assert (H0_0 : d_schema (data Scenario.refreshed4) = resourceipsubnet)
    by (reflexivity).
  assert (H0_1 : resourceipsubnetRead Mock.inventory4 Scenario.refreshed4 =
      (Return diag_nil, (snd (read4 Scenario.refreshed4))))
    by (vm_compute; reflexivity).
  assert (H1_0 : d_schema (data Scenario.refreshed6) = resourceip6subnet)
    by (reflexivity).
  assert (H1_1 : resourceip6subnetRead Mock.inventory6 Scenario.refreshed6 =
      (Return diag_nil, (snd (read6 Scenario.refreshed6))))
    by (vm_compute; reflexivity).
  exact (conj
      (conj H0_0
      (conj H0_1
      ((proj1 (subnet_read_refreshes Mock.inventory4)) (Scenario.refreshed4)
      (snd (read4 Scenario.refreshed4)) H0_0 H0_1)))
     (conj H1_0
         (conj H1_1
         ((proj2 (subnet_read_refreshes Mock.inventory6))
         (Scenario.refreshed6) (snd (read6 Scenario.refreshed6)) H1_0
         H1_1)))).
Defined.

(** The inventory sends [vlan] and [rack] for [lan], which declares
    [vlan] and [owner]; it sends no gateway for [lan6]. *)
Lemma subnet_read_class_parameters_witness :
  ((d_schema (data Scenario.refreshed4) = resourceipsubnet)
   /\ (resourceipsubnetRead Mock.inventory4 Scenario.refreshed4 =
       (Return diag_nil, (snd (read4 Scenario.refreshed4))))
   /\ (exists resp,
     events_since Scenario.refreshed4 (snd (read4 Scenario.refreshed4))
     = [EvRequest "get" "rest/ip_block_subnet_info"
          [("subnet_id", Id (data Scenario.refreshed4))] (inr resp)]
     /\ (forall key,
           index (get_map (data (snd (read4 Scenario.refreshed4)))
               "class_parameters") key
           = match index
               (get_map (data Scenario.refreshed4) "class_parameters") key
               with
             | Some _ =>
                 Some (VString
                         (retrieved_value
                            (ParseQuery
                               (text (nth 0 (buf resp) [])
                                   "subnet_class_parameters"))
                            key))
             | None => None
             end)
     /\ get_str (data (snd (read4 Scenario.refreshed4))) "gateway"
        = match index (ParseQuery
                         (text (nth 0 (buf resp) [])
                             "subnet_class_parameters"))
                  "gateway" with
          | Some (gateway :: _) => gateway
          | _ => get_str (data Scenario.refreshed4) "gateway"
          end))
  /\ ((d_schema (data Scenario.refreshed6) = resourceip6subnet)
   /\ (resourceip6subnetRead Mock.inventory6 Scenario.refreshed6 =
       (Return diag_nil, (snd (read6 Scenario.refreshed6))))
   /\ (exists resp,
     events_since Scenario.refreshed6 (snd (read6 Scenario.refreshed6))
     = [EvRequest "get" "rest/ip6_block6_subnet6_info"
          [("subnet6_id", Id (data Scenario.refreshed6))] (inr resp)]
     /\ (forall key,
           index (get_map (data (snd (read6 Scenario.refreshed6)))
               "class_parameters") key
           = match index
               (get_map (data Scenario.refreshed6) "class_parameters") key
               with
             | Some _ =>
                 Some (VString
                         (retrieved_value
                            (ParseQuery
                               (text (nth 0 (buf resp) [])
                                   "subnet6_class_parameters"))
                            key))
             | None => None
             end)
     /\ get_str (data (snd (read6 Scenario.refreshed6))) "gateway"
        = match index (ParseQuery
                         (text (nth 0 (buf resp) [])
                             "subnet6_class_parameters"))
                  "gateway" with
          | Some (gateway :: _) => gateway
          | _ => get_str (data Scenario.refreshed6) "gateway"
          end)).
Proof.
  assert (H0_0 : d_schema (data Scenario.refreshed4) = resourceipsubnet)
    by (reflexivity).
  assert (H0_1 : resourceipsubnetRead Mock.inventory4 Scenario.refreshed4 =
      (Return diag_nil, (snd (read4 Scenario.refreshed4))))
    by (vm_compute; reflexivity).
  assert (H1_0 : d_schema (data Scenario.refreshed6) = resourceip6subnet)
    by (reflexivity).
  assert (H1_1 : resourceip6subnetRead Mock.inventory6 Scenario.refreshed6 =
      (Return diag_nil, (snd (read6 Scenario.refreshed6))))
    by (vm_compute; reflexivity).
  exact (conj
      (conj H0_0
      (conj H0_1
      ((proj1 (subnet_read_class_parameters Mock.inventory4))
      (Scenario.refreshed4) (snd (read4 Scenario.refreshed4)) H0_0 H0_1)))
     (conj H1_0
         (conj H1_1
         ((proj2 (subnet_read_class_parameters Mock.inventory6))
         (Scenario.refreshed6) (snd (read6 Scenario.refreshed6)) H1_0
         H1_1)))).
Defined.

(** The import of [lan], whose record holds a gateway, then its deletion. *)
Lemma deletion_after_import_keeps_gateway_witness :
  ((d_schema (data Scenario.imported4) = resourceipsubnet)
   /\ (resourceipsubnetImportState Mock.inventory4 Scenario.imported4 =
       (Return None, (snd (import4 Scenario.imported4))))
   /\ (resourceipsubnetDelete Mock.inventory4
       (snd (import4 Scenario.imported4))
   = ((fst (delete4 (snd (import4 Scenario.imported4)))),
       (snd (delete4 (snd (import4 Scenario.imported4))))))
   /\ (exists answer,
     events_since (snd (import4 Scenario.imported4))
         (snd (delete4 (snd (import4 Scenario.imported4))))
     = [EvRequest "delete" "rest/ip_subnet_delete"
          [("subnet_id", Id (data Scenario.imported4))] answer])).
Proof.
  assert (H0_0 : d_schema (data Scenario.imported4) = resourceipsubnet)
    by (reflexivity).
  assert (H0_1 : resourceipsubnetImportState Mock.inventory4
      Scenario.imported4 = (Return None, (snd (import4 Scenario.imported4))))
    by (vm_compute; reflexivity).
  assert (H0_2 : resourceipsubnetDelete Mock.inventory4
      (snd (import4 Scenario.imported4))
    = ((fst (delete4 (snd (import4 Scenario.imported4)))),
        (snd (delete4 (snd (import4 Scenario.imported4))))))
    by (apply run_pair).
  exact (conj H0_0
      (conj H0_1
      (conj H0_2
      ((deletion_after_import_keeps_gateway Mock.inventory4)
      (Scenario.imported4) (snd (import4 Scenario.imported4))
      (fst (delete4 (snd (import4 Scenario.imported4))))
      (snd (delete4 (snd (import4 Scenario.imported4)))) H0_0 H0_1 H0_2)))).
Defined.

(** The import of [lan]. *)
Lemma ipsubnet_import_addressing_witness :
  ((d_schema (data Scenario.imported4) = resourceipsubnet)
   /\ (resourceipsubnetImportState Mock.inventory4 Scenario.imported4 =
       (Return None, (snd (import4 Scenario.imported4))))
   /\ (exists resp,
     events_since Scenario.imported4 (snd (import4 Scenario.imported4))
     = [EvRequest "get" "rest/ip_block_subnet_info"
          [("subnet_id", Id (data Scenario.imported4))] (inr resp)]
     /\ Id (data (snd (import4 Scenario.imported4))) = Id
         (data Scenario.imported4)
     /\ get_str (data (snd (import4 Scenario.imported4))) "address"
        = Codec.hexiptoip (text (nth 0 (buf resp) []) "start_ip_addr")
     /\ get_str (data (snd (import4 Scenario.imported4))) "prefix"
        = get_str (data (snd (import4 Scenario.imported4))) "address" ++ "/"
          ++ Go.Itoa
              (get_int (data (snd (import4 Scenario.imported4)))
              "prefix_size")
     /\ get_int (data (snd (import4 Scenario.imported4))) "gateway_offset" = 0
     /\ get_str (data (snd (import4 Scenario.imported4))) "request_ip" = "")).
Proof.
  assert (H0_0 : d_schema (data Scenario.imported4) = resourceipsubnet)
    by (reflexivity).
  assert (H0_1 : resourceipsubnetImportState Mock.inventory4
      Scenario.imported4 = (Return None, (snd (import4 Scenario.imported4))))
    by (vm_compute; reflexivity).
  exact (conj H0_0
      (conj H0_1
      ((ipsubnet_import_addressing Mock.inventory4) (Scenario.imported4)
      (snd (import4 Scenario.imported4)) H0_0 H0_1))).
Defined.

(** The import of [lan6]. *)
Lemma ip6subnet_import_leaves_addressing_witness :
  ((d_schema (data Scenario.imported6) = resourceip6subnet)
   /\ (resourceip6subnetImportState Mock.inventory6 Scenario.imported6 =
       (Return None, (snd (import6 Scenario.imported6))))
   /\ (exists resp,
     events_since Scenario.imported6 (snd (import6 Scenario.imported6))
     = [EvRequest "get" "rest/ip6_block6_subnet6_info"
          [("subnet6_id", Id (data Scenario.imported6))] (inr resp)]
     /\ Id (data (snd (import6 Scenario.imported6))) = Id
         (data Scenario.imported6)
     /\ get_str (data (snd (import6 Scenario.imported6))) "name"
        = text (nth 0 (buf resp) []) "subnet6_name"
     /\ Forall
         (fun key => Get (data (snd (import6 Scenario.imported6))) key = Get
         (data Scenario.imported6) key)
          ["address"; "prefix"; "prefix_size"; "gateway_offset";
           "request_ip"])).
Proof.
  assert (H0_0 : d_schema (data Scenario.imported6) = resourceip6subnet)
    by (reflexivity).
  assert (H0_1 : resourceip6subnetImportState Mock.inventory6
      Scenario.imported6 = (Return None, (snd (import6 Scenario.imported6))))
    by (vm_compute; reflexivity).
  exact (conj H0_0
      (conj H0_1
      ((ip6subnet_import_leaves_addressing Mock.inventory6)
      (Scenario.imported6) (snd (import6 Scenario.imported6)) H0_0 H0_1))).
Defined.

(** The inventory answers 404 without a body: the id is unset. *)
Lemma vlan_exists_unsets_id_witness :
  ((resourcevlanExists Mock.inventory_vlan Scenario.gone_vlan
   = ((fst (exists_vlan Scenario.gone_vlan)),
       (snd (exists_vlan Scenario.gone_vlan))))
   /\ (d_attrs (data (snd (exists_vlan Scenario.gone_vlan))) = d_attrs
       (data Scenario.gone_vlan)
   /\ exists answer,
        events_since Scenario.gone_vlan (snd (exists_vlan Scenario.gone_vlan))
        = [EvRequest "get" "rest/vlmvlan_info"
             [("vlmvlan_id", Id (data Scenario.gone_vlan))] answer]
        /\ match answer with
           | inl err =>
               (fst (exists_vlan Scenario.gone_vlan)) = Return
                   (false, Some err)
               /\ Id (data (snd (exists_vlan Scenario.gone_vlan))) = Id
                   (data Scenario.gone_vlan)
           | inr resp =>
               if answered resp
               then (fst (exists_vlan Scenario.gone_vlan)) = Return
                   (true, None)
                    /\ Id (data (snd (exists_vlan Scenario.gone_vlan))) = Id
                        (data Scenario.gone_vlan)
               else (fst (exists_vlan Scenario.gone_vlan)) = Return
                   (false, None) /\ Id
                   (data (snd (exists_vlan Scenario.gone_vlan))) = ""
           end)).
Proof.
  assert (H0_0 : resourcevlanExists Mock.inventory_vlan Scenario.gone_vlan
    = ((fst (exists_vlan Scenario.gone_vlan)),
        (snd (exists_vlan Scenario.gone_vlan))))
    by (apply run_pair).
  exact (conj H0_0
      ((vlan_exists_unsets_id Mock.inventory_vlan) (Scenario.gone_vlan)
      (fst (exists_vlan Scenario.gone_vlan))
      (snd (exists_vlan Scenario.gone_vlan)) H0_0)).
Defined.

(** An answer 500 without a body passes for a deletion. *)
Lemma vlan_deletion_is_lenient_witness :
  ((d_schema (data Scenario.failing_vlan) = resourcevlan)
   /\ (resourcevlanDelete Mock.inventory_vlan Scenario.failing_vlan
   = ((fst (delete_vlan Scenario.failing_vlan)),
       (snd (delete_vlan Scenario.failing_vlan))))
   /\ (exists answer,
     events_since Scenario.failing_vlan
         (snd (delete_vlan Scenario.failing_vlan))
     = [EvRequest "delete" "rest/vlm_vlan_delete"
          [("vlmvlan_id", Id (data Scenario.failing_vlan))] answer]
     /\ match answer with
        | inl err => (fst (delete_vlan Scenario.failing_vlan)) = Return
            (Some err) /\ data (snd (delete_vlan Scenario.failing_vlan)) =
            data Scenario.failing_vlan
        | inr resp =>
            if (StatusCode resp =? 204)
               || match first_errmsg resp with
                  | Some _ => false
                  | None => true
                  end
            then (fst (delete_vlan Scenario.failing_vlan)) = Return None /\
                data (snd (delete_vlan Scenario.failing_vlan)) = SetId
                (data Scenario.failing_vlan) ""
            else (exists msg, (fst (delete_vlan Scenario.failing_vlan)) =
                Return (Some msg))
                 /\ data (snd (delete_vlan Scenario.failing_vlan)) = data
                     Scenario.failing_vlan
        end)).
Proof.
  assert (H0_0 : d_schema (data Scenario.failing_vlan) = resourcevlan)
    by (reflexivity).
  assert (H0_1 : resourcevlanDelete Mock.inventory_vlan Scenario.failing_vlan
    = ((fst (delete_vlan Scenario.failing_vlan)),
        (snd (delete_vlan Scenario.failing_vlan))))
    by (apply run_pair).
  exact (conj H0_0
      (conj H0_1
      ((vlan_deletion_is_lenient Mock.inventory_vlan) (Scenario.failing_vlan)
      (fst (delete_vlan Scenario.failing_vlan))
      (snd (delete_vlan Scenario.failing_vlan)) H0_0 H0_1))).
Defined.

(** The inventory knows [voice] as number 100 under the name [voice2]. *)
Lemma vlan_read_refreshes_witness :
  ((d_schema (data Scenario.refreshed_vlan) = resourcevlan)
   /\ (resourcevlanRead Mock.inventory_vlan Scenario.refreshed_vlan
   = ((fst (read_vlan Scenario.refreshed_vlan)),
       (snd (read_vlan Scenario.refreshed_vlan))))
   /\ (events_since Scenario.refreshed_vlan
       (snd (read_vlan Scenario.refreshed_vlan))
   = [EvRequest "get" "rest/vlmvlan_info"
        [("vlmvlan_id", Id (data Scenario.refreshed_vlan))]
            (inr (mkResponse 200 [Fixture.voice_record]))])
   /\ (found (mkResponse 200 [Fixture.voice_record]) = true)
   /\ (map_get (nth 0 (buf (mkResponse 200 [Fixture.voice_record])) [])
       "vlmvlan_name" = VString "voice2")
   /\ (- 2 ^ 63 <= 100 < 2 ^ 63)
   /\ (map_get (nth 0 (buf (mkResponse 200 [Fixture.voice_record])) [])
       "vlmvlan_vlan_id"
   = VString (Go.Itoa 100))
   /\ ((fst (read_vlan Scenario.refreshed_vlan)) = Return None
   /\ Id (data (snd (read_vlan Scenario.refreshed_vlan))) = Id
       (data Scenario.refreshed_vlan)
   /\ get_str (data (snd (read_vlan Scenario.refreshed_vlan))) "name" =
       "voice2"
   /\ get_int (data (snd (read_vlan Scenario.refreshed_vlan))) "vlan_id" = 100
   /\ get_str (data (snd (read_vlan Scenario.refreshed_vlan))) "vlan_domain" =
       get_str (data Scenario.refreshed_vlan) "vlan_domain"
   /\ get_int (data (snd (read_vlan Scenario.refreshed_vlan))) "request_id" =
       get_int (data Scenario.refreshed_vlan) "request_id")).
Proof.
  assert (H0_0 : d_schema (data Scenario.refreshed_vlan) = resourcevlan)
    by (reflexivity).
  assert (H0_1 : resourcevlanRead Mock.inventory_vlan Scenario.refreshed_vlan
    = ((fst (read_vlan Scenario.refreshed_vlan)),
        (snd (read_vlan Scenario.refreshed_vlan))))
    by (apply run_pair).
  assert (H0_2 : events_since Scenario.refreshed_vlan
      (snd (read_vlan Scenario.refreshed_vlan))
    = [EvRequest "get" "rest/vlmvlan_info"
         [("vlmvlan_id", Id (data Scenario.refreshed_vlan))]
             (inr (mkResponse 200 [Fixture.voice_record]))])
    by (vm_compute; reflexivity).
  assert (H0_3 : found (mkResponse 200 [Fixture.voice_record]) = true)
    by (reflexivity).
  assert (H0_4 : map_get
      (nth 0 (buf (mkResponse 200 [Fixture.voice_record])) []) "vlmvlan_name"
      = VString "voice2")
    by (reflexivity).
  assert (H0_5 : - 2 ^ 63 <= 100 < 2 ^ 63)
    by (lia).
  assert (H0_6 : map_get
      (nth 0 (buf (mkResponse 200 [Fixture.voice_record])) [])
      "vlmvlan_vlan_id"
    = VString (Go.Itoa 100))
    by (reflexivity).
  exact (conj H0_0
      (conj H0_1
      (conj H0_2
      (conj H0_3
      (conj H0_4
      (conj H0_5
      (conj H0_6
      ((vlan_read_refreshes Mock.inventory_vlan) (Scenario.refreshed_vlan)
      (fst (read_vlan Scenario.refreshed_vlan))
      (snd (read_vlan Scenario.refreshed_vlan))
      (mkResponse 200 [Fixture.voice_record]) ("voice2") (100) H0_0 H0_1 H0_2
      H0_3 H0_4 H0_5 H0_6)))))))).
Defined.

(** The import of [voice]: its number stays unset. *)
Lemma vlan_import_sets_only_name_witness :
  ((d_schema (data Scenario.imported_vlan) = resourcevlan)
   /\ (resourcevlanImportState Mock.inventory_vlan Scenario.imported_vlan =
       (Return None, (snd (import_vlan Scenario.imported_vlan))))
   /\ (exists resp,
     events_since Scenario.imported_vlan
         (snd (import_vlan Scenario.imported_vlan))
     = [EvRequest "get" "rest/vlmvlan_info"
          [("vlmvlan_id", Id (data Scenario.imported_vlan))] (inr resp)]
     /\ Id (data (snd (import_vlan Scenario.imported_vlan))) = Id
         (data Scenario.imported_vlan)
     /\ get_str (data (snd (import_vlan Scenario.imported_vlan))) "name"
        = text (nth 0 (buf resp) []) "vlmvlan_name"
     /\ forall key, String.eqb "name" key = false ->
                    Get (data (snd (import_vlan Scenario.imported_vlan))) key
                        = Get (data Scenario.imported_vlan) key)).
Proof.
  assert (H0_0 : d_schema (data Scenario.imported_vlan) = resourcevlan)
    by (reflexivity).
  assert (H0_1 : resourcevlanImportState Mock.inventory_vlan
      Scenario.imported_vlan =
      (Return None, (snd (import_vlan Scenario.imported_vlan))))
    by (vm_compute; reflexivity).
  exact (conj H0_0
      (conj H0_1
      ((vlan_import_sets_only_name Mock.inventory_vlan)
      (Scenario.imported_vlan) (snd (import_vlan Scenario.imported_vlan)) H0_0
      H0_1))).
Defined.

(** The first candidate is taken, the second one is reserved. *)
Lemma creation_calls_follow_candidates_witness :
  ((d_schema (data Mock.second_wins4) = resourceipsubnet)
   /\ (ipsubnet_candidates Mock.inventory4 Mock.second_wins4 =
       (Next ("2", Mock.block24, Mock.net10),
       (snd (found4 Mock.second_wins4))))
   /\ (resourceipsubnetCreate Mock.inventory4 Mock.second_wins4
   = ((fst (run4 Mock.second_wins4)), (snd (run4 Mock.second_wins4))))
   /\ (calls_for "subnet_addr" Codec.hexiptoip Mock.net10
     (events_since Mock.second_wins4 (snd (run4 Mock.second_wins4)))))
  /\ ((d_schema (data Mock.second_wins6) = resourceip6subnet)
   /\ (ip6subnet_candidates Mock.inventory6 Mock.second_wins6 =
       (Next ("2", Mock.block24, Mock.net2001),
       (snd (found6 Mock.second_wins6))))
   /\ (resourceip6subnetCreate Mock.inventory6 Mock.second_wins6
   = ((fst (run6 Mock.second_wins6)), (snd (run6 Mock.second_wins6))))
   /\ (calls_for "subnet6_addr" Codec.hexip6toip6 Mock.net2001
     (events_since Mock.second_wins6 (snd (run6 Mock.second_wins6)))))
  /\ ((d_schema (data Mock.second_wins_vlan) = resourcevlan)
   /\ (vlan_candidates Mock.inventory_vlan Mock.second_wins_vlan =
       (Next (["100"; "101"]), (snd (found_vlan Mock.second_wins_vlan))))
   /\ (resourcevlanCreate Mock.inventory_vlan Mock.second_wins_vlan
   = ((fst (run_vlan Mock.second_wins_vlan)),
       (snd (run_vlan Mock.second_wins_vlan))))
   /\ (calls_for "vlmvlan_vlan_id" (fun vlan_id => vlan_id) (["100"; "101"])
     (events_since Mock.second_wins_vlan
         (snd (run_vlan Mock.second_wins_vlan))))).
Proof.
  assert (H0_0 : d_schema (data Mock.second_wins4) = resourceipsubnet)
    by (reflexivity).
  assert (H0_1 : ipsubnet_candidates Mock.inventory4 Mock.second_wins4 =
      (Next ("2", Mock.block24, Mock.net10),
      (snd (found4 Mock.second_wins4))))
    by (vm_compute; reflexivity).
  assert (H0_2 : resourceipsubnetCreate Mock.inventory4 Mock.second_wins4
    = ((fst (run4 Mock.second_wins4)), (snd (run4 Mock.second_wins4))))
    by (apply run_pair).
  assert (H1_0 : d_schema (data Mock.second_wins6) = resourceip6subnet)
    by (reflexivity).
  assert (H1_1 : ip6subnet_candidates Mock.inventory6 Mock.second_wins6 =
      (Next ("2", Mock.block24, Mock.net2001),
      (snd (found6 Mock.second_wins6))))
    by (vm_compute; reflexivity).
  assert (H1_2 : resourceip6subnetCreate Mock.inventory6 Mock.second_wins6
    = ((fst (run6 Mock.second_wins6)), (snd (run6 Mock.second_wins6))))
    by (apply run_pair).
  assert (H2_0 : d_schema (data Mock.second_wins_vlan) = resourcevlan)
    by (reflexivity).
  assert (H2_1 : vlan_candidates Mock.inventory_vlan Mock.second_wins_vlan =
      (Next (["100"; "101"]), (snd (found_vlan Mock.second_wins_vlan))))
    by (vm_compute; reflexivity).
  assert (H2_2 : resourcevlanCreate Mock.inventory_vlan Mock.second_wins_vlan
    = ((fst (run_vlan Mock.second_wins_vlan)),
        (snd (run_vlan Mock.second_wins_vlan))))
    by (apply run_pair).
  exact (conj
      (conj H0_0
      (conj H0_1
      (conj H0_2
      ((proj1 (creation_calls_follow_candidates Mock.inventory4))
      (Mock.second_wins4) ("2") (Mock.block24) (Mock.net10)
      (snd (found4 Mock.second_wins4)) (fst (run4 Mock.second_wins4))
      (snd (run4 Mock.second_wins4)) H0_0 H0_1 H0_2))))
     (conj (conj H1_0
         (conj H1_1
         (conj H1_2
         ((proj1 (proj2 (creation_calls_follow_candidates Mock.inventory6)))
         (Mock.second_wins6) ("2") (Mock.block24) (Mock.net2001)
         (snd (found6 Mock.second_wins6)) (fst (run6 Mock.second_wins6))
         (snd (run6 Mock.second_wins6)) H1_0 H1_1 H1_2))))
     (conj H2_0
         (conj H2_1
         (conj H2_2
         ((proj2 (proj2
         (creation_calls_follow_candidates Mock.inventory_vlan)))
         (Mock.second_wins_vlan) (["100"; "101"])
         (snd (found_vlan Mock.second_wins_vlan))
         (fst (run_vlan Mock.second_wins_vlan))
         (snd (run_vlan Mock.second_wins_vlan)) H2_0 H2_1 H2_2)))))).
Defined.

(** The creations that reserve their second candidate. *)
Lemma creation_writes_computed_attributes_only_witness :
  ((d_schema (data Mock.second_wins4) = resourceipsubnet)
   /\ (resourceipsubnetCreate Mock.inventory4 Mock.second_wins4 =
       (Return diag_nil, (snd (run4 Mock.second_wins4))))
   /\ (forall key,
     ~ In key ["prefix"; "address"; "netmask"; "gateway"] ->
     Get (data (snd (run4 Mock.second_wins4))) key = Get
         (data Mock.second_wins4) key))
  /\ ((d_schema (data Mock.second_wins6) = resourceip6subnet)
   /\ (resourceip6subnetCreate Mock.inventory6 Mock.second_wins6 =
       (Return diag_nil, (snd (run6 Mock.second_wins6))))
   /\ (forall key,
     ~ In key ["prefix"; "address"; "gateway"] ->
     Get (data (snd (run6 Mock.second_wins6))) key = Get
         (data Mock.second_wins6) key))
  /\ ((d_schema (data Mock.second_wins_vlan) = resourcevlan)
   /\ (resourcevlanCreate Mock.inventory_vlan Mock.second_wins_vlan =
       (Return None, (snd (run_vlan Mock.second_wins_vlan))))
   /\ (d_attrs (data (snd (run_vlan Mock.second_wins_vlan))) = d_attrs
       (data Mock.second_wins_vlan))).
Proof.
  assert (H0_0 : d_schema (data Mock.second_wins4) = resourceipsubnet)
    by (reflexivity).
  assert (H0_1 : resourceipsubnetCreate Mock.inventory4 Mock.second_wins4 =
      (Return diag_nil, (snd (run4 Mock.second_wins4))))
    by (vm_compute; reflexivity).
  assert (H1_0 : d_schema (data Mock.second_wins6) = resourceip6subnet)
    by (reflexivity).
  assert (H1_1 : resourceip6subnetCreate Mock.inventory6 Mock.second_wins6 =
      (Return diag_nil, (snd (run6 Mock.second_wins6))))
    by (vm_compute; reflexivity).
  assert (H2_0 : d_schema (data Mock.second_wins_vlan) = resourcevlan)
    by (reflexivity).
  assert (H2_1 : resourcevlanCreate Mock.inventory_vlan Mock.second_wins_vlan
      = (Return None, (snd (run_vlan Mock.second_wins_vlan))))
    by (vm_compute; reflexivity).
  exact (conj
      (conj H0_0
      (conj H0_1
      ((proj1 (creation_writes_computed_attributes_only Mock.inventory4))
      (Mock.second_wins4) (snd (run4 Mock.second_wins4)) H0_0 H0_1)))
     (conj (conj H1_0
         (conj H1_1
         ((proj1 (proj2
         (creation_writes_computed_attributes_only Mock.inventory6)))
         (Mock.second_wins6) (snd (run6 Mock.second_wins6)) H1_0 H1_1)))
     (conj H2_0
         (conj H2_1
         ((proj2 (proj2
         (creation_writes_computed_attributes_only Mock.inventory_vlan)))
         (Mock.second_wins_vlan) (snd (run_vlan Mock.second_wins_vlan)) H2_0
         H2_1))))).
Defined.

(** Refused updates and refused deletions of [lan] and [lan6]. *)
Lemma refusals_carry_the_inventory_message_witness :
  ((d_schema (data Scenario.refused4) = resourceipsubnet)
   /\ (resourceipsubnetUpdate Mock.inventory4 Scenario.refused4
   = ((fst (update4 Scenario.refused4)), (snd (update4 Scenario.refused4))))
   /\ (events_since Scenario.refused4 (snd (update4 Scenario.refused4))
   = [EvRequest "put" "rest/ip_subnet_add"
       (parameters_of
       (nth 0 (trace (snd (update4 Scenario.refused4))) (EvSleep 0)))
        (inr (mkResponse 400 [[("errmsg", VString "read only")]]))])
   /\ (reserved (inr (mkResponse 400 [[("errmsg", VString "read only")]])) =
       None)
   /\ (first_errmsg (mkResponse 400 [[("errmsg", VString "read only")]]) =
       Some "read only")
   /\ ((fst (update4 Scenario.refused4)) = Return
       (diag_Errorf ("Unable to update IP subnet: "
                             ++ get_str (data Scenario.refused4) "name"
                             ++ " (" ++ "read only" ++ ")"))))
  /\ ((d_schema (data Scenario.read_only6) = resourceip6subnet)
   /\ (resourceip6subnetUpdate Mock.inventory6 Scenario.read_only6
   = ((fst (update6 Scenario.read_only6)),
       (snd (update6 Scenario.read_only6))))
   /\ (events_since Scenario.read_only6 (snd (update6 Scenario.read_only6))
   = [EvRequest "put" "rest/ip6_subnet6_add"
       (parameters_of
       (nth 0 (trace (snd (update6 Scenario.read_only6))) (EvSleep 0)))
        (inr (mkResponse 400 [[("errmsg", VString "read only")]]))])
   /\ (reserved (inr (mkResponse 400 [[("errmsg", VString "read only")]])) =
       None)
   /\ (first_errmsg (mkResponse 400 [[("errmsg", VString "read only")]]) =
       Some "read only")
   /\ ((fst (update6 Scenario.read_only6)) = Return
       (diag_Errorf ("Unable to update IPv6 subnet: "
                             ++ get_str (data Scenario.read_only6) "name"
                             ++ " (" ++ "read only" ++ ")"))))
  /\ ((d_schema (data Scenario.kept4) = resourceipsubnet)
   /\ (resourceipsubnetDelete Mock.inventory4 Scenario.kept4
   = ((fst (delete4 Scenario.kept4)), (snd (delete4 Scenario.kept4))))
   /\ (events_since Scenario.kept4 (snd (delete4 Scenario.kept4))
   = ((firstn 1 (trace (snd (delete4 Scenario.kept4)))) ++
       [EvRequest "delete" "rest/ip_subnet_delete"
                    (parameters_of
                        (nth 1 (trace (snd (delete4 Scenario.kept4)))
                        (EvSleep 0)))
                        (inr (mkResponse 400
                        [[("errmsg", VString "subnet in use")]]))])%list)
   /\ (not_deleted (mkResponse 400 [[("errmsg", VString "subnet in use")]]) =
       true)
   /\ (first_errmsg (mkResponse 400 [[("errmsg", VString "subnet in use")]]) =
       Some "subnet in use")
   /\ ((fst (delete4 Scenario.kept4)) = Return
       (diag_Errorf ("Unable to delete IP subnet : "
                             ++ get_str (data Scenario.kept4) "name"
                             ++ " (" ++ "subnet in use" ++ ")"))))
  /\ ((d_schema (data Scenario.kept6) = resourceip6subnet)
   /\ (resourceip6subnetDelete Mock.inventory6 Scenario.kept6
   = ((fst (delete6 Scenario.kept6)), (snd (delete6 Scenario.kept6))))
   /\ (events_since Scenario.kept6 (snd (delete6 Scenario.kept6))
   = ((firstn 1 (trace (snd (delete6 Scenario.kept6)))) ++
       [EvRequest "delete" "rest/ip6_subnet6_delete"
                    (parameters_of
                        (nth 1 (trace (snd (delete6 Scenario.kept6)))
                        (EvSleep 0)))
                        (inr (mkResponse 400
                        [[("errmsg", VString "subnet in use")]]))])%list)
   /\ (not_deleted (mkResponse 400 [[("errmsg", VString "subnet in use")]]) =
       true)
   /\ (first_errmsg (mkResponse 400 [[("errmsg", VString "subnet in use")]]) =
       Some "subnet in use")
   /\ ((fst (delete6 Scenario.kept6)) = Return
       (diag_Errorf ("Unable to delete IPv6 subnet : "
                             ++ get_str (data Scenario.kept6) "name"
                             ++ " (" ++ "subnet in use" ++ ")")))).
Proof.
  assert (H0_0 : d_schema (data Scenario.refused4) = resourceipsubnet)
    by (reflexivity).
  assert (H0_1 : resourceipsubnetUpdate Mock.inventory4 Scenario.refused4
    = ((fst (update4 Scenario.refused4)), (snd (update4 Scenario.refused4))))
    by (apply run_pair).
  assert (H0_2 : events_since Scenario.refused4
      (snd (update4 Scenario.refused4))
    = [EvRequest "put" "rest/ip_subnet_add"
        (parameters_of
        (nth 0 (trace (snd (update4 Scenario.refused4))) (EvSleep 0)))
         (inr (mkResponse 400 [[("errmsg", VString "read only")]]))])
    by (vm_compute; reflexivity).
  assert (H0_3 : reserved
      (inr (mkResponse 400 [[("errmsg", VString "read only")]])) = None)
    by (reflexivity).
  assert (H0_4 : first_errmsg
      (mkResponse 400 [[("errmsg", VString "read only")]]) = Some "read only")
    by (reflexivity).
  assert (H1_0 : d_schema (data Scenario.read_only6) = resourceip6subnet)
    by (reflexivity).
  assert (H1_1 : resourceip6subnetUpdate Mock.inventory6 Scenario.read_only6
    = ((fst (update6 Scenario.read_only6)),
        (snd (update6 Scenario.read_only6))))
    by (apply run_pair).
  assert (H1_2 : events_since Scenario.read_only6
      (snd (update6 Scenario.read_only6))
    = [EvRequest "put" "rest/ip6_subnet6_add"
        (parameters_of
        (nth 0 (trace (snd (update6 Scenario.read_only6))) (EvSleep 0)))
         (inr (mkResponse 400 [[("errmsg", VString "read only")]]))])
    by (vm_compute; reflexivity).
  assert (H1_3 : reserved
      (inr (mkResponse 400 [[("errmsg", VString "read only")]])) = None)
    by (reflexivity).
  assert (H1_4 : first_errmsg
      (mkResponse 400 [[("errmsg", VString "read only")]]) = Some "read only")
    by (reflexivity).
  assert (H2_0 : d_schema (data Scenario.kept4) = resourceipsubnet)
    by (reflexivity).
  assert (H2_1 : resourceipsubnetDelete Mock.inventory4 Scenario.kept4
    = ((fst (delete4 Scenario.kept4)), (snd (delete4 Scenario.kept4))))
    by (apply run_pair).
  assert (H2_2 : events_since Scenario.kept4 (snd (delete4 Scenario.kept4))
    = ((firstn 1 (trace (snd (delete4 Scenario.kept4)))) ++
        [EvRequest "delete" "rest/ip_subnet_delete"
                     (parameters_of
                         (nth 1 (trace (snd (delete4 Scenario.kept4)))
                         (EvSleep 0)))
                         (inr (mkResponse 400
                         [[("errmsg", VString "subnet in use")]]))])%list)
    by (vm_compute; reflexivity).
  assert (H2_3 : not_deleted
      (mkResponse 400 [[("errmsg", VString "subnet in use")]]) = true)
    by (reflexivity).
  assert (H2_4 : first_errmsg
      (mkResponse 400 [[("errmsg", VString "subnet in use")]]) = Some
      "subnet in use")
    by (reflexivity).
  assert (H3_0 : d_schema (data Scenario.kept6) = resourceip6subnet)
    by (reflexivity).
  assert (H3_1 : resourceip6subnetDelete Mock.inventory6 Scenario.kept6
    = ((fst (delete6 Scenario.kept6)), (snd (delete6 Scenario.kept6))))
    by (apply run_pair).
  assert (H3_2 : events_since Scenario.kept6 (snd (delete6 Scenario.kept6))
    = ((firstn 1 (trace (snd (delete6 Scenario.kept6)))) ++
        [EvRequest "delete" "rest/ip6_subnet6_delete"
                     (parameters_of
                         (nth 1 (trace (snd (delete6 Scenario.kept6)))
                         (EvSleep 0)))
                         (inr (mkResponse 400
                         [[("errmsg", VString "subnet in use")]]))])%list)
    by (vm_compute; reflexivity).
  assert (H3_3 : not_deleted
      (mkResponse 400 [[("errmsg", VString "subnet in use")]]) = true)
    by (reflexivity).
  assert (H3_4 : first_errmsg
      (mkResponse 400 [[("errmsg", VString "subnet in use")]]) = Some
      "subnet in use")
    by (reflexivity).
  exact (conj
      (conj H0_0
      (conj H0_1
      (conj H0_2
      (conj H0_3
      (conj H0_4
      ((proj1 (refusals_carry_the_inventory_message Mock.inventory4))
      (Scenario.refused4) (fst (update4 Scenario.refused4))
      (snd (update4 Scenario.refused4))
      (parameters_of
      (nth 0 (trace (snd (update4 Scenario.refused4))) (EvSleep 0)))
      (mkResponse 400 [[("errmsg", VString "read only")]]) ("read only") H0_0
      H0_1 H0_2 H0_3 H0_4))))))
     (conj (conj H1_0
         (conj H1_1
         (conj H1_2
         (conj H1_3
         (conj H1_4
         ((proj1 (proj2
         (refusals_carry_the_inventory_message Mock.inventory6)))
         (Scenario.read_only6) (fst (update6 Scenario.read_only6))
         (snd (update6 Scenario.read_only6))
         (parameters_of
         (nth 0 (trace (snd (update6 Scenario.read_only6))) (EvSleep 0)))
         (mkResponse 400 [[("errmsg", VString "read only")]]) ("read only")
         H1_0 H1_1 H1_2 H1_3 H1_4))))))
     (conj (conj H2_0
         (conj H2_1
         (conj H2_2
         (conj H2_3
         (conj H2_4
         ((proj1 (proj2
         (proj2 (refusals_carry_the_inventory_message Mock.inventory4))))
         (Scenario.kept4) (fst (delete4 Scenario.kept4))
         (snd (delete4 Scenario.kept4))
         (firstn 1 (trace (snd (delete4 Scenario.kept4))))
         (parameters_of
         (nth 1 (trace (snd (delete4 Scenario.kept4))) (EvSleep 0)))
         (mkResponse 400 [[("errmsg", VString "subnet in use")]])
         ("subnet in use") H2_0 H2_1 H2_2 H2_3 H2_4))))))
     (conj H3_0
         (conj H3_1
         (conj H3_2
         (conj H3_3
         (conj H3_4
         ((proj2 (proj2
         (proj2 (refusals_carry_the_inventory_message Mock.inventory6))))
         (Scenario.kept6) (fst (delete6 Scenario.kept6))
         (snd (delete6 Scenario.kept6))
         (firstn 1 (trace (snd (delete6 Scenario.kept6))))
         (parameters_of
         (nth 1 (trace (snd (delete6 Scenario.kept6))) (EvSleep 0)))
         (mkResponse 400 [[("errmsg", VString "subnet in use")]])
         ("subnet in use") H3_0 H3_1 H3_2 H3_3 H3_4))))))))).
Defined.

(** The class parameters of [lan] and [lan6], with characters that the
    encoding escapes. *)
Lemma read_restores_what_update_sent_witness :
  ((d_schema (data Scenario.echoed4) = resourceipsubnet)
   /\ (NoDup (map fst (get_map (data Scenario.echoed4) "class_parameters")))
   /\ (~ In "gateway"
       (map fst (get_map (data Scenario.echoed4) "class_parameters")))
   /\ (resourceipsubnetRead Mock.inventory4 Scenario.echoed4 =
       (Return diag_nil, (snd (read4 Scenario.echoed4))))
   /\ (events_since Scenario.echoed4 (snd (read4 Scenario.echoed4))
   = [EvRequest "get" "rest/ip_block_subnet_info"
        [("subnet_id", Id (data Scenario.echoed4))]
            (inr (mkResponse 200 [Fixture.lan_echo]))])
   /\ (text (nth 0 (buf (mkResponse 200 [Fixture.lan_echo])) [])
       "subnet_class_parameters"
   = Go.Encode (update_class_parameters_of (data Scenario.echoed4)))
   /\ ((forall key,
      index (get_map (data (snd (read4 Scenario.echoed4))) "class_parameters")
          key
      = index (get_map (data Scenario.echoed4) "class_parameters") key)
   /\ get_str (data (snd (read4 Scenario.echoed4))) "gateway" = get_str
       (data Scenario.echoed4) "gateway"))
  /\ ((d_schema (data Scenario.echoed6) = resourceip6subnet)
   /\ (NoDup (map fst (get_map (data Scenario.echoed6) "class_parameters")))
   /\ (~ In "gateway"
       (map fst (get_map (data Scenario.echoed6) "class_parameters")))
   /\ (resourceip6subnetRead Mock.inventory6 Scenario.echoed6 =
       (Return diag_nil, (snd (read6 Scenario.echoed6))))
   /\ (events_since Scenario.echoed6 (snd (read6 Scenario.echoed6))
   = [EvRequest "get" "rest/ip6_block6_subnet6_info"
        [("subnet6_id", Id (data Scenario.echoed6))]
            (inr (mkResponse 200 [Fixture.lan6_echo]))])
   /\ (text (nth 0 (buf (mkResponse 200 [Fixture.lan6_echo])) [])
       "subnet6_class_parameters"
   = Go.Encode (update_class_parameters_of (data Scenario.echoed6)))
   /\ ((forall key,
      index (get_map (data (snd (read6 Scenario.echoed6))) "class_parameters")
          key
      = index (get_map (data Scenario.echoed6) "class_parameters") key)
   /\ get_str (data (snd (read6 Scenario.echoed6))) "gateway" = get_str
       (data Scenario.echoed6) "gateway")).
Proof.
  assert (H0_0 : d_schema (data Scenario.echoed4) = resourceipsubnet)
    by (reflexivity).
  assert (H0_1 : NoDup
      (map fst (get_map (data Scenario.echoed4) "class_parameters")))
    by (vm_compute; repeat (constructor; [cbn; intuition discriminate |]);
        constructor).
  assert (H0_2 : ~ In "gateway"
      (map fst (get_map (data Scenario.echoed4) "class_parameters")))
    by (vm_compute; intuition discriminate).
  assert (H0_3 : resourceipsubnetRead Mock.inventory4 Scenario.echoed4 =
      (Return diag_nil, (snd (read4 Scenario.echoed4))))
    by (vm_compute; reflexivity).
  assert (H0_4 : events_since Scenario.echoed4 (snd (read4 Scenario.echoed4))
    = [EvRequest "get" "rest/ip_block_subnet_info"
         [("subnet_id", Id (data Scenario.echoed4))]
             (inr (mkResponse 200 [Fixture.lan_echo]))])
    by (vm_compute; reflexivity).
  assert (H0_5 : text (nth 0 (buf (mkResponse 200 [Fixture.lan_echo])) [])
      "subnet_class_parameters"
    = Go.Encode (update_class_parameters_of (data Scenario.echoed4)))
    by (vm_compute; reflexivity).
  assert (H1_0 : d_schema (data Scenario.echoed6) = resourceip6subnet)
    by (reflexivity).
  assert (H1_1 : NoDup
      (map fst (get_map (data Scenario.echoed6) "class_parameters")))
    by (vm_compute; repeat (constructor; [cbn; intuition discriminate |]);
        constructor).
  assert (H1_2 : ~ In "gateway"
      (map fst (get_map (data Scenario.echoed6) "class_parameters")))
    by (vm_compute; intuition discriminate).
  assert (H1_3 : resourceip6subnetRead Mock.inventory6 Scenario.echoed6 =
      (Return diag_nil, (snd (read6 Scenario.echoed6))))
    by (vm_compute; reflexivity).
  assert (H1_4 : events_since Scenario.echoed6 (snd (read6 Scenario.echoed6))
    = [EvRequest "get" "rest/ip6_block6_subnet6_info"
         [("subnet6_id", Id (data Scenario.echoed6))]
             (inr (mkResponse 200 [Fixture.lan6_echo]))])
    by (vm_compute; reflexivity).
  assert (H1_5 : text (nth 0 (buf (mkResponse 200 [Fixture.lan6_echo])) [])
      "subnet6_class_parameters"
    = Go.Encode (update_class_parameters_of (data Scenario.echoed6)))
    by (vm_compute; reflexivity).
  exact (conj
      (conj H0_0
      (conj H0_1
      (conj H0_2
      (conj H0_3
      (conj H0_4
      (conj H0_5
      ((proj1 (read_restores_what_update_sent Mock.inventory4))
      (Scenario.echoed4) (snd (read4 Scenario.echoed4))
      (mkResponse 200 [Fixture.lan_echo]) H0_0 H0_1 H0_2 H0_3 H0_4 H0_5)))))))
     (conj H1_0
         (conj H1_1
         (conj H1_2
         (conj H1_3
         (conj H1_4
         (conj H1_5
         ((proj2 (read_restores_what_update_sent Mock.inventory6))
         (Scenario.echoed6) (snd (read6 Scenario.echoed6))
         (mkResponse 200 [Fixture.lan6_echo]) H1_0 H1_1 H1_2 H1_3 H1_4
         H1_5)))))))).
Defined.

(** Two calls with the offset 1: each one sends the first address of its
    own candidate. *)
Lemma reservation_calls_carry_their_gateway_witness :
  ((d_schema (data Mock.second_wins4) = resourceipsubnet)
   /\ (ipsubnet_candidates Mock.inventory4 Mock.second_wins4
   = (Next ("2", Mock.block24, Mock.net10), (snd (found4 Mock.second_wins4))))
   /\ (resourceipsubnetCreate Mock.inventory4 Mock.second_wins4
   = ((fst (run4 Mock.second_wins4)), (snd (run4 Mock.second_wins4))))
   /\ (calls_with
     (fun parameters candidate =>
        index parameters "subnet_class_parameters"
        = Some (Go.Encode
            (ipsubnet_class_parameters (data Mock.second_wins4) candidate)))
     Mock.net10
         (events_since Mock.second_wins4 (snd (run4 Mock.second_wins4)))))
  /\ ((d_schema (data Mock.second_wins6) = resourceip6subnet)
   /\ (ip6subnet_candidates Mock.inventory6 Mock.second_wins6
   = (Next ("2", Mock.block24, Mock.net2001),
       (snd (found6 Mock.second_wins6))))
   /\ (resourceip6subnetCreate Mock.inventory6 Mock.second_wins6
   = ((fst (run6 Mock.second_wins6)), (snd (run6 Mock.second_wins6))))
   /\ (calls_with
     (fun parameters candidate =>
        index parameters "subnet6_class_parameters"
        = Some (Go.Encode
            (ip6subnet_class_parameters (data Mock.second_wins6) candidate)))
     Mock.net2001
         (events_since Mock.second_wins6 (snd (run6 Mock.second_wins6))))).
Proof.
  assert (H0_0 : d_schema (data Mock.second_wins4) = resourceipsubnet)
    by (reflexivity).
  assert (H0_1 : ipsubnet_candidates Mock.inventory4 Mock.second_wins4
    = (Next ("2", Mock.block24, Mock.net10),
        (snd (found4 Mock.second_wins4))))
    by (vm_compute; reflexivity).
  assert (H0_2 : resourceipsubnetCreate Mock.inventory4 Mock.second_wins4
    = ((fst (run4 Mock.second_wins4)), (snd (run4 Mock.second_wins4))))
    by (apply run_pair).
  assert (H1_0 : d_schema (data Mock.second_wins6) = resourceip6subnet)
    by (reflexivity).
  assert (H1_1 : ip6subnet_candidates Mock.inventory6 Mock.second_wins6
    = (Next ("2", Mock.block24, Mock.net2001),
        (snd (found6 Mock.second_wins6))))
    by (vm_compute; reflexivity).
  assert (H1_2 : resourceip6subnetCreate Mock.inventory6 Mock.second_wins6
    = ((fst (run6 Mock.second_wins6)), (snd (run6 Mock.second_wins6))))
    by (apply run_pair).
  exact (conj
      (conj H0_0
      (conj H0_1
      (conj H0_2
      ((proj1 (reservation_calls_carry_their_gateway Mock.inventory4))
      (Mock.second_wins4) ("2") (Mock.block24) (Mock.net10)
      (snd (found4 Mock.second_wins4)) (fst (run4 Mock.second_wins4))
      (snd (run4 Mock.second_wins4)) H0_0 H0_1 H0_2))))
     (conj H1_0
         (conj H1_1
         (conj H1_2
         ((proj2 (reservation_calls_carry_their_gateway Mock.inventory6))
         (Mock.second_wins6) ("2") (Mock.block24) (Mock.net2001)
         (snd (found6 Mock.second_wins6)) (fst (run6 Mock.second_wins6))
         (snd (run6 Mock.second_wins6)) H1_0 H1_1 H1_2))))).
Defined.

(** An unknown subnet (IPv4), an inventory that is away (IPv6) and an
    answer 200 without a record (VLAN). *)
Lemma import_failure_keeps_data_witness :
  ((d_schema (data Scenario.lost4) = resourceipsubnet)
   /\ (resourceipsubnetImportState Mock.inventory4 Scenario.lost4
   = ((fst (import4 Scenario.lost4)), (snd (import4 Scenario.lost4))))
   /\ (exists answer,
     events_since Scenario.lost4 (snd (import4 Scenario.lost4))
     = [EvRequest "get" "rest/ip_block_subnet_info"
          [("subnet_id", Id (data Scenario.lost4))] answer]
     /\ Id (data (snd (import4 Scenario.lost4))) = Id (data Scenario.lost4)
     /\ forall e,
          (fst (import4 Scenario.lost4)) = Return (Some e) ->
          data (snd (import4 Scenario.lost4)) = data Scenario.lost4
          /\ e = match answer with
                 | inl err => err
                 | inr _ =>
                     "SOLIDServer - Unable to find and import IP subnet (oid): "
                     ++ Id (data Scenario.lost4) ++ LF
                 end))
  /\ ((d_schema (data Scenario.lost6) = resourceip6subnet)
   /\ (resourceip6subnetImportState Mock.inventory6 Scenario.lost6
   = ((fst (import6 Scenario.lost6)), (snd (import6 Scenario.lost6))))
   /\ (exists answer,
     events_since Scenario.lost6 (snd (import6 Scenario.lost6))
     = [EvRequest "get" "rest/ip6_block6_subnet6_info"
          [("subnet6_id", Id (data Scenario.lost6))] answer]
     /\ Id (data (snd (import6 Scenario.lost6))) = Id (data Scenario.lost6)
     /\ forall e,
          (fst (import6 Scenario.lost6)) = Return (Some e) ->
          data (snd (import6 Scenario.lost6)) = data Scenario.lost6
          /\ e = match answer with
                 | inl err => err
                 | inr _ =>
                     "SOLIDServer - Unable to find and import IPv6 subnet (oid): "
                     ++ Id (data Scenario.lost6) ++ LF
                 end))
  /\ ((d_schema (data Scenario.lost_vlan) = resourcevlan)
   /\ (resourcevlanImportState Mock.inventory_vlan Scenario.lost_vlan
   = ((fst (import_vlan Scenario.lost_vlan)),
       (snd (import_vlan Scenario.lost_vlan))))
   /\ (exists answer,
     events_since Scenario.lost_vlan (snd (import_vlan Scenario.lost_vlan))
     = [EvRequest "get" "rest/vlmvlan_info"
          [("vlmvlan_id", Id (data Scenario.lost_vlan))] answer]
     /\ Id (data (snd (import_vlan Scenario.lost_vlan))) = Id
         (data Scenario.lost_vlan)
     /\ forall e,
          (fst (import_vlan Scenario.lost_vlan)) = Return (Some e) ->
          data (snd (import_vlan Scenario.lost_vlan)) = data
              Scenario.lost_vlan
          /\ e = match answer with
                 | inl err => err
                 | inr _ =>
                     "SOLIDServer - Unable to find and import vlan (oid): "
                     ++ Id (data Scenario.lost_vlan) ++ LF
                 end)).
Proof.
  assert (H0_0 : d_schema (data Scenario.lost4) = resourceipsubnet)
    by (reflexivity).
  assert (H0_1 : resourceipsubnetImportState Mock.inventory4 Scenario.lost4
    = ((fst (import4 Scenario.lost4)), (snd (import4 Scenario.lost4))))
    by (apply run_pair).
  assert (H1_0 : d_schema (data Scenario.lost6) = resourceip6subnet)
    by (reflexivity).
  assert (H1_1 : resourceip6subnetImportState Mock.inventory6 Scenario.lost6
    = ((fst (import6 Scenario.lost6)), (snd (import6 Scenario.lost6))))
    by (apply run_pair).
  assert (H2_0 : d_schema (data Scenario.lost_vlan) = resourcevlan)
    by (reflexivity).
  assert (H2_1 : resourcevlanImportState Mock.inventory_vlan
      Scenario.lost_vlan
    = ((fst (import_vlan Scenario.lost_vlan)),
        (snd (import_vlan Scenario.lost_vlan))))
    by (apply run_pair).
  exact (conj
      (conj H0_0
      (conj H0_1
      ((proj1 (import_failure_keeps_data Mock.inventory4)) (Scenario.lost4)
      (fst (import4 Scenario.lost4)) (snd (import4 Scenario.lost4)) H0_0
      H0_1)))
     (conj (conj H1_0
         (conj H1_1
         ((proj1 (proj2 (import_failure_keeps_data Mock.inventory6)))
         (Scenario.lost6) (fst (import6 Scenario.lost6))
         (snd (import6 Scenario.lost6)) H1_0 H1_1)))
     (conj H2_0
         (conj H2_1
         ((proj2 (proj2 (import_failure_keeps_data Mock.inventory_vlan)))
         (Scenario.lost_vlan) (fst (import_vlan Scenario.lost_vlan))
         (snd (import_vlan Scenario.lost_vlan)) H2_0 H2_1))))).
Defined.

(** A block without a free prefix and a domain without a free number. *)
Lemma creation_without_candidates_witness :
  ((d_schema (data Mock.all_taken4) = resourceipsubnet)
   /\ (ipsubnet_candidates Scenario.full Mock.all_taken4 =
       (Next ("2", Mock.block24, []), (snd (found_full4 Mock.all_taken4))))
   /\ (resourceipsubnetCreate Scenario.full Mock.all_taken4
   = ((fst (run_full4 Mock.all_taken4)), (snd (run_full4 Mock.all_taken4))))
   /\ ((fst (run_full4 Mock.all_taken4)) = Return
       (diag_Errorf
       (ipsubnet_exhausted (get_str (data Mock.all_taken4) "name")))
   /\ (snd (run_full4 Mock.all_taken4)) = (snd (found_full4 Mock.all_taken4))
   /\ requests
       (events_since Mock.all_taken4 (snd (run_full4 Mock.all_taken4))) = []
   /\ data (snd (run_full4 Mock.all_taken4)) = data Mock.all_taken4))
  /\ ((d_schema (data Mock.all_taken6) = resourceip6subnet)
   /\ (ip6subnet_candidates Scenario.full Mock.all_taken6 =
       (Next ("2", Mock.block24, []), (snd (found_full6 Mock.all_taken6))))
   /\ (resourceip6subnetCreate Scenario.full Mock.all_taken6
   = ((fst (run_full6 Mock.all_taken6)), (snd (run_full6 Mock.all_taken6))))
   /\ ((fst (run_full6 Mock.all_taken6)) = Return
       (diag_Errorf
       (ip6subnet_exhausted (get_str (data Mock.all_taken6) "name")))
   /\ (snd (run_full6 Mock.all_taken6)) = (snd (found_full6 Mock.all_taken6))
   /\ requests
       (events_since Mock.all_taken6 (snd (run_full6 Mock.all_taken6))) = []
   /\ data (snd (run_full6 Mock.all_taken6)) = data Mock.all_taken6))
  /\ ((d_schema (data Mock.all_taken_vlan) = resourcevlan)
   /\ (vlan_candidates Scenario.full Mock.all_taken_vlan =
       (Next [], (snd (found_full_vlan Mock.all_taken_vlan))))
   /\ (resourcevlanCreate Scenario.full Mock.all_taken_vlan
   = ((fst (run_full_vlan Mock.all_taken_vlan)),
       (snd (run_full_vlan Mock.all_taken_vlan))))
   /\ ((fst (run_full_vlan Mock.all_taken_vlan)) = Return
       (Some (vlan_exhausted (get_str (data Mock.all_taken_vlan) "name")))
   /\ (snd (run_full_vlan Mock.all_taken_vlan)) =
       (snd (found_full_vlan Mock.all_taken_vlan))
   /\ requests
       (events_since Mock.all_taken_vlan
       (snd (run_full_vlan Mock.all_taken_vlan))) = []
   /\ data (snd (run_full_vlan Mock.all_taken_vlan)) = data
       Mock.all_taken_vlan)).
Proof.
  assert (H0_0 : d_schema (data Mock.all_taken4) = resourceipsubnet)
    by (reflexivity).
  assert (H0_1 : ipsubnet_candidates Scenario.full Mock.all_taken4 =
      (Next ("2", Mock.block24, []), (snd (found_full4 Mock.all_taken4))))
    by (vm_compute; reflexivity).
  assert (H0_2 : resourceipsubnetCreate Scenario.full Mock.all_taken4
    = ((fst (run_full4 Mock.all_taken4)), (snd (run_full4 Mock.all_taken4))))
    by (apply run_pair).
  assert (H1_0 : d_schema (data Mock.all_taken6) = resourceip6subnet)
    by (reflexivity).
  assert (H1_1 : ip6subnet_candidates Scenario.full Mock.all_taken6 =
      (Next ("2", Mock.block24, []), (snd (found_full6 Mock.all_taken6))))
    by (vm_compute; reflexivity).
  assert (H1_2 : resourceip6subnetCreate Scenario.full Mock.all_taken6
    = ((fst (run_full6 Mock.all_taken6)), (snd (run_full6 Mock.all_taken6))))
    by (apply run_pair).
  assert (H2_0 : d_schema (data Mock.all_taken_vlan) = resourcevlan)
    by (reflexivity).
  assert (H2_1 : vlan_candidates Scenario.full Mock.all_taken_vlan =
      (Next [], (snd (found_full_vlan Mock.all_taken_vlan))))
    by (vm_compute; reflexivity).
  assert (H2_2 : resourcevlanCreate Scenario.full Mock.all_taken_vlan
    = ((fst (run_full_vlan Mock.all_taken_vlan)),
        (snd (run_full_vlan Mock.all_taken_vlan))))
    by (apply run_pair).
  exact (conj
      (conj H0_0
      (conj H0_1
      (conj H0_2
      ((proj1 (creation_without_candidates Scenario.full)) (Mock.all_taken4)
      ("2") (Mock.block24) (snd (found_full4 Mock.all_taken4))
      (fst (run_full4 Mock.all_taken4)) (snd (run_full4 Mock.all_taken4)) H0_0
      H0_1 H0_2))))
     (conj (conj H1_0
         (conj H1_1
         (conj H1_2
         ((proj1 (proj2 (creation_without_candidates Scenario.full)))
         (Mock.all_taken6) ("2") (Mock.block24)
         (snd (found_full6 Mock.all_taken6)) (fst (run_full6 Mock.all_taken6))
         (snd (run_full6 Mock.all_taken6)) H1_0 H1_1 H1_2))))
     (conj H2_0
         (conj H2_1
         (conj H2_2
         ((proj2 (proj2 (creation_without_candidates Scenario.full)))
         (Mock.all_taken_vlan) (snd (found_full_vlan Mock.all_taken_vlan))
         (fst (run_full_vlan Mock.all_taken_vlan))
         (snd (run_full_vlan Mock.all_taken_vlan)) H2_0 H2_1 H2_2)))))).
Defined.
